(** * useDREData: extraction and lookup engine of the DRE hook

    Shallow embedding of [src/components/hooks/useDREData.js].

    - JavaScript strings are sequences of UTF-16 code units ([list N]);
      normalisation form D and the lower-case conversion work on code
      points and read the tables of the Unicode Character Database.
    - JavaScript numbers are IEEE-754 binary64 values, represented by
      [SpecFloat.spec_float] with [prec = 53] and [emax = 1024].
    - Regular expressions are a small syntax with a derivative matcher,
      proved to decide the language of the expression.
    - Loops keep their shape: counted [for] loops recurse on the number
      of iterations left, the column walk (which moves its own index) is
      defined by well-founded recursion on [header.length - idx].
    - Plain objects used as dictionaries ([values], [aliases]) keep their
      prototype chain: a property read falls back to [Object.prototype].
    - The [useEffect] body runs in a state-and-exception monad that logs
      every setter call. *)

From Stdlib Require Import ZArith NArith Lia Bool String Ascii.
From Stdlib Require Import Floats.SpecFloat.
From stdpp Require Import base option list gmap.
From Equations Require Import Equations.

Local Open Scope N_scope.

(** ** JavaScript strings *)

Module JsString.

Abbreviation jsstring := (list N).

(** Code units of an ASCII literal. *)
Fixpoint u (s : string) : jsstring :=
  match s with
  | EmptyString => []
  | String a r => N_of_ascii a :: u r
  end.

Definition in_range (lo hi c : N) : bool := (lo <=? c) && (c <=? hi).

(** WhiteSpace and LineTerminator code points: what [trim] strips and what
    the class [\s] matches. *)
Definition is_space (c : N) : bool :=
  in_range 9 13 c || (c =? 32) || (c =? 160) || (c =? 5760)
  || in_range 8192 8202 c || (c =? 8232) || (c =? 8233) || (c =? 8239)
  || (c =? 8287) || (c =? 12288) || (c =? 65279).

Definition is_digit (c : N) : bool := in_range 48 57 c.

(** LineTerminator code points, excluded by the regular-expression dot. *)
Definition is_line_terminator (c : N) : bool :=
  (c =? 10) || (c =? 13) || (c =? 8232) || (c =? 8233).

Fixpoint trimStart (s : jsstring) : jsstring :=
  match s with
  | [] => []
  | c :: r => if is_space c then trimStart r else s
  end.

Definition trimEnd (s : jsstring) : jsstring := rev (trimStart (rev s)).

(** [String.prototype.trim] *)
Definition trim (s : jsstring) : jsstring := trimEnd (trimStart s).

(** *** Unicode character data

    The tables below are the Unicode Character Database, version 14.0,
    in decimal and sorted by code point: the full canonical decomposition
    of every code point that has one (Hangul syllables apart, which
    decompose by rule), the canonical combining classes other than 0, the
    lower-case mappings (with the unconditional mapping of U+0130 from
    SpecialCasing), and the properties Cased and Case_Ignorable. *)

Definition decomposition_table : list (N * list N) :=
  [
    (192, [65; 768]); (193, [65; 769]); (194, [65; 770]); (195, [65; 771]);
    (196, [65; 776]); (197, [65; 778]); (199, [67; 807]); (200, [69; 768]);
    (201, [69; 769]); (202, [69; 770]); (203, [69; 776]); (204, [73; 768]);
    (205, [73; 769]); (206, [73; 770]); (207, [73; 776]); (209, [78; 771]);
    (210, [79; 768]); (211, [79; 769]); (212, [79; 770]); (213, [79; 771]);
    (214, [79; 776]); (217, [85; 768]); (218, [85; 769]); (219, [85; 770]);
    (220, [85; 776]); (221, [89; 769]); (224, [97; 768]); (225, [97; 769]);
    (226, [97; 770]); (227, [97; 771]); (228, [97; 776]); (229, [97; 778]);
    (231, [99; 807]); (232, [101; 768]); (233, [101; 769]);
    (234, [101; 770]); (235, [101; 776]); (236, [105; 768]);
    (237, [105; 769]); (238, [105; 770]); (239, [105; 776]);
    (241, [110; 771]); (242, [111; 768]); (243, [111; 769]);
    (244, [111; 770]); (245, [111; 771]); (246, [111; 776]);
    (249, [117; 768]); (250, [117; 769]); (251, [117; 770]);
    (252, [117; 776]); (253, [121; 769]); (255, [121; 776]);
    (256, [65; 772]); (257, [97; 772]); (258, [65; 774]); (259, [97; 774]);
    (260, [65; 808]); (261, [97; 808]); (262, [67; 769]); (263, [99; 769]);
    (264, [67; 770]); (265, [99; 770]); (266, [67; 775]); (267, [99; 775]);
    (268, [67; 780]); (269, [99; 780]); (270, [68; 780]); (271, [100; 780]);
    (274, [69; 772]); (275, [101; 772]); (276, [69; 774]); (277, [101; 774]);
    (278, [69; 775]); (279, [101; 775]); (280, [69; 808]); (281, [101; 808]);
    (282, [69; 780]); (283, [101; 780]); (284, [71; 770]); (285, [103; 770]);
    (286, [71; 774]); (287, [103; 774]); (288, [71; 775]); (289, [103; 775]);
    (290, [71; 807]); (291, [103; 807]); (292, [72; 770]); (293, [104; 770]);
    (296, [73; 771]); (297, [105; 771]); (298, [73; 772]); (299, [105; 772]);
    (300, [73; 774]); (301, [105; 774]); (302, [73; 808]); (303, [105; 808]);
    (304, [73; 775]); (308, [74; 770]); (309, [106; 770]); (310, [75; 807]);
    (311, [107; 807]); (313, [76; 769]); (314, [108; 769]); (315, [76; 807]);
    (316, [108; 807]); (317, [76; 780]); (318, [108; 780]); (323, [78; 769]);
    (324, [110; 769]); (325, [78; 807]); (326, [110; 807]); (327, [78; 780]);
    (328, [110; 780]); (332, [79; 772]); (333, [111; 772]); (334, [79; 774]);
    (335, [111; 774]); (336, [79; 779]); (337, [111; 779]); (340, [82; 769]);
    (341, [114; 769]); (342, [82; 807]); (343, [114; 807]); (344, [82; 780]);
    (345, [114; 780]); (346, [83; 769]); (347, [115; 769]); (348, [83; 770]);
    (349, [115; 770]); (350, [83; 807]); (351, [115; 807]); (352, [83; 780]);
    (353, [115; 780]); (354, [84; 807]); (355, [116; 807]); (356, [84; 780]);
    (357, [116; 780]); (360, [85; 771]); (361, [117; 771]); (362, [85; 772]);
    (363, [117; 772]); (364, [85; 774]); (365, [117; 774]); (366, [85; 778]);
    (367, [117; 778]); (368, [85; 779]); (369, [117; 779]); (370, [85; 808]);
    (371, [117; 808]); (372, [87; 770]); (373, [119; 770]); (374, [89; 770]);
    (375, [121; 770]); (376, [89; 776]); (377, [90; 769]); (378, [122; 769]);
    (379, [90; 775]); (380, [122; 775]); (381, [90; 780]); (382, [122; 780]);
    (416, [79; 795]); (417, [111; 795]); (431, [85; 795]); (432, [117; 795]);
    (461, [65; 780]); (462, [97; 780]); (463, [73; 780]); (464, [105; 780]);
    (465, [79; 780]); (466, [111; 780]); (467, [85; 780]); (468, [117; 780]);
    (469, [85; 776; 772]); (470, [117; 776; 772]); (471, [85; 776; 769]);
    (472, [117; 776; 769]); (473, [85; 776; 780]); (474, [117; 776; 780]);
    (475, [85; 776; 768]); (476, [117; 776; 768]); (478, [65; 776; 772]);
    (479, [97; 776; 772]); (480, [65; 775; 772]); (481, [97; 775; 772]);
    (482, [198; 772]); (483, [230; 772]); (486, [71; 780]);
    (487, [103; 780]); (488, [75; 780]); (489, [107; 780]); (490, [79; 808]);
    (491, [111; 808]); (492, [79; 808; 772]); (493, [111; 808; 772]);
    (494, [439; 780]); (495, [658; 780]); (496, [106; 780]);
    (500, [71; 769]); (501, [103; 769]); (504, [78; 768]); (505, [110; 768]);
    (506, [65; 778; 769]); (507, [97; 778; 769]); (508, [198; 769]);
    (509, [230; 769]); (510, [216; 769]); (511, [248; 769]);
    (512, [65; 783]); (513, [97; 783]); (514, [65; 785]); (515, [97; 785]);
    (516, [69; 783]); (517, [101; 783]); (518, [69; 785]); (519, [101; 785]);
    (520, [73; 783]); (521, [105; 783]); (522, [73; 785]); (523, [105; 785]);
    (524, [79; 783]); (525, [111; 783]); (526, [79; 785]); (527, [111; 785]);
    (528, [82; 783]); (529, [114; 783]); (530, [82; 785]); (531, [114; 785]);
    (532, [85; 783]); (533, [117; 783]); (534, [85; 785]); (535, [117; 785]);
    (536, [83; 806]); (537, [115; 806]); (538, [84; 806]); (539, [116; 806]);
    (542, [72; 780]); (543, [104; 780]); (550, [65; 775]); (551, [97; 775]);
    (552, [69; 807]); (553, [101; 807]); (554, [79; 776; 772]);
    (555, [111; 776; 772]); (556, [79; 771; 772]); (557, [111; 771; 772]);
    (558, [79; 775]); (559, [111; 775]); (560, [79; 775; 772]);
    (561, [111; 775; 772]); (562, [89; 772]); (563, [121; 772]);
    (832, [768]); (833, [769]); (835, [787]); (836, [776; 769]);
    (884, [697]); (894, [59]); (901, [168; 769]); (902, [913; 769]);
    (903, [183]); (904, [917; 769]); (905, [919; 769]); (906, [921; 769]);
    (908, [927; 769]); (910, [933; 769]); (911, [937; 769]);
    (912, [953; 776; 769]); (938, [921; 776]); (939, [933; 776]);
    (940, [945; 769]); (941, [949; 769]); (942, [951; 769]);
    (943, [953; 769]); (944, [965; 776; 769]); (970, [953; 776]);
    (971, [965; 776]); (972, [959; 769]); (973, [965; 769]);
    (974, [969; 769]); (979, [978; 769]); (980, [978; 776]);
    (1024, [1045; 768]); (1025, [1045; 776]); (1027, [1043; 769]);
    (1031, [1030; 776]); (1036, [1050; 769]); (1037, [1048; 768]);
    (1038, [1059; 774]); (1049, [1048; 774]); (1081, [1080; 774]);
    (1104, [1077; 768]); (1105, [1077; 776]); (1107, [1075; 769]);
    (1111, [1110; 776]); (1116, [1082; 769]); (1117, [1080; 768]);
    (1118, [1091; 774]); (1142, [1140; 783]); (1143, [1141; 783]);
    (1217, [1046; 774]); (1218, [1078; 774]); (1232, [1040; 774]);
    (1233, [1072; 774]); (1234, [1040; 776]); (1235, [1072; 776]);
    (1238, [1045; 774]); (1239, [1077; 774]); (1242, [1240; 776]);
    (1243, [1241; 776]); (1244, [1046; 776]); (1245, [1078; 776]);
    (1246, [1047; 776]); (1247, [1079; 776]); (1250, [1048; 772]);
    (1251, [1080; 772]); (1252, [1048; 776]); (1253, [1080; 776]);
    (1254, [1054; 776]); (1255, [1086; 776]); (1258, [1256; 776]);
    (1259, [1257; 776]); (1260, [1069; 776]); (1261, [1101; 776]);
    (1262, [1059; 772]); (1263, [1091; 772]); (1264, [1059; 776]);
    (1265, [1091; 776]); (1266, [1059; 779]); (1267, [1091; 779]);
    (1268, [1063; 776]); (1269, [1095; 776]); (1272, [1067; 776]);
    (1273, [1099; 776]); (1570, [1575; 1619]); (1571, [1575; 1620]);
    (1572, [1608; 1620]); (1573, [1575; 1621]); (1574, [1610; 1620]);
    (1728, [1749; 1620]); (1730, [1729; 1620]); (1747, [1746; 1620]);
    (2345, [2344; 2364]); (2353, [2352; 2364]); (2356, [2355; 2364]);
    (2392, [2325; 2364]); (2393, [2326; 2364]); (2394, [2327; 2364]);
    (2395, [2332; 2364]); (2396, [2337; 2364]); (2397, [2338; 2364]);
    (2398, [2347; 2364]); (2399, [2351; 2364]); (2507, [2503; 2494]);
    (2508, [2503; 2519]); (2524, [2465; 2492]); (2525, [2466; 2492]);
    (2527, [2479; 2492]); (2611, [2610; 2620]); (2614, [2616; 2620]);
    (2649, [2582; 2620]); (2650, [2583; 2620]); (2651, [2588; 2620]);
    (2654, [2603; 2620]); (2888, [2887; 2902]); (2891, [2887; 2878]);
    (2892, [2887; 2903]); (2908, [2849; 2876]); (2909, [2850; 2876]);
    (2964, [2962; 3031]); (3018, [3014; 3006]); (3019, [3015; 3006]);
    (3020, [3014; 3031]); (3144, [3142; 3158]); (3264, [3263; 3285]);
    (3271, [3270; 3285]); (3272, [3270; 3286]); (3274, [3270; 3266]);
    (3275, [3270; 3266; 3285]); (3402, [3398; 3390]); (3403, [3399; 3390]);
    (3404, [3398; 3415]); (3546, [3545; 3530]); (3548, [3545; 3535]);
    (3549, [3545; 3535; 3530]); (3550, [3545; 3551]); (3907, [3906; 4023]);
    (3917, [3916; 4023]); (3922, [3921; 4023]); (3927, [3926; 4023]);
    (3932, [3931; 4023]); (3945, [3904; 4021]); (3955, [3953; 3954]);
    (3957, [3953; 3956]); (3958, [4018; 3968]); (3960, [4019; 3968]);
    (3969, [3953; 3968]); (3987, [3986; 4023]); (3997, [3996; 4023]);
    (4002, [4001; 4023]); (4007, [4006; 4023]); (4012, [4011; 4023]);
    (4025, [3984; 4021]); (4134, [4133; 4142]); (6918, [6917; 6965]);
    (6920, [6919; 6965]); (6922, [6921; 6965]); (6924, [6923; 6965]);
    (6926, [6925; 6965]); (6930, [6929; 6965]); (6971, [6970; 6965]);
    (6973, [6972; 6965]); (6976, [6974; 6965]); (6977, [6975; 6965]);
    (6979, [6978; 6965]); (7680, [65; 805]); (7681, [97; 805]);
    (7682, [66; 775]); (7683, [98; 775]); (7684, [66; 803]);
    (7685, [98; 803]); (7686, [66; 817]); (7687, [98; 817]);
    (7688, [67; 807; 769]); (7689, [99; 807; 769]); (7690, [68; 775]);
    (7691, [100; 775]); (7692, [68; 803]); (7693, [100; 803]);
    (7694, [68; 817]); (7695, [100; 817]); (7696, [68; 807]);
    (7697, [100; 807]); (7698, [68; 813]); (7699, [100; 813]);
    (7700, [69; 772; 768]); (7701, [101; 772; 768]); (7702, [69; 772; 769]);
    (7703, [101; 772; 769]); (7704, [69; 813]); (7705, [101; 813]);
    (7706, [69; 816]); (7707, [101; 816]); (7708, [69; 807; 774]);
    (7709, [101; 807; 774]); (7710, [70; 775]); (7711, [102; 775]);
    (7712, [71; 772]); (7713, [103; 772]); (7714, [72; 775]);
    (7715, [104; 775]); (7716, [72; 803]); (7717, [104; 803]);
    (7718, [72; 776]); (7719, [104; 776]); (7720, [72; 807]);
    (7721, [104; 807]); (7722, [72; 814]); (7723, [104; 814]);
    (7724, [73; 816]); (7725, [105; 816]); (7726, [73; 776; 769]);
    (7727, [105; 776; 769]); (7728, [75; 769]); (7729, [107; 769]);
    (7730, [75; 803]); (7731, [107; 803]); (7732, [75; 817]);
    (7733, [107; 817]); (7734, [76; 803]); (7735, [108; 803]);
    (7736, [76; 803; 772]); (7737, [108; 803; 772]); (7738, [76; 817]);
    (7739, [108; 817]); (7740, [76; 813]); (7741, [108; 813]);
    (7742, [77; 769]); (7743, [109; 769]); (7744, [77; 775]);
    (7745, [109; 775]); (7746, [77; 803]); (7747, [109; 803]);
    (7748, [78; 775]); (7749, [110; 775]); (7750, [78; 803]);
    (7751, [110; 803]); (7752, [78; 817]); (7753, [110; 817]);
    (7754, [78; 813]); (7755, [110; 813]); (7756, [79; 771; 769]);
    (7757, [111; 771; 769]); (7758, [79; 771; 776]); (7759, [111; 771; 776]);
    (7760, [79; 772; 768]); (7761, [111; 772; 768]); (7762, [79; 772; 769]);
    (7763, [111; 772; 769]); (7764, [80; 769]); (7765, [112; 769]);
    (7766, [80; 775]); (7767, [112; 775]); (7768, [82; 775]);
    (7769, [114; 775]); (7770, [82; 803]); (7771, [114; 803]);
    (7772, [82; 803; 772]); (7773, [114; 803; 772]); (7774, [82; 817]);
    (7775, [114; 817]); (7776, [83; 775]); (7777, [115; 775]);
    (7778, [83; 803]); (7779, [115; 803]); (7780, [83; 769; 775]);
    (7781, [115; 769; 775]); (7782, [83; 780; 775]); (7783, [115; 780; 775]);
    (7784, [83; 803; 775]); (7785, [115; 803; 775]); (7786, [84; 775]);
    (7787, [116; 775]); (7788, [84; 803]); (7789, [116; 803]);
    (7790, [84; 817]); (7791, [116; 817]); (7792, [84; 813]);
    (7793, [116; 813]); (7794, [85; 804]); (7795, [117; 804]);
    (7796, [85; 816]); (7797, [117; 816]); (7798, [85; 813]);
    (7799, [117; 813]); (7800, [85; 771; 769]); (7801, [117; 771; 769]);
    (7802, [85; 772; 776]); (7803, [117; 772; 776]); (7804, [86; 771]);
    (7805, [118; 771]); (7806, [86; 803]); (7807, [118; 803]);
    (7808, [87; 768]); (7809, [119; 768]); (7810, [87; 769]);
    (7811, [119; 769]); (7812, [87; 776]); (7813, [119; 776]);
    (7814, [87; 775]); (7815, [119; 775]); (7816, [87; 803]);
    (7817, [119; 803]); (7818, [88; 775]); (7819, [120; 775]);
    (7820, [88; 776]); (7821, [120; 776]); (7822, [89; 775]);
    (7823, [121; 775]); (7824, [90; 770]); (7825, [122; 770]);
    (7826, [90; 803]); (7827, [122; 803]); (7828, [90; 817]);
    (7829, [122; 817]); (7830, [104; 817]); (7831, [116; 776]);
    (7832, [119; 778]); (7833, [121; 778]); (7835, [383; 775]);
    (7840, [65; 803]); (7841, [97; 803]); (7842, [65; 777]);
    (7843, [97; 777]); (7844, [65; 770; 769]); (7845, [97; 770; 769]);
    (7846, [65; 770; 768]); (7847, [97; 770; 768]); (7848, [65; 770; 777]);
    (7849, [97; 770; 777]); (7850, [65; 770; 771]); (7851, [97; 770; 771]);
    (7852, [65; 803; 770]); (7853, [97; 803; 770]); (7854, [65; 774; 769]);
    (7855, [97; 774; 769]); (7856, [65; 774; 768]); (7857, [97; 774; 768]);
    (7858, [65; 774; 777]); (7859, [97; 774; 777]); (7860, [65; 774; 771]);
    (7861, [97; 774; 771]); (7862, [65; 803; 774]); (7863, [97; 803; 774]);
    (7864, [69; 803]); (7865, [101; 803]); (7866, [69; 777]);
    (7867, [101; 777]); (7868, [69; 771]); (7869, [101; 771]);
    (7870, [69; 770; 769]); (7871, [101; 770; 769]); (7872, [69; 770; 768]);
    (7873, [101; 770; 768]); (7874, [69; 770; 777]); (7875, [101; 770; 777]);
    (7876, [69; 770; 771]); (7877, [101; 770; 771]); (7878, [69; 803; 770]);
    (7879, [101; 803; 770]); (7880, [73; 777]); (7881, [105; 777]);
    (7882, [73; 803]); (7883, [105; 803]); (7884, [79; 803]);
    (7885, [111; 803]); (7886, [79; 777]); (7887, [111; 777]);
    (7888, [79; 770; 769]); (7889, [111; 770; 769]); (7890, [79; 770; 768]);
    (7891, [111; 770; 768]); (7892, [79; 770; 777]); (7893, [111; 770; 777]);
    (7894, [79; 770; 771]); (7895, [111; 770; 771]); (7896, [79; 803; 770]);
    (7897, [111; 803; 770]); (7898, [79; 795; 769]); (7899, [111; 795; 769]);
    (7900, [79; 795; 768]); (7901, [111; 795; 768]); (7902, [79; 795; 777]);
    (7903, [111; 795; 777]); (7904, [79; 795; 771]); (7905, [111; 795; 771]);
    (7906, [79; 795; 803]); (7907, [111; 795; 803]); (7908, [85; 803]);
    (7909, [117; 803]); (7910, [85; 777]); (7911, [117; 777]);
    (7912, [85; 795; 769]); (7913, [117; 795; 769]); (7914, [85; 795; 768]);
    (7915, [117; 795; 768]); (7916, [85; 795; 777]); (7917, [117; 795; 777]);
    (7918, [85; 795; 771]); (7919, [117; 795; 771]); (7920, [85; 795; 803]);
    (7921, [117; 795; 803]); (7922, [89; 768]); (7923, [121; 768]);
    (7924, [89; 803]); (7925, [121; 803]); (7926, [89; 777]);
    (7927, [121; 777]); (7928, [89; 771]); (7929, [121; 771]);
    (7936, [945; 787]); (7937, [945; 788]); (7938, [945; 787; 768]);
    (7939, [945; 788; 768]); (7940, [945; 787; 769]);
    (7941, [945; 788; 769]); (7942, [945; 787; 834]);
    (7943, [945; 788; 834]); (7944, [913; 787]); (7945, [913; 788]);
    (7946, [913; 787; 768]); (7947, [913; 788; 768]);
    (7948, [913; 787; 769]); (7949, [913; 788; 769]);
    (7950, [913; 787; 834]); (7951, [913; 788; 834]); (7952, [949; 787]);
    (7953, [949; 788]); (7954, [949; 787; 768]); (7955, [949; 788; 768]);
    (7956, [949; 787; 769]); (7957, [949; 788; 769]); (7960, [917; 787]);
    (7961, [917; 788]); (7962, [917; 787; 768]); (7963, [917; 788; 768]);
    (7964, [917; 787; 769]); (7965, [917; 788; 769]); (7968, [951; 787]);
    (7969, [951; 788]); (7970, [951; 787; 768]); (7971, [951; 788; 768]);
    (7972, [951; 787; 769]); (7973, [951; 788; 769]);
    (7974, [951; 787; 834]); (7975, [951; 788; 834]); (7976, [919; 787]);
    (7977, [919; 788]); (7978, [919; 787; 768]); (7979, [919; 788; 768]);
    (7980, [919; 787; 769]); (7981, [919; 788; 769]);
    (7982, [919; 787; 834]); (7983, [919; 788; 834]); (7984, [953; 787]);
    (7985, [953; 788]); (7986, [953; 787; 768]); (7987, [953; 788; 768]);
    (7988, [953; 787; 769]); (7989, [953; 788; 769]);
    (7990, [953; 787; 834]); (7991, [953; 788; 834]); (7992, [921; 787]);
    (7993, [921; 788]); (7994, [921; 787; 768]); (7995, [921; 788; 768]);
    (7996, [921; 787; 769]); (7997, [921; 788; 769]);
    (7998, [921; 787; 834]); (7999, [921; 788; 834]); (8000, [959; 787]);
    (8001, [959; 788]); (8002, [959; 787; 768]); (8003, [959; 788; 768]);
    (8004, [959; 787; 769]); (8005, [959; 788; 769]); (8008, [927; 787]);
    (8009, [927; 788]); (8010, [927; 787; 768]); (8011, [927; 788; 768]);
    (8012, [927; 787; 769]); (8013, [927; 788; 769]); (8016, [965; 787]);
    (8017, [965; 788]); (8018, [965; 787; 768]); (8019, [965; 788; 768]);
    (8020, [965; 787; 769]); (8021, [965; 788; 769]);
    (8022, [965; 787; 834]); (8023, [965; 788; 834]); (8025, [933; 788]);
    (8027, [933; 788; 768]); (8029, [933; 788; 769]);
    (8031, [933; 788; 834]); (8032, [969; 787]); (8033, [969; 788]);
    (8034, [969; 787; 768]); (8035, [969; 788; 768]);
    (8036, [969; 787; 769]); (8037, [969; 788; 769]);
    (8038, [969; 787; 834]); (8039, [969; 788; 834]); (8040, [937; 787]);
    (8041, [937; 788]); (8042, [937; 787; 768]); (8043, [937; 788; 768]);
    (8044, [937; 787; 769]); (8045, [937; 788; 769]);
    (8046, [937; 787; 834]); (8047, [937; 788; 834]); (8048, [945; 768]);
    (8049, [945; 769]); (8050, [949; 768]); (8051, [949; 769]);
    (8052, [951; 768]); (8053, [951; 769]); (8054, [953; 768]);
    (8055, [953; 769]); (8056, [959; 768]); (8057, [959; 769]);
    (8058, [965; 768]); (8059, [965; 769]); (8060, [969; 768]);
    (8061, [969; 769]); (8064, [945; 787; 837]); (8065, [945; 788; 837]);
    (8066, [945; 787; 768; 837]); (8067, [945; 788; 768; 837]);
    (8068, [945; 787; 769; 837]); (8069, [945; 788; 769; 837]);
    (8070, [945; 787; 834; 837]); (8071, [945; 788; 834; 837]);
    (8072, [913; 787; 837]); (8073, [913; 788; 837]);
    (8074, [913; 787; 768; 837]); (8075, [913; 788; 768; 837]);
    (8076, [913; 787; 769; 837]); (8077, [913; 788; 769; 837]);
    (8078, [913; 787; 834; 837]); (8079, [913; 788; 834; 837]);
    (8080, [951; 787; 837]); (8081, [951; 788; 837]);
    (8082, [951; 787; 768; 837]); (8083, [951; 788; 768; 837]);
    (8084, [951; 787; 769; 837]); (8085, [951; 788; 769; 837]);
    (8086, [951; 787; 834; 837]); (8087, [951; 788; 834; 837]);
    (8088, [919; 787; 837]); (8089, [919; 788; 837]);
    (8090, [919; 787; 768; 837]); (8091, [919; 788; 768; 837]);
    (8092, [919; 787; 769; 837]); (8093, [919; 788; 769; 837]);
    (8094, [919; 787; 834; 837]); (8095, [919; 788; 834; 837]);
    (8096, [969; 787; 837]); (8097, [969; 788; 837]);
    (8098, [969; 787; 768; 837]); (8099, [969; 788; 768; 837]);
    (8100, [969; 787; 769; 837]); (8101, [969; 788; 769; 837]);
    (8102, [969; 787; 834; 837]); (8103, [969; 788; 834; 837]);
    (8104, [937; 787; 837]); (8105, [937; 788; 837]);
    (8106, [937; 787; 768; 837]); (8107, [937; 788; 768; 837]);
    (8108, [937; 787; 769; 837]); (8109, [937; 788; 769; 837]);
    (8110, [937; 787; 834; 837]); (8111, [937; 788; 834; 837]);
    (8112, [945; 774]); (8113, [945; 772]); (8114, [945; 768; 837]);
    (8115, [945; 837]); (8116, [945; 769; 837]); (8118, [945; 834]);
    (8119, [945; 834; 837]); (8120, [913; 774]); (8121, [913; 772]);
    (8122, [913; 768]); (8123, [913; 769]); (8124, [913; 837]);
    (8126, [953]); (8129, [168; 834]); (8130, [951; 768; 837]);
    (8131, [951; 837]); (8132, [951; 769; 837]); (8134, [951; 834]);
    (8135, [951; 834; 837]); (8136, [917; 768]); (8137, [917; 769]);
    (8138, [919; 768]); (8139, [919; 769]); (8140, [919; 837]);
    (8141, [8127; 768]); (8142, [8127; 769]); (8143, [8127; 834]);
    (8144, [953; 774]); (8145, [953; 772]); (8146, [953; 776; 768]);
    (8147, [953; 776; 769]); (8150, [953; 834]); (8151, [953; 776; 834]);
    (8152, [921; 774]); (8153, [921; 772]); (8154, [921; 768]);
    (8155, [921; 769]); (8157, [8190; 768]); (8158, [8190; 769]);
    (8159, [8190; 834]); (8160, [965; 774]); (8161, [965; 772]);
    (8162, [965; 776; 768]); (8163, [965; 776; 769]); (8164, [961; 787]);
    (8165, [961; 788]); (8166, [965; 834]); (8167, [965; 776; 834]);
    (8168, [933; 774]); (8169, [933; 772]); (8170, [933; 768]);
    (8171, [933; 769]); (8172, [929; 788]); (8173, [168; 768]);
    (8174, [168; 769]); (8175, [96]); (8178, [969; 768; 837]);
    (8179, [969; 837]); (8180, [969; 769; 837]); (8182, [969; 834]);
    (8183, [969; 834; 837]); (8184, [927; 768]); (8185, [927; 769]);
    (8186, [937; 768]); (8187, [937; 769]); (8188, [937; 837]);
    (8189, [180]); (8192, [8194]); (8193, [8195]); (8486, [937]);
    (8490, [75]); (8491, [65; 778]); (8602, [8592; 824]);
    (8603, [8594; 824]); (8622, [8596; 824]); (8653, [8656; 824]);
    (8654, [8660; 824]); (8655, [8658; 824]); (8708, [8707; 824]);
    (8713, [8712; 824]); (8716, [8715; 824]); (8740, [8739; 824]);
    (8742, [8741; 824]); (8769, [8764; 824]); (8772, [8771; 824]);
    (8775, [8773; 824]); (8777, [8776; 824]); (8800, [61; 824]);
    (8802, [8801; 824]); (8813, [8781; 824]); (8814, [60; 824]);
    (8815, [62; 824]); (8816, [8804; 824]); (8817, [8805; 824]);
    (8820, [8818; 824]); (8821, [8819; 824]); (8824, [8822; 824]);
    (8825, [8823; 824]); (8832, [8826; 824]); (8833, [8827; 824]);
    (8836, [8834; 824]); (8837, [8835; 824]); (8840, [8838; 824]);
    (8841, [8839; 824]); (8876, [8866; 824]); (8877, [8872; 824]);
    (8878, [8873; 824]); (8879, [8875; 824]); (8928, [8828; 824]);
    (8929, [8829; 824]); (8930, [8849; 824]); (8931, [8850; 824]);
    (8938, [8882; 824]); (8939, [8883; 824]); (8940, [8884; 824]);
    (8941, [8885; 824]); (9001, [12296]); (9002, [12297]);
    (10972, [10973; 824]); (12364, [12363; 12441]); (12366, [12365; 12441]);
    (12368, [12367; 12441]); (12370, [12369; 12441]);
    (12372, [12371; 12441]); (12374, [12373; 12441]);
    (12376, [12375; 12441]); (12378, [12377; 12441]);
    (12380, [12379; 12441]); (12382, [12381; 12441]);
    (12384, [12383; 12441]); (12386, [12385; 12441]);
    (12389, [12388; 12441]); (12391, [12390; 12441]);
    (12393, [12392; 12441]); (12400, [12399; 12441]);
    (12401, [12399; 12442]); (12403, [12402; 12441]);
    (12404, [12402; 12442]); (12406, [12405; 12441]);
    (12407, [12405; 12442]); (12409, [12408; 12441]);
    (12410, [12408; 12442]); (12412, [12411; 12441]);
    (12413, [12411; 12442]); (12436, [12358; 12441]);
    (12446, [12445; 12441]); (12460, [12459; 12441]);
    (12462, [12461; 12441]); (12464, [12463; 12441]);
    (12466, [12465; 12441]); (12468, [12467; 12441]);
    (12470, [12469; 12441]); (12472, [12471; 12441]);
    (12474, [12473; 12441]); (12476, [12475; 12441]);
    (12478, [12477; 12441]); (12480, [12479; 12441]);
    (12482, [12481; 12441]); (12485, [12484; 12441]);
    (12487, [12486; 12441]); (12489, [12488; 12441]);
    (12496, [12495; 12441]); (12497, [12495; 12442]);
    (12499, [12498; 12441]); (12500, [12498; 12442]);
    (12502, [12501; 12441]); (12503, [12501; 12442]);
    (12505, [12504; 12441]); (12506, [12504; 12442]);
    (12508, [12507; 12441]); (12509, [12507; 12442]);
    (12532, [12454; 12441]); (12535, [12527; 12441]);
    (12536, [12528; 12441]); (12537, [12529; 12441]);
    (12538, [12530; 12441]); (12542, [12541; 12441]); (63744, [35912]);
    (63745, [26356]); (63746, [36554]); (63747, [36040]); (63748, [28369]);
    (63749, [20018]); (63750, [21477]); (63751, [40860]); (63752, [40860]);
    (63753, [22865]); (63754, [37329]); (63755, [21895]); (63756, [22856]);
    (63757, [25078]); (63758, [30313]); (63759, [32645]); (63760, [34367]);
    (63761, [34746]); (63762, [35064]); (63763, [37007]); (63764, [27138]);
    (63765, [27931]); (63766, [28889]); (63767, [29662]); (63768, [33853]);
    (63769, [37226]); (63770, [39409]); (63771, [20098]); (63772, [21365]);
    (63773, [27396]); (63774, [29211]); (63775, [34349]); (63776, [40478]);
    (63777, [23888]); (63778, [28651]); (63779, [34253]); (63780, [35172]);
    (63781, [25289]); (63782, [33240]); (63783, [34847]); (63784, [24266]);
    (63785, [26391]); (63786, [28010]); (63787, [29436]); (63788, [37070]);
    (63789, [20358]); (63790, [20919]); (63791, [21214]); (63792, [25796]);
    (63793, [27347]); (63794, [29200]); (63795, [30439]); (63796, [32769]);
    (63797, [34310]); (63798, [34396]); (63799, [36335]); (63800, [38706]);
    (63801, [39791]); (63802, [40442]); (63803, [30860]); (63804, [31103]);
    (63805, [32160]); (63806, [33737]); (63807, [37636]); (63808, [40575]);
    (63809, [35542]); (63810, [22751]); (63811, [24324]); (63812, [31840]);
    (63813, [32894]); (63814, [29282]); (63815, [30922]); (63816, [36034]);
    (63817, [38647]); (63818, [22744]); (63819, [23650]); (63820, [27155]);
    (63821, [28122]); (63822, [28431]); (63823, [32047]); (63824, [32311]);
    (63825, [38475]); (63826, [21202]); (63827, [32907]); (63828, [20956]);
    (63829, [20940]); (63830, [31260]); (63831, [32190]); (63832, [33777]);
    (63833, [38517]); (63834, [35712]); (63835, [25295]); (63836, [27138]);
    (63837, [35582]); (63838, [20025]); (63839, [23527]); (63840, [24594]);
    (63841, [29575]); (63842, [30064]); (63843, [21271]); (63844, [30971]);
    (63845, [20415]); (63846, [24489]); (63847, [19981]); (63848, [27852]);
    (63849, [25976]); (63850, [32034]); (63851, [21443]); (63852, [22622]);
    (63853, [30465]); (63854, [33865]); (63855, [35498]); (63856, [27578]);
    (63857, [36784]); (63858, [27784]); (63859, [25342]); (63860, [33509]);
    (63861, [25504]); (63862, [30053]); (63863, [20142]); (63864, [20841]);
    (63865, [20937]); (63866, [26753]); (63867, [31975]); (63868, [33391]);
    (63869, [35538]); (63870, [37327]); (63871, [21237]); (63872, [21570]);
    (63873, [22899]); (63874, [24300]); (63875, [26053]); (63876, [28670]);
    (63877, [31018]); (63878, [38317]); (63879, [39530]); (63880, [40599]);
    (63881, [40654]); (63882, [21147]); (63883, [26310]); (63884, [27511]);
    (63885, [36706]); (63886, [24180]); (63887, [24976]); (63888, [25088]);
    (63889, [25754]); (63890, [28451]); (63891, [29001]); (63892, [29833]);
    (63893, [31178]); (63894, [32244]); (63895, [32879]); (63896, [36646]);
    (63897, [34030]); (63898, [36899]); (63899, [37706]); (63900, [21015]);
    (63901, [21155]); (63902, [21693]); (63903, [28872]); (63904, [35010]);
    (63905, [35498]); (63906, [24265]); (63907, [24565]); (63908, [25467]);
    (63909, [27566]); (63910, [31806]); (63911, [29557]); (63912, [20196]);
    (63913, [22265]); (63914, [23527]); (63915, [23994]); (63916, [24604]);
    (63917, [29618]); (63918, [29801]); (63919, [32666]); (63920, [32838]);
    (63921, [37428]); (63922, [38646]); (63923, [38728]); (63924, [38936]);
    (63925, [20363]); (63926, [31150]); (63927, [37300]); (63928, [38584]);
    (63929, [24801]); (63930, [20102]); (63931, [20698]); (63932, [23534]);
    (63933, [23615]); (63934, [26009]); (63935, [27138]); (63936, [29134]);
    (63937, [30274]); (63938, [34044]); (63939, [36988]); (63940, [40845]);
    (63941, [26248]); (63942, [38446]); (63943, [21129]); (63944, [26491]);
    (63945, [26611]); (63946, [27969]); (63947, [28316]); (63948, [29705]);
    (63949, [30041]); (63950, [30827]); (63951, [32016]); (63952, [39006]);
    (63953, [20845]); (63954, [25134]); (63955, [38520]); (63956, [20523]);
    (63957, [23833]); (63958, [28138]); (63959, [36650]); (63960, [24459]);
    (63961, [24900]); (63962, [26647]); (63963, [29575]); (63964, [38534]);
    (63965, [21033]); (63966, [21519]); (63967, [23653]); (63968, [26131]);
    (63969, [26446]); (63970, [26792]); (63971, [27877]); (63972, [29702]);
    (63973, [30178]); (63974, [32633]); (63975, [35023]); (63976, [35041]);
    (63977, [37324]); (63978, [38626]); (63979, [21311]); (63980, [28346]);
    (63981, [21533]); (63982, [29136]); (63983, [29848]); (63984, [34298]);
    (63985, [38563]); (63986, [40023]); (63987, [40607]); (63988, [26519]);
    (63989, [28107]); (63990, [33256]); (63991, [31435]); (63992, [31520]);
    (63993, [31890]); (63994, [29376]); (63995, [28825]); (63996, [35672]);
    (63997, [20160]); (63998, [33590]); (63999, [21050]); (64000, [20999]);
    (64001, [24230]); (64002, [25299]); (64003, [31958]); (64004, [23429]);
    (64005, [27934]); (64006, [26292]); (64007, [36667]); (64008, [34892]);
    (64009, [38477]); (64010, [35211]); (64011, [24275]); (64012, [20800]);
    (64013, [21952]); (64016, [22618]); (64018, [26228]); (64021, [20958]);
    (64022, [29482]); (64023, [30410]); (64024, [31036]); (64025, [31070]);
    (64026, [31077]); (64027, [31119]); (64028, [38742]); (64029, [31934]);
    (64030, [32701]); (64032, [34322]); (64034, [35576]); (64037, [36920]);
    (64038, [37117]); (64042, [39151]); (64043, [39164]); (64044, [39208]);
    (64045, [40372]); (64046, [37086]); (64047, [38583]); (64048, [20398]);
    (64049, [20711]); (64050, [20813]); (64051, [21193]); (64052, [21220]);
    (64053, [21329]); (64054, [21917]); (64055, [22022]); (64056, [22120]);
    (64057, [22592]); (64058, [22696]); (64059, [23652]); (64060, [23662]);
    (64061, [24724]); (64062, [24936]); (64063, [24974]); (64064, [25074]);
    (64065, [25935]); (64066, [26082]); (64067, [26257]); (64068, [26757]);
    (64069, [28023]); (64070, [28186]); (64071, [28450]); (64072, [29038]);
    (64073, [29227]); (64074, [29730]); (64075, [30865]); (64076, [31038]);
    (64077, [31049]); (64078, [31048]); (64079, [31056]); (64080, [31062]);
    (64081, [31069]); (64082, [31117]); (64083, [31118]); (64084, [31296]);
    (64085, [31361]); (64086, [31680]); (64087, [32244]); (64088, [32265]);
    (64089, [32321]); (64090, [32626]); (64091, [32773]); (64092, [33261]);
    (64093, [33401]); (64094, [33401]); (64095, [33879]); (64096, [35088]);
    (64097, [35222]); (64098, [35585]); (64099, [35641]); (64100, [36051]);
    (64101, [36104]); (64102, [36790]); (64103, [36920]); (64104, [38627]);
    (64105, [38911]); (64106, [38971]); (64107, [24693]); (64108, [148206]);
    (64109, [33304]); (64112, [20006]); (64113, [20917]); (64114, [20840]);
    (64115, [20352]); (64116, [20805]); (64117, [20864]); (64118, [21191]);
    (64119, [21242]); (64120, [21917]); (64121, [21845]); (64122, [21913]);
    (64123, [21986]); (64124, [22618]); (64125, [22707]); (64126, [22852]);
    (64127, [22868]); (64128, [23138]); (64129, [23336]); (64130, [24274]);
    (64131, [24281]); (64132, [24425]); (64133, [24493]); (64134, [24792]);
    (64135, [24910]); (64136, [24840]); (64137, [24974]); (64138, [24928]);
    (64139, [25074]); (64140, [25140]); (64141, [25540]); (64142, [25628]);
    (64143, [25682]); (64144, [25942]); (64145, [26228]); (64146, [26391]);
    (64147, [26395]); (64148, [26454]); (64149, [27513]); (64150, [27578]);
    (64151, [27969]); (64152, [28379]); (64153, [28363]); (64154, [28450]);
    (64155, [28702]); (64156, [29038]); (64157, [30631]); (64158, [29237]);
    (64159, [29359]); (64160, [29482]); (64161, [29809]); (64162, [29958]);
    (64163, [30011]); (64164, [30237]); (64165, [30239]); (64166, [30410]);
    (64167, [30427]); (64168, [30452]); (64169, [30538]); (64170, [30528]);
    (64171, [30924]); (64172, [31409]); (64173, [31680]); (64174, [31867]);
    (64175, [32091]); (64176, [32244]); (64177, [32574]); (64178, [32773]);
    (64179, [33618]); (64180, [33775]); (64181, [34681]); (64182, [35137]);
    (64183, [35206]); (64184, [35222]); (64185, [35519]); (64186, [35576]);
    (64187, [35531]); (64188, [35585]); (64189, [35582]); (64190, [35565]);
    (64191, [35641]); (64192, [35722]); (64193, [36104]); (64194, [36664]);
    (64195, [36978]); (64196, [37273]); (64197, [37494]); (64198, [38524]);
    (64199, [38627]); (64200, [38742]); (64201, [38875]); (64202, [38911]);
    (64203, [38923]); (64204, [38971]); (64205, [39698]); (64206, [40860]);
    (64207, [141386]); (64208, [141380]); (64209, [144341]);
    (64210, [15261]); (64211, [16408]); (64212, [16441]); (64213, [152137]);
    (64214, [154832]); (64215, [163539]); (64216, [40771]); (64217, [40846]);
    (64285, [1497; 1460]); (64287, [1522; 1463]); (64298, [1513; 1473]);
    (64299, [1513; 1474]); (64300, [1513; 1468; 1473]);
    (64301, [1513; 1468; 1474]); (64302, [1488; 1463]);
    (64303, [1488; 1464]); (64304, [1488; 1468]); (64305, [1489; 1468]);
    (64306, [1490; 1468]); (64307, [1491; 1468]); (64308, [1492; 1468]);
    (64309, [1493; 1468]); (64310, [1494; 1468]); (64312, [1496; 1468]);
    (64313, [1497; 1468]); (64314, [1498; 1468]); (64315, [1499; 1468]);
    (64316, [1500; 1468]); (64318, [1502; 1468]); (64320, [1504; 1468]);
    (64321, [1505; 1468]); (64323, [1507; 1468]); (64324, [1508; 1468]);
    (64326, [1510; 1468]); (64327, [1511; 1468]); (64328, [1512; 1468]);
    (64329, [1513; 1468]); (64330, [1514; 1468]); (64331, [1493; 1465]);
    (64332, [1489; 1471]); (64333, [1499; 1471]); (64334, [1508; 1471]);
    (69786, [69785; 69818]); (69788, [69787; 69818]);
    (69803, [69797; 69818]); (69934, [69937; 69927]);
    (69935, [69938; 69927]); (70475, [70471; 70462]);
    (70476, [70471; 70487]); (70843, [70841; 70842]);
    (70844, [70841; 70832]); (70846, [70841; 70845]);
    (71098, [71096; 71087]); (71099, [71097; 71087]);
    (71992, [71989; 71984]); (119134, [119127; 119141]);
    (119135, [119128; 119141]); (119136, [119128; 119141; 119150]);
    (119137, [119128; 119141; 119151]); (119138, [119128; 119141; 119152]);
    (119139, [119128; 119141; 119153]); (119140, [119128; 119141; 119154]);
    (119227, [119225; 119141]); (119228, [119226; 119141]);
    (119229, [119225; 119141; 119150]); (119230, [119226; 119141; 119150]);
    (119231, [119225; 119141; 119151]); (119232, [119226; 119141; 119151]);
    (194560, [20029]); (194561, [20024]); (194562, [20033]);
    (194563, [131362]); (194564, [20320]); (194565, [20398]);
    (194566, [20411]); (194567, [20482]); (194568, [20602]);
    (194569, [20633]); (194570, [20711]); (194571, [20687]);
    (194572, [13470]); (194573, [132666]); (194574, [20813]);
    (194575, [20820]); (194576, [20836]); (194577, [20855]);
    (194578, [132380]); (194579, [13497]); (194580, [20839]);
    (194581, [20877]); (194582, [132427]); (194583, [20887]);
    (194584, [20900]); (194585, [20172]); (194586, [20908]);
    (194587, [20917]); (194588, [168415]); (194589, [20981]);
    (194590, [20995]); (194591, [13535]); (194592, [21051]);
    (194593, [21062]); (194594, [21106]); (194595, [21111]);
    (194596, [13589]); (194597, [21191]); (194598, [21193]);
    (194599, [21220]); (194600, [21242]); (194601, [21253]);
    (194602, [21254]); (194603, [21271]); (194604, [21321]);
    (194605, [21329]); (194606, [21338]); (194607, [21363]);
    (194608, [21373]); (194609, [21375]); (194610, [21375]);
    (194611, [21375]); (194612, [133676]); (194613, [28784]);
    (194614, [21450]); (194615, [21471]); (194616, [133987]);
    (194617, [21483]); (194618, [21489]); (194619, [21510]);
    (194620, [21662]); (194621, [21560]); (194622, [21576]);
    (194623, [21608]); (194624, [21666]); (194625, [21750]);
    (194626, [21776]); (194627, [21843]); (194628, [21859]);
    (194629, [21892]); (194630, [21892]); (194631, [21913]);
    (194632, [21931]); (194633, [21939]); (194634, [21954]);
    (194635, [22294]); (194636, [22022]); (194637, [22295]);
    (194638, [22097]); (194639, [22132]); (194640, [20999]);
    (194641, [22766]); (194642, [22478]); (194643, [22516]);
    (194644, [22541]); (194645, [22411]); (194646, [22578]);
    (194647, [22577]); (194648, [22700]); (194649, [136420]);
    (194650, [22770]); (194651, [22775]); (194652, [22790]);
    (194653, [22810]); (194654, [22818]); (194655, [22882]);
    (194656, [136872]); (194657, [136938]); (194658, [23020]);
    (194659, [23067]); (194660, [23079]); (194661, [23000]);
    (194662, [23142]); (194663, [14062]); (194664, [14076]);
    (194665, [23304]); (194666, [23358]); (194667, [23358]);
    (194668, [137672]); (194669, [23491]); (194670, [23512]);
    (194671, [23527]); (194672, [23539]); (194673, [138008]);
    (194674, [23551]); (194675, [23558]); (194676, [24403]);
    (194677, [23586]); (194678, [14209]); (194679, [23648]);
    (194680, [23662]); (194681, [23744]); (194682, [23693]);
    (194683, [138724]); (194684, [23875]); (194685, [138726]);
    (194686, [23918]); (194687, [23915]); (194688, [23932]);
    (194689, [24033]); (194690, [24034]); (194691, [14383]);
    (194692, [24061]); (194693, [24104]); (194694, [24125]);
    (194695, [24169]); (194696, [14434]); (194697, [139651]);
    (194698, [14460]); (194699, [24240]); (194700, [24243]);
    (194701, [24246]); (194702, [24266]); (194703, [172946]);
    (194704, [24318]); (194705, [140081]); (194706, [140081]);
    (194707, [33281]); (194708, [24354]); (194709, [24354]);
    (194710, [14535]); (194711, [144056]); (194712, [156122]);
    (194713, [24418]); (194714, [24427]); (194715, [14563]);
    (194716, [24474]); (194717, [24525]); (194718, [24535]);
    (194719, [24569]); (194720, [24705]); (194721, [14650]);
    (194722, [14620]); (194723, [24724]); (194724, [141012]);
    (194725, [24775]); (194726, [24904]); (194727, [24908]);
    (194728, [24910]); (194729, [24908]); (194730, [24954]);
    (194731, [24974]); (194732, [25010]); (194733, [24996]);
    (194734, [25007]); (194735, [25054]); (194736, [25074]);
    (194737, [25078]); (194738, [25104]); (194739, [25115]);
    (194740, [25181]); (194741, [25265]); (194742, [25300]);
    (194743, [25424]); (194744, [142092]); (194745, [25405]);
    (194746, [25340]); (194747, [25448]); (194748, [25475]);
    (194749, [25572]); (194750, [142321]); (194751, [25634]);
    (194752, [25541]); (194753, [25513]); (194754, [14894]);
    (194755, [25705]); (194756, [25726]); (194757, [25757]);
    (194758, [25719]); (194759, [14956]); (194760, [25935]);
    (194761, [25964]); (194762, [143370]); (194763, [26083]);
    (194764, [26360]); (194765, [26185]); (194766, [15129]);
    (194767, [26257]); (194768, [15112]); (194769, [15076]);
    (194770, [20882]); (194771, [20885]); (194772, [26368]);
    (194773, [26268]); (194774, [32941]); (194775, [17369]);
    (194776, [26391]); (194777, [26395]); (194778, [26401]);
    (194779, [26462]); (194780, [26451]); (194781, [144323]);
    (194782, [15177]); (194783, [26618]); (194784, [26501]);
    (194785, [26706]); (194786, [26757]); (194787, [144493]);
    (194788, [26766]); (194789, [26655]); (194790, [26900]);
    (194791, [15261]); (194792, [26946]); (194793, [27043]);
    (194794, [27114]); (194795, [27304]); (194796, [145059]);
    (194797, [27355]); (194798, [15384]); (194799, [27425]);
    (194800, [145575]); (194801, [27476]); (194802, [15438]);
    (194803, [27506]); (194804, [27551]); (194805, [27578]);
    (194806, [27579]); (194807, [146061]); (194808, [138507]);
    (194809, [146170]); (194810, [27726]); (194811, [146620]);
    (194812, [27839]); (194813, [27853]); (194814, [27751]);
    (194815, [27926]); (194816, [27966]); (194817, [28023]);
    (194818, [27969]); (194819, [28009]); (194820, [28024]);
    (194821, [28037]); (194822, [146718]); (194823, [27956]);
    (194824, [28207]); (194825, [28270]); (194826, [15667]);
    (194827, [28363]); (194828, [28359]); (194829, [147153]);
    (194830, [28153]); (194831, [28526]); (194832, [147294]);
    (194833, [147342]); (194834, [28614]); (194835, [28729]);
    (194836, [28702]); (194837, [28699]); (194838, [15766]);
    (194839, [28746]); (194840, [28797]); (194841, [28791]);
    (194842, [28845]); (194843, [132389]); (194844, [28997]);
    (194845, [148067]); (194846, [29084]); (194847, [148395]);
    (194848, [29224]); (194849, [29237]); (194850, [29264]);
    (194851, [149000]); (194852, [29312]); (194853, [29333]);
    (194854, [149301]); (194855, [149524]); (194856, [29562]);
    (194857, [29579]); (194858, [16044]); (194859, [29605]);
    (194860, [16056]); (194861, [16056]); (194862, [29767]);
    (194863, [29788]); (194864, [29809]); (194865, [29829]);
    (194866, [29898]); (194867, [16155]); (194868, [29988]);
    (194869, [150582]); (194870, [30014]); (194871, [150674]);
    (194872, [30064]); (194873, [139679]); (194874, [30224]);
    (194875, [151457]); (194876, [151480]); (194877, [151620]);
    (194878, [16380]); (194879, [16392]); (194880, [30452]);
    (194881, [151795]); (194882, [151794]); (194883, [151833]);
    (194884, [151859]); (194885, [30494]); (194886, [30495]);
    (194887, [30495]); (194888, [30538]); (194889, [16441]);
    (194890, [30603]); (194891, [16454]); (194892, [16534]);
    (194893, [152605]); (194894, [30798]); (194895, [30860]);
    (194896, [30924]); (194897, [16611]); (194898, [153126]);
    (194899, [31062]); (194900, [153242]); (194901, [153285]);
    (194902, [31119]); (194903, [31211]); (194904, [16687]);
    (194905, [31296]); (194906, [31306]); (194907, [31311]);
    (194908, [153980]); (194909, [154279]); (194910, [154279]);
    (194911, [31470]); (194912, [16898]); (194913, [154539]);
    (194914, [31686]); (194915, [31689]); (194916, [16935]);
    (194917, [154752]); (194918, [31954]); (194919, [17056]);
    (194920, [31976]); (194921, [31971]); (194922, [32000]);
    (194923, [155526]); (194924, [32099]); (194925, [17153]);
    (194926, [32199]); (194927, [32258]); (194928, [32325]);
    (194929, [17204]); (194930, [156200]); (194931, [156231]);
    (194932, [17241]); (194933, [156377]); (194934, [32634]);
    (194935, [156478]); (194936, [32661]); (194937, [32762]);
    (194938, [32773]); (194939, [156890]); (194940, [156963]);
    (194941, [32864]); (194942, [157096]); (194943, [32880]);
    (194944, [144223]); (194945, [17365]); (194946, [32946]);
    (194947, [33027]); (194948, [17419]); (194949, [33086]);
    (194950, [23221]); (194951, [157607]); (194952, [157621]);
    (194953, [144275]); (194954, [144284]); (194955, [33281]);
    (194956, [33284]); (194957, [36766]); (194958, [17515]);
    (194959, [33425]); (194960, [33419]); (194961, [33437]);
    (194962, [21171]); (194963, [33457]); (194964, [33459]);
    (194965, [33469]); (194966, [33510]); (194967, [158524]);
    (194968, [33509]); (194969, [33565]); (194970, [33635]);
    (194971, [33709]); (194972, [33571]); (194973, [33725]);
    (194974, [33767]); (194975, [33879]); (194976, [33619]);
    (194977, [33738]); (194978, [33740]); (194979, [33756]);
    (194980, [158774]); (194981, [159083]); (194982, [158933]);
    (194983, [17707]); (194984, [34033]); (194985, [34035]);
    (194986, [34070]); (194987, [160714]); (194988, [34148]);
    (194989, [159532]); (194990, [17757]); (194991, [17761]);
    (194992, [159665]); (194993, [159954]); (194994, [17771]);
    (194995, [34384]); (194996, [34396]); (194997, [34407]);
    (194998, [34409]); (194999, [34473]); (195000, [34440]);
    (195001, [34574]); (195002, [34530]); (195003, [34681]);
    (195004, [34600]); (195005, [34667]); (195006, [34694]);
    (195007, [17879]); (195008, [34785]); (195009, [34817]);
    (195010, [17913]); (195011, [34912]); (195012, [34915]);
    (195013, [161383]); (195014, [35031]); (195015, [35038]);
    (195016, [17973]); (195017, [35066]); (195018, [13499]);
    (195019, [161966]); (195020, [162150]); (195021, [18110]);
    (195022, [18119]); (195023, [35488]); (195024, [35565]);
    (195025, [35722]); (195026, [35925]); (195027, [162984]);
    (195028, [36011]); (195029, [36033]); (195030, [36123]);
    (195031, [36215]); (195032, [163631]); (195033, [133124]);
    (195034, [36299]); (195035, [36284]); (195036, [36336]);
    (195037, [133342]); (195038, [36564]); (195039, [36664]);
    (195040, [165330]); (195041, [165357]); (195042, [37012]);
    (195043, [37105]); (195044, [37137]); (195045, [165678]);
    (195046, [37147]); (195047, [37432]); (195048, [37591]);
    (195049, [37592]); (195050, [37500]); (195051, [37881]);
    (195052, [37909]); (195053, [166906]); (195054, [38283]);
    (195055, [18837]); (195056, [38327]); (195057, [167287]);
    (195058, [18918]); (195059, [38595]); (195060, [23986]);
    (195061, [38691]); (195062, [168261]); (195063, [168474]);
    (195064, [19054]); (195065, [19062]); (195066, [38880]);
    (195067, [168970]); (195068, [19122]); (195069, [169110]);
    (195070, [38923]); (195071, [38923]); (195072, [38953]);
    (195073, [169398]); (195074, [39138]); (195075, [19251]);
    (195076, [39209]); (195077, [39335]); (195078, [39362]);
    (195079, [39422]); (195080, [19406]); (195081, [170800]);
    (195082, [39698]); (195083, [40000]); (195084, [40189]);
    (195085, [19662]); (195086, [19693]); (195087, [40295]);
    (195088, [172238]); (195089, [19704]); (195090, [172293]);
    (195091, [172558]); (195092, [172689]); (195093, [40635]);
    (195094, [19798]); (195095, [40697]); (195096, [40702]);
    (195097, [40709]); (195098, [40719]); (195099, [40726]);
    (195100, [40763]); (195101, [173568])
  ].

(** Ranges [(first, last, class)]. *)
Definition combining_class_table : list (N * N * N) :=
  [
    (768, 788, 230); (789, 789, 232); (790, 793, 220); (794, 794, 232);
    (795, 795, 216); (796, 800, 220); (801, 802, 202); (803, 806, 220);
    (807, 808, 202); (809, 819, 220); (820, 824, 1); (825, 828, 220);
    (829, 836, 230); (837, 837, 240); (838, 838, 230); (839, 841, 220);
    (842, 844, 230); (845, 846, 220); (848, 850, 230); (851, 854, 220);
    (855, 855, 230); (856, 856, 232); (857, 858, 220); (859, 859, 230);
    (860, 860, 233); (861, 862, 234); (863, 863, 233); (864, 865, 234);
    (866, 866, 233); (867, 879, 230); (1155, 1159, 230); (1425, 1425, 220);
    (1426, 1429, 230); (1430, 1430, 220); (1431, 1433, 230);
    (1434, 1434, 222); (1435, 1435, 220); (1436, 1441, 230);
    (1442, 1447, 220); (1448, 1449, 230); (1450, 1450, 220);
    (1451, 1452, 230); (1453, 1453, 222); (1454, 1454, 228);
    (1455, 1455, 230); (1456, 1456, 10); (1457, 1457, 11); (1458, 1458, 12);
    (1459, 1459, 13); (1460, 1460, 14); (1461, 1461, 15); (1462, 1462, 16);
    (1463, 1463, 17); (1464, 1464, 18); (1465, 1466, 19); (1467, 1467, 20);
    (1468, 1468, 21); (1469, 1469, 22); (1471, 1471, 23); (1473, 1473, 24);
    (1474, 1474, 25); (1476, 1476, 230); (1477, 1477, 220); (1479, 1479, 18);
    (1552, 1559, 230); (1560, 1560, 30); (1561, 1561, 31); (1562, 1562, 32);
    (1611, 1611, 27); (1612, 1612, 28); (1613, 1613, 29); (1614, 1614, 30);
    (1615, 1615, 31); (1616, 1616, 32); (1617, 1617, 33); (1618, 1618, 34);
    (1619, 1620, 230); (1621, 1622, 220); (1623, 1627, 230);
    (1628, 1628, 220); (1629, 1630, 230); (1631, 1631, 220);
    (1648, 1648, 35); (1750, 1756, 230); (1759, 1762, 230);
    (1763, 1763, 220); (1764, 1764, 230); (1767, 1768, 230);
    (1770, 1770, 220); (1771, 1772, 230); (1773, 1773, 220);
    (1809, 1809, 36); (1840, 1840, 230); (1841, 1841, 220);
    (1842, 1843, 230); (1844, 1844, 220); (1845, 1846, 230);
    (1847, 1849, 220); (1850, 1850, 230); (1851, 1852, 220);
    (1853, 1853, 230); (1854, 1854, 220); (1855, 1857, 230);
    (1858, 1858, 220); (1859, 1859, 230); (1860, 1860, 220);
    (1861, 1861, 230); (1862, 1862, 220); (1863, 1863, 230);
    (1864, 1864, 220); (1865, 1866, 230); (2027, 2033, 230);
    (2034, 2034, 220); (2035, 2035, 230); (2045, 2045, 220);
    (2070, 2073, 230); (2075, 2083, 230); (2085, 2087, 230);
    (2089, 2093, 230); (2137, 2139, 220); (2200, 2200, 230);
    (2201, 2203, 220); (2204, 2207, 230); (2250, 2254, 230);
    (2255, 2259, 220); (2260, 2273, 230); (2275, 2275, 220);
    (2276, 2277, 230); (2278, 2278, 220); (2279, 2280, 230);
    (2281, 2281, 220); (2282, 2284, 230); (2285, 2287, 220);
    (2288, 2288, 27); (2289, 2289, 28); (2290, 2290, 29); (2291, 2293, 230);
    (2294, 2294, 220); (2295, 2296, 230); (2297, 2298, 220);
    (2299, 2303, 230); (2364, 2364, 7); (2381, 2381, 9); (2385, 2385, 230);
    (2386, 2386, 220); (2387, 2388, 230); (2492, 2492, 7); (2509, 2509, 9);
    (2558, 2558, 230); (2620, 2620, 7); (2637, 2637, 9); (2748, 2748, 7);
    (2765, 2765, 9); (2876, 2876, 7); (2893, 2893, 9); (3021, 3021, 9);
    (3132, 3132, 7); (3149, 3149, 9); (3157, 3157, 84); (3158, 3158, 91);
    (3260, 3260, 7); (3277, 3277, 9); (3387, 3388, 9); (3405, 3405, 9);
    (3530, 3530, 9); (3640, 3641, 103); (3642, 3642, 9); (3656, 3659, 107);
    (3768, 3769, 118); (3770, 3770, 9); (3784, 3787, 122); (3864, 3865, 220);
    (3893, 3893, 220); (3895, 3895, 220); (3897, 3897, 216);
    (3953, 3953, 129); (3954, 3954, 130); (3956, 3956, 132);
    (3962, 3965, 130); (3968, 3968, 130); (3970, 3971, 230); (3972, 3972, 9);
    (3974, 3975, 230); (4038, 4038, 220); (4151, 4151, 7); (4153, 4154, 9);
    (4237, 4237, 220); (4957, 4959, 230); (5908, 5909, 9); (5940, 5940, 9);
    (6098, 6098, 9); (6109, 6109, 230); (6313, 6313, 228); (6457, 6457, 222);
    (6458, 6458, 230); (6459, 6459, 220); (6679, 6679, 230);
    (6680, 6680, 220); (6752, 6752, 9); (6773, 6780, 230); (6783, 6783, 220);
    (6832, 6836, 230); (6837, 6842, 220); (6843, 6844, 230);
    (6845, 6845, 220); (6847, 6848, 220); (6849, 6850, 230);
    (6851, 6852, 220); (6853, 6857, 230); (6858, 6858, 220);
    (6859, 6862, 230); (6964, 6964, 7); (6980, 6980, 9); (7019, 7019, 230);
    (7020, 7020, 220); (7021, 7027, 230); (7082, 7083, 9); (7142, 7142, 7);
    (7154, 7155, 9); (7223, 7223, 7); (7376, 7378, 230); (7380, 7380, 1);
    (7381, 7385, 220); (7386, 7387, 230); (7388, 7391, 220);
    (7392, 7392, 230); (7394, 7400, 1); (7405, 7405, 220); (7412, 7412, 230);
    (7416, 7417, 230); (7616, 7617, 230); (7618, 7618, 220);
    (7619, 7625, 230); (7626, 7626, 220); (7627, 7628, 230);
    (7629, 7629, 234); (7630, 7630, 214); (7631, 7631, 220);
    (7632, 7632, 202); (7633, 7669, 230); (7670, 7670, 232);
    (7671, 7672, 228); (7673, 7673, 220); (7674, 7674, 218);
    (7675, 7675, 230); (7676, 7676, 233); (7677, 7677, 220);
    (7678, 7678, 230); (7679, 7679, 220); (8400, 8401, 230); (8402, 8403, 1);
    (8404, 8407, 230); (8408, 8410, 1); (8411, 8412, 230); (8417, 8417, 230);
    (8421, 8422, 1); (8423, 8423, 230); (8424, 8424, 220); (8425, 8425, 230);
    (8426, 8427, 1); (8428, 8431, 220); (8432, 8432, 230);
    (11503, 11505, 230); (11647, 11647, 9); (11744, 11775, 230);
    (12330, 12330, 218); (12331, 12331, 228); (12332, 12332, 232);
    (12333, 12333, 222); (12334, 12335, 224); (12441, 12442, 8);
    (42607, 42607, 230); (42612, 42621, 230); (42654, 42655, 230);
    (42736, 42737, 230); (43014, 43014, 9); (43052, 43052, 9);
    (43204, 43204, 9); (43232, 43249, 230); (43307, 43309, 220);
    (43347, 43347, 9); (43443, 43443, 7); (43456, 43456, 9);
    (43696, 43696, 230); (43698, 43699, 230); (43700, 43700, 220);
    (43703, 43704, 230); (43710, 43711, 230); (43713, 43713, 230);
    (43766, 43766, 9); (44013, 44013, 9); (64286, 64286, 26);
    (65056, 65062, 230); (65063, 65069, 220); (65070, 65071, 230);
    (66045, 66045, 220); (66272, 66272, 220); (66422, 66426, 230);
    (68109, 68109, 220); (68111, 68111, 230); (68152, 68152, 230);
    (68153, 68153, 1); (68154, 68154, 220); (68159, 68159, 9);
    (68325, 68325, 230); (68326, 68326, 220); (68900, 68903, 230);
    (69291, 69292, 230); (69446, 69447, 220); (69448, 69450, 230);
    (69451, 69451, 220); (69452, 69452, 230); (69453, 69456, 220);
    (69506, 69506, 230); (69507, 69507, 220); (69508, 69508, 230);
    (69509, 69509, 220); (69702, 69702, 9); (69744, 69744, 9);
    (69759, 69759, 9); (69817, 69817, 9); (69818, 69818, 7);
    (69888, 69890, 230); (69939, 69940, 9); (70003, 70003, 7);
    (70080, 70080, 9); (70090, 70090, 7); (70197, 70197, 9);
    (70198, 70198, 7); (70377, 70377, 7); (70378, 70378, 9);
    (70459, 70460, 7); (70477, 70477, 9); (70502, 70508, 230);
    (70512, 70516, 230); (70722, 70722, 9); (70726, 70726, 7);
    (70750, 70750, 230); (70850, 70850, 9); (70851, 70851, 7);
    (71103, 71103, 9); (71104, 71104, 7); (71231, 71231, 9);
    (71350, 71350, 9); (71351, 71351, 7); (71467, 71467, 9);
    (71737, 71737, 9); (71738, 71738, 7); (71997, 71998, 9);
    (72003, 72003, 7); (72160, 72160, 9); (72244, 72244, 9);
    (72263, 72263, 9); (72345, 72345, 9); (72767, 72767, 9);
    (73026, 73026, 7); (73028, 73029, 9); (73111, 73111, 9);
    (92912, 92916, 1); (92976, 92982, 230); (94192, 94193, 6);
    (113822, 113822, 1); (119141, 119142, 216); (119143, 119145, 1);
    (119149, 119149, 226); (119150, 119154, 216); (119163, 119170, 220);
    (119173, 119177, 230); (119178, 119179, 220); (119210, 119213, 230);
    (119362, 119364, 230); (122880, 122886, 230); (122888, 122904, 230);
    (122907, 122913, 230); (122915, 122916, 230); (122918, 122922, 230);
    (123184, 123190, 230); (123566, 123566, 230); (123628, 123631, 230);
    (125136, 125142, 220); (125252, 125257, 230); (125258, 125258, 7)
  ].

Definition lowercase_table : list (N * list N) :=
  [
    (65, [97]); (66, [98]); (67, [99]); (68, [100]); (69, [101]);
    (70, [102]); (71, [103]); (72, [104]); (73, [105]); (74, [106]);
    (75, [107]); (76, [108]); (77, [109]); (78, [110]); (79, [111]);
    (80, [112]); (81, [113]); (82, [114]); (83, [115]); (84, [116]);
    (85, [117]); (86, [118]); (87, [119]); (88, [120]); (89, [121]);
    (90, [122]); (192, [224]); (193, [225]); (194, [226]); (195, [227]);
    (196, [228]); (197, [229]); (198, [230]); (199, [231]); (200, [232]);
    (201, [233]); (202, [234]); (203, [235]); (204, [236]); (205, [237]);
    (206, [238]); (207, [239]); (208, [240]); (209, [241]); (210, [242]);
    (211, [243]); (212, [244]); (213, [245]); (214, [246]); (216, [248]);
    (217, [249]); (218, [250]); (219, [251]); (220, [252]); (221, [253]);
    (222, [254]); (256, [257]); (258, [259]); (260, [261]); (262, [263]);
    (264, [265]); (266, [267]); (268, [269]); (270, [271]); (272, [273]);
    (274, [275]); (276, [277]); (278, [279]); (280, [281]); (282, [283]);
    (284, [285]); (286, [287]); (288, [289]); (290, [291]); (292, [293]);
    (294, [295]); (296, [297]); (298, [299]); (300, [301]); (302, [303]);
    (304, [105; 775]); (306, [307]); (308, [309]); (310, [311]);
    (313, [314]); (315, [316]); (317, [318]); (319, [320]); (321, [322]);
    (323, [324]); (325, [326]); (327, [328]); (330, [331]); (332, [333]);
    (334, [335]); (336, [337]); (338, [339]); (340, [341]); (342, [343]);
    (344, [345]); (346, [347]); (348, [349]); (350, [351]); (352, [353]);
    (354, [355]); (356, [357]); (358, [359]); (360, [361]); (362, [363]);
    (364, [365]); (366, [367]); (368, [369]); (370, [371]); (372, [373]);
    (374, [375]); (376, [255]); (377, [378]); (379, [380]); (381, [382]);
    (385, [595]); (386, [387]); (388, [389]); (390, [596]); (391, [392]);
    (393, [598]); (394, [599]); (395, [396]); (398, [477]); (399, [601]);
    (400, [603]); (401, [402]); (403, [608]); (404, [611]); (406, [617]);
    (407, [616]); (408, [409]); (412, [623]); (413, [626]); (415, [629]);
    (416, [417]); (418, [419]); (420, [421]); (422, [640]); (423, [424]);
    (425, [643]); (428, [429]); (430, [648]); (431, [432]); (433, [650]);
    (434, [651]); (435, [436]); (437, [438]); (439, [658]); (440, [441]);
    (444, [445]); (452, [454]); (453, [454]); (455, [457]); (456, [457]);
    (458, [460]); (459, [460]); (461, [462]); (463, [464]); (465, [466]);
    (467, [468]); (469, [470]); (471, [472]); (473, [474]); (475, [476]);
    (478, [479]); (480, [481]); (482, [483]); (484, [485]); (486, [487]);
    (488, [489]); (490, [491]); (492, [493]); (494, [495]); (497, [499]);
    (498, [499]); (500, [501]); (502, [405]); (503, [447]); (504, [505]);
    (506, [507]); (508, [509]); (510, [511]); (512, [513]); (514, [515]);
    (516, [517]); (518, [519]); (520, [521]); (522, [523]); (524, [525]);
    (526, [527]); (528, [529]); (530, [531]); (532, [533]); (534, [535]);
    (536, [537]); (538, [539]); (540, [541]); (542, [543]); (544, [414]);
    (546, [547]); (548, [549]); (550, [551]); (552, [553]); (554, [555]);
    (556, [557]); (558, [559]); (560, [561]); (562, [563]); (570, [11365]);
    (571, [572]); (573, [410]); (574, [11366]); (577, [578]); (579, [384]);
    (580, [649]); (581, [652]); (582, [583]); (584, [585]); (586, [587]);
    (588, [589]); (590, [591]); (880, [881]); (882, [883]); (886, [887]);
    (895, [1011]); (902, [940]); (904, [941]); (905, [942]); (906, [943]);
    (908, [972]); (910, [973]); (911, [974]); (913, [945]); (914, [946]);
    (915, [947]); (916, [948]); (917, [949]); (918, [950]); (919, [951]);
    (920, [952]); (921, [953]); (922, [954]); (923, [955]); (924, [956]);
    (925, [957]); (926, [958]); (927, [959]); (928, [960]); (929, [961]);
    (931, [963]); (932, [964]); (933, [965]); (934, [966]); (935, [967]);
    (936, [968]); (937, [969]); (938, [970]); (939, [971]); (975, [983]);
    (984, [985]); (986, [987]); (988, [989]); (990, [991]); (992, [993]);
    (994, [995]); (996, [997]); (998, [999]); (1000, [1001]); (1002, [1003]);
    (1004, [1005]); (1006, [1007]); (1012, [952]); (1015, [1016]);
    (1017, [1010]); (1018, [1019]); (1021, [891]); (1022, [892]);
    (1023, [893]); (1024, [1104]); (1025, [1105]); (1026, [1106]);
    (1027, [1107]); (1028, [1108]); (1029, [1109]); (1030, [1110]);
    (1031, [1111]); (1032, [1112]); (1033, [1113]); (1034, [1114]);
    (1035, [1115]); (1036, [1116]); (1037, [1117]); (1038, [1118]);
    (1039, [1119]); (1040, [1072]); (1041, [1073]); (1042, [1074]);
    (1043, [1075]); (1044, [1076]); (1045, [1077]); (1046, [1078]);
    (1047, [1079]); (1048, [1080]); (1049, [1081]); (1050, [1082]);
    (1051, [1083]); (1052, [1084]); (1053, [1085]); (1054, [1086]);
    (1055, [1087]); (1056, [1088]); (1057, [1089]); (1058, [1090]);
    (1059, [1091]); (1060, [1092]); (1061, [1093]); (1062, [1094]);
    (1063, [1095]); (1064, [1096]); (1065, [1097]); (1066, [1098]);
    (1067, [1099]); (1068, [1100]); (1069, [1101]); (1070, [1102]);
    (1071, [1103]); (1120, [1121]); (1122, [1123]); (1124, [1125]);
    (1126, [1127]); (1128, [1129]); (1130, [1131]); (1132, [1133]);
    (1134, [1135]); (1136, [1137]); (1138, [1139]); (1140, [1141]);
    (1142, [1143]); (1144, [1145]); (1146, [1147]); (1148, [1149]);
    (1150, [1151]); (1152, [1153]); (1162, [1163]); (1164, [1165]);
    (1166, [1167]); (1168, [1169]); (1170, [1171]); (1172, [1173]);
    (1174, [1175]); (1176, [1177]); (1178, [1179]); (1180, [1181]);
    (1182, [1183]); (1184, [1185]); (1186, [1187]); (1188, [1189]);
    (1190, [1191]); (1192, [1193]); (1194, [1195]); (1196, [1197]);
    (1198, [1199]); (1200, [1201]); (1202, [1203]); (1204, [1205]);
    (1206, [1207]); (1208, [1209]); (1210, [1211]); (1212, [1213]);
    (1214, [1215]); (1216, [1231]); (1217, [1218]); (1219, [1220]);
    (1221, [1222]); (1223, [1224]); (1225, [1226]); (1227, [1228]);
    (1229, [1230]); (1232, [1233]); (1234, [1235]); (1236, [1237]);
    (1238, [1239]); (1240, [1241]); (1242, [1243]); (1244, [1245]);
    (1246, [1247]); (1248, [1249]); (1250, [1251]); (1252, [1253]);
    (1254, [1255]); (1256, [1257]); (1258, [1259]); (1260, [1261]);
    (1262, [1263]); (1264, [1265]); (1266, [1267]); (1268, [1269]);
    (1270, [1271]); (1272, [1273]); (1274, [1275]); (1276, [1277]);
    (1278, [1279]); (1280, [1281]); (1282, [1283]); (1284, [1285]);
    (1286, [1287]); (1288, [1289]); (1290, [1291]); (1292, [1293]);
    (1294, [1295]); (1296, [1297]); (1298, [1299]); (1300, [1301]);
    (1302, [1303]); (1304, [1305]); (1306, [1307]); (1308, [1309]);
    (1310, [1311]); (1312, [1313]); (1314, [1315]); (1316, [1317]);
    (1318, [1319]); (1320, [1321]); (1322, [1323]); (1324, [1325]);
    (1326, [1327]); (1329, [1377]); (1330, [1378]); (1331, [1379]);
    (1332, [1380]); (1333, [1381]); (1334, [1382]); (1335, [1383]);
    (1336, [1384]); (1337, [1385]); (1338, [1386]); (1339, [1387]);
    (1340, [1388]); (1341, [1389]); (1342, [1390]); (1343, [1391]);
    (1344, [1392]); (1345, [1393]); (1346, [1394]); (1347, [1395]);
    (1348, [1396]); (1349, [1397]); (1350, [1398]); (1351, [1399]);
    (1352, [1400]); (1353, [1401]); (1354, [1402]); (1355, [1403]);
    (1356, [1404]); (1357, [1405]); (1358, [1406]); (1359, [1407]);
    (1360, [1408]); (1361, [1409]); (1362, [1410]); (1363, [1411]);
    (1364, [1412]); (1365, [1413]); (1366, [1414]); (4256, [11520]);
    (4257, [11521]); (4258, [11522]); (4259, [11523]); (4260, [11524]);
    (4261, [11525]); (4262, [11526]); (4263, [11527]); (4264, [11528]);
    (4265, [11529]); (4266, [11530]); (4267, [11531]); (4268, [11532]);
    (4269, [11533]); (4270, [11534]); (4271, [11535]); (4272, [11536]);
    (4273, [11537]); (4274, [11538]); (4275, [11539]); (4276, [11540]);
    (4277, [11541]); (4278, [11542]); (4279, [11543]); (4280, [11544]);
    (4281, [11545]); (4282, [11546]); (4283, [11547]); (4284, [11548]);
    (4285, [11549]); (4286, [11550]); (4287, [11551]); (4288, [11552]);
    (4289, [11553]); (4290, [11554]); (4291, [11555]); (4292, [11556]);
    (4293, [11557]); (4295, [11559]); (4301, [11565]); (5024, [43888]);
    (5025, [43889]); (5026, [43890]); (5027, [43891]); (5028, [43892]);
    (5029, [43893]); (5030, [43894]); (5031, [43895]); (5032, [43896]);
    (5033, [43897]); (5034, [43898]); (5035, [43899]); (5036, [43900]);
    (5037, [43901]); (5038, [43902]); (5039, [43903]); (5040, [43904]);
    (5041, [43905]); (5042, [43906]); (5043, [43907]); (5044, [43908]);
    (5045, [43909]); (5046, [43910]); (5047, [43911]); (5048, [43912]);
    (5049, [43913]); (5050, [43914]); (5051, [43915]); (5052, [43916]);
    (5053, [43917]); (5054, [43918]); (5055, [43919]); (5056, [43920]);
    (5057, [43921]); (5058, [43922]); (5059, [43923]); (5060, [43924]);
    (5061, [43925]); (5062, [43926]); (5063, [43927]); (5064, [43928]);
    (5065, [43929]); (5066, [43930]); (5067, [43931]); (5068, [43932]);
    (5069, [43933]); (5070, [43934]); (5071, [43935]); (5072, [43936]);
    (5073, [43937]); (5074, [43938]); (5075, [43939]); (5076, [43940]);
    (5077, [43941]); (5078, [43942]); (5079, [43943]); (5080, [43944]);
    (5081, [43945]); (5082, [43946]); (5083, [43947]); (5084, [43948]);
    (5085, [43949]); (5086, [43950]); (5087, [43951]); (5088, [43952]);
    (5089, [43953]); (5090, [43954]); (5091, [43955]); (5092, [43956]);
    (5093, [43957]); (5094, [43958]); (5095, [43959]); (5096, [43960]);
    (5097, [43961]); (5098, [43962]); (5099, [43963]); (5100, [43964]);
    (5101, [43965]); (5102, [43966]); (5103, [43967]); (5104, [5112]);
    (5105, [5113]); (5106, [5114]); (5107, [5115]); (5108, [5116]);
    (5109, [5117]); (7312, [4304]); (7313, [4305]); (7314, [4306]);
    (7315, [4307]); (7316, [4308]); (7317, [4309]); (7318, [4310]);
    (7319, [4311]); (7320, [4312]); (7321, [4313]); (7322, [4314]);
    (7323, [4315]); (7324, [4316]); (7325, [4317]); (7326, [4318]);
    (7327, [4319]); (7328, [4320]); (7329, [4321]); (7330, [4322]);
    (7331, [4323]); (7332, [4324]); (7333, [4325]); (7334, [4326]);
    (7335, [4327]); (7336, [4328]); (7337, [4329]); (7338, [4330]);
    (7339, [4331]); (7340, [4332]); (7341, [4333]); (7342, [4334]);
    (7343, [4335]); (7344, [4336]); (7345, [4337]); (7346, [4338]);
    (7347, [4339]); (7348, [4340]); (7349, [4341]); (7350, [4342]);
    (7351, [4343]); (7352, [4344]); (7353, [4345]); (7354, [4346]);
    (7357, [4349]); (7358, [4350]); (7359, [4351]); (7680, [7681]);
    (7682, [7683]); (7684, [7685]); (7686, [7687]); (7688, [7689]);
    (7690, [7691]); (7692, [7693]); (7694, [7695]); (7696, [7697]);
    (7698, [7699]); (7700, [7701]); (7702, [7703]); (7704, [7705]);
    (7706, [7707]); (7708, [7709]); (7710, [7711]); (7712, [7713]);
    (7714, [7715]); (7716, [7717]); (7718, [7719]); (7720, [7721]);
    (7722, [7723]); (7724, [7725]); (7726, [7727]); (7728, [7729]);
    (7730, [7731]); (7732, [7733]); (7734, [7735]); (7736, [7737]);
    (7738, [7739]); (7740, [7741]); (7742, [7743]); (7744, [7745]);
    (7746, [7747]); (7748, [7749]); (7750, [7751]); (7752, [7753]);
    (7754, [7755]); (7756, [7757]); (7758, [7759]); (7760, [7761]);
    (7762, [7763]); (7764, [7765]); (7766, [7767]); (7768, [7769]);
    (7770, [7771]); (7772, [7773]); (7774, [7775]); (7776, [7777]);
    (7778, [7779]); (7780, [7781]); (7782, [7783]); (7784, [7785]);
    (7786, [7787]); (7788, [7789]); (7790, [7791]); (7792, [7793]);
    (7794, [7795]); (7796, [7797]); (7798, [7799]); (7800, [7801]);
    (7802, [7803]); (7804, [7805]); (7806, [7807]); (7808, [7809]);
    (7810, [7811]); (7812, [7813]); (7814, [7815]); (7816, [7817]);
    (7818, [7819]); (7820, [7821]); (7822, [7823]); (7824, [7825]);
    (7826, [7827]); (7828, [7829]); (7838, [223]); (7840, [7841]);
    (7842, [7843]); (7844, [7845]); (7846, [7847]); (7848, [7849]);
    (7850, [7851]); (7852, [7853]); (7854, [7855]); (7856, [7857]);
    (7858, [7859]); (7860, [7861]); (7862, [7863]); (7864, [7865]);
    (7866, [7867]); (7868, [7869]); (7870, [7871]); (7872, [7873]);
    (7874, [7875]); (7876, [7877]); (7878, [7879]); (7880, [7881]);
    (7882, [7883]); (7884, [7885]); (7886, [7887]); (7888, [7889]);
    (7890, [7891]); (7892, [7893]); (7894, [7895]); (7896, [7897]);
    (7898, [7899]); (7900, [7901]); (7902, [7903]); (7904, [7905]);
    (7906, [7907]); (7908, [7909]); (7910, [7911]); (7912, [7913]);
    (7914, [7915]); (7916, [7917]); (7918, [7919]); (7920, [7921]);
    (7922, [7923]); (7924, [7925]); (7926, [7927]); (7928, [7929]);
    (7930, [7931]); (7932, [7933]); (7934, [7935]); (7944, [7936]);
    (7945, [7937]); (7946, [7938]); (7947, [7939]); (7948, [7940]);
    (7949, [7941]); (7950, [7942]); (7951, [7943]); (7960, [7952]);
    (7961, [7953]); (7962, [7954]); (7963, [7955]); (7964, [7956]);
    (7965, [7957]); (7976, [7968]); (7977, [7969]); (7978, [7970]);
    (7979, [7971]); (7980, [7972]); (7981, [7973]); (7982, [7974]);
    (7983, [7975]); (7992, [7984]); (7993, [7985]); (7994, [7986]);
    (7995, [7987]); (7996, [7988]); (7997, [7989]); (7998, [7990]);
    (7999, [7991]); (8008, [8000]); (8009, [8001]); (8010, [8002]);
    (8011, [8003]); (8012, [8004]); (8013, [8005]); (8025, [8017]);
    (8027, [8019]); (8029, [8021]); (8031, [8023]); (8040, [8032]);
    (8041, [8033]); (8042, [8034]); (8043, [8035]); (8044, [8036]);
    (8045, [8037]); (8046, [8038]); (8047, [8039]); (8072, [8064]);
    (8073, [8065]); (8074, [8066]); (8075, [8067]); (8076, [8068]);
    (8077, [8069]); (8078, [8070]); (8079, [8071]); (8088, [8080]);
    (8089, [8081]); (8090, [8082]); (8091, [8083]); (8092, [8084]);
    (8093, [8085]); (8094, [8086]); (8095, [8087]); (8104, [8096]);
    (8105, [8097]); (8106, [8098]); (8107, [8099]); (8108, [8100]);
    (8109, [8101]); (8110, [8102]); (8111, [8103]); (8120, [8112]);
    (8121, [8113]); (8122, [8048]); (8123, [8049]); (8124, [8115]);
    (8136, [8050]); (8137, [8051]); (8138, [8052]); (8139, [8053]);
    (8140, [8131]); (8152, [8144]); (8153, [8145]); (8154, [8054]);
    (8155, [8055]); (8168, [8160]); (8169, [8161]); (8170, [8058]);
    (8171, [8059]); (8172, [8165]); (8184, [8056]); (8185, [8057]);
    (8186, [8060]); (8187, [8061]); (8188, [8179]); (8486, [969]);
    (8490, [107]); (8491, [229]); (8498, [8526]); (8544, [8560]);
    (8545, [8561]); (8546, [8562]); (8547, [8563]); (8548, [8564]);
    (8549, [8565]); (8550, [8566]); (8551, [8567]); (8552, [8568]);
    (8553, [8569]); (8554, [8570]); (8555, [8571]); (8556, [8572]);
    (8557, [8573]); (8558, [8574]); (8559, [8575]); (8579, [8580]);
    (9398, [9424]); (9399, [9425]); (9400, [9426]); (9401, [9427]);
    (9402, [9428]); (9403, [9429]); (9404, [9430]); (9405, [9431]);
    (9406, [9432]); (9407, [9433]); (9408, [9434]); (9409, [9435]);
    (9410, [9436]); (9411, [9437]); (9412, [9438]); (9413, [9439]);
    (9414, [9440]); (9415, [9441]); (9416, [9442]); (9417, [9443]);
    (9418, [9444]); (9419, [9445]); (9420, [9446]); (9421, [9447]);
    (9422, [9448]); (9423, [9449]); (11264, [11312]); (11265, [11313]);
    (11266, [11314]); (11267, [11315]); (11268, [11316]); (11269, [11317]);
    (11270, [11318]); (11271, [11319]); (11272, [11320]); (11273, [11321]);
    (11274, [11322]); (11275, [11323]); (11276, [11324]); (11277, [11325]);
    (11278, [11326]); (11279, [11327]); (11280, [11328]); (11281, [11329]);
    (11282, [11330]); (11283, [11331]); (11284, [11332]); (11285, [11333]);
    (11286, [11334]); (11287, [11335]); (11288, [11336]); (11289, [11337]);
    (11290, [11338]); (11291, [11339]); (11292, [11340]); (11293, [11341]);
    (11294, [11342]); (11295, [11343]); (11296, [11344]); (11297, [11345]);
    (11298, [11346]); (11299, [11347]); (11300, [11348]); (11301, [11349]);
    (11302, [11350]); (11303, [11351]); (11304, [11352]); (11305, [11353]);
    (11306, [11354]); (11307, [11355]); (11308, [11356]); (11309, [11357]);
    (11310, [11358]); (11311, [11359]); (11360, [11361]); (11362, [619]);
    (11363, [7549]); (11364, [637]); (11367, [11368]); (11369, [11370]);
    (11371, [11372]); (11373, [593]); (11374, [625]); (11375, [592]);
    (11376, [594]); (11378, [11379]); (11381, [11382]); (11390, [575]);
    (11391, [576]); (11392, [11393]); (11394, [11395]); (11396, [11397]);
    (11398, [11399]); (11400, [11401]); (11402, [11403]); (11404, [11405]);
    (11406, [11407]); (11408, [11409]); (11410, [11411]); (11412, [11413]);
    (11414, [11415]); (11416, [11417]); (11418, [11419]); (11420, [11421]);
    (11422, [11423]); (11424, [11425]); (11426, [11427]); (11428, [11429]);
    (11430, [11431]); (11432, [11433]); (11434, [11435]); (11436, [11437]);
    (11438, [11439]); (11440, [11441]); (11442, [11443]); (11444, [11445]);
    (11446, [11447]); (11448, [11449]); (11450, [11451]); (11452, [11453]);
    (11454, [11455]); (11456, [11457]); (11458, [11459]); (11460, [11461]);
    (11462, [11463]); (11464, [11465]); (11466, [11467]); (11468, [11469]);
    (11470, [11471]); (11472, [11473]); (11474, [11475]); (11476, [11477]);
    (11478, [11479]); (11480, [11481]); (11482, [11483]); (11484, [11485]);
    (11486, [11487]); (11488, [11489]); (11490, [11491]); (11499, [11500]);
    (11501, [11502]); (11506, [11507]); (42560, [42561]); (42562, [42563]);
    (42564, [42565]); (42566, [42567]); (42568, [42569]); (42570, [42571]);
    (42572, [42573]); (42574, [42575]); (42576, [42577]); (42578, [42579]);
    (42580, [42581]); (42582, [42583]); (42584, [42585]); (42586, [42587]);
    (42588, [42589]); (42590, [42591]); (42592, [42593]); (42594, [42595]);
    (42596, [42597]); (42598, [42599]); (42600, [42601]); (42602, [42603]);
    (42604, [42605]); (42624, [42625]); (42626, [42627]); (42628, [42629]);
    (42630, [42631]); (42632, [42633]); (42634, [42635]); (42636, [42637]);
    (42638, [42639]); (42640, [42641]); (42642, [42643]); (42644, [42645]);
    (42646, [42647]); (42648, [42649]); (42650, [42651]); (42786, [42787]);
    (42788, [42789]); (42790, [42791]); (42792, [42793]); (42794, [42795]);
    (42796, [42797]); (42798, [42799]); (42802, [42803]); (42804, [42805]);
    (42806, [42807]); (42808, [42809]); (42810, [42811]); (42812, [42813]);
    (42814, [42815]); (42816, [42817]); (42818, [42819]); (42820, [42821]);
    (42822, [42823]); (42824, [42825]); (42826, [42827]); (42828, [42829]);
    (42830, [42831]); (42832, [42833]); (42834, [42835]); (42836, [42837]);
    (42838, [42839]); (42840, [42841]); (42842, [42843]); (42844, [42845]);
    (42846, [42847]); (42848, [42849]); (42850, [42851]); (42852, [42853]);
    (42854, [42855]); (42856, [42857]); (42858, [42859]); (42860, [42861]);
    (42862, [42863]); (42873, [42874]); (42875, [42876]); (42877, [7545]);
    (42878, [42879]); (42880, [42881]); (42882, [42883]); (42884, [42885]);
    (42886, [42887]); (42891, [42892]); (42893, [613]); (42896, [42897]);
    (42898, [42899]); (42902, [42903]); (42904, [42905]); (42906, [42907]);
    (42908, [42909]); (42910, [42911]); (42912, [42913]); (42914, [42915]);
    (42916, [42917]); (42918, [42919]); (42920, [42921]); (42922, [614]);
    (42923, [604]); (42924, [609]); (42925, [620]); (42926, [618]);
    (42928, [670]); (42929, [647]); (42930, [669]); (42931, [43859]);
    (42932, [42933]); (42934, [42935]); (42936, [42937]); (42938, [42939]);
    (42940, [42941]); (42942, [42943]); (42944, [42945]); (42946, [42947]);
    (42948, [42900]); (42949, [642]); (42950, [7566]); (42951, [42952]);
    (42953, [42954]); (42960, [42961]); (42966, [42967]); (42968, [42969]);
    (42997, [42998]); (65313, [65345]); (65314, [65346]); (65315, [65347]);
    (65316, [65348]); (65317, [65349]); (65318, [65350]); (65319, [65351]);
    (65320, [65352]); (65321, [65353]); (65322, [65354]); (65323, [65355]);
    (65324, [65356]); (65325, [65357]); (65326, [65358]); (65327, [65359]);
    (65328, [65360]); (65329, [65361]); (65330, [65362]); (65331, [65363]);
    (65332, [65364]); (65333, [65365]); (65334, [65366]); (65335, [65367]);
    (65336, [65368]); (65337, [65369]); (65338, [65370]); (66560, [66600]);
    (66561, [66601]); (66562, [66602]); (66563, [66603]); (66564, [66604]);
    (66565, [66605]); (66566, [66606]); (66567, [66607]); (66568, [66608]);
    (66569, [66609]); (66570, [66610]); (66571, [66611]); (66572, [66612]);
    (66573, [66613]); (66574, [66614]); (66575, [66615]); (66576, [66616]);
    (66577, [66617]); (66578, [66618]); (66579, [66619]); (66580, [66620]);
    (66581, [66621]); (66582, [66622]); (66583, [66623]); (66584, [66624]);
    (66585, [66625]); (66586, [66626]); (66587, [66627]); (66588, [66628]);
    (66589, [66629]); (66590, [66630]); (66591, [66631]); (66592, [66632]);
    (66593, [66633]); (66594, [66634]); (66595, [66635]); (66596, [66636]);
    (66597, [66637]); (66598, [66638]); (66599, [66639]); (66736, [66776]);
    (66737, [66777]); (66738, [66778]); (66739, [66779]); (66740, [66780]);
    (66741, [66781]); (66742, [66782]); (66743, [66783]); (66744, [66784]);
    (66745, [66785]); (66746, [66786]); (66747, [66787]); (66748, [66788]);
    (66749, [66789]); (66750, [66790]); (66751, [66791]); (66752, [66792]);
    (66753, [66793]); (66754, [66794]); (66755, [66795]); (66756, [66796]);
    (66757, [66797]); (66758, [66798]); (66759, [66799]); (66760, [66800]);
    (66761, [66801]); (66762, [66802]); (66763, [66803]); (66764, [66804]);
    (66765, [66805]); (66766, [66806]); (66767, [66807]); (66768, [66808]);
    (66769, [66809]); (66770, [66810]); (66771, [66811]); (66928, [66967]);
    (66929, [66968]); (66930, [66969]); (66931, [66970]); (66932, [66971]);
    (66933, [66972]); (66934, [66973]); (66935, [66974]); (66936, [66975]);
    (66937, [66976]); (66938, [66977]); (66940, [66979]); (66941, [66980]);
    (66942, [66981]); (66943, [66982]); (66944, [66983]); (66945, [66984]);
    (66946, [66985]); (66947, [66986]); (66948, [66987]); (66949, [66988]);
    (66950, [66989]); (66951, [66990]); (66952, [66991]); (66953, [66992]);
    (66954, [66993]); (66956, [66995]); (66957, [66996]); (66958, [66997]);
    (66959, [66998]); (66960, [66999]); (66961, [67000]); (66962, [67001]);
    (66964, [67003]); (66965, [67004]); (68736, [68800]); (68737, [68801]);
    (68738, [68802]); (68739, [68803]); (68740, [68804]); (68741, [68805]);
    (68742, [68806]); (68743, [68807]); (68744, [68808]); (68745, [68809]);
    (68746, [68810]); (68747, [68811]); (68748, [68812]); (68749, [68813]);
    (68750, [68814]); (68751, [68815]); (68752, [68816]); (68753, [68817]);
    (68754, [68818]); (68755, [68819]); (68756, [68820]); (68757, [68821]);
    (68758, [68822]); (68759, [68823]); (68760, [68824]); (68761, [68825]);
    (68762, [68826]); (68763, [68827]); (68764, [68828]); (68765, [68829]);
    (68766, [68830]); (68767, [68831]); (68768, [68832]); (68769, [68833]);
    (68770, [68834]); (68771, [68835]); (68772, [68836]); (68773, [68837]);
    (68774, [68838]); (68775, [68839]); (68776, [68840]); (68777, [68841]);
    (68778, [68842]); (68779, [68843]); (68780, [68844]); (68781, [68845]);
    (68782, [68846]); (68783, [68847]); (68784, [68848]); (68785, [68849]);
    (68786, [68850]); (71840, [71872]); (71841, [71873]); (71842, [71874]);
    (71843, [71875]); (71844, [71876]); (71845, [71877]); (71846, [71878]);
    (71847, [71879]); (71848, [71880]); (71849, [71881]); (71850, [71882]);
    (71851, [71883]); (71852, [71884]); (71853, [71885]); (71854, [71886]);
    (71855, [71887]); (71856, [71888]); (71857, [71889]); (71858, [71890]);
    (71859, [71891]); (71860, [71892]); (71861, [71893]); (71862, [71894]);
    (71863, [71895]); (71864, [71896]); (71865, [71897]); (71866, [71898]);
    (71867, [71899]); (71868, [71900]); (71869, [71901]); (71870, [71902]);
    (71871, [71903]); (93760, [93792]); (93761, [93793]); (93762, [93794]);
    (93763, [93795]); (93764, [93796]); (93765, [93797]); (93766, [93798]);
    (93767, [93799]); (93768, [93800]); (93769, [93801]); (93770, [93802]);
    (93771, [93803]); (93772, [93804]); (93773, [93805]); (93774, [93806]);
    (93775, [93807]); (93776, [93808]); (93777, [93809]); (93778, [93810]);
    (93779, [93811]); (93780, [93812]); (93781, [93813]); (93782, [93814]);
    (93783, [93815]); (93784, [93816]); (93785, [93817]); (93786, [93818]);
    (93787, [93819]); (93788, [93820]); (93789, [93821]); (93790, [93822]);
    (93791, [93823]); (125184, [125218]); (125185, [125219]);
    (125186, [125220]); (125187, [125221]); (125188, [125222]);
    (125189, [125223]); (125190, [125224]); (125191, [125225]);
    (125192, [125226]); (125193, [125227]); (125194, [125228]);
    (125195, [125229]); (125196, [125230]); (125197, [125231]);
    (125198, [125232]); (125199, [125233]); (125200, [125234]);
    (125201, [125235]); (125202, [125236]); (125203, [125237]);
    (125204, [125238]); (125205, [125239]); (125206, [125240]);
    (125207, [125241]); (125208, [125242]); (125209, [125243]);
    (125210, [125244]); (125211, [125245]); (125212, [125246]);
    (125213, [125247]); (125214, [125248]); (125215, [125249]);
    (125216, [125250]); (125217, [125251])
  ].

(** Ranges [(first, last)]. *)
Definition cased_table : list (N * N) :=
  [
    (65, 90); (97, 122); (170, 170); (181, 181); (186, 186); (192, 214);
    (216, 246); (248, 442); (444, 447); (452, 659); (661, 696); (704, 705);
    (736, 740); (837, 837); (880, 883); (886, 887); (890, 893); (895, 895);
    (902, 902); (904, 906); (908, 908); (910, 929); (931, 1013);
    (1015, 1153); (1162, 1327); (1329, 1366); (1376, 1416); (4256, 4293);
    (4295, 4295); (4301, 4301); (4304, 4346); (4349, 4351); (5024, 5109);
    (5112, 5117); (7296, 7304); (7312, 7354); (7357, 7359); (7424, 7615);
    (7680, 7957); (7960, 7965); (7968, 8005); (8008, 8013); (8016, 8023);
    (8025, 8025); (8027, 8027); (8029, 8029); (8031, 8061); (8064, 8116);
    (8118, 8124); (8126, 8126); (8130, 8132); (8134, 8140); (8144, 8147);
    (8150, 8155); (8160, 8172); (8178, 8180); (8182, 8188); (8305, 8305);
    (8319, 8319); (8336, 8348); (8450, 8450); (8455, 8455); (8458, 8467);
    (8469, 8469); (8473, 8477); (8484, 8484); (8486, 8486); (8488, 8488);
    (8490, 8493); (8495, 8500); (8505, 8505); (8508, 8511); (8517, 8521);
    (8526, 8526); (8544, 8575); (8579, 8580); (9398, 9449); (11264, 11492);
    (11499, 11502); (11506, 11507); (11520, 11557); (11559, 11559);
    (11565, 11565); (42560, 42605); (42624, 42653); (42786, 42887);
    (42891, 42894); (42896, 42954); (42960, 42961); (42963, 42963);
    (42965, 42969); (42997, 42998); (43000, 43002); (43824, 43866);
    (43868, 43880); (43888, 43967); (64256, 64262); (64275, 64279);
    (65313, 65338); (65345, 65370); (66560, 66639); (66736, 66771);
    (66776, 66811); (66928, 66938); (66940, 66954); (66956, 66962);
    (66964, 66965); (66967, 66977); (66979, 66993); (66995, 67001);
    (67003, 67004); (67456, 67456); (67459, 67461); (67463, 67504);
    (67506, 67514); (68736, 68786); (68800, 68850); (71840, 71903);
    (93760, 93823); (119808, 119892); (119894, 119964); (119966, 119967);
    (119970, 119970); (119973, 119974); (119977, 119980); (119982, 119993);
    (119995, 119995); (119997, 120003); (120005, 120069); (120071, 120074);
    (120077, 120084); (120086, 120092); (120094, 120121); (120123, 120126);
    (120128, 120132); (120134, 120134); (120138, 120144); (120146, 120485);
    (120488, 120512); (120514, 120538); (120540, 120570); (120572, 120596);
    (120598, 120628); (120630, 120654); (120656, 120686); (120688, 120712);
    (120714, 120744); (120746, 120770); (120772, 120779); (122624, 122633);
    (122635, 122654); (125184, 125251); (127280, 127305); (127312, 127337);
    (127344, 127369)
  ].

Definition case_ignorable_table : list (N * N) :=
  [
    (39, 39); (46, 46); (58, 58); (94, 94); (96, 96); (168, 168); (173, 173);
    (175, 175); (180, 180); (183, 184); (688, 879); (884, 885); (890, 890);
    (900, 901); (903, 903); (1155, 1161); (1369, 1369); (1375, 1375);
    (1425, 1469); (1471, 1471); (1473, 1474); (1476, 1477); (1479, 1479);
    (1524, 1524); (1536, 1541); (1552, 1562); (1564, 1564); (1600, 1600);
    (1611, 1631); (1648, 1648); (1750, 1757); (1759, 1768); (1770, 1773);
    (1807, 1807); (1809, 1809); (1840, 1866); (1958, 1968); (2027, 2037);
    (2042, 2042); (2045, 2045); (2070, 2093); (2137, 2139); (2184, 2184);
    (2192, 2193); (2200, 2207); (2249, 2306); (2362, 2362); (2364, 2364);
    (2369, 2376); (2381, 2381); (2385, 2391); (2402, 2403); (2417, 2417);
    (2433, 2433); (2492, 2492); (2497, 2500); (2509, 2509); (2530, 2531);
    (2558, 2558); (2561, 2562); (2620, 2620); (2625, 2626); (2631, 2632);
    (2635, 2637); (2641, 2641); (2672, 2673); (2677, 2677); (2689, 2690);
    (2748, 2748); (2753, 2757); (2759, 2760); (2765, 2765); (2786, 2787);
    (2810, 2815); (2817, 2817); (2876, 2876); (2879, 2879); (2881, 2884);
    (2893, 2893); (2901, 2902); (2914, 2915); (2946, 2946); (3008, 3008);
    (3021, 3021); (3072, 3072); (3076, 3076); (3132, 3132); (3134, 3136);
    (3142, 3144); (3146, 3149); (3157, 3158); (3170, 3171); (3201, 3201);
    (3260, 3260); (3263, 3263); (3270, 3270); (3276, 3277); (3298, 3299);
    (3328, 3329); (3387, 3388); (3393, 3396); (3405, 3405); (3426, 3427);
    (3457, 3457); (3530, 3530); (3538, 3540); (3542, 3542); (3633, 3633);
    (3636, 3642); (3654, 3662); (3761, 3761); (3764, 3772); (3782, 3782);
    (3784, 3789); (3864, 3865); (3893, 3893); (3895, 3895); (3897, 3897);
    (3953, 3966); (3968, 3972); (3974, 3975); (3981, 3991); (3993, 4028);
    (4038, 4038); (4141, 4144); (4146, 4151); (4153, 4154); (4157, 4158);
    (4184, 4185); (4190, 4192); (4209, 4212); (4226, 4226); (4229, 4230);
    (4237, 4237); (4253, 4253); (4348, 4348); (4957, 4959); (5906, 5908);
    (5938, 5939); (5970, 5971); (6002, 6003); (6068, 6069); (6071, 6077);
    (6086, 6086); (6089, 6099); (6103, 6103); (6109, 6109); (6155, 6159);
    (6211, 6211); (6277, 6278); (6313, 6313); (6432, 6434); (6439, 6440);
    (6450, 6450); (6457, 6459); (6679, 6680); (6683, 6683); (6742, 6742);
    (6744, 6750); (6752, 6752); (6754, 6754); (6757, 6764); (6771, 6780);
    (6783, 6783); (6823, 6823); (6832, 6862); (6912, 6915); (6964, 6964);
    (6966, 6970); (6972, 6972); (6978, 6978); (7019, 7027); (7040, 7041);
    (7074, 7077); (7080, 7081); (7083, 7085); (7142, 7142); (7144, 7145);
    (7149, 7149); (7151, 7153); (7212, 7219); (7222, 7223); (7288, 7293);
    (7376, 7378); (7380, 7392); (7394, 7400); (7405, 7405); (7412, 7412);
    (7416, 7417); (7468, 7530); (7544, 7544); (7579, 7679); (8125, 8125);
    (8127, 8129); (8141, 8143); (8157, 8159); (8173, 8175); (8189, 8190);
    (8203, 8207); (8216, 8217); (8228, 8228); (8231, 8231); (8234, 8238);
    (8288, 8292); (8294, 8303); (8305, 8305); (8319, 8319); (8336, 8348);
    (8400, 8432); (11388, 11389); (11503, 11505); (11631, 11631);
    (11647, 11647); (11744, 11775); (11823, 11823); (12293, 12293);
    (12330, 12333); (12337, 12341); (12347, 12347); (12441, 12446);
    (12540, 12542); (40981, 40981); (42232, 42237); (42508, 42508);
    (42607, 42610); (42612, 42621); (42623, 42623); (42652, 42655);
    (42736, 42737); (42752, 42785); (42864, 42864); (42888, 42890);
    (42994, 42996); (43000, 43001); (43010, 43010); (43014, 43014);
    (43019, 43019); (43045, 43046); (43052, 43052); (43204, 43205);
    (43232, 43249); (43263, 43263); (43302, 43309); (43335, 43345);
    (43392, 43394); (43443, 43443); (43446, 43449); (43452, 43453);
    (43471, 43471); (43493, 43494); (43561, 43566); (43569, 43570);
    (43573, 43574); (43587, 43587); (43596, 43596); (43632, 43632);
    (43644, 43644); (43696, 43696); (43698, 43700); (43703, 43704);
    (43710, 43711); (43713, 43713); (43741, 43741); (43756, 43757);
    (43763, 43764); (43766, 43766); (43867, 43871); (43881, 43883);
    (44005, 44005); (44008, 44008); (44013, 44013); (64286, 64286);
    (64434, 64450); (65024, 65039); (65043, 65043); (65056, 65071);
    (65106, 65106); (65109, 65109); (65279, 65279); (65287, 65287);
    (65294, 65294); (65306, 65306); (65342, 65342); (65344, 65344);
    (65392, 65392); (65438, 65439); (65507, 65507); (65529, 65531);
    (66045, 66045); (66272, 66272); (66422, 66426); (67456, 67461);
    (67463, 67504); (67506, 67514); (68097, 68099); (68101, 68102);
    (68108, 68111); (68152, 68154); (68159, 68159); (68325, 68326);
    (68900, 68903); (69291, 69292); (69446, 69456); (69506, 69509);
    (69633, 69633); (69688, 69702); (69744, 69744); (69747, 69748);
    (69759, 69761); (69811, 69814); (69817, 69818); (69821, 69821);
    (69826, 69826); (69837, 69837); (69888, 69890); (69927, 69931);
    (69933, 69940); (70003, 70003); (70016, 70017); (70070, 70078);
    (70089, 70092); (70095, 70095); (70191, 70193); (70196, 70196);
    (70198, 70199); (70206, 70206); (70367, 70367); (70371, 70378);
    (70400, 70401); (70459, 70460); (70464, 70464); (70502, 70508);
    (70512, 70516); (70712, 70719); (70722, 70724); (70726, 70726);
    (70750, 70750); (70835, 70840); (70842, 70842); (70847, 70848);
    (70850, 70851); (71090, 71093); (71100, 71101); (71103, 71104);
    (71132, 71133); (71219, 71226); (71229, 71229); (71231, 71232);
    (71339, 71339); (71341, 71341); (71344, 71349); (71351, 71351);
    (71453, 71455); (71458, 71461); (71463, 71467); (71727, 71735);
    (71737, 71738); (71995, 71996); (71998, 71998); (72003, 72003);
    (72148, 72151); (72154, 72155); (72160, 72160); (72193, 72202);
    (72243, 72248); (72251, 72254); (72263, 72263); (72273, 72278);
    (72281, 72283); (72330, 72342); (72344, 72345); (72752, 72758);
    (72760, 72765); (72767, 72767); (72850, 72871); (72874, 72880);
    (72882, 72883); (72885, 72886); (73009, 73014); (73018, 73018);
    (73020, 73021); (73023, 73029); (73031, 73031); (73104, 73105);
    (73109, 73109); (73111, 73111); (73459, 73460); (78896, 78904);
    (92912, 92916); (92976, 92982); (92992, 92995); (94031, 94031);
    (94095, 94111); (94176, 94177); (94179, 94180); (110576, 110579);
    (110581, 110587); (110589, 110590); (113821, 113822); (113824, 113827);
    (118528, 118573); (118576, 118598); (119143, 119145); (119155, 119170);
    (119173, 119179); (119210, 119213); (119362, 119364); (121344, 121398);
    (121403, 121452); (121461, 121461); (121476, 121476); (121499, 121503);
    (121505, 121519); (122880, 122886); (122888, 122904); (122907, 122913);
    (122915, 122916); (122918, 122922); (123184, 123197); (123566, 123566);
    (123628, 123631); (125136, 125142); (125252, 125259); (127995, 127999);
    (917505, 917505); (917536, 917631); (917760, 917999)
  ].

(** Search of a table sorted by code point. *)
Fixpoint table_find {A : Type} (c : N) (tbl : list (N * A)) : option A :=
  match tbl with
  | [] => None
  | (k, v) :: r =>
      if c <? k then None else if c =? k then Some v else table_find c r
  end.

(** Search of a sorted table of ranges. *)
Fixpoint range_find {A : Type} (c : N) (tbl : list (N * N * A)) : option A :=
  match tbl with
  | [] => None
  | (lo, hi, v) :: r =>
      if c <? lo then None else if c <=? hi then Some v else range_find c r
  end.

Fixpoint in_ranges (c : N) (tbl : list (N * N)) : bool :=
  match tbl with
  | [] => false
  | (lo, hi) :: r =>
      if c <? lo then false else if c <=? hi then true else in_ranges c r
  end.

(** *** UTF-16: code units and code points

    [code_points] is StringToCodePoints: a high surrogate followed by a
    low surrogate is one code point, any other code unit (a lone
    surrogate too) is a code point by itself.  [code_units] is
    CodePointsToString. *)
Definition is_high_surrogate (c : N) : bool := in_range 55296 56319 c.
Definition is_low_surrogate (c : N) : bool := in_range 56320 57343 c.

Fixpoint code_points (s : jsstring) : list N :=
  match s with
  | [] => []
  | h :: r =>
      match r with
      | l :: r' =>
          if is_high_surrogate h && is_low_surrogate l
          then (65536 + (h - 55296) * 1024 + (l - 56320)) :: code_points r'
          else h :: code_points r
      | [] => [h]
      end
  end.

Definition code_units_of (c : N) : jsstring :=
  if in_range 65536 1114111 c
  then [55296 + (c - 65536) / 1024; 56320 + (c - 65536) mod 1024]
  else [c].

Definition code_units (l : list N) : jsstring := flat_map code_units_of l.

(** *** Normalisation form D *)

(** Full canonical decomposition of a code point; Hangul syllables
    (U+AC00..U+D7A3) decompose by the arithmetic rule. *)
Definition decompose (c : N) : list N :=
  if in_range 44032 55203 c then
    let s := c - 44032 in
    let l := 4352 + s / 588 in
    let v := 4449 + (s mod 588) / 28 in
    let t := 4519 + s mod 28 in
    if s mod 28 =? 0 then [l; v] else [l; v; t]
  else default [c] (table_find c decomposition_table).

(** Canonical combining class. *)
Definition ccc (c : N) : N := default 0 (range_find c combining_class_table).

(** Canonical ordering: a character with a non-zero class moves to the
    left of the characters with a greater class that precede it.  [out]
    is the text so far, last character first. *)
Fixpoint insert_mark (c : N) (out : list N) : list N :=
  match out with
  | d :: r =>
      if (0 <? ccc c) && (ccc c <? ccc d) then d :: insert_mark c r
      else c :: out
  | [] => [c]
  end.

Definition canonical_order (l : list N) : list N :=
  rev (fold_left (fun out c => insert_mark c out) l []).

(** [String.prototype.normalize("NFD")] *)
Definition nfd (s : jsstring) : jsstring :=
  code_units (canonical_order (flat_map decompose (code_points s))).

(** *** Lower case *)

Definition lower_point (c : N) : list N :=
  default [c] (table_find c lowercase_table).

Definition is_cased (c : N) : bool := in_ranges c cased_table.
Definition is_case_ignorable (c : N) : bool := in_ranges c case_ignorable_table.

(** The first character that is not case-ignorable is cased. *)
Fixpoint cased_next (l : list N) : bool :=
  match l with
  | [] => false
  | c :: r => if is_case_ignorable c then cased_next r else is_cased c
  end.

(** Default case conversion to lower case.  A capital sigma (U+03A3) in the
    Final_Sigma context becomes the final small sigma (U+03C2); [before]
    holds the code points already passed, nearest first. *)
Fixpoint lower_points (before l : list N) : list N :=
  match l with
  | [] => []
  | c :: r =>
      (if c =? 931
       then if cased_next before && negb (cased_next r) then [962] else [963]
       else lower_point c)
      ++ lower_points (c :: before) r
  end.

(** [String.prototype.toLowerCase] *)
Definition toLowerCase (s : jsstring) : jsstring :=
  code_units (lower_points [] (code_points s)).

#[global] Arguments nfd : simpl never.
#[global] Arguments toLowerCase : simpl never.

(** Combining diacritical marks, the class U+0300..U+036F. *)
Definition is_combining (c : N) : bool := in_range 768 879 c.

(** [String.prototype.startsWith] *)
Fixpoint startsWith (p s : jsstring) : bool :=
  match p, s with
  | [], _ => true
  | _ :: _, [] => false
  | a :: p', b :: s' => (a =? b) && startsWith p' s'
  end.

(** [String.prototype.includes]: [k] occurs in [s] as a substring. *)
Fixpoint includes (s k : jsstring) : bool :=
  startsWith k s || match s with [] => false | _ :: r => includes r k end.

(** [String.prototype.slice(0, n)] *)
Definition slice0 (n : nat) (s : jsstring) : jsstring := take n s.
#[global] Arguments slice0 : simpl never.

(** [String.prototype.slice(1, -1)] *)
Definition slice_1_m1 (s : jsstring) : jsstring := removelast (tail s).

(** [String.prototype.replace] with a one-unit string pattern: only the
    first occurrence is replaced. *)
Fixpoint replace_first_unit (c : N) (by_ : jsstring) (s : jsstring) : jsstring :=
  match s with
  | [] => []
  | x :: r => if x =? c then by_ ++ r else x :: replace_first_unit c by_ r
  end.

End JsString.
Export JsString.

(** ** JavaScript numbers: IEEE-754 binary64 *)

Module JsNum.

Definition number := spec_float.

Definition prec : Z := 53.
Definition emax : Z := 1024.

Definition NaN : number := S754_nan.
Definition zero : number := S754_zero false.

(** The binary64 value nearest to the integer [z] (ties to even). *)
Definition of_Z (z : Z) : number := binary_normalize prec emax z 0 false.

(** The binary64 value nearest to [n / d] for positive [n] and [d]. *)
Definition round_ratio (neg : bool) (n d : Z) : number :=
  let '(q, e, l) := SFdiv_core_binary prec emax n 0 d 0 in
  binary_round_aux prec emax neg q e l.

(** The binary64 value nearest to [m * 10 ^ e], with the sign [neg]. *)
Definition of_decimal (neg : bool) (m e : Z) : number :=
  if (m =? 0)%Z then S754_zero neg
  else if (0 <=? e)%Z then round_ratio neg (m * 10 ^ e) 1
  else round_ratio neg m (10 ^ (- e)).

Definition isNaN (x : number) : bool :=
  match x with S754_nan => true | _ => false end.

(** Unary minus, [Math.abs] and [<=]. *)
Definition negate (x : number) : number := SFopp x.
Definition abs (x : number) : number := SFabs x.
Definition leb (x y : number) : bool := SFleb x y.

Fixpoint span_digits (s : jsstring) : jsstring * jsstring :=
  match s with
  | c :: r =>
      if is_digit c then let '(ds, rest) := span_digits r in (c :: ds, rest)
      else ([], s)
  | [] => ([], [])
  end.

Definition digits_value (ds : jsstring) : Z :=
  fold_left (fun acc d => (10 * acc + (Z.of_N d - 48))%Z) ds 0%Z.

(** ExponentPart of a StrDecimalLiteral: [e] or [E], an optional sign and
    at least one digit; it contributes [0] when it is not well formed. *)
Definition exponent_part (s : jsstring) : Z :=
  match s with
  | c :: r =>
      if (c =? 101) || (c =? 69) then
        let '(sg, r') :=
          match r with
          | x :: r' => if x =? 45 then (true, r')
                       else if x =? 43 then (false, r') else (false, r)
          | [] => (false, r)
          end in
        let '(ds, _) := span_digits r' in
        match ds with
        | [] => 0%Z
        | _ => if sg then (- digits_value ds)%Z else digits_value ds
        end
      else 0%Z
  | [] => 0%Z
  end.

(** The global [parseFloat]: leading white space is skipped, the longest
    prefix that is a StrDecimalLiteral is converted, and [NaN] is returned
    when there is none. *)
Definition parseFloat (s : jsstring) : number :=
  let s := trimStart s in
  let '(sg, s) :=
    match s with
    | c :: r => if c =? 45 then (true, r)
                else if c =? 43 then (false, r) else (false, s)
    | [] => (false, s)
    end in
  if startsWith (u "Infinity") s then S754_infinity sg
  else
    let '(ip, r1) := span_digits s in
    let '(fp, r2) :=
      match r1 with
      | c :: r => if c =? 46 then span_digits r else ([], r1)
      | [] => ([], r1)
      end in
    match ip ++ fp with
    | [] => NaN
    | ds => of_decimal sg (digits_value ds)
              (exponent_part r2 - Z.of_nat (length fp))
    end.

End JsNum.
Export JsNum.

(** ** Regular expressions *)

Module Regex.

Inductive regex :=
| Void
| Eps
| Cls (p : N -> bool)
| Cat (a b : regex)
| Alt (a b : regex)
| Star (a : regex).

Fixpoint nullable (r : regex) : bool :=
  match r with
  | Void => false
  | Eps => true
  | Cls _ => false
  | Cat a b => nullable a && nullable b
  | Alt a b => nullable a || nullable b
  | Star _ => true
  end.

Fixpoint deriv (c : N) (r : regex) : regex :=
  match r with
  | Void => Void
  | Eps => Void
  | Cls p => if p c then Eps else Void
  | Cat a b =>
      if nullable a then Alt (Cat (deriv c a) b) (deriv c b)
      else Cat (deriv c a) b
  | Alt a b => Alt (deriv c a) (deriv c b)
  | Star a => Cat (deriv c a) (Star a)
  end.

(** The whole of [s] is in the language of [r]: the test of [/^r$/]. *)
Fixpoint matches (r : regex) (s : jsstring) : bool :=
  match s with
  | [] => nullable r
  | c :: s' => matches (deriv c r) s'
  end.

(** Length of the longest prefix of [s] in the language of [r]. *)
Fixpoint longest_prefix (r : regex) (s : jsstring) (n : nat)
  (best : option nat) : option nat :=
  let best' := if nullable r then Some n else best in
  match s with
  | [] => best'
  | c :: s' => longest_prefix (deriv c r) s' (S n) best'
  end.

(** [s.replace(/r/g, by_)]: matches are taken leftmost first, each as long
    as possible (what the greedy quantifiers of the patterns below give);
    after an empty match one code unit is copied. *)
Fixpoint replace_all_from (r : regex) (by_ : jsstring) (s : jsstring)
  (skip : nat) : jsstring :=
  match s with
  | [] => if nullable r then by_ else []
  | c :: s' =>
      match skip with
      | S k => replace_all_from r by_ s' k
      | O =>
          match longest_prefix r s 0 None with
          | Some (S n) => by_ ++ replace_all_from r by_ s' n
          | Some O => by_ ++ c :: replace_all_from r by_ s' 0
          | None => c :: replace_all_from r by_ s' 0
          end
      end
  end.

Definition replace_all (r : regex) (by_ s : jsstring) : jsstring :=
  replace_all_from r by_ s 0.

(** Case canonicalisation of the [i] flag (no [u] flag): the upper-case
    mapping of one code unit, unless it has more than one code unit or
    sends a non-ASCII code unit to an ASCII one.  The table lists, sorted,
    the code units that this changes, with their images (Unicode
    Character Database 14.0). *)
Definition canonicalize_table : list (N * N) :=
  [
    (97, 65); (98, 66); (99, 67); (100, 68); (101, 69); (102, 70); (103, 71);
    (104, 72); (105, 73); (106, 74); (107, 75); (108, 76); (109, 77);
    (110, 78); (111, 79); (112, 80); (113, 81); (114, 82); (115, 83);
    (116, 84); (117, 85); (118, 86); (119, 87); (120, 88); (121, 89);
    (122, 90); (181, 924); (224, 192); (225, 193); (226, 194); (227, 195);
    (228, 196); (229, 197); (230, 198); (231, 199); (232, 200); (233, 201);
    (234, 202); (235, 203); (236, 204); (237, 205); (238, 206); (239, 207);
    (240, 208); (241, 209); (242, 210); (243, 211); (244, 212); (245, 213);
    (246, 214); (248, 216); (249, 217); (250, 218); (251, 219); (252, 220);
    (253, 221); (254, 222); (255, 376); (257, 256); (259, 258); (261, 260);
    (263, 262); (265, 264); (267, 266); (269, 268); (271, 270); (273, 272);
    (275, 274); (277, 276); (279, 278); (281, 280); (283, 282); (285, 284);
    (287, 286); (289, 288); (291, 290); (293, 292); (295, 294); (297, 296);
    (299, 298); (301, 300); (303, 302); (307, 306); (309, 308); (311, 310);
    (314, 313); (316, 315); (318, 317); (320, 319); (322, 321); (324, 323);
    (326, 325); (328, 327); (331, 330); (333, 332); (335, 334); (337, 336);
    (339, 338); (341, 340); (343, 342); (345, 344); (347, 346); (349, 348);
    (351, 350); (353, 352); (355, 354); (357, 356); (359, 358); (361, 360);
    (363, 362); (365, 364); (367, 366); (369, 368); (371, 370); (373, 372);
    (375, 374); (378, 377); (380, 379); (382, 381); (384, 579); (387, 386);
    (389, 388); (392, 391); (396, 395); (402, 401); (405, 502); (409, 408);
    (410, 573); (414, 544); (417, 416); (419, 418); (421, 420); (424, 423);
    (429, 428); (432, 431); (436, 435); (438, 437); (441, 440); (445, 444);
    (447, 503); (453, 452); (454, 452); (456, 455); (457, 455); (459, 458);
    (460, 458); (462, 461); (464, 463); (466, 465); (468, 467); (470, 469);
    (472, 471); (474, 473); (476, 475); (477, 398); (479, 478); (481, 480);
    (483, 482); (485, 484); (487, 486); (489, 488); (491, 490); (493, 492);
    (495, 494); (498, 497); (499, 497); (501, 500); (505, 504); (507, 506);
    (509, 508); (511, 510); (513, 512); (515, 514); (517, 516); (519, 518);
    (521, 520); (523, 522); (525, 524); (527, 526); (529, 528); (531, 530);
    (533, 532); (535, 534); (537, 536); (539, 538); (541, 540); (543, 542);
    (547, 546); (549, 548); (551, 550); (553, 552); (555, 554); (557, 556);
    (559, 558); (561, 560); (563, 562); (572, 571); (575, 11390);
    (576, 11391); (578, 577); (583, 582); (585, 584); (587, 586); (589, 588);
    (591, 590); (592, 11375); (593, 11373); (594, 11376); (595, 385);
    (596, 390); (598, 393); (599, 394); (601, 399); (603, 400); (604, 42923);
    (608, 403); (609, 42924); (611, 404); (613, 42893); (614, 42922);
    (616, 407); (617, 406); (618, 42926); (619, 11362); (620, 42925);
    (623, 412); (625, 11374); (626, 413); (629, 415); (637, 11364);
    (640, 422); (642, 42949); (643, 425); (647, 42929); (648, 430);
    (649, 580); (650, 433); (651, 434); (652, 581); (658, 439); (669, 42930);
    (670, 42928); (837, 921); (881, 880); (883, 882); (887, 886);
    (891, 1021); (892, 1022); (893, 1023); (940, 902); (941, 904);
    (942, 905); (943, 906); (945, 913); (946, 914); (947, 915); (948, 916);
    (949, 917); (950, 918); (951, 919); (952, 920); (953, 921); (954, 922);
    (955, 923); (956, 924); (957, 925); (958, 926); (959, 927); (960, 928);
    (961, 929); (962, 931); (963, 931); (964, 932); (965, 933); (966, 934);
    (967, 935); (968, 936); (969, 937); (970, 938); (971, 939); (972, 908);
    (973, 910); (974, 911); (976, 914); (977, 920); (981, 934); (982, 928);
    (983, 975); (985, 984); (987, 986); (989, 988); (991, 990); (993, 992);
    (995, 994); (997, 996); (999, 998); (1001, 1000); (1003, 1002);
    (1005, 1004); (1007, 1006); (1008, 922); (1009, 929); (1010, 1017);
    (1011, 895); (1013, 917); (1016, 1015); (1019, 1018); (1072, 1040);
    (1073, 1041); (1074, 1042); (1075, 1043); (1076, 1044); (1077, 1045);
    (1078, 1046); (1079, 1047); (1080, 1048); (1081, 1049); (1082, 1050);
    (1083, 1051); (1084, 1052); (1085, 1053); (1086, 1054); (1087, 1055);
    (1088, 1056); (1089, 1057); (1090, 1058); (1091, 1059); (1092, 1060);
    (1093, 1061); (1094, 1062); (1095, 1063); (1096, 1064); (1097, 1065);
    (1098, 1066); (1099, 1067); (1100, 1068); (1101, 1069); (1102, 1070);
    (1103, 1071); (1104, 1024); (1105, 1025); (1106, 1026); (1107, 1027);
    (1108, 1028); (1109, 1029); (1110, 1030); (1111, 1031); (1112, 1032);
    (1113, 1033); (1114, 1034); (1115, 1035); (1116, 1036); (1117, 1037);
    (1118, 1038); (1119, 1039); (1121, 1120); (1123, 1122); (1125, 1124);
    (1127, 1126); (1129, 1128); (1131, 1130); (1133, 1132); (1135, 1134);
    (1137, 1136); (1139, 1138); (1141, 1140); (1143, 1142); (1145, 1144);
    (1147, 1146); (1149, 1148); (1151, 1150); (1153, 1152); (1163, 1162);
    (1165, 1164); (1167, 1166); (1169, 1168); (1171, 1170); (1173, 1172);
    (1175, 1174); (1177, 1176); (1179, 1178); (1181, 1180); (1183, 1182);
    (1185, 1184); (1187, 1186); (1189, 1188); (1191, 1190); (1193, 1192);
    (1195, 1194); (1197, 1196); (1199, 1198); (1201, 1200); (1203, 1202);
    (1205, 1204); (1207, 1206); (1209, 1208); (1211, 1210); (1213, 1212);
    (1215, 1214); (1218, 1217); (1220, 1219); (1222, 1221); (1224, 1223);
    (1226, 1225); (1228, 1227); (1230, 1229); (1231, 1216); (1233, 1232);
    (1235, 1234); (1237, 1236); (1239, 1238); (1241, 1240); (1243, 1242);
    (1245, 1244); (1247, 1246); (1249, 1248); (1251, 1250); (1253, 1252);
    (1255, 1254); (1257, 1256); (1259, 1258); (1261, 1260); (1263, 1262);
    (1265, 1264); (1267, 1266); (1269, 1268); (1271, 1270); (1273, 1272);
    (1275, 1274); (1277, 1276); (1279, 1278); (1281, 1280); (1283, 1282);
    (1285, 1284); (1287, 1286); (1289, 1288); (1291, 1290); (1293, 1292);
    (1295, 1294); (1297, 1296); (1299, 1298); (1301, 1300); (1303, 1302);
    (1305, 1304); (1307, 1306); (1309, 1308); (1311, 1310); (1313, 1312);
    (1315, 1314); (1317, 1316); (1319, 1318); (1321, 1320); (1323, 1322);
    (1325, 1324); (1327, 1326); (1377, 1329); (1378, 1330); (1379, 1331);
    (1380, 1332); (1381, 1333); (1382, 1334); (1383, 1335); (1384, 1336);
    (1385, 1337); (1386, 1338); (1387, 1339); (1388, 1340); (1389, 1341);
    (1390, 1342); (1391, 1343); (1392, 1344); (1393, 1345); (1394, 1346);
    (1395, 1347); (1396, 1348); (1397, 1349); (1398, 1350); (1399, 1351);
    (1400, 1352); (1401, 1353); (1402, 1354); (1403, 1355); (1404, 1356);
    (1405, 1357); (1406, 1358); (1407, 1359); (1408, 1360); (1409, 1361);
    (1410, 1362); (1411, 1363); (1412, 1364); (1413, 1365); (1414, 1366);
    (4304, 7312); (4305, 7313); (4306, 7314); (4307, 7315); (4308, 7316);
    (4309, 7317); (4310, 7318); (4311, 7319); (4312, 7320); (4313, 7321);
    (4314, 7322); (4315, 7323); (4316, 7324); (4317, 7325); (4318, 7326);
    (4319, 7327); (4320, 7328); (4321, 7329); (4322, 7330); (4323, 7331);
    (4324, 7332); (4325, 7333); (4326, 7334); (4327, 7335); (4328, 7336);
    (4329, 7337); (4330, 7338); (4331, 7339); (4332, 7340); (4333, 7341);
    (4334, 7342); (4335, 7343); (4336, 7344); (4337, 7345); (4338, 7346);
    (4339, 7347); (4340, 7348); (4341, 7349); (4342, 7350); (4343, 7351);
    (4344, 7352); (4345, 7353); (4346, 7354); (4349, 7357); (4350, 7358);
    (4351, 7359); (5112, 5104); (5113, 5105); (5114, 5106); (5115, 5107);
    (5116, 5108); (5117, 5109); (7296, 1042); (7297, 1044); (7298, 1054);
    (7299, 1057); (7300, 1058); (7301, 1058); (7302, 1066); (7303, 1122);
    (7304, 42570); (7545, 42877); (7549, 11363); (7566, 42950); (7681, 7680);
    (7683, 7682); (7685, 7684); (7687, 7686); (7689, 7688); (7691, 7690);
    (7693, 7692); (7695, 7694); (7697, 7696); (7699, 7698); (7701, 7700);
    (7703, 7702); (7705, 7704); (7707, 7706); (7709, 7708); (7711, 7710);
    (7713, 7712); (7715, 7714); (7717, 7716); (7719, 7718); (7721, 7720);
    (7723, 7722); (7725, 7724); (7727, 7726); (7729, 7728); (7731, 7730);
    (7733, 7732); (7735, 7734); (7737, 7736); (7739, 7738); (7741, 7740);
    (7743, 7742); (7745, 7744); (7747, 7746); (7749, 7748); (7751, 7750);
    (7753, 7752); (7755, 7754); (7757, 7756); (7759, 7758); (7761, 7760);
    (7763, 7762); (7765, 7764); (7767, 7766); (7769, 7768); (7771, 7770);
    (7773, 7772); (7775, 7774); (7777, 7776); (7779, 7778); (7781, 7780);
    (7783, 7782); (7785, 7784); (7787, 7786); (7789, 7788); (7791, 7790);
    (7793, 7792); (7795, 7794); (7797, 7796); (7799, 7798); (7801, 7800);
    (7803, 7802); (7805, 7804); (7807, 7806); (7809, 7808); (7811, 7810);
    (7813, 7812); (7815, 7814); (7817, 7816); (7819, 7818); (7821, 7820);
    (7823, 7822); (7825, 7824); (7827, 7826); (7829, 7828); (7835, 7776);
    (7841, 7840); (7843, 7842); (7845, 7844); (7847, 7846); (7849, 7848);
    (7851, 7850); (7853, 7852); (7855, 7854); (7857, 7856); (7859, 7858);
    (7861, 7860); (7863, 7862); (7865, 7864); (7867, 7866); (7869, 7868);
    (7871, 7870); (7873, 7872); (7875, 7874); (7877, 7876); (7879, 7878);
    (7881, 7880); (7883, 7882); (7885, 7884); (7887, 7886); (7889, 7888);
    (7891, 7890); (7893, 7892); (7895, 7894); (7897, 7896); (7899, 7898);
    (7901, 7900); (7903, 7902); (7905, 7904); (7907, 7906); (7909, 7908);
    (7911, 7910); (7913, 7912); (7915, 7914); (7917, 7916); (7919, 7918);
    (7921, 7920); (7923, 7922); (7925, 7924); (7927, 7926); (7929, 7928);
    (7931, 7930); (7933, 7932); (7935, 7934); (7936, 7944); (7937, 7945);
    (7938, 7946); (7939, 7947); (7940, 7948); (7941, 7949); (7942, 7950);
    (7943, 7951); (7952, 7960); (7953, 7961); (7954, 7962); (7955, 7963);
    (7956, 7964); (7957, 7965); (7968, 7976); (7969, 7977); (7970, 7978);
    (7971, 7979); (7972, 7980); (7973, 7981); (7974, 7982); (7975, 7983);
    (7984, 7992); (7985, 7993); (7986, 7994); (7987, 7995); (7988, 7996);
    (7989, 7997); (7990, 7998); (7991, 7999); (8000, 8008); (8001, 8009);
    (8002, 8010); (8003, 8011); (8004, 8012); (8005, 8013); (8017, 8025);
    (8019, 8027); (8021, 8029); (8023, 8031); (8032, 8040); (8033, 8041);
    (8034, 8042); (8035, 8043); (8036, 8044); (8037, 8045); (8038, 8046);
    (8039, 8047); (8048, 8122); (8049, 8123); (8050, 8136); (8051, 8137);
    (8052, 8138); (8053, 8139); (8054, 8154); (8055, 8155); (8056, 8184);
    (8057, 8185); (8058, 8170); (8059, 8171); (8060, 8186); (8061, 8187);
    (8112, 8120); (8113, 8121); (8126, 921); (8144, 8152); (8145, 8153);
    (8160, 8168); (8161, 8169); (8165, 8172); (8526, 8498); (8560, 8544);
    (8561, 8545); (8562, 8546); (8563, 8547); (8564, 8548); (8565, 8549);
    (8566, 8550); (8567, 8551); (8568, 8552); (8569, 8553); (8570, 8554);
    (8571, 8555); (8572, 8556); (8573, 8557); (8574, 8558); (8575, 8559);
    (8580, 8579); (9424, 9398); (9425, 9399); (9426, 9400); (9427, 9401);
    (9428, 9402); (9429, 9403); (9430, 9404); (9431, 9405); (9432, 9406);
    (9433, 9407); (9434, 9408); (9435, 9409); (9436, 9410); (9437, 9411);
    (9438, 9412); (9439, 9413); (9440, 9414); (9441, 9415); (9442, 9416);
    (9443, 9417); (9444, 9418); (9445, 9419); (9446, 9420); (9447, 9421);
    (9448, 9422); (9449, 9423); (11312, 11264); (11313, 11265);
    (11314, 11266); (11315, 11267); (11316, 11268); (11317, 11269);
    (11318, 11270); (11319, 11271); (11320, 11272); (11321, 11273);
    (11322, 11274); (11323, 11275); (11324, 11276); (11325, 11277);
    (11326, 11278); (11327, 11279); (11328, 11280); (11329, 11281);
    (11330, 11282); (11331, 11283); (11332, 11284); (11333, 11285);
    (11334, 11286); (11335, 11287); (11336, 11288); (11337, 11289);
    (11338, 11290); (11339, 11291); (11340, 11292); (11341, 11293);
    (11342, 11294); (11343, 11295); (11344, 11296); (11345, 11297);
    (11346, 11298); (11347, 11299); (11348, 11300); (11349, 11301);
    (11350, 11302); (11351, 11303); (11352, 11304); (11353, 11305);
    (11354, 11306); (11355, 11307); (11356, 11308); (11357, 11309);
    (11358, 11310); (11359, 11311); (11361, 11360); (11365, 570);
    (11366, 574); (11368, 11367); (11370, 11369); (11372, 11371);
    (11379, 11378); (11382, 11381); (11393, 11392); (11395, 11394);
    (11397, 11396); (11399, 11398); (11401, 11400); (11403, 11402);
    (11405, 11404); (11407, 11406); (11409, 11408); (11411, 11410);
    (11413, 11412); (11415, 11414); (11417, 11416); (11419, 11418);
    (11421, 11420); (11423, 11422); (11425, 11424); (11427, 11426);
    (11429, 11428); (11431, 11430); (11433, 11432); (11435, 11434);
    (11437, 11436); (11439, 11438); (11441, 11440); (11443, 11442);
    (11445, 11444); (11447, 11446); (11449, 11448); (11451, 11450);
    (11453, 11452); (11455, 11454); (11457, 11456); (11459, 11458);
    (11461, 11460); (11463, 11462); (11465, 11464); (11467, 11466);
    (11469, 11468); (11471, 11470); (11473, 11472); (11475, 11474);
    (11477, 11476); (11479, 11478); (11481, 11480); (11483, 11482);
    (11485, 11484); (11487, 11486); (11489, 11488); (11491, 11490);
    (11500, 11499); (11502, 11501); (11507, 11506); (11520, 4256);
    (11521, 4257); (11522, 4258); (11523, 4259); (11524, 4260);
    (11525, 4261); (11526, 4262); (11527, 4263); (11528, 4264);
    (11529, 4265); (11530, 4266); (11531, 4267); (11532, 4268);
    (11533, 4269); (11534, 4270); (11535, 4271); (11536, 4272);
    (11537, 4273); (11538, 4274); (11539, 4275); (11540, 4276);
    (11541, 4277); (11542, 4278); (11543, 4279); (11544, 4280);
    (11545, 4281); (11546, 4282); (11547, 4283); (11548, 4284);
    (11549, 4285); (11550, 4286); (11551, 4287); (11552, 4288);
    (11553, 4289); (11554, 4290); (11555, 4291); (11556, 4292);
    (11557, 4293); (11559, 4295); (11565, 4301); (42561, 42560);
    (42563, 42562); (42565, 42564); (42567, 42566); (42569, 42568);
    (42571, 42570); (42573, 42572); (42575, 42574); (42577, 42576);
    (42579, 42578); (42581, 42580); (42583, 42582); (42585, 42584);
    (42587, 42586); (42589, 42588); (42591, 42590); (42593, 42592);
    (42595, 42594); (42597, 42596); (42599, 42598); (42601, 42600);
    (42603, 42602); (42605, 42604); (42625, 42624); (42627, 42626);
    (42629, 42628); (42631, 42630); (42633, 42632); (42635, 42634);
    (42637, 42636); (42639, 42638); (42641, 42640); (42643, 42642);
    (42645, 42644); (42647, 42646); (42649, 42648); (42651, 42650);
    (42787, 42786); (42789, 42788); (42791, 42790); (42793, 42792);
    (42795, 42794); (42797, 42796); (42799, 42798); (42803, 42802);
    (42805, 42804); (42807, 42806); (42809, 42808); (42811, 42810);
    (42813, 42812); (42815, 42814); (42817, 42816); (42819, 42818);
    (42821, 42820); (42823, 42822); (42825, 42824); (42827, 42826);
    (42829, 42828); (42831, 42830); (42833, 42832); (42835, 42834);
    (42837, 42836); (42839, 42838); (42841, 42840); (42843, 42842);
    (42845, 42844); (42847, 42846); (42849, 42848); (42851, 42850);
    (42853, 42852); (42855, 42854); (42857, 42856); (42859, 42858);
    (42861, 42860); (42863, 42862); (42874, 42873); (42876, 42875);
    (42879, 42878); (42881, 42880); (42883, 42882); (42885, 42884);
    (42887, 42886); (42892, 42891); (42897, 42896); (42899, 42898);
    (42900, 42948); (42903, 42902); (42905, 42904); (42907, 42906);
    (42909, 42908); (42911, 42910); (42913, 42912); (42915, 42914);
    (42917, 42916); (42919, 42918); (42921, 42920); (42933, 42932);
    (42935, 42934); (42937, 42936); (42939, 42938); (42941, 42940);
    (42943, 42942); (42945, 42944); (42947, 42946); (42952, 42951);
    (42954, 42953); (42961, 42960); (42967, 42966); (42969, 42968);
    (42998, 42997); (43859, 42931); (43888, 5024); (43889, 5025);
    (43890, 5026); (43891, 5027); (43892, 5028); (43893, 5029);
    (43894, 5030); (43895, 5031); (43896, 5032); (43897, 5033);
    (43898, 5034); (43899, 5035); (43900, 5036); (43901, 5037);
    (43902, 5038); (43903, 5039); (43904, 5040); (43905, 5041);
    (43906, 5042); (43907, 5043); (43908, 5044); (43909, 5045);
    (43910, 5046); (43911, 5047); (43912, 5048); (43913, 5049);
    (43914, 5050); (43915, 5051); (43916, 5052); (43917, 5053);
    (43918, 5054); (43919, 5055); (43920, 5056); (43921, 5057);
    (43922, 5058); (43923, 5059); (43924, 5060); (43925, 5061);
    (43926, 5062); (43927, 5063); (43928, 5064); (43929, 5065);
    (43930, 5066); (43931, 5067); (43932, 5068); (43933, 5069);
    (43934, 5070); (43935, 5071); (43936, 5072); (43937, 5073);
    (43938, 5074); (43939, 5075); (43940, 5076); (43941, 5077);
    (43942, 5078); (43943, 5079); (43944, 5080); (43945, 5081);
    (43946, 5082); (43947, 5083); (43948, 5084); (43949, 5085);
    (43950, 5086); (43951, 5087); (43952, 5088); (43953, 5089);
    (43954, 5090); (43955, 5091); (43956, 5092); (43957, 5093);
    (43958, 5094); (43959, 5095); (43960, 5096); (43961, 5097);
    (43962, 5098); (43963, 5099); (43964, 5100); (43965, 5101);
    (43966, 5102); (43967, 5103); (65345, 65313); (65346, 65314);
    (65347, 65315); (65348, 65316); (65349, 65317); (65350, 65318);
    (65351, 65319); (65352, 65320); (65353, 65321); (65354, 65322);
    (65355, 65323); (65356, 65324); (65357, 65325); (65358, 65326);
    (65359, 65327); (65360, 65328); (65361, 65329); (65362, 65330);
    (65363, 65331); (65364, 65332); (65365, 65333); (65366, 65334);
    (65367, 65335); (65368, 65336); (65369, 65337); (65370, 65338)
  ].

Definition canonicalize (c : N) : N :=
  default c (table_find c canonicalize_table).

Definition any : regex := Cls (fun _ => true).
Definition dot : regex := Cls (fun c => negb (is_line_terminator c)).
Definition lit (c : N) : regex := Cls (N.eqb c).
Definition lit_i (c : N) : regex :=
  Cls (fun x => canonicalize x =? canonicalize c).
Definition space : regex := Cls is_space.
Definition digit : regex := Cls is_digit.
Definition opt (r : regex) : regex := Alt r Eps.
Definition plus (r : regex) : regex := Cat r (Star r).

(** A literal word under the [i] flag. *)
Fixpoint word_i (s : jsstring) : regex :=
  match s with
  | [] => Eps
  | c :: r => Cat (lit_i c) (word_i r)
  end.

(** [r{2,4}] *)
Definition rep_2_4 (r : regex) : regex :=
  Cat r (Cat r (opt (Cat r (opt r)))).

(** [/^r$/.test(s)] and [/r$/.test(s)] *)
Definition test_full (r : regex) (s : jsstring) : bool := matches r s.
Definition test_suffix (r : regex) (s : jsstring) : bool :=
  matches (Cat (Star any) r) s.

End Regex.
Export Regex.

(** ** Text normaliser and month classifier *)

(** [/[\u0300-\u036f]/g] *)
Definition re_combining : regex := Cls is_combining.

(** [normalize]: NFD, drop the combining marks, lower case, trim.  An
    absent argument ([None]) stands for [null] or [undefined]. *)
Definition normalize (s : option jsstring) : jsstring :=
  trim (toLowerCase (replace_all re_combining [] (nfd (default [] s)))).

(** The separator class of the month patterns: slash, hyphen or [\s]. *)
Definition re_sep : regex :=
  Cls (fun c => (c =? 47) || (c =? 45) || is_space c).

(** The optional suffix: an optional separator and two to four digits. *)
Definition re_year : regex := opt (Cat (opt re_sep) (rep_2_4 digit)).

Definition alt_of (rs : list regex) : regex := foldr Alt Void rs.

(** [/^(n1|n2|...)(?:[\/\-\s]?\d{2,4})?$/i] *)
Definition month_re (names : list jsstring) : regex :=
  Cat (alt_of (map word_i names)) re_year.

Definition marco_cedilla : jsstring := u "mar" ++ [231] ++ u "o".

Definition MONTH_ALIASES : list (regex * jsstring) :=
  [ (month_re [u "jan"; u "janeiro"], u "jan");
    (month_re [u "fev"; u "fevereiro"], u "fev");
    (month_re [u "mar"; u "marco"; marco_cedilla], u "mar");
    (month_re [u "abr"; u "abril"], u "abr");
    (month_re [u "mai"; u "maio"], u "mai");
    (month_re [u "jun"; u "junho"], u "jun");
    (month_re [u "jul"; u "julho"], u "jul");
    (month_re [u "ago"; u "agosto"], u "ago");
    (month_re [u "set"; u "setembro"], u "set");
    (month_re [u "out"; u "outubro"], u "out");
    (month_re [u "nov"; u "novembro"], u "nov");
    (month_re [u "dez"; u "dezembro"], u "dez");
    (word_i (u "total"), u "total") ].

(** The [for ... of] loop of [monthKey]: the key of the first pattern that
    matches, [None] for [null]. *)
Fixpoint first_alias (tbl : list (regex * jsstring)) (s : jsstring)
  : option jsstring :=
  match tbl with
  | [] => None
  | (re, key) :: rest =>
      if test_full re s then Some key else first_alias rest s
  end.

Definition monthKey (cell : option jsstring) : option jsstring :=
  let s := normalize cell in
  first_alias MONTH_ALIASES s.

(** ** Locale number parser *)

(** [/^[-\u2013\u2014]$/] *)
Definition re_dash : regex :=
  Cls (fun c => (c =? 45) || (c =? 8211) || (c =? 8212)).
(** [/r\$\s*/gi] *)
Definition re_currency : regex := Cat (lit_i 114) (Cat (lit 36) (Star space)).
(** [/\s+/g] *)
Definition re_spaces : regex := plus space.
(** [/^\(.*\)$/] *)
Definition re_parens : regex := Cat (lit 40) (Cat (Star dot) (lit 41)).
(** [/-$/] *)
Definition re_minus : regex := lit 45.
(** [/[^\d.,\-]/g] *)
Definition re_non_numeric : regex :=
  Cls (fun c => negb (is_digit c || (c =? 46) || (c =? 44) || (c =? 45))).
(** [/\./g] *)
Definition re_period : regex := lit 46.

(** Lines 52 to 58 of [parsePtNumber]: the sign flag [neg] and the text
    handed to [parseFloat]. *)
Definition pt_clean (s : jsstring) : bool * jsstring :=
  let s := replace_all re_spaces [] (replace_all re_currency [] s) in
  let neg := false in
  let '(neg, s) :=
    if test_full re_parens s then (true, slice_1_m1 s) else (neg, s) in
  let '(neg, s) :=
    if test_suffix re_minus s then (true, removelast s) else (neg, s) in
  let s := replace_all re_non_numeric [] s in
  let s :=
    if includes s (u ",") && includes s (u ".")
    then replace_first_unit 44 (u ".") (replace_all re_period [] s)
    else if includes s (u ",") then replace_first_unit 44 (u ".") s
    else s in
  (neg, s).

Definition parsePtNumber (raw : option jsstring) : number :=
  match raw with
  | None => zero
  | Some raw =>
      let s := trim raw in
      if bool_decide (s = []) || test_full re_dash s then zero
      else
        let '(neg, s) := pt_clean s in
        let val := parseFloat s in
        if isNaN val then zero
        else if neg then negate val else val
  end.

(** ** The grid and the header locator *)

(** What [Papa.parse] returns in [data]: rows of string cells. *)
Abbreviation grid := (list (list jsstring)).

(** [Boolean(v)] for a string or [null]. *)
Definition Boolean (v : option jsstring) : bool :=
  match v with
  | Some (_ :: _) => true
  | _ => false
  end.

(** [row.map(monthKey).filter(Boolean)] *)
Definition monthHits (row : list jsstring) : list (option jsstring) :=
  List.filter Boolean (map (fun c => monthKey (Some c)) row).

(** The scan for the header row: [n] iterations are left, [i] is the row
    index; the result is [(headerIdx, titleCol)], with the fallback [(1, 1)]
    when the loop ends without a [break]. *)
Fixpoint locate_loop (data : grid) (n i : nat) : nat * nat :=
  match n with
  | O => (1, 1)%nat
  | S n' =>
      let row := default [] (data !! i) in
      if (3 <=? length (monthHits row))%nat
      then (i, match row !! 1%nat with Some _ => 1%nat | None => 0%nat end)
      else locate_loop data n' (S i)
  end.

Definition locateHeader (data : grid) : nat * nat :=
  locate_loop data (Nat.min 5 (length data)) 0.

(** ** Month-column mapper *)

Record MonthCol := { mes : jsstring; col : nat; raw : jsstring }.

(** [Array.prototype.findIndex]; [None] stands for [-1]. *)
Fixpoint findIndex {A : Type} (f : A -> bool) (l : list A) : option nat :=
  match l with
  | [] => None
  | x :: r => if f x then Some 0%nat else S <$> findIndex f r
  end.

(** The heuristic for the auxiliary column next to column [idx];
    [below] is [data[headerIdx + 1] ?? []]. *)
Definition nextIsAux (header below : list jsstring) (idx : nat) : bool :=
  let nextHeader := default [] (header !! (idx + 1)%nat) in
  let nextCell := trim (default [] (below !! (idx + 1)%nat)) in
  let nextNum := parsePtNumber (Some nextCell) in
  bool_decide (nextHeader = [])
  && negb (isNaN nextNum) && leb (JsNum.abs nextNum) (of_Z 5).

(** One iteration of the walk at column [idx], the [idx++] of the loop
    header included: the next column index and the list after the
    iteration. *)
Definition walk_step (header below : list jsstring) (idx : nat)
  (monthCols : list MonthCol) : nat * list MonthCol :=
  match monthKey (header !! idx) with
  | None => (S idx, monthCols)
  | Some key =>
      if negb (Boolean (Some key)) || bool_decide (key = u "total")
      then (S idx, monthCols)
      else
        let aux := nextIsAux header below idx in
        let pushed :=
          monthCols ++
          [{| mes := key; col := idx; raw := default [] (header !! idx) |}] in
        (S (if aux then idx + 1 else idx)%nat, pushed)
  end.

#[local] Opaque monthKey nextIsAux.

(** [for (let idx = startC; idx < header.length; idx++) { ... }] *)
Equations? walk (header below : list jsstring) (idx : nat)
  (monthCols : list MonthCol) : list MonthCol
  by wf (length header - idx)%nat lt :=
walk header below idx monthCols with lt_dec idx (length header) => {
  | left _ :=
      walk header below (fst (walk_step header below idx monthCols))
        (snd (walk_step header below idx monthCols));
  | right _ := monthCols }.
Proof.
  unfold walk_step.
  destruct (monthKey _) as [k|]; cbn [fst snd]; [|lia].
  destruct (_ || _); cbn [fst snd]; [lia|].
  destruct (nextIsAux _ _ _); lia.
Qed.

#[local] Transparent monthKey nextIsAux.

Definition mapMonthCols (data : grid) (headerIdx : nat) : list MonthCol :=
  let header := default [] (data !! headerIdx) in
  let startC := default 2%nat (findIndex (fun c => Boolean (monthKey (Some c))) header) in
  walk header (default [] (data !! (headerIdx + 1)%nat)) startC [].

(** Whether the iteration at column [idx] ends with [idx += 1]: the
    column holds a month other than "total" and [nextIsAux] is true. *)
Definition jumps_at (header below : list jsstring) (idx : nat) : bool :=
  match monthKey (header !! idx) with
  | None => false
  | Some key =>
      if negb (Boolean (Some key)) || bool_decide (key = u "total")
      then false
      else nextIsAux header below idx
  end.

#[local] Opaque monthKey nextIsAux.

(** The same loop, keeping the columns that [idx += 1] passes over
    instead of the months. *)
Equations? walk_jumps (header below : list jsstring) (idx : nat)
  (jumped : list nat) : list nat
  by wf (length header - idx)%nat lt :=
walk_jumps header below idx jumped with lt_dec idx (length header) => {
  | left _ :=
      walk_jumps header below (fst (walk_step header below idx []))
        (if jumps_at header below idx then jumped ++ [S idx] else jumped);
  | right _ := jumped }.
Proof.
  unfold walk_step.
  destruct (monthKey _) as [k|]; cbn [fst snd]; [|lia].
  destruct (_ || _); cbn [fst snd]; [lia|].
  destruct (nextIsAux _ _ _); lia.
Qed.

#[local] Transparent monthKey nextIsAux.

(** The columns the month-column mapping passes over, with the header
    row, the row below it and the start column of [mapMonthCols]. *)
Definition auxCols (data : grid) (headerIdx : nat) : list nat :=
  let header := default [] (data !! headerIdx) in
  let startC := default 2%nat (findIndex (fun c => Boolean (monthKey (Some c))) header) in
  walk_jumps header (default [] (data !! (headerIdx + 1)%nat)) startC [].

(** ** Account row extractor *)

Record AccountRow := {
  name : jsstring;
  key : jsstring;
  values : gmap jsstring number }.

(** [/[()=+\-]/g] *)
Definition re_punct : regex :=
  Cls (fun c => (c =? 40) || (c =? 41) || (c =? 61) || (c =? 43) || (c =? 45)).

(** [normalize(t).replace(/\s+/g, "_").replace(/[()=+\-]/g, "")] *)
Definition keyOf (t : jsstring) : jsstring :=
  replace_all re_punct [] (replace_all re_spaces (u "_") (normalize (Some t))).

Definition hasAnyVal (monthCols : list MonthCol) (row : list jsstring) : bool :=
  existsb
    (fun mc => negb (bool_decide (trim (default [] (row !! col mc)) = [])))
    monthCols.

(** The [forEach] that fills the [values] object. *)
Definition buildValues (monthCols : list MonthCol) (row : list jsstring)
  : gmap jsstring number :=
  fold_left
    (fun vals mc =>
       let val := parsePtNumber (row !! col mc) in
       <[mes mc := if isNaN val then zero else val]> vals)
    monthCols ∅.

(** One iteration of the row loop at row index [r]. *)
Definition row_step (data : grid) (titleCol : nat) (monthCols : list MonthCol)
  (r : nat) (resultRows : list AccountRow) : list AccountRow :=
  let row := default [] (data !! r) in
  let titleRaw := trim (default [] (row !! titleCol)) in
  if bool_decide (titleRaw = []) then resultRows
  else if negb (hasAnyVal monthCols row) then resultRows
  else
    resultRows ++
    [{| name := titleRaw;
        key := slice0 100 (keyOf titleRaw);
        values := buildValues monthCols row |}].

(** [for (let r = startRow; r < data.length; r++)], with [n] iterations
    left. *)
Fixpoint rows_loop (data : grid) (titleCol : nat) (monthCols : list MonthCol)
  (n r : nat) (resultRows : list AccountRow) : list AccountRow :=
  match n with
  | O => resultRows
  | S n' =>
      rows_loop data titleCol monthCols n' (S r)
        (row_step data titleCol monthCols r resultRows)
  end.

Definition extractRows (data : grid) (headerIdx titleCol : nat)
  (monthCols : list MonthCol) : list AccountRow :=
  let startRow := (headerIdx + 1)%nat in
  rows_loop data titleCol monthCols (length data - startRow) startRow [].

(** The synchronous part of the effect, from [data] to the two values
    handed to the setters. *)
Definition extract (data : grid) : list AccountRow * list jsstring :=
  let '(headerIdx, titleCol) := locateHeader data in
  let monthCols := mapMonthCols data headerIdx in
  let monthsFound := map mes monthCols in
  (extractRows data headerIdx titleCol monthCols, monthsFound).

(** ** The effect: fetch, parse, publish *)

Inductive Outcome (A : Type) :=
| Returned (a : A)
| Thrown.
Arguments Returned {A} a.
Arguments Thrown {A}.

(** The three [useState] cells of the hook. *)
Record HookState := {
  rows : list AccountRow;
  months : list jsstring;
  loading : bool }.

(** [useState([])], [useState([])], [useState(true)] *)
Definition initialState : HookState :=
  {| rows := []; months := []; loading := true |}.

Definition emptySnapshot : HookState :=
  {| rows := []; months := []; loading := false |}.

(** The state cells together with the log of the states handed to React,
    one per setter call, oldest first. *)
Record World := { current : HookState; published : list HookState }.

(** Computations that read and write the state cells and may throw. *)
Definition Eff (A : Type) : Type := World -> Outcome A * World.

#[global] Instance eff_ret : MRet Eff := fun A a w => (Returned a, w).
#[global] Instance eff_bind : MBind Eff := fun A B f c w =>
  match c w with
  | (Returned a, w') => f a w'
  | (Thrown, w') => (Thrown, w')
  end.

Definition lift {A : Type} (o : Outcome A) : Eff A := fun w => (o, w).

Definition publish (s : HookState) : Eff unit := fun w =>
  (Returned tt, {| current := s; published := published w ++ [s] |}).

Definition setRows (v : list AccountRow) : Eff unit := fun w =>
  publish {| rows := v; months := months (current w);
             loading := loading (current w) |} w.
Definition setMonths (v : list jsstring) : Eff unit := fun w =>
  publish {| rows := rows (current w); months := v;
             loading := loading (current w) |} w.
Definition setLoading (v : bool) : Eff unit := fun w =>
  publish {| rows := rows (current w); months := months (current w);
             loading := v |} w.

(** [try { body } catch (e) { handler }] *)
Definition try_catch {A : Type} (body handler : Eff A) : Eff A := fun w =>
  match body w with
  | (Thrown, w') => handler w'
  | r => r
  end.

Section Effect.

(** [Papa.parse(text, ...)] and [data] of its result; the library is not
    part of this repository. *)
Variable papa_parse : jsstring -> Outcome grid.

(** The body of the [useEffect] callback; [response] is the outcome of
    [await fetch(DRE_CSV_URL).then((r) => r.text())]. *)
Definition effect (response : Outcome jsstring) : Eff unit :=
  try_catch
    (text ← lift response;
     data ← lift (papa_parse text);
     let '(resultRows, monthsFound) := extract data in
     _ ← setRows resultRows;
     _ ← setMonths monthsFound;
     setLoading false)
    (_ ← setRows [];
     _ ← setMonths [];
     setLoading false).

(** The effect runs once, after the first render. *)
Definition mount (response : Outcome jsstring) : World :=
  snd (effect response {| current := initialState; published := [] |}).

End Effect.

(** ** Index, alias table and lookups *)

(** A JavaScript [Map] from keys to rows, in insertion order. *)
Abbreviation jsmap := (list (jsstring * AccountRow)).

(** [Map.prototype.set]: an existing key keeps its position. *)
Fixpoint map_set (m : jsmap) (k : jsstring) (v : AccountRow) : jsmap :=
  match m with
  | [] => [(k, v)]
  | (k', v') :: t =>
      if bool_decide (k' = k) then (k', v) :: t else (k', v') :: map_set t k v
  end.

Fixpoint map_get (m : jsmap) (k : jsstring) : option AccountRow :=
  match m with
  | [] => None
  | (k', v') :: t => if bool_decide (k' = k) then Some v' else map_get t k
  end.

Definition map_has (m : jsmap) (k : jsstring) : bool :=
  match map_get m k with Some _ => true | None => false end.

(** [rows.forEach((r) => m.set(r.key, r))] *)
Definition buildIndex (rs : list AccountRow) : jsmap :=
  fold_left (fun m r => map_set m (key r) r) rs [].

(** Reading the property [k] of a plain object whose own properties are
    [own]: an own property, a property inherited from [Object.prototype],
    or [undefined]. *)
Inductive PropRead (A : Type) :=
| Own (a : A)
| Inherited
| Missing.
Arguments Own {A} a.
Arguments Inherited {A}.
Arguments Missing {A}.

Definition object_prototype_names : list jsstring :=
  [ u "constructor"; u "hasOwnProperty"; u "isPrototypeOf";
    u "propertyIsEnumerable"; u "toLocaleString"; u "toString";
    u "valueOf"; u "__proto__"; u "__defineGetter__";
    u "__defineSetter__"; u "__lookupGetter__"; u "__lookupSetter__" ].

Definition get_prop {A : Type} (own : gmap jsstring A) (k : jsstring)
  : PropRead A :=
  match own !! k with
  | Some v => Own v
  | None =>
      if bool_decide (k ∈ object_prototype_names) then Inherited else Missing
  end.

Definition mes_circumflex : jsstring := u "inadimplencia do m" ++ [234] ++ u "s".

Definition aliases : gmap jsstring (list jsstring) :=
  list_to_map
  [ (u "faturamento_bruto", [u "faturamento bruto"]);
    (u "receitas_servicos",
      [u "receita da prestacao de servicos";
       u "receita prestacao de servicos"; u "receita de servicos"]);
    (u "receitas_revenda", [u "receita da revenda de mercadorias"]);
    (u "receitas_fabricacao",
      [u "receita de fabricacao propria"; u "receita de fabricacao propria"]);
    (u "deducoes",
      [u "deducoes"; u "deducoes estornos"; u "devolucoes/estornos";
       u "deducoes (-)"]);
    (u "receita_liquida",
      [u "receita liquida"; u "receita liquida ="; u "receita liquida (=)"]);
    (u "custos_totais",
      [u "custos totais"; u "custos totais ="; u "custos totais (=)"]);
    (u "custos_operacionais",
      [u "custos operacionais"; u "custos operacionais (-)"]);
    (u "despesas_adm", [u "despesas adm"; u "despesas administrativas"]);
    (u "despesas_comercial", [u "despesas comercial"; u "despesas comerciais"]);
    (u "despesas_logistica",
      [u "despesas com logistica"; u "despesas com logistica"; u "logistica"]);
    (u "ebitda", [u "ebitda"]);
    (u "lucro_operacional",
      [u "lucro operacional (ebit)"; u "lucro operacional ebit"; u "ebit"]);
    (u "resultado_financeiro", [u "resultado financeiro"]);
    (u "impostos_sobre_lucro", [u "impostos sobre o lucro"]);
    (u "lucro_liquido",
      [u "lucro liquido"; u "lucro liquido ="; u "lucro liquido (=)";
       u "lucro liquido (+/-)"]);
    (u "lucro_bruto", [u "lucro bruto"; u "lucro bruto (=)"]);
    (u "geracao_caixa", [u "geracao de caixa"; u "geracao de caixa"]);
    (u "inadimplencia_mes",
      [u "inadimplencia do mes"; u "inadimplencia mes"; mes_circumflex]);
    (u "inadimplencia_acumulada", [u "inadimplencia acumulada"]);
    (u "prazo_medio_receber",
      [u "pmr"; u "prazo medio receber"; u "prazo medio de recebimento"]);
    (u "prazo_medio_pagar",
      [u "pmp"; u "prazo medio pagar"; u "prazo medio de pagamento"]) ].

(** The branch of [findRow] that returned: [map.has(k)] or the scan of
    [map.entries()]. *)
Inductive Branch := ExactMatch | SubstringFallback.

(** [for (const [key, obj] of map.entries()) if (key.includes(k)) return obj] *)
Fixpoint scan_entries (entries : jsmap) (k : jsstring) : option AccountRow :=
  match entries with
  | [] => None
  | (key, obj) :: t => if includes key k then Some obj else scan_entries t k
  end.

(** The loop of [findRow] over the variants of one alias. *)
Fixpoint findRow_loop (m : jsmap) (opts : list jsstring) : option AccountRow :=
  match opts with
  | [] => None
  | opt :: rest =>
      let k := keyOf opt in
      if map_has m k then map_get m k
      else match scan_entries m k with
           | Some obj => Some obj
           | None => findRow_loop m rest
           end
  end.

(** [findRow_loop] with a record of how it returned: the number of the
    variant, counted from [i], and the branch. *)
Fixpoint findRow_via (m : jsmap) (opts : list jsstring) (i : nat)
  : option (nat * Branch * AccountRow) :=
  match opts with
  | [] => None
  | opt :: rest =>
      let k := keyOf opt in
      if map_has m k
      then (fun obj => (i, ExactMatch, obj)) <$> map_get m k
      else match scan_entries m k with
           | Some obj => Some (i, SubstringFallback, obj)
           | None => findRow_via m rest (S i)
           end
  end.

(** [findRow]: [aliases[aliasKey] || []] is an inherited function or
    object for a name of [Object.prototype], and [for ... of] over it
    throws a [TypeError]. *)
Definition findRow (rs : list AccountRow) (aliasKey : jsstring)
  : Outcome (option AccountRow) :=
  match get_prop aliases aliasKey with
  | Own opts => Returned (findRow_loop (buildIndex rs) opts)
  | Inherited => Thrown
  | Missing => Returned None
  end.

(** [valueAt]; [mes = None] stands for [null] or [undefined].  [Number]
    of an inherited function or object is [NaN]. *)
Definition valueAt (rs : list AccountRow) (aliasKey : jsstring)
  (mes : option jsstring) : Outcome number :=
  match findRow rs aliasKey with
  | Thrown => Thrown
  | Returned None => Returned zero
  | Returned (Some row) =>
      let m := toLowerCase (default [] mes) in
      Returned match get_prop (values row) m with
               | Own v => v
               | Inherited => NaN
               | Missing => zero
               end
  end.

(** ** Reference notions used in the statements *)

(** The language of a regular expression. *)
Inductive lang : regex -> jsstring -> Prop :=
| lang_eps : lang Eps []
| lang_cls p c : p c = true -> lang (Cls p) [c]
| lang_cat a b s1 s2 : lang a s1 -> lang b s2 -> lang (Cat a b) (s1 ++ s2)
| lang_alt_l a b s : lang a s -> lang (Alt a b) s
| lang_alt_r a b s : lang b s -> lang (Alt a b) s
| lang_star_nil a : lang (Star a) []
| lang_star_cons a s1 s2 :
    lang a s1 -> lang (Star a) s2 -> lang (Star a) (s1 ++ s2).

(** The binary64 number written [1234.56]: 0x1.34a3d70a3d70ap+10. *)
Definition n_1234_56 : number := S754_finite false 5429652300748554 (-42).

(** The row has a title: its title cell is not blank. *)
Definition has_title (titleCol : nat) (row : list jsstring) : Prop :=
  trim (default [] (row !! titleCol)) <> [].

(** The row has a value: one of its month-column cells is not blank. *)
Definition has_month_value (monthCols : list MonthCol) (row : list jsstring)
  : Prop :=
  exists mc, mc ∈ monthCols /\ trim (default [] (row !! col mc)) <> [].

(** The AccountRow a grid row gives. *)
Definition accountRowOf (titleCol : nat) (monthCols : list MonthCol)
  (row : list jsstring) : AccountRow :=
  let titleRaw := trim (default [] (row !! titleCol)) in
  {| name := titleRaw;
     key := slice0 100 (keyOf titleRaw);
     values := buildValues monthCols row |}.

(** The test of the row loop, as one boolean. *)
Definition emits (titleCol : nat) (monthCols : list MonthCol)
  (row : list jsstring) : bool :=
  negb (bool_decide (trim (default [] (row !! titleCol)) = []))
  && hasAnyVal monthCols row.

(** The cell text is a parseable number: it is not blank, not a lone
    dash, and [parseFloat] accepts what [parsePtNumber] hands it. *)
Definition parses_as_number (cell : jsstring) : bool :=
  let s := trim cell in
  negb (bool_decide (s = []) || test_full re_dash s)
  && negb (isNaN (parseFloat (snd (pt_clean s)))).

(** The title "Receita Liquida (=)" with i-acute (U+00ED) in "Liquida". *)
Definition title_receita_liquida : jsstring :=
  u "Receita L" ++ [237%N] ++ u "quida (=)".

(** The variants of the alias [receita_liquida]. *)
Definition receita_liquida_variants : list jsstring :=
  [u "receita liquida"; u "receita liquida ="; u "receita liquida (=)"].

(** A row "EBITDA" with the single entry [mar = 7]. *)
Definition ebitda_row : AccountRow :=
  {| name := u "EBITDA"; key := u "ebitda";
     values := {[ u "mar" := of_Z 7 ]} |}.

(** The month table in the words of the spec: each canonical key with its
    three-letter abbreviation and its unaccented lower-case name. *)
Definition month_forms : list (jsstring * list jsstring) :=
  [ (u "jan", [u "jan"; u "janeiro"]);
    (u "fev", [u "fev"; u "fevereiro"]);
    (u "mar", [u "mar"; u "marco"]);
    (u "abr", [u "abr"; u "abril"]);
    (u "mai", [u "mai"; u "maio"]);
    (u "jun", [u "jun"; u "junho"]);
    (u "jul", [u "jul"; u "julho"]);
    (u "ago", [u "ago"; u "agosto"]);
    (u "set", [u "set"; u "setembro"]);
    (u "out", [u "out"; u "outubro"]);
    (u "nov", [u "nov"; u "novembro"]);
    (u "dez", [u "dez"; u "dezembro"]) ].

Definition is_lower_letter (c : N) : bool := in_range 97 122 c.

(** The separators the claim names: slash, hyphen, space. *)
Definition claim_sep (c : N) : bool := (c =? 47) || (c =? 45) || (c =? 32).

(** The separators the patterns accept: slash, hyphen, any white space. *)
Definition code_sep (c : N) : bool := (c =? 47) || (c =? 45) || is_space c.

(** A year suffix: nothing, or an optional separator and two to four
    digits. *)
Definition year_suffix (sep : N -> bool) (s : jsstring) : Prop :=
  s = []
  \/ exists pre ds,
       s = pre ++ ds
       /\ (pre = [] \/ exists c, pre = [c] /\ sep c = true)
       /\ (2 <= length ds <= 4)%nat
       /\ Forall (fun d => is_digit d = true) ds.

(** The case and diacritic variants of the lower-case letter [c]: a
    character whose canonical decomposition is the letter or its capital
    followed by marks of the class U+0300..U+036F (the bare letter, or
    any precomposed accented letter), then any number of such marks. *)
Inductive letter_variant (c : N) : jsstring -> Prop :=
| letter_variant_intro x b ds marks :
    decompose x = b :: ds ->
    b = c \/ b + 32 = c ->
    Forall (fun m => is_combining m = true) (ds ++ marks) ->
    letter_variant c (x :: marks).

(** [variant base v]: [v] is a case or diacritic variant of the lower-case
    word [base]. *)
Inductive variant : jsstring -> jsstring -> Prop :=
| variant_nil : variant [] []
| variant_cons c base chunk rest :
    is_lower_letter c = true ->
    letter_variant c chunk ->
    variant base rest ->
    variant (c :: base) (chunk ++ rest).

(** The cells the claim names: a variant of a month form, with or without
    a year suffix. *)
Definition is_month_cell (cell : jsstring) : Prop :=
  exists key forms base v suf,
    (key, forms) ∈ month_forms /\ base ∈ forms /\ variant base v
    /\ year_suffix claim_sep suf /\ cell = v ++ suf.

(** The normalised texts that classify to [key]. *)
Definition recognised (key s : jsstring) : Prop :=
  (key = u "total" /\ s = u "total")
  \/ exists forms base suf,
       (key, forms) ∈ month_forms /\ base ∈ forms
       /\ year_suffix code_sep suf /\ s = base ++ suf.

(** What [normalize] leaves: no capital A-Z and no c-cedilla. *)
Definition lowered (x : N) : bool :=
  negb (in_range 65 90 x) && negb (x =? 199) && negb (x =? 231).

(** [normalize] before its final [trim]. *)
Definition fold_text (s : jsstring) : jsstring :=
  toLowerCase (replace_all re_combining [] (nfd s)).

(** The names in the alternations of [MONTH_ALIASES], key by key. *)
Definition code_names : list (jsstring * list jsstring) :=
  [ (u "jan", [u "jan"; u "janeiro"]);
    (u "fev", [u "fev"; u "fevereiro"]);
    (u "mar", [u "mar"; u "marco"; marco_cedilla]);
    (u "abr", [u "abr"; u "abril"]);
    (u "mai", [u "mai"; u "maio"]);
    (u "jun", [u "jun"; u "junho"]);
    (u "jul", [u "jul"; u "julho"]);
    (u "ago", [u "ago"; u "agosto"]);
    (u "set", [u "set"; u "setembro"]);
    (u "out", [u "out"; u "outubro"]);
    (u "nov", [u "nov"; u "novembro"]);
    (u "dez", [u "dez"; u "dezembro"]) ].

Definition all_letters (w : jsstring) : bool := forallb is_lower_letter w.

(** The key of a month form, by search in [month_forms]. *)
Definition form_key (base : jsstring) : option jsstring :=
  fst <$> List.find (fun kf => existsb (fun f => bool_decide (f = base)) (snd kf))
            month_forms.

(** The invariant of the walk at column [idx]: every recorded column is
    to the left of [idx], is a month other than "total", and the recorded
    columns increase. *)
Definition recorded (header : list jsstring) (idx : nat)
  (acc : list MonthCol) : Prop :=
  (forall mc, mc ∈ acc ->
     (col mc < idx)%nat /\ mes mc <> u "total"
     /\ monthKey (header !! col mc) = Some (mes mc))
  /\ (forall i j a b, (i < j)%nat -> acc !! i = Some a -> acc !! j = Some b ->
        (col a < col b)%nat).

(** Every entry of the index is filed under the key of its row. *)
Definition consistent (m : jsmap) : Prop :=
  forall k v, (k, v) ∈ m -> key v = k.

(** The MonthColumn of the header cell [c] at column [idx], when the cell
    classifies as a month other than "total". *)
Definition month_col_at (idx : nat) (c : jsstring) : option MonthCol :=
  match monthKey (Some c) with
  | Some k =>
      if bool_decide (k = u "total") then None
      else Some {| mes := k; col := idx; raw := c |}
  | None => None
  end.

(** The MonthColumns of the cells [cells], the first of which is at
    column [idx]. *)
Fixpoint month_cols_from (idx : nat) (cells : list jsstring) : list MonthCol :=
  match cells with
  | [] => []
  | c :: rest =>
      match month_col_at idx c with
      | Some mc => mc :: month_cols_from (S idx) rest
      | None => month_cols_from (S idx) rest
      end
  end.

(** The last row of [rs] whose key is [k]. *)
Definition last_with_key (rs : list AccountRow) (k : jsstring)
  : option AccountRow :=
  last (List.filter (fun r => bool_decide (key r = k)) rs).

(** What one variant resolves to, read on the row list: the last row with
    exactly the key [k]; failing that, the last row that shares its key
    with the first row whose key contains [k]. *)
Definition resolve_variant (rs : list AccountRow) (k : jsstring)
  : option AccountRow :=
  match last_with_key rs k with
  | Some r => Some r
  | None =>
      match List.find (fun r => includes (key r) k) rs with
      | Some r0 => last_with_key rs (key r0)
      | None => None
      end
  end.

(** The first variant, in order, that resolves to a row. *)
Fixpoint resolve (rs : list AccountRow) (opts : list jsstring)
  : option AccountRow :=
  match opts with
  | [] => None
  | opt :: rest =>
      match resolve_variant rs (keyOf opt) with
      | Some r => Some r
      | None => resolve rs rest
      end
  end.

(** [debugKeys(...keys)]: [keys.map] calls [findRow] on each key in turn,
    so a throwing key makes the whole call throw; [!!findRow(k)?.name] is
    true when a row is found and its name is not empty. *)
Fixpoint debugKeys (rs : list AccountRow) (keys : list jsstring)
  : Outcome (list (jsstring * bool)) :=
  match keys with
  | [] => Returned []
  | k :: rest =>
      match findRow rs k with
      | Thrown => Thrown
      | Returned found =>
          match debugKeys rs rest with
          | Thrown => Thrown
          | Returned l =>
              Returned
                ((k, match found with
                     | Some r => Boolean (Some (name r))
                     | None => false
                     end) :: l)
          end
      end
  end.

(** [erased Q s s']: [s'] is [s] with some units deleted, all of them in
    [Q]. *)
Inductive erased (Q : N -> bool) : jsstring -> jsstring -> Prop :=
| erased_nil : erased Q [] []
| erased_keep c s s' : erased Q s s' -> erased Q (c :: s) (c :: s')
| erased_drop c s s' : Q c = true -> erased Q s s' -> erased Q (c :: s) s'.

(** Number of white-space units at the start of [s]. *)
Fixpoint run_length (s : jsstring) : nat :=
  match s with
  | c :: r => if is_space c then S (run_length r) else 0%nat
  | [] => 0%nat
  end.

(** [s] with every maximal run of white space replaced by [by_];
    [in_run] says that the unit before [s] was white space. *)
Fixpoint collapse (by_ : jsstring) (in_run : bool) (s : jsstring) : jsstring :=
  match s with
  | [] => []
  | c :: r =>
      if is_space c then (if in_run then [] else by_) ++ collapse by_ true r
      else c :: collapse by_ false r
  end.

(** The class of [re_punct]: parentheses, equals, plus and minus signs. *)
Definition is_punct (c : N) : bool :=
  (c =? 40) || (c =? 41) || (c =? 61) || (c =? 43) || (c =? 45).

(** The units the filter [/[^\d.,\-]/g] keeps. *)
Definition is_numeric_unit (c : N) : bool :=
  is_digit c || (c =? 46) || (c =? 44) || (c =? 45).

(** Digits, period and comma: the units of an unsigned amount. *)
Definition is_amount_unit (c : N) : bool :=
  is_digit c || (c =? 46) || (c =? 44).

(** A unit the numeric filter removes and that opens no parenthesis. *)
Definition is_decoration (c : N) : bool :=
  negb (is_numeric_unit c) && negb (c =? 40).

(** The units a match of [/r\$\s*/gi] or of [/\s+/g] can hold. *)
Definition is_currency_unit (c : N) : bool :=
  (canonicalize c =? canonicalize 114) || (c =? 36) || is_space c.

(** Lines 57 and 58 of [parsePtNumber]: the decimal comma becomes a
    period. *)
Definition decimal_point (s : jsstring) : jsstring :=
  if includes s (u ",") && includes s (u ".")
  then replace_first_unit 44 (u ".") (replace_all re_period [] s)
  else if includes s (u ",") then replace_first_unit 44 (u ".") s
  else s.

(** Lines 59 to 61 without the sign: [parseFloat], zero for [NaN]. *)
Definition to_number (s : jsstring) : number :=
  let val := parseFloat s in if isNaN val then zero else val.

(** [parseFloat] after the white space and the sign have been read. *)
Definition parse_unsigned (sg : bool) (s : jsstring) : number :=
  if startsWith (u "Infinity") s then S754_infinity sg
  else
    let '(ip, r1) := span_digits s in
    let '(fp, r2) :=
      match r1 with
      | c :: r => if c =? 46 then span_digits r else ([], r1)
      | [] => ([], r1)
      end in
    match ip ++ fp with
    | [] => NaN
    | ds => of_decimal sg (digits_value ds)
              (exponent_part r2 - Z.of_nat (length fp))
    end.

(** ** The fixed-data dashboard *)

Module Dashboard.

Local Open Scope Z_scope.

Record Custos := {
  maoDeObra : Z;
  custosOperacionais : Z;
  despesasGlobais : Z
}.

(** A record of [DATA]; [deducao] is present in the first record only. *)
Record Entry := {
  mes : jsstring;
  faturamento : Z;
  deducao : option Z;
  ebitda : Z;
  cpv : Z;
  saldoBanco : Z;
  custos : Custos
}.

Definition DATA : list Entry :=
  [
    {| mes := u "Maio"; faturamento := 4721368; deducao := Some 0;
       ebitda := 180162; cpv := 2338562; saldoBanco := 0;
       custos := {| maoDeObra := 573179;
                    custosOperacionais := 889599;
                    despesasGlobais := 391702 |} |};
    {| mes := u "Junho"; faturamento := 3872084; deducao := None;
       ebitda := 299473; cpv := 1586710; saldoBanco := 0;
       custos := {| maoDeObra := 445339;
                    custosOperacionais := 839686;
                    despesasGlobais := 335031 |} |};
    {| mes := u "Julho"; faturamento := 4303388; deducao := None;
       ebitda := 529029; cpv := 1596919; saldoBanco := 0;
       custos := {| maoDeObra := 500500;
                    custosOperacionais := 1028620;
                    despesasGlobais := 275336 |} |};
    {| mes := u "Agosto"; faturamento := 4200843; deducao := None;
       ebitda := 149762; cpv := 1973222; saldoBanco := 0;
       custos := {| maoDeObra := 480857;
                    custosOperacionais := 912160;
                    despesasGlobais := 333412 |} |};
    {| mes := u "Setembro"; faturamento := 3557200; deducao := None;
       ebitda := 329559; cpv := 1138831; saldoBanco := 146040;
       custos := {| maoDeObra := 393683;
                    custosOperacionais := 939939;
                    despesasGlobais := 410516 |} |};
    {| mes := u "Outubro"; faturamento := 4347730; deducao := None;
       ebitda := (-486362); cpv := 2758997; saldoBanco := 0;
       custos := {| maoDeObra := 473810;
                    custosOperacionais := 838529;
                    despesasGlobais := 266670 |} |};
    {| mes := u "Novembro"; faturamento := 716122; deducao := None;
       ebitda := (-1680025); cpv := 731917; saldoBanco := 0;
       custos := {| maoDeObra := 426069;
                    custosOperacionais := 588293;
                    despesasGlobais := 162679 |} |}
  ].

(** [DATA.find((d) => d.mes === mes)] *)
Definition find_mes (m : jsstring) : option Entry :=
  List.find (fun d => bool_decide (mes d = m)) DATA.

(** [DATA[DATA.length - 1]], [None] for [undefined]. *)
Definition last_entry : option Entry := last DATA.

(** The initial state, [DATA[DATA.length - 1].mes]. *)
Definition initial_mes : option jsstring := mes <$> last_entry.

(** The effect on [mes]: the state it leaves, which is the state itself
    when [setMes] is not called. *)
Definition effect_mes (m : jsstring) : option jsstring :=
  match find_mes m with
  | Some _ => Some m
  | None => mes <$> last_entry
  end.

(** [current]: the record found, or else the last record. *)
Definition current (m : jsstring) : option Entry :=
  match find_mes m with
  | Some d => Some d
  | None => last_entry
  end.

(** [custosChart]: the values of the three bars, in order. *)
Definition custosChart (c : Entry) : list Z :=
  [maoDeObra (custos c); custosOperacionais (custos c);
   despesasGlobais (custos c)].

End Dashboard.

(** Surrogate code units, U+D800..U+DFFF. *)
Definition is_surrogate (c : N) : bool := in_range 55296 57343 c.

(** No lone high surrogate stands before a lone low surrogate: the
    shape of every list of code points read from a text. *)
Fixpoint pair_free (l : list N) : Prop :=
  match l with
  | [] => True
  | a :: r =>
      match r with
      | b :: _ => is_high_surrogate a && is_low_surrogate b = false
      | [] => True
      end /\ pair_free r
  end.

(** The code point has no canonical decomposition. *)
Definition stable (c : N) : bool := bool_decide (decompose c = [c]).

(** The piece of [lower_points] for one code point. *)
Definition lower_chunk (before : list N) (c : N) (r : list N) : list N :=
  if (c =? 931)%N
  then if cased_next before && negb (cased_next r) then [962%N] else [963%N]
  else lower_point c.

(** A code point that the lower-case conversion leaves as it is, the
    capital sigma apart. *)
Definition lower_fixed (e : N) : bool :=
  negb (e =? 931)%N && bool_decide (lower_point e = [e]).

(** What [normalize] leaves, unit by unit: no capital A-Z, no c-cedilla,
    no combining mark U+0300..U+036F, nothing that decomposes. *)
Definition clean (x : N) : bool :=
  lowered x && negb (is_combining x) && ((65536 <=? x)%N || stable x).

(** A unit that every step of [normalize] but [trim] leaves in place. *)
Definition inert (c : N) : bool :=
  (c <? 65536)%N && negb (is_high_surrogate c) && stable c && (ccc c =? 0)%N
  && negb (is_combining c) && lower_fixed c.

(** A month-classifier hit, in the words of the spec: the cell is a
    recognised text for some key once normalised. *)
Definition is_hit (cell : jsstring) : Prop :=
  exists key, recognised key (normalize (Some cell)).

(** The number of hits among the cells of a row. *)
Inductive hit_count : list jsstring -> nat -> Prop :=
| hit_count_nil : hit_count [] 0
| hit_count_hit c row n :
    is_hit c -> hit_count row n -> hit_count (c :: row) (S n)
| hit_count_miss c row n :
    ~ is_hit c -> hit_count row n -> hit_count (c :: row) n.

(** A sheet with the months Jan, Fev and Mar, an empty header cell after
    Jan and the text [cell] below that empty header cell. *)
Definition aux_grid (cell : jsstring) : grid :=
  [[u "Conta"; u "Jan"; []; u "Fev"; u "Mar"; u "Total"];
   [u "Receita"; u "10"; cell; u "20"; u "30"; u "60"]].

(** A sheet with a title row of four cells above the row of months. *)
Definition titled_grid : grid :=
  [[u "Empresa"; u "DRE"; u "2025"; u "Mensal"];
   [u "Conta"; u "Jan"; u "FEV/25"; u "MAR" ++ [199%N] ++ u "O"];
   [u "Receita"; u "10"; u "20"; u "30"]].

(** ** Regular expressions: the matcher decides the language *)

Section RegexFacts.

#[local] Hint Constructors lang : core.

Lemma nullable_lang r : nullable r = true <-> lang r [].
Proof.
  split.
  - induction r; simpl; intros H; try discriminate; auto.
    + apply andb_true_iff in H as [Ha Hb].
      change (@nil N) with (@nil N ++ []). auto.
    + apply orb_true_iff in H as [Ha|Hb]; auto.
  - intros H. remember (@nil N) as s eqn:Hs.
    induction H; simpl; try discriminate; auto.
    + apply app_eq_nil in Hs as [-> ->]. rewrite IHlang1, IHlang2; auto.
    + rewrite IHlang; auto.
    + rewrite IHlang; auto using orb_true_r.
Qed.

Lemma deriv_sound c r : forall s, lang (deriv c r) s -> lang r (c :: s).
Proof.
  induction r; simpl; intros s H.
  - inversion H.
  - inversion H.
  - destruct (p c) eqn:Hp; inversion H; subst. auto.
  - destruct (nullable r1) eqn:Hn.
    + inversion H as [| | | ? ? ? H1 | ? ? ? H1 | |]; subst.
      * inversion H1; subst.
        change (c :: s1 ++ s2) with ((c :: s1) ++ s2). auto.
      * change (c :: s) with ([] ++ c :: s).
        apply lang_cat; auto. apply nullable_lang; auto.
    + inversion H; subst.
      change (c :: s1 ++ s2) with ((c :: s1) ++ s2). auto.
  - inversion H; subst; auto.
  - inversion H; subst.
    change (c :: s1 ++ s2) with ((c :: s1) ++ s2). auto.
Qed.

Lemma deriv_complete c r t :
  lang r t -> forall w, t = c :: w -> lang (deriv c r) w.
Proof.
  induction 1; intros w Hw; simpl.
  - discriminate.
  - injection Hw as -> <-. rewrite H. auto.
  - destruct s1 as [|x s1'].
    + simpl in Hw. subst s2.
      assert (Hn : nullable a = true) by (apply nullable_lang; auto).
      rewrite Hn. apply lang_alt_r. auto.
    + simpl in Hw. injection Hw as -> <-.
      assert (Hc : lang (Cat (deriv c a) b) (s1' ++ s2)) by auto.
      destruct (nullable a); auto.
  - auto.
  - auto.
  - discriminate.
  - destruct s1 as [|x s1'].
    + simpl in Hw. subst s2. apply (IHlang2 w eq_refl).
    + simpl in Hw. injection Hw as -> <-. auto.
Qed.

Lemma matches_lang r s : matches r s = true <-> lang r s.
Proof.
  revert r. induction s as [|c s IH]; intros r; simpl.
  - apply nullable_lang.
  - rewrite IH. split.
    + apply deriv_sound.
    + intros H. apply (deriv_complete c r _ H s eq_refl).
Qed.

Lemma lang_void s : lang Void s <-> False.
Proof. split; [inversion 1 | tauto]. Qed.

Lemma lang_eps_iff s : lang Eps s <-> s = [].
Proof. split; [inversion 1; reflexivity | intros ->; auto]. Qed.

Lemma lang_cls_iff p s : lang (Cls p) s <-> exists c, s = [c] /\ p c = true.
Proof.
  split; [inversion 1; eauto | intros (c & -> & Hp); auto].
Qed.

Lemma lang_cat_iff a b s :
  lang (Cat a b) s <-> exists s1 s2, s = s1 ++ s2 /\ lang a s1 /\ lang b s2.
Proof.
  split; [inversion 1; eauto | intros (s1 & s2 & -> & H1 & H2); auto].
Qed.

Lemma lang_alt_iff a b s : lang (Alt a b) s <-> lang a s \/ lang b s.
Proof. split; [inversion 1; auto | intros [H|H]; auto]. Qed.

Lemma lang_opt_iff r s : lang (opt r) s <-> s = [] \/ lang r s.
Proof. unfold opt. rewrite lang_alt_iff, lang_eps_iff. tauto. Qed.

Lemma lang_alt_of rs s : lang (alt_of rs) s <-> exists r, r ∈ rs /\ lang r s.
Proof.
  induction rs as [|r rs IH]; simpl.
  - rewrite lang_void. split; [tauto | intros (r & Hin & _); inversion Hin].
  - rewrite lang_alt_iff, IH. split.
    + intros [H|(r' & Hin & H)]; eauto using list_elem_of_here, list_elem_of_further.
    + intros (r' & Hin & H). apply elem_of_cons in Hin as [->|Hin]; eauto.
Qed.

(** Words under the [i] flag. *)
Lemma lang_word_i w s :
  lang (word_i w) s
  <-> Forall2 (fun x c => canonicalize x = canonicalize c) s w.
Proof.
  revert s. induction w as [|c w IH]; intros s; simpl.
  - rewrite lang_eps_iff. split; [intros ->; constructor | inversion 1; auto].
  - rewrite lang_cat_iff. split.
    + intros (s1 & s2 & -> & H1 & H2). apply lang_cls_iff in H1 as (x & -> & Hx).
      apply N.eqb_eq in Hx. constructor; [exact Hx | apply IH, H2].
    + inversion 1 as [|x c' s' w' Hx Hrest]; subst.
      exists [x], s'. split_and!; [reflexivity | | apply IH, Hrest].
      apply lang_cls_iff. exists x. split; [reflexivity | apply N.eqb_eq, Hx].
Qed.

End RegexFacts.

(** ** Locale number parser *)

Lemma n_1234_56_nearest : of_decimal false 123456 (-2) = n_1234_56.
Proof. vm_compute. reflexivity. Qed.

Lemma negate_not_NaN x : isNaN x = false -> isNaN (negate x) = false.
Proof. destruct x; simpl; auto. Qed.

Lemma parsePtNumber_not_NaN raw : isNaN (parsePtNumber raw) = false.
Proof.
  destruct raw as [raw|]; simpl; [|reflexivity].
  destruct (_ || _); [reflexivity|].
  destruct (pt_clean (trim raw)) as [sg txt].
  destruct (isNaN (parseFloat txt)) eqn:Hn; [reflexivity|].
  destruct sg; auto using negate_not_NaN.
Qed.

(** C1: [parsePtNumber] maps "1.234,56" to 1234.56 and "(1.234,56)" to
    -1234.56; it maps an absent input, the empty string and a lone hyphen,
    en dash or em dash to 0; its result is never NaN, and it is 0 whenever
    the text left for [parseFloat] does not parse. *)
Theorem parsePtNumber_spec :
  parsePtNumber (Some (u "1.234,56")) = n_1234_56
  /\ parsePtNumber (Some (u "(1.234,56)")) = negate n_1234_56
  /\ parsePtNumber None = zero
  /\ parsePtNumber (Some []) = zero
  /\ parsePtNumber (Some [45]) = zero
  /\ parsePtNumber (Some [8211]) = zero
  /\ parsePtNumber (Some [8212]) = zero
  /\ (forall raw, isNaN (parsePtNumber raw) = false)
  /\ (forall raw,
        parseFloat (snd (pt_clean (trim raw))) = NaN ->
        parsePtNumber (Some raw) = zero).
Proof.
  do 7 (split; [vm_compute; reflexivity|]).
  split; [apply parsePtNumber_not_NaN|].
  - intros raw H. unfold parsePtNumber.
    destruct (_ || _); [reflexivity|].
    destruct (pt_clean (trim raw)) as [sg txt]. simpl in H.
    rewrite H. reflexivity.
Qed.

Lemma parsePtNumber_spec_witness :
  parseFloat (snd (pt_clean (trim (u "abc")))) = NaN
  /\ parsePtNumber (Some (u "abc")) = zero.
Proof.
  split; [vm_compute; reflexivity|].
  apply parsePtNumber_spec. vm_compute. reflexivity.
Defined.

Local Open Scope nat_scope.

(** ** Header locator *)

Section Locator.

Variable data : grid.

Let hits (i : nat) : nat := length (monthHits (default [] (data !! i))).
Let titleColAt (i : nat) : nat :=
  match default [] (data !! i) !! 1 with Some _ => 1 | None => 0 end.

(** The scan from row [i] with [n] rows left stops at the first row with
    three hits, or falls back to [(1, 1)]. *)
Lemma locate_loop_first n : forall i,
  (exists h, i <= h < i + n /\ 3 <= hits h
             /\ (forall j, i <= j < h -> hits j < 3)
             /\ locate_loop data n i = (h, titleColAt h))
  \/ ((forall j, i <= j < i + n -> hits j < 3)
      /\ locate_loop data n i = (1, 1)).
Proof.
  induction n as [|n IH]; intros i; cbn [locate_loop].
  - right. split; [intros j Hj; lia | reflexivity].
  - fold (hits i). destruct (3 <=? hits i) eqn:Hi.
    + apply Nat.leb_le in Hi. left. exists i.
      split_and!; [lia | lia | exact Hi | intros j Hj; lia | reflexivity].
    + apply Nat.leb_gt in Hi.
      assert (Hstep : forall h, (forall j, S i <= j < h -> hits j < 3) ->
                forall j, i <= j < h -> hits j < 3).
      { intros h Hlt j Hj. destruct (decide (j = i)) as [->|]; [exact Hi|].
        apply Hlt; lia. }
      destruct (IH (S i)) as [(h & Hh & H3 & Hlt & Heq) | [Hlt Heq]].
      * left. exists h.
        split_and!; [lia | lia | exact H3 | exact (Hstep h Hlt) | exact Heq].
      * right. split; [|exact Heq].
        intros j Hj. apply (Hstep (S i + n)); [exact Hlt | lia].
Qed.

End Locator.

(** ** Account row extractor *)

Section Extractor.

Variables (data : grid) (titleCol : nat) (monthCols : list MonthCol).

Lemma hasAnyVal_iff row :
  hasAnyVal monthCols row = true <-> has_month_value monthCols row.
Proof.
  unfold hasAnyVal, has_month_value. rewrite existsb_exists. split.
  - intros (mc & Hin & Hne). exists mc. split; [apply list_elem_of_In, Hin|].
    apply negb_true_iff, bool_decide_eq_false in Hne. exact Hne.
  - intros (mc & Hin & Hne). exists mc. split; [apply list_elem_of_In, Hin|].
    apply negb_true_iff, bool_decide_eq_false. exact Hne.
Qed.

Lemma emits_iff row :
  emits titleCol monthCols row = true
  <-> has_title titleCol row /\ has_month_value monthCols row.
Proof.
  unfold emits, has_title.
  rewrite andb_true_iff, negb_true_iff, bool_decide_eq_false, hasAnyVal_iff.
  reflexivity.
Qed.

(** One iteration appends the row's AccountRow or nothing. *)
Lemma row_step_emits r acc :
  row_step data titleCol monthCols r acc
  = acc ++ map (accountRowOf titleCol monthCols)
             (List.filter (emits titleCol monthCols) [default [] (data !! r)]).
Proof.
  unfold row_step, emits. simpl.
  destruct (bool_decide _); simpl; [by rewrite app_nil_r|].
  destruct (hasAnyVal _ _); simpl; [reflexivity | by rewrite app_nil_r].
Qed.

Lemma rows_loop_filter n : forall r acc,
  r + n <= length data ->
  rows_loop data titleCol monthCols n r acc
  = acc ++ map (accountRowOf titleCol monthCols)
             (List.filter (emits titleCol monthCols) (take n (drop r data))).
Proof.
  induction n as [|n IH]; intros r acc Hlen; cbn [rows_loop].
  - rewrite take_0. simpl. by rewrite app_nil_r.
  - destruct (lookup_lt_is_Some_2 data r) as [row Hrow]; [lia|].
    rewrite IH by lia. rewrite row_step_emits, Hrow.
    rewrite (drop_S _ _ _ Hrow). cbn [take default].
    change (row :: take n (drop (S r) data))
      with ([row] ++ take n (drop (S r) data)).
    rewrite List.filter_app, map_app, app_assoc. reflexivity.
Qed.

Lemma extractRows_filter headerIdx :
  extractRows data headerIdx titleCol monthCols
  = map (accountRowOf titleCol monthCols)
      (List.filter (emits titleCol monthCols) (drop (S headerIdx) data)).
Proof.
  unfold extractRows. replace (headerIdx + 1) with (S headerIdx) by lia.
  destruct (decide (S headerIdx <= length data)) as [Hle|Hgt].
  - rewrite rows_loop_filter by lia. simpl.
    rewrite take_ge; [reflexivity|]. rewrite length_drop. lia.
  - replace (length data - S headerIdx) with 0 by lia.
    rewrite drop_ge by lia. reflexivity.
Qed.

End Extractor.

(** C6: the extractor emits, for the rows strictly below the header and in
    their order, the AccountRow of exactly those rows whose trimmed title
    is not empty and that have a month-column cell that is not blank; a row
    with a title and only blank month cells is left out. *)
Theorem extractRows_spec (data : grid) (headerIdx titleCol : nat)
  (monthCols : list MonthCol) :
  exists emit : list jsstring -> bool,
    (forall row, emit row = true
                 <-> has_title titleCol row /\ has_month_value monthCols row)
    /\ (forall row,
          has_title titleCol row ->
          (forall mc, mc ∈ monthCols ->
                      trim (default [] (row !! col mc)) = []) ->
          emit row = false)
    /\ extractRows data headerIdx titleCol monthCols
       = map (accountRowOf titleCol monthCols)
           (List.filter emit (drop (S headerIdx) data)).
Proof.
  exists (emits titleCol monthCols). split_and!.
  - apply emits_iff.
  - intros row _ Hblank. apply not_true_is_false. intros He.
    apply emits_iff in He as [_ (mc & Hin & Hne)]. auto.
  - apply extractRows_filter.
Qed.

Lemma extractRows_spec_witness :
  let jan := {| mes := u "jan"; col := 1; raw := u "Jan" |} in
  exists emit : list jsstring -> bool,
    emit [u "Receita"; u "10"] = true /\ emit [u "Vendas"; u " "] = false.
Proof.
  intros jan.
  destruct (extractRows_spec [] 0 0 [jan]) as (emit & Hiff & Hblank & _).
  exists emit. split.
  - apply Hiff. split; [vm_compute; discriminate|].
    exists jan. split; [apply list_elem_of_here | vm_compute; discriminate].
  - apply Hblank; [vm_compute; discriminate|].
    intros mc Hin. apply list_elem_of_singleton in Hin as ->.
    vm_compute. reflexivity.
Defined.

(** ** The effect *)

(** C7: when the fetch or the parse throws, the handler runs: the state
    left is the empty snapshot whatever the state before, nothing escapes
    the [try], and after the first render every state handed to React has
    no rows and no months. *)
Theorem effect_failure_empty_snapshot
  (papa_parse : jsstring -> Outcome grid) (response : Outcome jsstring) :
  response = Thrown
  \/ (exists text, response = Returned text /\ papa_parse text = Thrown) ->
  (forall w, fst (effect papa_parse response w) = Returned tt
             /\ current (snd (effect papa_parse response w)) = emptySnapshot)
  /\ published (mount papa_parse response)
     = [initialState; initialState; emptySnapshot]
  /\ Forall (fun s => rows s = [] /\ months s = [])
       (published (mount papa_parse response)).
Proof.
  intros Hfail.
  assert (Hrun : forall w,
    effect papa_parse response w
    = (Returned tt,
       {| current := emptySnapshot;
          published := published w ++
            [ {| rows := []; months := months (current w);
                 loading := loading (current w) |};
              {| rows := []; months := []; loading := loading (current w) |};
              emptySnapshot ] |})).
  { intros w. unfold effect, try_catch, mbind, eff_bind, lift.
    destruct Hfail as [-> | (text & -> & Hp)]; [|rewrite Hp];
      unfold setRows, setMonths, setLoading, publish; simpl;
      rewrite <- !app_assoc; reflexivity. }
  split_and!.
  - intros w. rewrite Hrun. split; reflexivity.
  - unfold mount. rewrite Hrun. reflexivity.
  - unfold mount. rewrite Hrun. simpl.
    repeat constructor.
Qed.

Lemma effect_failure_empty_snapshot_witness :
  current (mount (fun _ => Thrown) (Returned (u "a;b"))) = emptySnapshot.
Proof.
  apply (effect_failure_empty_snapshot (fun _ => Thrown) (Returned (u "a;b"))).
  right. exists (u "a;b"). split; reflexivity.
Defined.

(** ** Month-column mapper *)

Lemma first_alias_in_table tbl s k :
  first_alias tbl s = Some k -> k ∈ map snd tbl.
Proof.
  induction tbl as [|[re key] tbl IH]; simpl; [discriminate|].
  destruct (test_full re s).
  - intros [= ->]. apply list_elem_of_here.
  - intros H. apply list_elem_of_further, IH, H.
Qed.

Lemma monthKey_truthy cell k : monthKey cell = Some k -> Boolean (Some k) = true.
Proof.
  intros H. apply first_alias_in_table in H.
  apply list_elem_of_In in H. simpl in H.
  repeat (destruct H as [<-|H]; [reflexivity|]). destruct H.
Qed.

Lemma monthKey_empty : monthKey (Some []) = None.
Proof. vm_compute. reflexivity. Qed.

Section Walk.

Variables header below : list jsstring.

Lemma walk_eq idx acc :
  walk header below idx acc
  = if decide (idx < length header)
    then walk header below (fst (walk_step header below idx acc))
           (snd (walk_step header below idx acc))
    else acc.
Proof.
  rewrite walk_equation_1.
  destruct (lt_dec idx (length header)); cbn [walk_clause_1];
    destruct (decide _); try lia; reflexivity.
Qed.

Lemma walk_step_gt idx acc : idx < fst (walk_step header below idx acc).
Proof.
  unfold walk_step.
  destruct (monthKey _) as [k|]; simpl; [|lia].
  destruct (_ || _); simpl; [lia|].
  destruct (nextIsAux _ _ _); lia.
Qed.

(** The loop rule: a property kept by every iteration holds at the exit. *)
Lemma walk_invariant (Inv : nat -> list MonthCol -> Prop) :
  (forall idx acc, idx < length header -> Inv idx acc ->
     Inv (fst (walk_step header below idx acc))
         (snd (walk_step header below idx acc))) ->
  forall idx acc, Inv idx acc ->
  exists idx', Inv idx' (walk header below idx acc).
Proof.
  intros Hstep.
  enough (forall n idx, length header - idx < n -> forall acc, Inv idx acc ->
            exists idx', Inv idx' (walk header below idx acc)) as H.
  { intros idx acc. apply (H (S (length header - idx))). lia. }
  induction n as [|n IHn]; intros idx Hn acc Hinv; [lia|].
  rewrite walk_eq. destruct (decide _) as [Hlt|Hge].
  - apply IHn; [|apply Hstep; assumption].
    pose proof (walk_step_gt idx acc). lia.
  - exists idx. exact Hinv.
Qed.

Lemma recorded_weaken idx idx' acc :
  idx <= idx' -> recorded header idx acc -> recorded header idx' acc.
Proof.
  intros Hle [Hall Hinc]. split; [|exact Hinc].
  intros mc Hin. destruct (Hall mc Hin) as (? & ? & ?). split_and!; auto. lia.
Qed.

Lemma recorded_push idx idx' acc k :
  idx < idx' -> k <> u "total" -> monthKey (header !! idx) = Some k ->
  recorded header idx acc ->
  recorded header idx' (acc ++ [{| mes := k; col := idx;
                            raw := default [] (header !! idx) |}]).
Proof.
  intros Hlt Hk Hm [Hall Hinc]. split.
  - intros mc Hin. apply elem_of_app in Hin as [Hin|Hin].
    + destruct (Hall mc Hin) as (? & ? & ?). split_and!; auto. lia.
    + apply list_elem_of_singleton in Hin as ->. simpl. auto.
  - intros i j a b Hij Ha Hb.
    apply lookup_app_Some in Hb as [Hb | [Hlen Hb]].
    + apply lookup_app_Some in Ha as [Ha | [Hlen' _]].
      * eapply Hinc; eassumption.
      * apply lookup_lt_Some in Hb. lia.
    + apply list_lookup_singleton_Some in Hb as [Hj <-]. simpl.
      apply lookup_app_Some in Ha as [Ha | [Hlen' _]]; [|lia].
      apply list_elem_of_lookup_2 in Ha. apply (Hall a Ha).
Qed.

Lemma walk_step_recorded idx acc :
  recorded header idx acc ->
  recorded header (fst (walk_step header below idx acc))
           (snd (walk_step header below idx acc)).
Proof.
  intros Hrec. unfold walk_step.
  destruct (monthKey (header !! idx)) as [k|] eqn:Hk.
  - rewrite (monthKey_truthy _ _ Hk). cbn [negb orb].
    destruct (bool_decide (k = u "total")) eqn:Ht; cbn [fst snd].
    + apply (recorded_weaken idx); [lia | exact Hrec].
    + apply bool_decide_eq_false in Ht.
      apply recorded_push; auto. destruct (nextIsAux _ _ _); lia.
  - cbn [fst snd]. apply (recorded_weaken idx); [lia | exact Hrec].
Qed.

Lemma walk_recorded idx :
  exists idx', recorded header idx' (walk header below idx []).
Proof.
  apply (walk_invariant (recorded header)).
  - intros i acc _. apply walk_step_recorded.
  - split; [intros mc Hin; inversion Hin | intros i j a b _ Ha; discriminate].
Qed.

End Walk.

(** C8: the MonthColumn list never holds the key "total", and the column
    indices of its entries increase strictly along the list. *)
Theorem mapMonthCols_invariant (data : grid) (headerIdx : nat) :
  (forall mc, mc ∈ mapMonthCols data headerIdx -> mes mc <> u "total")
  /\ (forall i j a b,
        i < j ->
        mapMonthCols data headerIdx !! i = Some a ->
        mapMonthCols data headerIdx !! j = Some b ->
        col a < col b).
Proof.
  unfold mapMonthCols.
  destruct (walk_recorded (default [] (data !! headerIdx))
              (default [] (data !! (headerIdx + 1)))
              (default 2
                 (findIndex (fun c => Boolean (monthKey (Some c)))
                    (default [] (data !! headerIdx)))))
    as (idx' & Hall & Hinc).
  split; [|exact Hinc].
  intros mc Hin. apply (Hall mc Hin).
Qed.

Lemma mapMonthCols_invariant_witness :
  let data := [[u "Conta"; u "Jan"; u ""; u "Total"; u "Fev"];
               [u "Receita"; u "10"; u "0,5"; u "30"; u "20"]] in
  let a := {| mes := u "jan"; col := 1; raw := u "Jan" |} in
  let b := {| mes := u "fev"; col := 4; raw := u "Fev" |} in
  mapMonthCols data 0 = [a; b] /\ mes a <> u "total" /\ col a < col b.
Proof.
  intros data a b.
  assert (E : mapMonthCols data 0 = [a; b]) by (vm_compute; reflexivity).
  split_and!; [exact E | |].
  - apply (proj1 (mapMonthCols_invariant data 0)).
    rewrite E. apply list_elem_of_here.
  - apply (proj2 (mapMonthCols_invariant data 0) 0 1 a b);
      [lia | rewrite E; reflexivity | rewrite E; reflexivity].
Defined.

Lemma leb_abs_zero : leb (JsNum.abs zero) (of_Z 5) = true.
Proof. vm_compute. reflexivity. Qed.

Lemma parsePtNumber_unparseable cell :
  parses_as_number cell = false -> parsePtNumber (Some cell) = zero.
Proof.
  unfold parses_as_number, parsePtNumber.
  destruct (_ || _); [reflexivity|]. cbn [negb andb].
  destruct (pt_clean (trim cell)) as [sg txt]. cbn [snd].
  intros H. apply negb_false_iff in H. rewrite H. reflexivity.
Qed.

Lemma nextIsAux_iff header below idx :
  nextIsAux header below idx = true
  <-> default [] (header !! (idx + 1)) = []
      /\ leb (JsNum.abs
                (parsePtNumber
                   (Some (trim (default [] (below !! (idx + 1)))))))
           (of_Z 5) = true.
Proof.
  unfold nextIsAux. rewrite parsePtNumber_not_NaN. cbn [negb].
  rewrite andb_true_r, andb_true_iff, bool_decide_eq_true. reflexivity.
Qed.

(** ** Index and alias resolver *)

Lemma findRow_loop_via m opts : forall i,
  findRow_loop m opts = snd <$> findRow_via m opts i.
Proof.
  induction opts as [|opt rest IH]; intros i; simpl; [reflexivity|].
  destruct (map_has m (keyOf opt)).
  - destruct (map_get m (keyOf opt)); reflexivity.
  - destruct (scan_entries m (keyOf opt)); [reflexivity | apply IH].
Qed.

Section Index.

Lemma map_set_elem m k v kv :
  kv ∈ map_set m k v -> kv = (k, v) \/ kv ∈ m.
Proof.
  induction m as [|[k' v'] m IH]; simpl.
  - intros H. apply list_elem_of_singleton in H. auto.
  - destruct (bool_decide (k' = k)) eqn:Hk; intros H.
    + apply bool_decide_eq_true in Hk as ->.
      apply elem_of_cons in H as [->|H]; [auto|].
      right. apply list_elem_of_further, H.
    + apply elem_of_cons in H as [->|H]; [right; apply list_elem_of_here|].
      destruct (IH H) as [->|Hin]; [auto|].
      right. apply list_elem_of_further, Hin.
Qed.

Lemma map_set_keys m k v k' :
  k' ∈ map fst (map_set m k v) <-> k' = k \/ k' ∈ map fst m.
Proof.
  induction m as [|[k0 v0] m IH]; simpl.
  - rewrite list_elem_of_singleton. split; [auto|].
    intros [H|H]; [exact H | inversion H].
  - destruct (bool_decide (k0 = k)) eqn:Hk; simpl.
    + apply bool_decide_eq_true in Hk as ->. rewrite !elem_of_cons. tauto.
    + rewrite !elem_of_cons, IH. tauto.
Qed.

Lemma buildIndex_from rs : forall m,
  consistent m ->
  consistent (fold_left (fun m r => map_set m (key r) r) rs m)
  /\ (forall k, k ∈ map fst (fold_left (fun m r => map_set m (key r) r) rs m)
                <-> k ∈ map fst m \/ exists r, r ∈ rs /\ key r = k).
Proof.
  induction rs as [|r rs IH]; intros m Hm; simpl.
  - split; [exact Hm|]. intros k. split; [auto|].
    intros [H|(r & Hin & _)]; [exact H | inversion Hin].
  - destruct (IH (map_set m (key r) r)) as [Hc Hk].
    { intros k v Hin. apply map_set_elem in Hin as [[= -> ->]|Hin]; auto. }
    split; [exact Hc|]. intros k. rewrite Hk, map_set_keys. split.
    + intros [[->|H]|(r' & Hin & Hr')]; eauto using list_elem_of_here.
      right. exists r'. split; [apply list_elem_of_further, Hin | exact Hr'].
    + intros [H|(r' & Hin & Hr')]; [auto|].
      apply elem_of_cons in Hin as [->|Hin]; [auto|].
      right. exists r'. auto.
Qed.

Lemma buildIndex_consistent rs : consistent (buildIndex rs).
Proof. apply buildIndex_from. intros k v H. inversion H. Qed.

Lemma buildIndex_keys rs k :
  k ∈ map fst (buildIndex rs) <-> exists r, r ∈ rs /\ key r = k.
Proof.
  unfold buildIndex.
  destruct (buildIndex_from rs []) as [_ Hk]; [intros ? ? H; inversion H|].
  rewrite Hk. simpl. split; [|auto].
  intros [H|H]; [inversion H | exact H].
Qed.

Lemma map_get_elem (m : jsmap) k v : map_get m k = Some v -> (k, v) ∈ m.
Proof.
  induction m as [|[k' v'] m IH]; simpl; [discriminate|].
  destruct (bool_decide (k' = k)) eqn:Hk.
  - apply bool_decide_eq_true in Hk as ->. intros [= ->].
    apply list_elem_of_here.
  - intros H. apply list_elem_of_further, IH, H.
Qed.

Lemma scan_entries_hit (m : jsmap) k key0 :
  key0 ∈ map fst m -> includes key0 k = true ->
  exists obj, scan_entries m k = Some obj.
Proof.
  induction m as [|[k' v'] m IH]; simpl; intros Hin Hinc; [inversion Hin|].
  destruct (includes k' k) eqn:Hk'; [eauto|].
  apply elem_of_cons in Hin as [->|Hin]; [congruence | auto].
Qed.

End Index.

Lemma receita_liquida_key :
  slice0 100 (keyOf (trim title_receita_liquida)) = u "receita_liquida_".
Proof. vm_compute. reflexivity. Qed.

Lemma receita_liquida_aliases :
  aliases !! u "receita_liquida" = Some receita_liquida_variants.
Proof. vm_compute. reflexivity. Qed.

(** C3, as the claim states it, fails: with the row of "Receita Liquida
    (=)" alone in the index, no variant of [receita_liquida] returns it by
    the exact-match branch. *)
Lemma receita_liquida_exact_counterexample :
  let r := accountRowOf 0 [] [title_receita_liquida] in
  ~ (exists i, findRow_via (buildIndex [r]) receita_liquida_variants 0
               = Some (i, ExactMatch, r)).
Proof.
  intros r [i H]. vm_compute in H. discriminate.
Qed.

(** C3, amended: the key derived from "Receita Liquida (=)" is
    "receita_liquida_", with no accented code unit, parenthesis or equals
    sign; [findRow "receita_liquida"] returns that row when it is the only
    one, by the substring fallback of the first variant; and whatever the
    other rows, the resolver returns at the first variant, the exact-match
    branch giving only a row whose key is "receita_liquida". *)
Theorem receita_liquida_resolution :
  (forall monthCols cells,
     let r := accountRowOf 0 monthCols (title_receita_liquida :: cells) in
     key r = u "receita_liquida_"
     /\ findRow_via (buildIndex [r]) receita_liquida_variants 0
        = Some (0, SubstringFallback, r)
     /\ findRow [r] (u "receita_liquida") = Returned (Some r))
  /\ Forall (fun c => (c < 128)%N /\ c <> 40%N /\ c <> 41%N /\ c <> 61%N)
       (u "receita_liquida_")
  /\ (forall rs r,
        r ∈ rs -> key r = u "receita_liquida_" ->
        exists br obj,
          findRow_via (buildIndex rs) receita_liquida_variants 0
          = Some (0, br, obj)
          /\ findRow rs (u "receita_liquida") = Returned (Some obj)
          /\ (br = ExactMatch -> key obj = u "receita_liquida")).
Proof.
  assert (Hk0 : keyOf (u "receita liquida") = u "receita_liquida")
    by (vm_compute; reflexivity).
  assert (Hinc : includes (u "receita_liquida_") (u "receita_liquida") = true)
    by (vm_compute; reflexivity).
  split_and!.
  - intros monthCols cells r.
    assert (Hkey : key r = u "receita_liquida_") by apply receita_liquida_key.
    assert (Hvia : findRow_via (buildIndex [r]) receita_liquida_variants 0
                   = Some (0, SubstringFallback, r)).
    { unfold buildIndex, receita_liquida_variants.
      cbn [fold_left map_set findRow_via]. rewrite Hk0, Hkey.
      unfold map_has. cbn [map_get scan_entries].
      rewrite bool_decide_eq_false_2 by discriminate. rewrite Hinc.
      reflexivity. }
    split_and!; [exact Hkey | exact Hvia |].
    unfold findRow, get_prop. rewrite receita_liquida_aliases.
    rewrite (findRow_loop_via _ _ 0), Hvia. reflexivity.
  - cbn [u N_of_ascii N_of_digits].
    repeat (constructor;
      [split_and!; [reflexivity | discriminate | discriminate | discriminate]|]).
    constructor.
  - intros rs r Hin Hkey.
    assert (Hkin : u "receita_liquida_" ∈ map fst (buildIndex rs)).
    { apply buildIndex_keys. eauto. }
    assert (Hfind : forall br obj,
      findRow_via (buildIndex rs) receita_liquida_variants 0
      = Some (0, br, obj) ->
      findRow rs (u "receita_liquida") = Returned (Some obj)).
    { intros br obj Hvia. unfold findRow, get_prop.
      rewrite receita_liquida_aliases, (findRow_loop_via _ _ 0), Hvia.
      reflexivity. }
    unfold receita_liquida_variants in *. cbn [findRow_via] in *.
    rewrite Hk0 in *. unfold map_has in *.
    destruct (map_get (buildIndex rs) (u "receita_liquida")) as [obj|] eqn:Hg.
    + exists ExactMatch, obj. split_and!; [reflexivity | eauto |].
      intros _. apply (buildIndex_consistent rs), map_get_elem, Hg.
    + destruct (scan_entries_hit _ _ _ Hkin Hinc) as [obj Hs].
      rewrite Hs in *. exists SubstringFallback, obj.
      split_and!; [reflexivity | eauto | discriminate].
Qed.

Lemma receita_liquida_resolution_witness :
  let r := accountRowOf 0 [] [title_receita_liquida] in
  exists br obj,
    findRow_via (buildIndex [r]) receita_liquida_variants 0 = Some (0, br, obj)
    /\ findRow [r] (u "receita_liquida") = Returned (Some obj)
    /\ (br = ExactMatch -> key obj = u "receita_liquida").
Proof.
  intros r.
  apply (proj2 (proj2 receita_liquida_resolution) [r] r).
  - apply list_elem_of_here.
  - vm_compute. reflexivity.
Defined.

(** ** Value lookup *)

Ltac case_units :=
  repeat (match goal with
          | |- context [N.leb ?a ?b] => destruct (N.leb_spec a b)
          | |- context [N.eqb ?a ?b] => destruct (N.eqb_spec a b)
          end; cbn [andb negb orb]).

(** ** Unicode: code points, decomposition, ordering, lower case *)

Section UnicodeFacts.

Local Open Scope N_scope.

(** *** Tables *)

Lemma table_find_check {A : Type} (P : N -> A -> bool) (tbl : list (N * A)) :
  forallb (fun kv => P (fst kv) (snd kv)) tbl = true ->
  forall c v, table_find c tbl = Some v -> P c v = true.
Proof.
  induction tbl as [|[k w] r IH]; cbn [forallb table_find fst snd];
    intros H c v Hf; [discriminate|].
  apply andb_true_iff in H as [Hk Hr].
  destruct (c <? k); [discriminate|].
  destruct (N.eqb_spec c k) as [->|_].
  - injection Hf as <-. exact Hk.
  - apply (IH Hr c v Hf).
Qed.

Lemma table_find_first {A : Type} (tbl : list (N * A)) c :
  match tbl with (k, _) :: _ => c < k | [] => True end ->
  table_find c tbl = None.
Proof.
  destruct tbl as [|[k w] r]; [reflexivity|]. intros H. cbn [table_find].
  apply N.ltb_lt in H. rewrite H. reflexivity.
Qed.

Lemma range_find_first {A : Type} (tbl : list (N * N * A)) c :
  match tbl with (lo, _, _) :: _ => c < lo | [] => True end ->
  range_find c tbl = None.
Proof.
  destruct tbl as [|[[lo hi] w] r]; [reflexivity|]. intros H. cbn [range_find].
  apply N.ltb_lt in H. rewrite H. reflexivity.
Qed.

Lemma units_between_check (P : N -> bool) (lo n : nat) :
  forallb P (map N.of_nat (seq lo n)) = true ->
  forall c, (N.of_nat lo <= c < N.of_nat (lo + n))%N -> P c = true.
Proof.
  intros H c Hc. rewrite forallb_forall in H. apply H.
  apply in_map_iff. exists (N.to_nat c).
  split; [apply N2Nat.id | apply in_seq; lia].
Qed.

Lemma units_from_check (P : N -> bool) (lo : N) (n : nat) :
  forallb P (map (fun i => lo + N.of_nat i) (seq 0 n)) = true ->
  forall c, lo <= c < lo + N.of_nat n -> P c = true.
Proof.
  intros H c Hc. rewrite forallb_forall in H. apply H.
  apply in_map_iff. exists (N.to_nat (c - lo)).
  split; [lia | apply in_seq; lia].
Qed.

(** *** Code units and code points *)

Lemma code_points_cons a s :
  (forall x, head s = Some x -> is_high_surrogate a && is_low_surrogate x = false) ->
  code_points (a :: s) = a :: code_points s.
Proof.
  intros H. destruct s as [|x r]; [reflexivity|].
  cbn [code_points]. rewrite (H x eq_refl). reflexivity.
Qed.

Lemma code_points_pair h l s :
  is_high_surrogate h = true -> is_low_surrogate l = true ->
  code_points (h :: l :: s)
  = (65536 + (h - 55296) * 1024 + (l - 56320)) :: code_points s.
Proof. intros Hh Hl. cbn [code_points]. rewrite Hh, Hl. reflexivity. Qed.

Lemma code_points_eq h l r :
  code_points (h :: l :: r)
  = if is_high_surrogate h && is_low_surrogate l
    then (65536 + (h - 55296) * 1024 + (l - 56320)) :: code_points r
    else h :: code_points (l :: r).
Proof. reflexivity. Qed.

(** A text without high surrogates is its own list of code points. *)
Lemma code_points_plain s :
  Forall (fun c => is_high_surrogate c = false) s -> code_points s = s.
Proof.
  induction 1 as [|a s Ha _ IH]; [reflexivity|].
  rewrite code_points_cons, IH; [reflexivity|].
  intros x _. rewrite Ha. reflexivity.
Qed.

Lemma code_units_plain l :
  Forall (fun c => c < 65536) l -> code_units l = l.
Proof.
  induction 1 as [|a l Ha _ IH]; [reflexivity|].
  unfold code_units in *. cbn [flat_map]. rewrite IH.
  unfold code_units_of, in_range.
  destruct (N.leb_spec 65536 a); [lia | reflexivity].
Qed.

Lemma code_units_of_cases c :
  (code_units_of c = [c] /\ in_range 65536 1114111 c = false)
  \/ exists h l,
       code_units_of c = [h; l]
       /\ is_high_surrogate h = true /\ is_low_surrogate l = true
       /\ 65536 + (h - 55296) * 1024 + (l - 56320) = c.
Proof.
  unfold code_units_of. destruct (in_range 65536 1114111 c) eqn:Hr; [|auto].
  right. unfold in_range in Hr. apply andb_true_iff in Hr as [H1 H2].
  apply N.leb_le in H1, H2.
  pose proof (N.div_mod (c - 65536) 1024 ltac:(lia)) as Hdm.
  pose proof (N.mod_lt (c - 65536) 1024 ltac:(lia)) as Hm.
  assert (Hd : (c - 65536) / 1024 < 1024).
  { apply N.Div0.div_lt_upper_bound. lia. }
  eexists _, _. split; [reflexivity|].
  unfold is_high_surrogate, is_low_surrogate, in_range.
  set (q := (c - 65536) / 1024) in *. set (m := (c - 65536) mod 1024) in *.
  clearbody q m.
  split_and!.
  - apply andb_true_iff. split; apply N.leb_le; lia.
  - apply andb_true_iff. split; apply N.leb_le; lia.
  - lia.
Qed.

(** The units of a text: every unit is a code point of it or a
    surrogate. *)
Lemma code_units_Forall (P : N -> Prop) l :
  Forall P l -> (forall c, is_surrogate c = true -> P c) ->
  Forall P (code_units l).
Proof.
  intros Hl Hs. induction Hl as [|a l Ha _ IH]; [constructor|].
  unfold code_units in *. cbn [flat_map]. apply Forall_app. split; [|exact IH].
  destruct (code_units_of_cases a) as [[-> _]|(h & lo & -> & Hh & Hlo & _)].
  - constructor; [exact Ha | constructor].
  - unfold is_high_surrogate, is_low_surrogate, in_range in Hh, Hlo.
    apply andb_true_iff in Hh as [H1 H2]. apply andb_true_iff in Hlo as [H3 H4].
    apply N.leb_le in H1, H2, H3, H4.
    repeat constructor; apply Hs; unfold is_surrogate, in_range;
      apply andb_true_iff; split; apply N.leb_le; lia.
Qed.

(** The code points of a text: every code point is a unit of it or lies
    above the Basic Multilingual Plane. *)
Lemma code_points_Forall (P : N -> Prop) s :
  Forall P s -> (forall c, 65536 <= c -> P c) -> Forall P (code_points s).
Proof.
  intros Hs Hbig. remember (length s) as n eqn:Hn.
  revert s Hs Hn. induction n as [n IH] using lt_wf_ind. intros s Hs Hn.
  destruct s as [|h [|l r]]; [constructor | exact Hs |].
  rewrite code_points_eq. inversion Hs as [|? ? Hh Hs']; subst.
  destruct (_ && _).
  - constructor; [apply Hbig; lia|].
    inversion Hs'; subst. apply (IH (length r)); [simpl; lia | assumption | reflexivity].
  - constructor; [exact Hh|].
    apply (IH (length (l :: r))); [simpl; lia | assumption | reflexivity].
Qed.

Lemma pair_free_cons a l :
  pair_free (a :: l)
  <-> (forall b, head l = Some b ->
         is_high_surrogate a && is_low_surrogate b = false)
      /\ pair_free l.
Proof.
  destruct l as [|b r]; cbn [pair_free head]; split.
  - intros [_ H]. split; [discriminate | exact H].
  - intros [_ H]. auto.
  - intros [H1 H2]. split; [intros ? [= <-]; exact H1 | exact H2].
  - intros [H1 H2]. split; [apply H1; reflexivity | exact H2].
Qed.

Lemma high_not_low c : is_high_surrogate c = true -> is_low_surrogate c = false.
Proof.
  unfold is_high_surrogate, is_low_surrogate, in_range. intros H.
  apply andb_true_iff in H as [H1 H2]. apply N.leb_le in H1, H2.
  destruct (N.leb_spec 56320 c); [lia | reflexivity].
Qed.

Lemma above_not_surrogate c :
  65536 <= c -> is_high_surrogate c = false /\ is_low_surrogate c = false.
Proof.
  intros H. unfold is_high_surrogate, is_low_surrogate, in_range.
  split; apply andb_false_iff; right; apply N.leb_gt; lia.
Qed.

Lemma head_code_points s x :
  head (code_points s) = Some x -> head s = Some x \/ 65536 <= x.
Proof.
  destruct s as [|h [|l r]]; [discriminate | auto |].
  rewrite code_points_eq. destruct (_ && _); cbn [head]; intros [= <-].
  - right. lia.
  - left. reflexivity.
Qed.

Lemma pair_free_code_points s : pair_free (code_points s).
Proof.
  remember (length s) as n eqn:Hn.
  revert s Hn. induction n as [n IH] using lt_wf_ind. intros s Hn.
  destruct s as [|h [|l r]]; [exact I | split; exact I |].
  rewrite code_points_eq. destruct (_ && _) eqn:E; apply pair_free_cons.
  - split; [|apply (IH (length r)); [simpl in Hn; lia | reflexivity]].
    intros b _.
    destruct (above_not_surrogate (65536 + (h - 55296) * 1024 + (l - 56320)))
      as [-> _]; [lia | reflexivity].
  - split; [|apply (IH (length (l :: r))); [simpl in Hn |- *; lia | reflexivity]].
    intros b Hb. apply head_code_points in Hb as [[= <-]|Hb]; [exact E|].
    destruct (above_not_surrogate b Hb) as [_ ->]. apply andb_false_r.
Qed.

(** Reading back the code points of a text written from code points. *)
Lemma code_points_units m : pair_free m -> code_points (code_units m) = m.
Proof.
  induction m as [|a m IH]; [reflexivity|].
  intros Hpf. apply pair_free_cons in Hpf as [Hhead Hpf].
  unfold code_units in *. cbn [flat_map].
  destruct (code_units_of_cases a) as [[-> _]|(h & lo & -> & Hh & Hlo & E)].
  - cbn [app]. rewrite code_points_cons, (IH Hpf); [reflexivity|].
    intros x Hx. destruct m as [|b m]; [discriminate|]. cbn [flat_map] in Hx.
    destruct (code_units_of_cases b) as [[Eb _]|(h & lo & Eb & Hh & _)];
      rewrite Eb in Hx; injection Hx as <-.
    + apply Hhead. reflexivity.
    + rewrite (high_not_low _ Hh). apply andb_false_r.
  - cbn [app]. rewrite (code_points_pair _ _ _ Hh Hlo), (IH Hpf), E. reflexivity.
Qed.

(** *** Canonical decomposition *)

Lemma decompose_small c : c < 192 -> decompose c = [c].
Proof.
  intros H. unfold decompose, in_range.
  destruct (N.leb_spec 44032 c); [lia|]. cbn [andb].
  rewrite table_find_first; [reflexivity | exact H].
Qed.

Lemma stable_spec c : stable c = true <-> decompose c = [c].
Proof. unfold stable. apply bool_decide_eq_true. Qed.

Lemma decomposition_table_stable :
  forallb (fun kv => forallb stable (snd kv)) decomposition_table = true.
Proof. vm_compute. reflexivity. Qed.

Lemma jamo_stable c : 4352 <= c <= 4546 -> stable c = true.
Proof.
  intros H.
  apply (units_between_check stable 4352 195); [vm_compute; reflexivity | lia].
Qed.

(** A canonical decomposition is made of code points that have none. *)
Lemma decompose_stable c : Forall (fun d => stable d = true) (decompose c).
Proof.
  unfold decompose at 1. destruct (in_range 44032 55203 c) eqn:Hr.
  - unfold in_range in Hr. apply andb_true_iff in Hr as [H1 H2].
    apply N.leb_le in H1, H2.
    set (s := c - 44032).
    assert (Hs : s < 11172) by (subst s; lia).
    pose proof (N.mod_lt s 28 ltac:(lia)) as Hm.
    pose proof (N.mod_lt s 588 ltac:(lia)) as Hm'.
    assert (Hq : s / 588 < 19) by (apply N.Div0.div_lt_upper_bound; lia).
    assert (Hq' : (s mod 588) / 28 < 21)
      by (apply N.Div0.div_lt_upper_bound; lia).
    set (q := s / 588) in *. set (q' := (s mod 588) / 28) in *.
    set (m := s mod 28) in *. clearbody q q' m.
    destruct (N.eqb_spec m 0) as [E|E];
      repeat first [apply List.Forall_nil | apply List.Forall_cons];
      apply jamo_stable; lia.
  - destruct (table_find c decomposition_table) as [v|] eqn:Hf; cbn [default].
    + apply Forall_forall. intros d Hd.
      pose proof (table_find_check (fun _ v => forallb stable v) _
                    decomposition_table_stable c v Hf) as Hv.
      rewrite forallb_forall in Hv. apply Hv, list_elem_of_In, Hd.
    + constructor; [|constructor]. apply stable_spec.
      unfold decompose. rewrite Hr, Hf. reflexivity.
Qed.

Lemma decomposition_table_keys :
  forallb (fun kv => negb (is_surrogate (fst kv))) decomposition_table = true.
Proof. vm_compute. reflexivity. Qed.

Lemma surrogate_stable c : is_surrogate c = true -> stable c = true.
Proof.
  intros H. apply stable_spec. unfold decompose.
  assert (Hr : in_range 44032 55203 c = false).
  { unfold is_surrogate, in_range in *. apply andb_true_iff in H as [H1 H2].
    apply N.leb_le in H1, H2. apply andb_false_iff. right. apply N.leb_gt. lia. }
  rewrite Hr. destruct (table_find c decomposition_table) as [v|] eqn:Hf;
    [|reflexivity].
  pose proof (table_find_check (fun k _ => negb (is_surrogate k)) _
                decomposition_table_keys c v Hf) as Hk.
  cbv beta in Hk. rewrite H in Hk. discriminate.
Qed.

(** *** Canonical ordering *)

Lemma insert_mark_Forall (P : N -> Prop) c out :
  P c -> Forall P out -> Forall P (insert_mark c out).
Proof.
  intros Hc. induction 1 as [|d r Hd Hr IH]; cbn [insert_mark].
  - constructor; [exact Hc | constructor].
  - destruct (_ && _); constructor; auto.
Qed.

Lemma canonical_order_Forall (P : N -> Prop) l :
  Forall P l -> Forall P (canonical_order l).
Proof.
  intros H. unfold canonical_order. apply Forall_rev.
  assert (G : forall out, Forall P out ->
                Forall P (fold_left (fun out c => insert_mark c out) l out)).
  { induction H as [|c l Hc _ IH]; intros out Hout; cbn [fold_left];
      [exact Hout|]. apply IH, insert_mark_Forall; assumption. }
  apply G. constructor.
Qed.

Lemma insert_mark_filter (f : N -> bool) c out :
  (0 < ccc c -> f c = false) ->
  List.filter f (rev (insert_mark c out)) = List.filter f (rev out ++ [c]).
Proof.
  intros Hc. induction out as [|d r IH]; [reflexivity|].
  cbn [insert_mark]. destruct ((0 <? ccc c) && (ccc c <? ccc d)) eqn:E.
  - cbn [rev]. rewrite !List.filter_app, IH, List.filter_app.
    apply andb_true_iff in E as [E _]. apply N.ltb_lt in E.
    cbn [List.filter]. rewrite (Hc E). rewrite !app_nil_r. reflexivity.
  - reflexivity.
Qed.

(** Canonical ordering moves only characters with a non-zero class:
    a filter that drops them all does not see it. *)
Lemma canonical_order_filter (f : N -> bool) l :
  Forall (fun c => 0 < ccc c -> f c = false) l ->
  List.filter f (canonical_order l) = List.filter f l.
Proof.
  intros H. unfold canonical_order.
  assert (G : forall out,
             List.filter f (rev (fold_left (fun out c => insert_mark c out) l out))
             = List.filter f (rev out) ++ List.filter f l).
  { induction H as [|c l Hc _ IH]; intros out; cbn [fold_left].
    - cbn [List.filter]. rewrite app_nil_r. reflexivity.
    - rewrite IH, (insert_mark_filter f c out Hc), List.filter_app.
      rewrite <- app_assoc. change (c :: l) with ([c] ++ l).
      rewrite (List.filter_app f [c] l). reflexivity. }
  apply (G []).
Qed.

Lemma ccc_small c : c < 768 -> ccc c = 0.
Proof.
  intros H. unfold ccc. rewrite range_find_first; [reflexivity | exact H].
Qed.

(** *** Lower case *)

Lemma lower_points_eq before c r :
  lower_points before (c :: r)
  = lower_chunk before c r ++ lower_points (c :: before) r.
Proof. reflexivity. Qed.

Lemma lower_points_plain l : forall before,
  Forall (fun c => c <> 931) l -> lower_points before l = flat_map lower_point l.
Proof.
  induction l as [|c r IH]; intros before H; [reflexivity|].
  inversion H as [|? ? Hc Hr]; subst.
  rewrite lower_points_eq, (IH _ Hr). unfold lower_chunk.
  destruct (N.eqb_spec c 931); [contradiction | reflexivity].
Qed.

Lemma lower_point_small c :
  c < 128 -> lower_point c = [if in_range 65 90 c then c + 32 else c].
Proof.
  intros H.
  pose (P := fun x => bool_decide
                        (lower_point x = [if in_range 65 90 x then x + 32 else x])).
  assert (HP : P c = true)
    by (apply (units_between_check P 0 128); [vm_compute; reflexivity | lia]).
  apply bool_decide_eq_true in HP. exact HP.
Qed.

Lemma lower_points_Forall (P Q : N -> Prop) l : forall before,
  Forall Q l ->
  (forall c, Q c -> c <> 931 -> Forall P (lower_point c)) ->
  P 962 -> P 963 ->
  Forall P (lower_points before l).
Proof.
  induction l as [|c r IH]; intros before Hl Hstep H2 H3; [constructor|].
  inversion Hl as [|? ? Hc Hr]; subst.
  rewrite lower_points_eq. apply Forall_app. split; [|apply IH; assumption].
  unfold lower_chunk. destruct (N.eqb_spec c 931) as [_|Hne].
  - destruct (_ && _); repeat constructor; assumption.
  - apply Hstep; assumption.
Qed.

Lemma lowercase_table_fixed :
  forallb (fun kv => forallb lower_fixed (snd kv)) lowercase_table = true.
Proof. vm_compute. reflexivity. Qed.

Lemma lower_point_fixed c :
  c <> 931 -> Forall (fun e => lower_fixed e = true) (lower_point c).
Proof.
  intros Hc. unfold lower_point at 1.
  destruct (table_find c lowercase_table) as [v|] eqn:Hf; cbn [default].
  - apply Forall_forall. intros d Hd.
    pose proof (table_find_check (fun _ v => forallb lower_fixed v) _
                  lowercase_table_fixed c v Hf) as Hv.
    rewrite forallb_forall in Hv. apply Hv, list_elem_of_In, Hd.
  - constructor; [|constructor]. unfold lower_fixed.
    apply andb_true_iff. split.
    + apply negb_true_iff, N.eqb_neq, Hc.
    + apply bool_decide_eq_true. unfold lower_point. rewrite Hf. reflexivity.
Qed.

Lemma lower_points_fixed l : forall before,
  Forall (fun e => lower_fixed e = true) l -> lower_points before l = l.
Proof.
  induction l as [|c r IH]; intros before H; [reflexivity|].
  inversion H as [|? ? Hc Hr]; subst.
  rewrite lower_points_eq, (IH _ Hr). unfold lower_chunk.
  unfold lower_fixed in Hc. apply andb_true_iff in Hc as [Hne Hfix].
  apply negb_true_iff in Hne. rewrite Hne.
  apply bool_decide_eq_true in Hfix. rewrite Hfix. reflexivity.
Qed.

Lemma lower_points_lower_fixed l before :
  Forall (fun e => lower_fixed e = true) (lower_points before l).
Proof.
  apply (lower_points_Forall _ (fun _ => True)).
  - apply Forall_forall. auto.
  - intros c _ Hc. apply lower_point_fixed, Hc.
  - vm_compute. reflexivity.
  - vm_compute. reflexivity.
Qed.

Lemma lowercase_table_values :
  forallb (fun kv => negb (bool_decide (snd kv = []))
                     && forallb (fun e => negb (is_surrogate e)) (snd kv))
    lowercase_table = true.
Proof. vm_compute. reflexivity. Qed.

(** The piece for a code point is the code point itself, or is not empty
    and holds no surrogate. *)
Lemma lower_chunk_cases before c r :
  lower_chunk before c r = [c]
  \/ (lower_chunk before c r <> []
      /\ Forall (fun e => is_surrogate e = false) (lower_chunk before c r)).
Proof.
  unfold lower_chunk. destruct (c =? 931).
  - right. destruct (_ && _); split; try discriminate; repeat constructor.
  - unfold lower_point.
    destruct (table_find c lowercase_table) as [v|] eqn:Hf; cbn [default];
      [|left; reflexivity].
    right.
    pose proof (table_find_check
                  (fun _ v => negb (bool_decide (v = []))
                              && forallb (fun e => negb (is_surrogate e)) v) _
                  lowercase_table_values c v Hf) as Hv.
    cbv beta in Hv. apply andb_true_iff in Hv as [Hne Hs]. split.
    + apply negb_true_iff, bool_decide_eq_false in Hne. exact Hne.
    + apply Forall_forall. intros e He. rewrite forallb_forall in Hs.
      apply negb_true_iff, Hs, list_elem_of_In, He.
Qed.

Lemma surrogate_cases c :
  is_surrogate c = false ->
  is_high_surrogate c = false /\ is_low_surrogate c = false.
Proof.
  unfold is_surrogate, is_high_surrogate, is_low_surrogate, in_range.
  intros H. apply andb_false_iff in H.
  split; apply andb_false_iff;
    destruct H as [H|H]; apply N.leb_gt in H;
    [left | right | left | right]; apply N.leb_gt; lia.
Qed.

Lemma pair_free_plain l :
  Forall (fun e => is_surrogate e = false) l -> pair_free l.
Proof.
  induction 1 as [|a l Ha _ IH]; [exact I|].
  apply pair_free_cons. split; [|exact IH].
  intros b _. destruct (surrogate_cases a Ha) as [-> _]. reflexivity.
Qed.

Lemma pair_free_app a b :
  pair_free a -> pair_free b ->
  (forall x y, last a = Some x -> head b = Some y ->
     is_high_surrogate x && is_low_surrogate y = false) ->
  pair_free (a ++ b).
Proof.
  intros Ha Hb Hab. induction a as [|x a IH]; [exact Hb|].
  apply pair_free_cons in Ha as [Hx Ha]. cbn [app]. apply pair_free_cons.
  split.
  - intros y Hy. destruct a as [|x' a]; cbn [app] in Hy.
    + apply (Hab x y); [reflexivity | exact Hy].
    + apply Hx. exact Hy.
  - apply IH; [exact Ha|]. intros x' y Hx' Hy. apply (Hab x' y); [|exact Hy].
    destruct a; [discriminate | exact Hx'].
Qed.

Lemma head_lower_points l before y :
  head (lower_points before l) = Some y -> is_low_surrogate y = true ->
  head l = Some y.
Proof.
  destruct l as [|c r]; [discriminate|]. rewrite lower_points_eq.
  intros Hy Hlow.
  destruct (lower_chunk_cases before c r) as [E|[Hne Hs]].
  - rewrite E in Hy. exact Hy.
  - destruct (lower_chunk before c r) as [|e ch]; [congruence|].
    cbn [app head] in Hy. injection Hy as <-.
    inversion Hs as [|? ? He _]; subst.
    destruct (surrogate_cases e He) as [_ Hl]. congruence.
Qed.

Lemma lower_points_pair_free l : forall before,
  pair_free l -> pair_free (lower_points before l).
Proof.
  induction l as [|c r IH]; intros before Hpf; [exact I|].
  apply pair_free_cons in Hpf as [Hc Hr].
  rewrite lower_points_eq. apply pair_free_app.
  - destruct (lower_chunk_cases before c r) as [->|[_ Hs]];
      [split; exact I | apply pair_free_plain, Hs].
  - apply IH, Hr.
  - intros x y Hx Hy.
    destruct (is_high_surrogate x) eqn:Hhx; [|reflexivity].
    destruct (is_low_surrogate y) eqn:Hly; [|reflexivity].
    exfalso.
    apply (head_lower_points _ _ _ Hy) in Hly as Hy'.
    destruct (lower_chunk_cases before c r) as [E|[_ Hs]].
    + rewrite E in Hx. injection Hx as <-.
      specialize (Hc y Hy'). rewrite Hhx, Hly in Hc. discriminate.
    + apply last_Some in Hx as [ch' E]. rewrite E in Hs.
      apply Forall_app in Hs as [_ Hs]. inversion Hs as [|? ? He _]; subst.
      destruct (surrogate_cases x He) as [Hh _]. congruence.
Qed.

(** Lower-casing twice is lower-casing once. *)
Lemma toLowerCase_idem s : toLowerCase (toLowerCase s) = toLowerCase s.
Proof.
  unfold toLowerCase.
  rewrite code_points_units
    by apply lower_points_pair_free, pair_free_code_points.
  rewrite (lower_points_fixed _ _ (lower_points_lower_fixed _ _)).
  reflexivity.
Qed.

End UnicodeFacts.

Local Open Scope nat_scope.

(** Away from the names of [Object.prototype], [valueAt] is a lookup with
    default 0. *)
Lemma valueAt_own_names rs aliasKey mes :
  aliasKey ∉ object_prototype_names ->
  toLowerCase (default [] mes) ∉ object_prototype_names ->
  exists found,
    findRow rs aliasKey = Returned found
    /\ valueAt rs aliasKey mes
       = Returned match found with
                  | None => zero
                  | Some row =>
                      default zero
                        (values row !! toLowerCase (default [] mes))
                  end.
Proof.
  intros Hk Hm. unfold valueAt, findRow, get_prop.
  rewrite (bool_decide_eq_false_2 _ Hk), (bool_decide_eq_false_2 _ Hm).
  destruct (aliases !! aliasKey) as [opts|]; [|exists None; auto].
  exists (findRow_loop (buildIndex rs) opts). split; [reflexivity|].
  destruct (findRow_loop _ _) as [row|]; [|reflexivity].
  destruct (values row !! _); reflexivity.
Qed.

(** C9 at the names of [Object.prototype]: the semantic key "constructor"
    is absent from the alias table and [valueAt] throws for it; the month
    "constructor" has no entry in the EBITDA row and [valueAt] gives NaN. *)
Theorem valueAt_inherited_names :
  aliases !! u "constructor" = None
  /\ (forall rs mes, valueAt rs (u "constructor") mes = Thrown)
  /\ values ebitda_row !! u "constructor" = None
  /\ valueAt [ebitda_row] (u "ebitda") (Some (u "constructor")) = Returned NaN
  /\ valueAt [ebitda_row] (u "ebitda") (Some (u "mar")) = Returned (of_Z 7).
Proof.
  split; [vm_compute; reflexivity|].
  split; [|split_and!; vm_compute; reflexivity].
  intros rs mes. unfold valueAt, findRow.
  replace (get_prop aliases (u "constructor"))
    with (@Inherited (list jsstring)) by (vm_compute; reflexivity).
  reflexivity.
Qed.

(** C10: [valueAt] lower-cases its month argument and does nothing else to
    it: a month and its lower-case form give the same result, an absent
    month is the empty string, and a leading space or an accent changes the
    result. *)
Theorem valueAt_month_lowercased :
  (forall rs aliasKey m,
     valueAt rs aliasKey (Some m) = valueAt rs aliasKey (Some (toLowerCase m)))
  /\ (forall rs aliasKey,
        valueAt rs aliasKey None = valueAt rs aliasKey (Some []))
  /\ valueAt [ebitda_row] (u "ebitda") (Some (u "MAR"))
     = valueAt [ebitda_row] (u "ebitda") (Some (u "mar"))
  /\ valueAt [ebitda_row] (u "ebitda") (Some (u "mar")) = Returned (of_Z 7)
  /\ valueAt [ebitda_row] (u "ebitda") (Some (u " mar")) = Returned zero
  /\ valueAt [ebitda_row] (u "ebitda") (Some (u "m" ++ [225%N] ++ u "r"))
     = Returned zero.
Proof.
  split.
  { intros rs aliasKey m. unfold valueAt.
    change (default [] (Some (toLowerCase m))) with (toLowerCase m).
    change (default [] (Some m)) with m.
    rewrite toLowerCase_idem. reflexivity. }
  split; [intros rs aliasKey; reflexivity|].
  split_and!; vm_compute; reflexivity.
Qed.

(** ** Month classifier *)

Section MonthPatterns.

Lemma lang_digit_iff s : lang digit s <-> exists d, s = [d] /\ is_digit d = true.
Proof. apply lang_cls_iff. Qed.

Lemma lang_rep_2_4_digit s :
  lang (rep_2_4 digit) s
  <-> 2 <= length s <= 4 /\ Forall (fun d => is_digit d = true) s.
Proof.
  unfold rep_2_4. split.
  - intros H.
    apply lang_cat_iff in H as (s1 & r1 & -> & H1 & H).
    apply lang_cat_iff in H as (s2 & r2 & -> & H2 & H).
    apply lang_digit_iff in H1 as (d1 & -> & Hd1).
    apply lang_digit_iff in H2 as (d2 & -> & Hd2).
    apply lang_opt_iff in H as [-> | H].
    { split; [simpl; lia | repeat constructor; assumption]. }
    apply lang_cat_iff in H as (s3 & r3 & -> & H3 & H).
    apply lang_digit_iff in H3 as (d3 & -> & Hd3).
    apply lang_opt_iff in H as [-> | H].
    { split; [simpl; lia | repeat constructor; assumption]. }
    apply lang_digit_iff in H as (d4 & -> & Hd4).
    split; [simpl; lia | repeat constructor; assumption].
  - intros [Hlen Hall].
    destruct s as [|d1 [|d2 s]]; simpl in Hlen; try lia.
    inversion Hall as [|? ? Hd1 Hall1]; subst.
    inversion Hall1 as [|? ? Hd2 Hall2]; subst.
    apply lang_cat_iff. exists [d1], (d2 :: s).
    split_and!; [reflexivity | apply lang_digit_iff; eauto |].
    apply lang_cat_iff. exists [d2], s.
    split_and!; [reflexivity | apply lang_digit_iff; eauto |].
    apply lang_opt_iff. destruct s as [|d3 s]; [auto|]. right.
    inversion Hall2 as [|? ? Hd3 Hall3]; subst.
    apply lang_cat_iff. exists [d3], s.
    split_and!; [reflexivity | apply lang_digit_iff; eauto |].
    apply lang_opt_iff. destruct s as [|d4 s]; [auto|]. right.
    inversion Hall3 as [|? ? Hd4 Hall4]; subst.
    destruct s; [|simpl in Hlen; lia].
    apply lang_digit_iff; eauto.
Qed.

Lemma lang_re_year s : lang re_year s <-> year_suffix code_sep s.
Proof.
  unfold re_year, year_suffix. rewrite lang_opt_iff. split.
  - intros [-> | H]; [auto|]. right.
    apply lang_cat_iff in H as (pre & ds & -> & Hpre & Hds).
    apply lang_rep_2_4_digit in Hds as [Hlen Hall].
    exists pre, ds. split; [reflexivity|]. split; [|auto].
    apply lang_opt_iff in Hpre as [-> | Hpre]; [auto|].
    right. apply lang_cls_iff in Hpre. exact Hpre.
  - intros [-> | (pre & ds & -> & Hpre & Hlen & Hall)]; [auto|]. right.
    apply lang_cat_iff. exists pre, ds. split_and!; [reflexivity | |].
    + apply lang_opt_iff. destruct Hpre as [-> | Hpre]; [auto|].
      right. apply lang_cls_iff. exact Hpre.
    + apply lang_rep_2_4_digit. auto.
Qed.

Lemma lang_month_re names s :
  lang (month_re names) s
  <-> exists n suf,
        s = n ++ suf
        /\ (exists name, name ∈ names
              /\ Forall2 (fun x c => canonicalize x = canonicalize c) n name)
        /\ year_suffix code_sep suf.
Proof.
  unfold month_re. rewrite lang_cat_iff. split.
  - intros (n & suf & -> & Hn & Hsuf). exists n, suf.
    split_and!; [reflexivity | | apply lang_re_year, Hsuf].
    apply lang_alt_of in Hn as (r & Hr & Hn).
    apply list_elem_of_fmap in Hr as (name & -> & Hin).
    exists name. split; [exact Hin | apply lang_word_i, Hn].
  - intros (n & suf & -> & (name & Hin & Hn) & Hsuf). exists n, suf.
    split_and!; [reflexivity | | apply lang_re_year, Hsuf].
    apply lang_alt_of. exists (word_i name).
    split; [apply list_elem_of_fmap; eauto | apply lang_word_i, Hn].
Qed.

End MonthPatterns.

Section TextFacts.

Lemma longest_prefix_void s : forall n best,
  longest_prefix Void s n best = best.
Proof. induction s as [|c s IH]; intros n best; simpl; auto. Qed.

Lemma longest_prefix_eps s n best : longest_prefix Eps s n best = Some n.
Proof. destruct s; simpl; [reflexivity | apply longest_prefix_void]. Qed.

(** Replacing a one-unit class by nothing is a filter. *)
Lemma replace_all_cls_remove p s :
  replace_all (Cls p) [] s = List.filter (fun c => negb (p c)) s.
Proof.
  unfold replace_all. induction s as [|c s IH]; [reflexivity|].
  cbn [replace_all_from longest_prefix nullable deriv List.filter].
  destruct (p c); cbn [negb].
  - rewrite longest_prefix_eps. simpl. exact IH.
  - rewrite longest_prefix_void. simpl. rewrite IH. reflexivity.
Qed.

Lemma trimStart_Forall (P : N -> Prop) s : Forall P s -> Forall P (trimStart s).
Proof.
  induction 1 as [|x s Hx Hs IH]; simpl; [constructor|].
  destruct (is_space x); [exact IH | constructor; assumption].
Qed.

Lemma trim_Forall (P : N -> Prop) s : Forall P s -> Forall P (trim s).
Proof.
  intros H. unfold trim, trimEnd.
  apply Forall_rev, trimStart_Forall, Forall_rev, trimStart_Forall, H.
Qed.

(** A text that starts and ends with a unit that is not white space is
    its own [trim]. *)
Lemma trim_id s x y :
  head s = Some x -> last s = Some y ->
  is_space x = false -> is_space y = false -> trim s = s.
Proof.
  intros Hh Hl Hx Hy. unfold trim, trimEnd.
  assert (Hs : trimStart s = s).
  { destruct s as [|a s]; [reflexivity|]. simpl in Hh. injection Hh as ->.
    simpl. rewrite Hx. reflexivity. }
  rewrite Hs.
  assert (Hr : trimStart (rev s) = rev s).
  { apply last_Some in Hl as [l' ->]. rewrite rev_unit.
    simpl. rewrite Hy. reflexivity. }
  rewrite Hr. apply rev_involutive.
Qed.

(** The units of a text in normalisation form D have no canonical
    decomposition. *)
Lemma nfd_stable s : Forall (fun c => stable c = true) (nfd s).
Proof.
  unfold nfd. apply code_units_Forall; [|apply surrogate_stable].
  apply canonical_order_Forall, List.Forall_flat_map, Forall_forall.
  intros c _. apply decompose_stable.
Qed.

Lemma lowercase_table_clean :
  forallb (fun kv => forallb clean (snd kv)
                     || (negb (stable (fst kv)) && (fst kv <? 65536)%N))
    lowercase_table = true.
Proof. vm_compute. reflexivity. Qed.

Lemma capitals_in_lowercase_table c :
  table_find c lowercase_table = None -> in_range 65 90 c = false.
Proof.
  intros Hf. destruct (in_range 65 90 c) eqn:Hr; [|reflexivity].
  unfold in_range in Hr. apply andb_true_iff in Hr as [H1 H2].
  apply N.leb_le in H1, H2.
  pose (P := fun x => bool_decide (is_Some (table_find x lowercase_table))).
  assert (HP : P c = true)
    by (apply (units_between_check P 65 26); [vm_compute; reflexivity | lia]).
  apply bool_decide_eq_true in HP. rewrite Hf in HP.
  destruct HP as [? HP]. discriminate.
Qed.

Lemma surrogate_clean c : is_surrogate c = true -> clean c = true.
Proof.
  intros Hc. unfold clean. rewrite (surrogate_stable c Hc), orb_true_r, andb_true_r.
  unfold is_surrogate, lowered, is_combining, in_range in *.
  apply andb_true_iff in Hc as [H1 H2]. apply N.leb_le in H1, H2.
  case_units; try reflexivity; lia.
Qed.

(** Lower-casing a text whose units have no canonical decomposition and are
    no combining marks gives clean units. *)
Lemma toLowerCase_clean s :
  Forall (fun c => stable c = true /\ is_combining c = false) s ->
  Forall (fun x => clean x = true) (toLowerCase s).
Proof.
  intros Hs. unfold toLowerCase.
  apply code_units_Forall; [|apply surrogate_clean].
  apply (lower_points_Forall _
           (fun c => (c < 65536)%N ->
                     stable c = true /\ is_combining c = false)).
  - apply code_points_Forall; [|intros c Hc Hlt; lia].
    eapply Forall_impl; [exact Hs|]. intros c Hc _. exact Hc.
  - intros c Hc _. unfold lower_point.
    destruct (table_find c lowercase_table) as [v|] eqn:Hf;
      cbn [default from_option id].
    + pose proof (table_find_check
                    (fun k v => forallb clean v
                                || (negb (stable k) && (k <? 65536)%N))
                    _ lowercase_table_clean c v Hf) as Hv.
      cbv beta in Hv. apply orb_true_iff in Hv as [Hv|Hv].
      * apply Forall_forall. intros e He. rewrite forallb_forall in Hv.
        apply Hv, list_elem_of_In, He.
      * apply andb_true_iff in Hv as [Hst Hlt].
        apply N.ltb_lt in Hlt. destruct (Hc Hlt) as [Hst' _].
        rewrite Hst' in Hst. discriminate.
    + constructor; [|constructor]. unfold clean, lowered.
      rewrite (capitals_in_lowercase_table c Hf).
      destruct (N.leb_spec 65536 c) as [Hge|Hlt].
      * assert (Hcomb : is_combining c = false).
        { unfold is_combining, in_range. apply andb_false_iff. right.
          apply N.leb_gt. lia. }
        rewrite Hcomb.
        destruct (N.eqb_spec c 199); [lia|].
        destruct (N.eqb_spec c 231); [lia | reflexivity].
      * destruct (Hc Hlt) as [Hst Hcomb]. rewrite Hcomb, Hst.
        destruct (N.eqb_spec c 199) as [->|_];
          [vm_compute in Hst; discriminate|].
        destruct (N.eqb_spec c 231) as [->|_];
          [vm_compute in Hst; discriminate | reflexivity].
  - vm_compute. reflexivity.
  - vm_compute. reflexivity.
Qed.

Lemma fold_text_clean s : Forall (fun x => clean x = true) (fold_text s).
Proof.
  unfold fold_text, re_combining. rewrite replace_all_cls_remove.
  apply toLowerCase_clean, Forall_forall. intros c Hc.
  apply list_elem_of_In, filter_In in Hc as [Hc Hm].
  apply negb_true_iff in Hm. split; [|exact Hm].
  pose proof (nfd_stable s) as Hst. rewrite Forall_forall in Hst.
  apply Hst, list_elem_of_In, Hc.
Qed.

Lemma fold_text_lowered s :
  Forall (fun x => lowered x = true) (fold_text s).
Proof.
  eapply Forall_impl; [apply fold_text_clean|]. intros x H.
  unfold clean in H. apply andb_true_iff in H as [H _].
  apply andb_true_iff in H as [H _]. exact H.
Qed.

Lemma normalize_fold cell : normalize cell = trim (fold_text (default [] cell)).
Proof. reflexivity. Qed.

Lemma normalize_lowered cell :
  Forall (fun x => lowered x = true) (normalize cell).
Proof. rewrite normalize_fold. apply trim_Forall, fold_text_lowered. Qed.

End TextFacts.

Section Classifier.

Lemma MONTH_ALIASES_names :
  MONTH_ALIASES
  = map (fun kn => (month_re (snd kn), fst kn)) code_names
    ++ [(word_i (u "total"), u "total")].
Proof. reflexivity. Qed.

Lemma month_forms_names :
  month_forms
  = map (fun kn => (fst kn, List.filter all_letters (snd kn))) code_names.
Proof. reflexivity. Qed.

Lemma code_names_units key names name :
  (key, names) ∈ code_names -> name ∈ names ->
  Forall (fun c => is_lower_letter c = true \/ c = 231%N) name.
Proof.
  intros Hk Hn.
  assert (Hall : forallb (fun kn =>
            forallb (forallb (fun c => is_lower_letter c || (c =? 231)%N))
              (snd kn)) code_names = true) by (vm_compute; reflexivity).
  rewrite forallb_forall in Hall.
  specialize (Hall _ (proj1 (list_elem_of_In _ _) Hk)). simpl in Hall.
  rewrite forallb_forall in Hall.
  specialize (Hall _ (proj1 (list_elem_of_In _ _) Hn)).
  rewrite forallb_forall in Hall. apply Forall_forall. intros c Hc.
  specialize (Hall c (proj1 (list_elem_of_In _ _) Hc)).
  apply orb_true_iff in Hall as [H|H]; [auto | right; apply N.eqb_eq, H].
Qed.

Lemma canonicalize_table_ascii :
  forallb (fun kv => negb (snd kv <? 256)%N
                     || ((fst kv =? snd kv + 32)%N
                         && (in_range 65 90 (snd kv)
                             || in_range 192 222 (snd kv))))
    canonicalize_table = true.
Proof. vm_compute. reflexivity. Qed.

(** The code units that canonicalise to a unit below U+0100 are that unit
    and, for the capitals A-Z and U+00C0..U+00DE, the unit 32 above. *)
Lemma canonicalize_below x :
  (canonicalize x < 256)%N ->
  canonicalize x = x
  \/ (x = (canonicalize x + 32)%N
      /\ (in_range 65 90 (canonicalize x)
          || in_range 192 222 (canonicalize x)) = true).
Proof.
  unfold canonicalize.
  destruct (table_find x canonicalize_table) as [v|] eqn:Hf;
    cbn [default from_option id]; [|auto].
  intros Hv. right.
  pose proof (table_find_check
                (fun k v => negb (v <? 256)%N
                            || ((k =? v + 32)%N
                                && (in_range 65 90 v || in_range 192 222 v)))
                _ canonicalize_table_ascii x v Hf) as H.
  cbv beta in H. apply N.ltb_lt in Hv. rewrite Hv in H. cbn [negb orb] in H.
  apply andb_true_iff in H as [H1 H2]. apply N.eqb_eq in H1. auto.
Qed.

Lemma canonicalize_letter c :
  is_lower_letter c = true -> canonicalize c = (c - 32)%N.
Proof.
  intros Hc. unfold is_lower_letter, in_range in Hc.
  apply andb_true_iff in Hc as [H1 H2]. apply N.leb_le in H1, H2.
  pose (P := fun x => (canonicalize x =? x - 32)%N).
  assert (HP : P c = true)
    by (apply (units_between_check P 97 26); [vm_compute; reflexivity | lia]).
  apply N.eqb_eq, HP.
Qed.

Lemma canonicalize_lowered_letter x c :
  is_lower_letter c = true -> lowered x = true ->
  canonicalize x = canonicalize c -> x = c.
Proof.
  intros Hc Hx E. rewrite (canonicalize_letter c Hc) in E.
  unfold is_lower_letter, in_range in Hc.
  apply andb_true_iff in Hc as [H1 H2]. apply N.leb_le in H1, H2.
  destruct (canonicalize_below x) as [Hid|[Hup _]]; [lia | | lia].
  rewrite Hid in E. subst x.
  unfold lowered, in_range in Hx.
  destruct (N.leb_spec 65 (c - 32)), (N.leb_spec (c - 32) 90);
    cbn [andb negb] in Hx; try discriminate; lia.
Qed.

Lemma canonicalize_lowered_cedilla x :
  lowered x = true -> canonicalize x <> canonicalize 231.
Proof.
  change (canonicalize 231) with 199%N. intros Hx E.
  destruct (canonicalize_below x) as [Hid|[Hup _]]; [lia | |].
  - rewrite Hid in E. subst x. vm_compute in Hx. discriminate.
  - rewrite E in Hup. subst x. vm_compute in Hx. discriminate.
Qed.

(** A lowered text that matches a name under the [i] flag is that name,
    and the name is made of letters a-z. *)
Lemma lowered_word n w :
  Forall (fun x => lowered x = true) n ->
  Forall (fun c => is_lower_letter c = true \/ c = 231%N) w ->
  Forall2 (fun x c => canonicalize x = canonicalize c) n w ->
  n = w /\ all_letters w = true.
Proof.
  intros Hn Hw H. induction H as [|x c n w Hxc H IH]; [auto|].
  inversion Hn as [|? ? Hx Hn']; subst.
  inversion Hw as [|? ? Hc Hw']; subst.
  destruct (IH Hn' Hw') as [-> Hall].
  destruct Hc as [Hc | ->].
  - rewrite (canonicalize_lowered_letter x c Hc Hx Hxc).
    split; [reflexivity|]. simpl. rewrite Hc, Hall. reflexivity.
  - destruct (canonicalize_lowered_cedilla x Hx Hxc).
Qed.

Lemma canonicalize_refl_word w :
  Forall2 (fun x c => canonicalize x = canonicalize c) w w.
Proof. induction w; constructor; auto. Qed.

Lemma month_forms_code key forms base :
  (key, forms) ∈ month_forms -> base ∈ forms ->
  exists names, (key, names) ∈ code_names /\ base ∈ names
                /\ all_letters base = true.
Proof.
  rewrite month_forms_names. intros Hk Hb.
  apply list_elem_of_fmap in Hk as ([k names] & [= -> ->] & Hin). simpl in Hb.
  apply list_elem_of_In, filter_In in Hb as [Hb Hl].
  exists names. split_and!; [exact Hin | apply list_elem_of_In, Hb | exact Hl].
Qed.

Lemma code_names_forms key names name :
  (key, names) ∈ code_names -> name ∈ names -> all_letters name = true ->
  exists forms, (key, forms) ∈ month_forms /\ name ∈ forms.
Proof.
  intros Hk Hn Hl. exists (List.filter all_letters names). split.
  - rewrite month_forms_names. apply list_elem_of_fmap.
    exists (key, names). split; [reflexivity | exact Hk].
  - apply list_elem_of_In, filter_In.
    split; [apply list_elem_of_In, Hn | exact Hl].
Qed.

Lemma first_alias_elem tbl s key :
  first_alias tbl s = Some key ->
  exists re, (re, key) ∈ tbl /\ test_full re s = true.
Proof.
  induction tbl as [|[re k] tbl IH]; simpl; [discriminate|].
  destruct (test_full re s) eqn:Hm.
  - intros [= ->]. exists re. split; [apply list_elem_of_here | exact Hm].
  - intros H. destruct (IH H) as (re' & Hin & Hm').
    exists re'. split; [apply list_elem_of_further, Hin | exact Hm'].
Qed.

Lemma first_alias_some tbl s re key :
  (re, key) ∈ tbl -> test_full re s = true ->
  exists key', first_alias tbl s = Some key'.
Proof.
  induction tbl as [|[re0 k0] tbl IH]; simpl; intros Hin Hm; [inversion Hin|].
  destruct (test_full re0 s) eqn:Hm0; [eauto|].
  apply elem_of_cons in Hin as [[= -> ->]|Hin]; [congruence | auto].
Qed.

(** The entry that answers is the first one that matches. *)
Lemma first_alias_first tbl s key :
  first_alias tbl s = Some key
  <-> exists i re,
        tbl !! i = Some (re, key) /\ test_full re s = true
        /\ forall j re' key', j < i -> tbl !! j = Some (re', key') ->
             test_full re' s = false.
Proof.
  induction tbl as [|[re0 k0] tbl IH]; simpl.
  - split; [discriminate | intros (i & re & H & _); discriminate].
  - destruct (test_full re0 s) eqn:Hm0.
    + split.
      * intros [= ->]. exists 0, re0. split_and!; auto. intros j ? ? Hj; lia.
      * intros (i & re & Hi & Hm & Hfirst). destruct i as [|i].
        { simpl in Hi. congruence. }
        specialize (Hfirst 0 re0 k0). rewrite Hfirst in Hm0; [discriminate | lia | reflexivity].
    + rewrite IH. split.
      * intros (i & re & Hi & Hm & Hfirst). exists (S i), re.
        split_and!; auto. intros [|j] re' key' Hj Hl.
        { simpl in Hl. congruence. }
        apply (Hfirst j re' key'); [lia | exact Hl].
      * intros (i & re & Hi & Hm & Hfirst). destruct i as [|i].
        { simpl in Hi. congruence. }
        exists i, re. split_and!; auto. intros j re' key' Hj Hl.
        apply (Hfirst (S j) re' key'); [lia | exact Hl].
Qed.

End Classifier.

Section Recognised.

Lemma first_alias_recognised s key :
  Forall (fun x => lowered x = true) s ->
  first_alias MONTH_ALIASES s = Some key -> recognised key s.
Proof.
  intros Hs H. apply first_alias_elem in H as (re & Hin & Hm).
  apply matches_lang in Hm.
  rewrite MONTH_ALIASES_names in Hin. apply elem_of_app in Hin as [Hin|Hin].
  - apply list_elem_of_fmap in Hin as ([k names] & [= -> ->] & Hin).
    cbn [fst snd] in *.
    apply lang_month_re in Hm as (n & suf & -> & (name & Hname & Hci) & Hsuf).
    apply Forall_app in Hs as [Hn _].
    destruct (lowered_word n name Hn (code_names_units _ _ _ Hin Hname) Hci)
      as [-> Hl].
    destruct (code_names_forms _ _ _ Hin Hname Hl) as (forms & Hf & Hb).
    right. exists forms, name, suf. auto.
  - apply list_elem_of_singleton in Hin.
    pose proof (f_equal fst Hin) as Hre. pose proof (f_equal snd Hin) as Hkey.
    cbn [fst snd] in Hre, Hkey. subst re key.
    apply lang_word_i in Hm.
    destruct (lowered_word s (u "total") Hs) as [-> _]; [|exact Hm|].
    + repeat constructor.
    + left. auto.
Qed.

Lemma recognised_matches s key :
  recognised key s ->
  exists re, (re, key) ∈ MONTH_ALIASES /\ test_full re s = true.
Proof.
  rewrite MONTH_ALIASES_names.
  intros [[-> ->] | (forms & base & suf & Hf & Hb & Hsuf & ->)].
  - exists (word_i (u "total")). split.
    + apply elem_of_app. right. apply list_elem_of_here.
    + vm_compute. reflexivity.
  - destruct (month_forms_code _ _ _ Hf Hb) as (names & Hk & Hn & _).
    exists (month_re names). split.
    + apply elem_of_app. left. apply list_elem_of_fmap.
      exists (key, names). split; [reflexivity | exact Hk].
    + apply matches_lang, lang_month_re. exists base, suf.
      split_and!; [reflexivity | | exact Hsuf].
      exists base. split; [exact Hn | apply canonicalize_refl_word].
Qed.

(** Two splittings of one text into letters and a rest that does not
    start with a letter have the same letters. *)
Lemma split_unique (l1 r1 l2 r2 : jsstring) :
  l1 ++ r1 = l2 ++ r2 ->
  all_letters l1 = true -> all_letters l2 = true ->
  (forall x, head r1 = Some x -> is_lower_letter x = false) ->
  (forall x, head r2 = Some x -> is_lower_letter x = false) ->
  l1 = l2.
Proof.
  revert l2. induction l1 as [|a l1 IH]; intros [|b l2] E H1 H2 Hr1 Hr2;
    simpl in *.
  - reflexivity.
  - subst r1. apply andb_true_iff in H2 as [Hb _].
    rewrite (Hr1 b eq_refl) in Hb. discriminate.
  - subst r2. apply andb_true_iff in H1 as [Ha _].
    rewrite (Hr2 a eq_refl) in Ha. discriminate.
  - injection E as -> E.
    apply andb_true_iff in H1 as [_ H1]. apply andb_true_iff in H2 as [_ H2].
    f_equal. apply IH with (l2 := l2); assumption.
Qed.

Lemma digit_not_letter d : is_digit d = true -> is_lower_letter d = false.
Proof.
  unfold is_digit, is_lower_letter, in_range. case_units; try discriminate.
  all: intros _; try reflexivity; lia.
Qed.

Lemma code_sep_not_letter c : code_sep c = true -> is_lower_letter c = false.
Proof.
  unfold is_lower_letter, in_range.
  destruct (N.leb_spec 97 c), (N.leb_spec c 122); cbn [andb]; try reflexivity.
  unfold code_sep, is_space, in_range. case_units; try discriminate; lia.
Qed.

Lemma year_suffix_head suf x :
  year_suffix code_sep suf -> head suf = Some x -> is_lower_letter x = false.
Proof.
  intros [-> | (pre & ds & -> & Hpre & Hlen & Hds)] Hx; [discriminate|].
  destruct Hpre as [-> | (c & -> & Hc)].
  - destruct ds as [|d ds]; [discriminate|]. simpl in Hx. injection Hx as ->.
    inversion Hds; subst. apply digit_not_letter. assumption.
  - simpl in Hx. injection Hx as ->. apply code_sep_not_letter, Hc.
Qed.

Lemma form_key_spec key forms base :
  (key, forms) ∈ month_forms -> base ∈ forms -> form_key base = Some key.
Proof.
  intros Hk Hb. apply list_elem_of_In in Hk. simpl in Hk.
  repeat (destruct Hk as [Hk|Hk];
    [injection Hk as <- <-; apply list_elem_of_In in Hb; simpl in Hb;
     repeat (destruct Hb as [<-|Hb]; [vm_compute; reflexivity|]);
     destruct Hb |]).
  destruct Hk.
Qed.

Lemma recognised_functional s k1 k2 :
  recognised k1 s -> recognised k2 s -> k1 = k2.
Proof.
  assert (Hmix : forall key forms base suf,
    (key, forms) ∈ month_forms -> base ∈ forms ->
    year_suffix code_sep suf -> u "total" = base ++ suf -> False).
  { intros key forms base suf Hf Hb Hsuf E.
    destruct (month_forms_code _ _ _ Hf Hb) as (_ & _ & _ & Hl).
    assert (Hbase : u "total" = base).
    { apply (split_unique (u "total") [] base suf).
      - exact E.
      - reflexivity.
      - exact Hl.
      - discriminate.
      - intros x. apply year_suffix_head, Hsuf. }
    subst base. pose proof (form_key_spec _ _ _ Hf Hb) as Hkey.
    vm_compute in Hkey. discriminate. }
  intros [[-> ->] | (f1 & b1 & s1 & Hf1 & Hb1 & Hs1 & ->)]
         [[-> E] | (f2 & b2 & s2 & Hf2 & Hb2 & Hs2 & E)].
  - reflexivity.
  - destruct (Hmix _ _ _ _ Hf2 Hb2 Hs2 E).
  - destruct (Hmix _ _ _ _ Hf1 Hb1 Hs1 (eq_sym E)).
  - destruct (month_forms_code _ _ _ Hf1 Hb1) as (_ & _ & _ & Hl1).
    destruct (month_forms_code _ _ _ Hf2 Hb2) as (_ & _ & _ & Hl2).
    assert (Hb : b1 = b2).
    { apply (split_unique b1 s1 b2 s2).
      - exact E.
      - exact Hl1.
      - exact Hl2.
      - intros x. apply year_suffix_head, Hs1.
      - intros x. apply year_suffix_head, Hs2. }
    subst b2.
    pose proof (form_key_spec _ _ _ Hf1 Hb1) as E1.
    pose proof (form_key_spec _ _ _ Hf2 Hb2) as E2. congruence.
Qed.

(** On a normalised text the table answers [key] exactly for the texts
    recognised for [key]. *)
Lemma first_alias_iff s key :
  Forall (fun x => lowered x = true) s ->
  first_alias MONTH_ALIASES s = Some key <-> recognised key s.
Proof.
  intros Hs. split; [apply first_alias_recognised, Hs|].
  intros Hrec. destruct (recognised_matches _ _ Hrec) as (re & Hin & Hm).
  destruct (first_alias_some _ _ _ _ Hin Hm) as [key' Hk'].
  rewrite Hk'. f_equal.
  apply (recognised_functional s); [|exact Hrec].
  apply first_alias_recognised; assumption.
Qed.

Lemma monthKey_iff cell key :
  monthKey cell = Some key <-> recognised key (normalize cell).
Proof. apply first_alias_iff, normalize_lowered. Qed.

End Recognised.

Section Variants.

Lemma claim_sep_cases c : claim_sep c = true -> c = 47%N \/ c = 45%N \/ c = 32%N.
Proof.
  unfold claim_sep. intros H.
  apply orb_true_iff in H as [H|H]; [apply orb_true_iff in H as [H|H]|];
    apply N.eqb_eq in H; auto.
Qed.

Lemma claim_sep_code c : claim_sep c = true -> code_sep c = true.
Proof.
  intros H. destruct (claim_sep_cases c H) as [->|[->| ->]];
    vm_compute; reflexivity.
Qed.

Lemma year_suffix_claim_code suf :
  year_suffix claim_sep suf -> year_suffix code_sep suf.
Proof.
  intros [-> | (pre & ds & -> & Hpre & Hlen & Hds)]; [left; reflexivity|].
  right. exists pre, ds. split_and!; auto; try lia.
  destruct Hpre as [-> | (c & -> & Hc)]; [auto|].
  right. exists c. auto using claim_sep_code.
Qed.

Lemma year_suffix_units suf :
  year_suffix claim_sep suf ->
  Forall (fun c => (c < 128)%N /\ in_range 65 90 c = false) suf.
Proof.
  intros [-> | (pre & ds & -> & Hpre & Hlen & Hds)]; [constructor|].
  apply Forall_app. split.
  - destruct Hpre as [-> | (c & -> & Hc)]; [constructor|].
    constructor; [|constructor].
    destruct (claim_sep_cases c Hc) as [->|[->| ->]]; split;
      first [reflexivity | lia].
  - eapply Forall_impl; [exact Hds|]. intros d Hd.
    unfold is_digit, in_range in *. apply andb_true_iff in Hd as [H1 H2].
    apply N.leb_le in H1, H2. split; [lia|].
    case_units; try reflexivity; lia.
Qed.

Lemma all_letters_Forall w :
  all_letters w = true <-> Forall (fun c => is_lower_letter c = true) w.
Proof.
  unfold all_letters. rewrite forallb_forall, Forall_forall.
  split; intros H x Hx; apply H; apply list_elem_of_In; exact Hx.
Qed.

Lemma combining_removed l :
  Forall (fun m => is_combining m = true) l ->
  List.filter (fun c => negb (is_combining c)) l = [].
Proof.
  induction 1 as [|m l Hm Hl IH]; simpl; [reflexivity|].
  rewrite Hm. simpl. exact IH.
Qed.

Lemma decomposition_table_heads :
  forallb (fun kv => negb (default 128 (head (snd kv)) <? 128)%N
                     || (fst kv <? 55296)%N)
    decomposition_table = true.
Proof. vm_compute. reflexivity. Qed.

(** A character whose decomposition starts with an ASCII character lies
    below the surrogates. *)
Lemma variant_head_unit x b ds :
  decompose x = b :: ds -> (b < 128)%N -> (x < 55296)%N.
Proof.
  unfold decompose. destruct (in_range 44032 55203 x) eqn:Hr.
  - destruct (_ =? _)%N; intros [= <- _] Hb; exfalso; revert Hb;
      generalize ((x - 44032) / 588)%N; intros q Hq; lia.
  - destruct (table_find x decomposition_table) as [v|] eqn:Hf;
      cbn [default from_option id].
    + intros -> Hb.
      pose proof (table_find_check
                    (fun k v => negb (default 128 (head v) <? 128)%N
                                || (k <? 55296)%N)
                    _ decomposition_table_heads x _ Hf) as Hv.
      cbv beta in Hv. cbn [head default from_option id] in Hv.
      apply N.ltb_lt in Hb. rewrite Hb in Hv. cbn [negb orb] in Hv.
      apply N.ltb_lt, Hv.
    + intros [= -> _] Hb. lia.
Qed.

Lemma marks_decompose m :
  is_combining m = true ->
  Forall (fun d => is_combining d = true) (decompose m).
Proof.
  intros Hm. unfold is_combining, in_range in Hm.
  apply andb_true_iff in Hm as [H1 H2]. apply N.leb_le in H1, H2.
  pose (P := fun x => forallb is_combining (decompose x)).
  assert (HP : P m = true)
    by (apply (units_between_check P 768 112); [vm_compute; reflexivity | lia]).
  apply Forall_forall. intros d Hd. unfold P in HP.
  rewrite forallb_forall in HP. apply HP, list_elem_of_In, Hd.
Qed.

Lemma combining_units l :
  Forall (fun m => is_combining m = true) l ->
  Forall (fun d => (d < 55296)%N /\ ((0 < ccc d)%N -> is_combining d = true)) l.
Proof.
  intros H. eapply Forall_impl; [exact H|]. intros d Hd. split; [|auto].
  unfold is_combining, in_range in Hd.
  apply andb_true_iff in Hd as [H1 H2]. apply N.leb_le in H1, H2. lia.
Qed.

Lemma letter_case_lower c b :
  is_lower_letter c = true -> b = c \/ (b + 32)%N = c ->
  (b < 128)%N /\ is_combining b = false /\ lower_point b = [c].
Proof.
  intros Hc Hb. unfold is_lower_letter, in_range in Hc.
  apply andb_true_iff in Hc as [H1 H2]. apply N.leb_le in H1, H2.
  assert (Hlt : (b < 128)%N) by (destruct Hb; lia).
  split; [exact Hlt|]. split.
  - unfold is_combining, in_range. apply andb_false_iff. left.
    apply N.leb_gt. lia.
  - rewrite (lower_point_small b Hlt). unfold in_range.
    destruct Hb as [->| <-]; case_units; try reflexivity; lia.
Qed.

(** The decomposition of a variant: the letters of the word in either
    case, with marks of the class U+0300..U+036F among them. *)
Lemma variant_decomposed base v :
  variant base v ->
  Forall (fun c => (c < 55296)%N) v
  /\ Forall (fun d => (d < 55296)%N /\ ((0 < ccc d)%N -> is_combining d = true))
       (flat_map decompose v)
  /\ Forall (fun d => (d < 128)%N)
       (List.filter (fun c => negb (is_combining c)) (flat_map decompose v))
  /\ flat_map lower_point
       (List.filter (fun c => negb (is_combining c)) (flat_map decompose v))
     = base.
Proof.
  induction 1 as [|c base chunk rest Hc Hchunk Hv (IH1 & IH2 & IH3 & IH4)].
  - split_and!; constructor.
  - destruct Hchunk as [x b ds marks Hx Hb Hmarks].
    apply Forall_app in Hmarks as [Hds Hm].
    destruct (letter_case_lower c b Hc Hb) as (Hb128 & Hbc & Hbl).
    assert (HM : Forall (fun d => is_combining d = true)
                   (flat_map decompose marks)).
    { apply List.Forall_flat_map. eapply Forall_impl; [exact Hm|].
      intros m. apply marks_decompose. }
    assert (E : flat_map decompose ((x :: marks) ++ rest)
                = b :: (ds ++ flat_map decompose marks)
                  ++ flat_map decompose rest).
    { rewrite flat_map_app. cbn [flat_map]. rewrite Hx. reflexivity. }
    assert (F : List.filter (fun c => negb (is_combining c))
                  (flat_map decompose ((x :: marks) ++ rest))
                = b :: List.filter (fun c => negb (is_combining c))
                         (flat_map decompose rest)).
    { rewrite E. cbn [List.filter]. rewrite Hbc. cbn [negb].
      rewrite List.filter_app, combining_removed; [reflexivity|].
      apply Forall_app. split; assumption. }
    split_and!.
    + cbn [app]. constructor; [apply (variant_head_unit x b ds Hx Hb128)|].
      apply Forall_app. split; [|exact IH1].
      eapply Forall_impl; [apply (combining_units _ Hm)|]. intros d [Hd _]. exact Hd.
    + rewrite E. constructor.
      * split; [lia|]. rewrite ccc_small by lia. lia.
      * apply Forall_app. split; [|exact IH2].
        apply combining_units, Forall_app. split; assumption.
    + rewrite F. constructor; assumption.
    + rewrite F. cbn [flat_map]. rewrite Hbl, IH4. reflexivity.
Qed.

(** The text before the final [trim]: a variant of a word followed by
    ASCII characters other than capitals folds to the word and the same
    characters. *)
Lemma fold_text_variant base v suf :
  variant base v ->
  Forall (fun c => (c < 128)%N /\ in_range 65 90 c = false) suf ->
  fold_text (v ++ suf) = base ++ suf.
Proof.
  intros Hv Hsuf.
  destruct (variant_decomposed base v Hv) as (Hunits & Hdec & Hascii & Hlow).
  assert (Hs128 : Forall (fun c => (c < 128)%N) suf)
    by (eapply Forall_impl; [exact Hsuf|]; intros c [H _]; exact H).
  assert (Hsd : flat_map decompose suf = suf).
  { clear -Hs128. induction Hs128 as [|c suf Hc _ IH]; [reflexivity|].
    cbn [flat_map]. rewrite IH, decompose_small by lia. reflexivity. }
  assert (Hsf : List.filter (fun c => negb (is_combining c)) suf = suf).
  { clear -Hs128. induction Hs128 as [|c suf Hc _ IH]; [reflexivity|].
    cbn [List.filter]. rewrite IH.
    unfold is_combining, in_range.
    destruct (N.leb_spec 768 c); [lia | reflexivity]. }
  assert (Hsl : flat_map lower_point suf = suf).
  { clear -Hsuf. induction Hsuf as [|c suf [Hc Hcap] _ IH]; [reflexivity|].
    cbn [flat_map]. rewrite IH, (lower_point_small c Hc), Hcap. reflexivity. }
  set (D := flat_map decompose v ++ suf).
  assert (HD : Forall (fun d => (d < 55296)%N
                               /\ ((0 < ccc d)%N -> is_combining d = true)) D).
  { apply Forall_app. split; [exact Hdec|].
    eapply Forall_impl; [exact Hs128|]. intros c Hc; cbv beta in Hc.
    split; [lia|]. rewrite ccc_small by lia. lia. }
  set (T := List.filter (fun c => negb (is_combining c)) (flat_map decompose v)
            ++ suf).
  assert (HT : Forall (fun c => (c < 128)%N) T)
    by (apply Forall_app; split; assumption).
  unfold fold_text, nfd, re_combining.
  rewrite code_points_plain.
  2:{ apply Forall_app. split.
      - eapply Forall_impl; [exact Hunits|]. intros c Hc; cbv beta in Hc.
        unfold is_high_surrogate, in_range.
        destruct (N.leb_spec 55296 c); [lia | reflexivity].
      - eapply Forall_impl; [exact Hs128|]. intros c Hc; cbv beta in Hc.
        unfold is_high_surrogate, in_range.
        destruct (N.leb_spec 55296 c); [lia | reflexivity]. }
  rewrite flat_map_app, Hsd. fold D.
  rewrite code_units_plain.
  2:{ apply canonical_order_Forall. eapply Forall_impl; [exact HD|].
      intros d [Hd _]; cbv beta. lia. }
  rewrite replace_all_cls_remove, canonical_order_filter.
  2:{ eapply Forall_impl; [exact HD|]. intros d [_ Hd] Hc.
      rewrite (Hd Hc). reflexivity. }
  unfold D. rewrite List.filter_app, Hsf. fold T.
  unfold toLowerCase.
  rewrite code_points_plain.
  2:{ eapply Forall_impl; [exact HT|]. intros c Hc; cbv beta in Hc.
      unfold is_high_surrogate, in_range.
      destruct (N.leb_spec 55296 c); [lia | reflexivity]. }
  rewrite lower_points_plain.
  2:{ eapply Forall_impl; [exact HT|]. intros c Hc; cbv beta in Hc. lia. }
  unfold T. rewrite flat_map_app, Hlow, Hsl.
  apply code_units_plain. apply Forall_app. split.
  - rewrite <- Hlow. apply List.Forall_flat_map.
    eapply Forall_impl; [exact Hascii|]. intros c Hc; cbv beta in Hc.
    rewrite (lower_point_small c Hc). constructor; [|constructor].
    destruct (in_range 65 90 c) eqn:Hr; [|lia].
    unfold in_range in Hr. apply andb_true_iff in Hr as [_ H2].
    apply N.leb_le in H2. lia.
  - eapply Forall_impl; [exact Hs128|]. intros c Hc; cbv beta in Hc. lia.
Qed.

Lemma letter_not_space c : is_lower_letter c = true -> is_space c = false.
Proof.
  unfold is_lower_letter, in_range. intros H.
  apply andb_true_iff in H as [H1 H2]. apply N.leb_le in H1, H2.
  unfold is_space, in_range. case_units; try reflexivity; lia.
Qed.

Lemma digit_not_space c : is_digit c = true -> is_space c = false.
Proof.
  unfold is_digit, in_range. intros H.
  apply andb_true_iff in H as [H1 H2]. apply N.leb_le in H1, H2.
  unfold is_space, in_range. case_units; try reflexivity; lia.
Qed.

(** A month form followed by a year suffix has no white space to trim. *)
Lemma trim_form_suffix base suf :
  base <> [] -> all_letters base = true -> year_suffix code_sep suf ->
  trim (base ++ suf) = base ++ suf.
Proof.
  intros Hne Hl Hsuf. apply all_letters_Forall in Hl.
  destruct base as [|c base]; [congruence|].
  assert (Hc : is_lower_letter c = true) by (inversion Hl; assumption).
  assert (Hlast : exists y, last ((c :: base) ++ suf) = Some y
                            /\ is_space y = false).
  { destruct Hsuf as [-> | (pre & ds & -> & _ & Hlen & Hds)].
    - rewrite app_nil_r.
      destruct (last (c :: base)) as [y|] eqn:Hy.
      + exists y. split; [reflexivity|]. apply letter_not_space.
        apply last_Some_elem_of in Hy.
        rewrite Forall_forall in Hl. apply Hl, Hy.
      + apply last_None in Hy. discriminate.
    - destruct (last ds) as [y|] eqn:Hy.
      + exists y. split.
        * rewrite !last_app, Hy. reflexivity.
        * apply digit_not_space. apply last_Some_elem_of in Hy.
          rewrite Forall_forall in Hds. apply Hds, Hy.
      + apply last_None in Hy. subst ds. simpl in Hlen. lia. }
  destruct Hlast as (y & Hy & Hys).
  apply (trim_id _ c y); [reflexivity | exact Hy | | exact Hys].
  apply letter_not_space, Hc.
Qed.

Lemma variant_refl base : all_letters base = true -> variant base base.
Proof.
  intros Hl. apply all_letters_Forall in Hl.
  induction Hl as [|c base Hc Hl IH]; [constructor|].
  change (c :: base) with ([c] ++ base) at 2.
  constructor; [exact Hc | | exact IH].
  apply (letter_variant_intro c c c [] []); [|auto|constructor].
  apply decompose_small.
  unfold is_lower_letter, in_range in *.
  apply andb_true_iff in Hc as [H1 H2]. apply N.leb_le in H1, H2. lia.
Qed.

Lemma monthKey_variant key forms base v suf :
  (key, forms) ∈ month_forms -> base ∈ forms -> variant base v ->
  year_suffix claim_sep suf ->
  monthKey (Some (v ++ suf)) = Some key.
Proof.
  intros Hf Hb Hv Hsuf. apply monthKey_iff.
  destruct (month_forms_code _ _ _ Hf Hb) as (_ & _ & _ & Hl).
  assert (Hne : base <> []).
  { intros ->. pose proof (form_key_spec _ _ _ Hf Hb) as E.
    vm_compute in E. discriminate. }
  rewrite normalize_fold. cbn [default from_option id].
  rewrite (fold_text_variant base v suf Hv (year_suffix_units _ Hsuf)).
  rewrite trim_form_suffix; auto using year_suffix_claim_code.
  right. exists forms, base, suf. auto using year_suffix_claim_code.
Qed.

End Variants.

(** C5, as the claim states it, fails: the cell " jan", with a leading
    space, is neither a case or diacritic variant of a month form (with or
    without a year suffix) nor the token "total", and it classifies to
    "jan". *)
Lemma monthKey_other_text_counterexample :
  ~ (forall cell,
       ~ is_month_cell cell -> cell <> u "total" ->
       monthKey (Some cell) = None).
Proof.
  intros H. specialize (H (u " jan")).
  assert (Hjan : monthKey (Some (u " jan")) = Some (u "jan"))
    by (vm_compute; reflexivity).
  rewrite H in Hjan; [discriminate | | discriminate].
  intros (key & forms & base & v & suf & Hf & Hb & Hv & _ & E).
  assert (Hne : base <> []).
  { intros ->. pose proof (form_key_spec _ _ _ Hf Hb) as E'.
    vm_compute in E'. discriminate. }
  destruct Hv as [|c base chunk rest Hc Hchunk _]; [congruence|].
  destruct Hchunk as [x b ds marks Hx Hbc _].
  simpl in E. injection E as <- _.
  vm_compute in Hx. injection Hx as <- _.
  destruct Hbc as [<- | <-]; vm_compute in Hc; discriminate.
Qed.

(** C5, amended: the classifier returns [key] exactly when the cell's
    normalised text (marks stripped, lower case, trimmed) is "total", for
    the key "total", or one of the key's two base forms followed by nothing
    or by an optional separator (slash, hyphen or one white-space unit)
    and two to four digits; every other text gives no match.  So every
    case or diacritic variant of a month form, with or without a year
    suffix, classifies as the base form does, "total" classifies to
    "total", and the entry that answers is the first one in table order
    that matches.  Variants outside Latin-1 are covered as well: "jan"
    with a macron on the a, "MAI" with a dotted capital I, "dez" with a
    caron on the z and "Abr" written with the angstrom sign classify to
    jan, mai, dez and abr. *)
Theorem monthKey_spec :
  (forall cell key,
     monthKey cell = Some key <-> recognised key (normalize cell))
  /\ (forall cell,
        (forall key, ~ recognised key (normalize cell)) ->
        monthKey cell = None)
  /\ (forall key forms base v suf,
        (key, forms) ∈ month_forms -> base ∈ forms -> variant base v ->
        year_suffix claim_sep suf ->
        monthKey (Some (v ++ suf)) = Some key
        /\ monthKey (Some (base ++ suf)) = Some key)
  /\ monthKey (Some (u "total")) = Some (u "total")
  /\ (forall cell key,
        monthKey cell = Some key
        <-> exists i re,
              MONTH_ALIASES !! i = Some (re, key)
              /\ test_full re (normalize cell) = true
              /\ forall j re' key',
                   j < i -> MONTH_ALIASES !! j = Some (re', key') ->
                   test_full re' (normalize cell) = false)
  /\ monthKey (Some [106; 257; 110]%N) = Some (u "jan")
  /\ monthKey (Some [77; 65; 304]%N) = Some (u "mai")
  /\ monthKey (Some [100; 101; 382]%N) = Some (u "dez")
  /\ monthKey (Some [8491; 98; 114]%N) = Some (u "abr").
Proof.
  split; [exact monthKey_iff|].
  split.
  { intros cell Hnone. destruct (monthKey cell) as [key|] eqn:Hk; [|reflexivity].
    apply monthKey_iff in Hk. destruct (Hnone key Hk). }
  split.
  { intros key forms base v suf Hf Hb Hv Hsuf. split.
    - apply (monthKey_variant key forms base v suf); assumption.
    - apply (monthKey_variant key forms base base suf); try assumption.
      destruct (month_forms_code _ _ _ Hf Hb) as (_ & _ & _ & Hl).
      apply variant_refl, Hl. }
  split; [vm_compute; reflexivity|].
  split; [intros cell key; apply first_alias_first|].
  split_and!; vm_compute; reflexivity.
Qed.

Lemma monthKey_spec_witness :
  monthKey (Some ((u "MAR" ++ [199%N] ++ u "O") ++ u "/25")) = Some (u "mar").
Proof.
  apply (proj1 (proj2 (proj2 monthKey_spec))
           (u "mar") [u "mar"; u "marco"] (u "marco")
           (u "MAR" ++ [199%N] ++ u "O") (u "/25")).
  - apply list_elem_of_further, list_elem_of_further, list_elem_of_here.
  - apply list_elem_of_further, list_elem_of_here.
  - apply (variant_cons 109 (u "arco") [77%N] (u "AR" ++ [199%N] ++ u "O"));
      [reflexivity | apply (letter_variant_intro 109 77 77 [] []);
                     [reflexivity | right; reflexivity | constructor] |].
    apply (variant_cons 97 (u "rco") [65%N] (u "R" ++ [199%N] ++ u "O"));
      [reflexivity | apply (letter_variant_intro 97 65 65 [] []);
                     [reflexivity | right; reflexivity | constructor] |].
    apply (variant_cons 114 (u "co") [82%N] ([199%N] ++ u "O"));
      [reflexivity | apply (letter_variant_intro 114 82 82 [] []);
                     [reflexivity | right; reflexivity | constructor] |].
    apply (variant_cons 99 (u "o") [199%N] (u "O"));
      [reflexivity | apply (letter_variant_intro 99 199 67 [807%N] []);
                     [reflexivity | right; reflexivity
                      | repeat constructor] |].
    apply (variant_cons 111 [] [79%N] []);
      [reflexivity | apply (letter_variant_intro 111 79 79 [] []);
                     [reflexivity | right; reflexivity | constructor] |].
    constructor.
  - right. exists (u "/"), (u "25").
    split_and!; [reflexivity | right; exists 47%N; split; reflexivity
                | simpl; lia | simpl; lia | repeat constructor].
Defined.

(** * Further properties of the hook *)

(** ** Text normaliser *)

Section NormalizeFacts.

Lemma trimStart_snoc l x :
  is_space x = false -> trimStart (l ++ [x]) = trimStart l ++ [x].
Proof.
  intros Hx. induction l as [|c l IH]; simpl; [rewrite Hx; reflexivity|].
  destruct (is_space c); [exact IH | reflexivity].
Qed.

Lemma trimStart_head s x :
  head (trimStart s) = Some x -> is_space x = false.
Proof.
  induction s as [|c s IH]; simpl; [discriminate|].
  destruct (is_space c) eqn:Hc; [exact IH|]. simpl. intros [= <-]. exact Hc.
Qed.

(** What [trim] returns is empty or has no white space at either end. *)
Lemma trim_ends s :
  trim s = []
  \/ exists x y, head (trim s) = Some x /\ last (trim s) = Some y
                 /\ is_space x = false /\ is_space y = false.
Proof.
  unfold trim, trimEnd.
  destruct (trimStart s) as [|x a] eqn:Ha; [left; reflexivity|]. right.
  assert (Hx : is_space x = false).
  { apply (trimStart_head s). rewrite Ha. reflexivity. }
  simpl rev. rewrite (trimStart_snoc _ _ Hx), rev_unit.
  destruct (last (x :: rev (trimStart (rev a)))) as [y|] eqn:Hy.
  - exists x, y. split_and!; [reflexivity | reflexivity | exact Hx |].
    destruct (rev (trimStart (rev a))) as [|z r] eqn:Hr.
    + simpl in Hy. injection Hy as <-. exact Hx.
    + rewrite last_cons in Hy.
      destruct (last (z :: r)) as [y'|] eqn:Hy'; [|apply last_None in Hy'; discriminate].
      injection Hy as <-.
      apply (trimStart_head (rev a)).
      rewrite <- (rev_involutive (trimStart (rev a))), Hr.
      apply last_Some in Hy' as [l' ->]. rewrite rev_unit. reflexivity.
  - apply last_None in Hy. discriminate.
Qed.

Lemma trim_idem s : trim (trim s) = trim s.
Proof.
  destruct (trim_ends s) as [-> | (x & y & Hh & Hl & Hx & Hy)]; [reflexivity|].
  apply (trim_id _ x y); assumption.
Qed.

Lemma normalize_clean cell : Forall (fun x => clean x = true) (normalize cell).
Proof. rewrite normalize_fold. apply trim_Forall, fold_text_clean. Qed.

(** Canonical ordering leaves a text without marks as it is. *)
Lemma canonical_order_plain l :
  Forall (fun c => ccc c = 0%N) l -> canonical_order l = l.
Proof.
  intros H.
  assert (F : forall x : jsstring, List.filter (fun _ => true) x = x).
  { induction x as [|c x IH]; [reflexivity|]. cbn [List.filter]. rewrite IH.
    reflexivity. }
  transitivity (List.filter (fun _ => true) (canonical_order l));
    [symmetry; apply F|].
  rewrite canonical_order_filter; [apply F|].
  eapply Forall_impl; [exact H|]. intros c Hc Hlt. cbv beta in Hc.
  rewrite Hc in Hlt. destruct (N.lt_irrefl _ Hlt).
Qed.

(** A text of inert units is left as it is by normalisation, lower-casing
    and the removal of marks. *)
Lemma fold_text_inert s :
  Forall (fun c => inert c = true) s -> fold_text s = s.
Proof.
  intros H.
  assert (Hall : Forall (fun c => ((c < 65536)%N
                                   /\ is_high_surrogate c = false)
                                  /\ decompose c = [c]
                                  /\ ccc c = 0%N /\ is_combining c = false
                                  /\ lower_fixed c = true) s).
  { eapply Forall_impl; [exact H|]. intros c Hc. unfold inert in Hc.
    apply andb_true_iff in Hc as [Hc H5]. apply andb_true_iff in Hc as [Hc H4].
    apply andb_true_iff in Hc as [Hc H3]. apply andb_true_iff in Hc as [Hc H2].
    apply andb_true_iff in Hc as [H0 H1].
    apply N.ltb_lt in H0. apply stable_spec in H2. apply N.eqb_eq in H3.
    apply negb_true_iff in H1, H4. auto. }
  clear H.
  assert (Hhigh : Forall (fun c => is_high_surrogate c = false) s).
  { eapply Forall_impl; [exact Hall|]. intros c [[_ Hc] _]. exact Hc. }
  assert (Hbmp : Forall (fun c => (c < 65536)%N) s).
  { eapply Forall_impl; [exact Hall|]. intros c [[Hc _] _]. exact Hc. }
  assert (Hdec : flat_map decompose s = s).
  { clear -Hall. induction Hall as [|c s (_ & Hc & _) _ IH]; [reflexivity|].
    cbn [flat_map]. rewrite Hc, IH. reflexivity. }
  assert (Hflt : List.filter (fun c => negb (is_combining c)) s = s).
  { clear -Hall. induction Hall as [|c s (_ & _ & _ & Hc & _) _ IH];
      [reflexivity|]. cbn [List.filter]. rewrite Hc, IH. reflexivity. }
  unfold fold_text, nfd, re_combining.
  rewrite (code_points_plain _ Hhigh), Hdec, canonical_order_plain.
  2:{ eapply Forall_impl; [exact Hall|]. intros c (_ & _ & Hc & _). exact Hc. }
  rewrite (code_units_plain _ Hbmp), replace_all_cls_remove, Hflt.
  unfold toLowerCase.
  rewrite (code_points_plain _ Hhigh), lower_points_fixed.
  2:{ eapply Forall_impl; [exact Hall|]. intros c (_ & _ & _ & _ & Hc). exact Hc. }
  apply code_units_plain, Hbmp.
Qed.

Lemma ascii_inert c :
  (c < 128)%N -> in_range 65 90 c = false -> inert c = true.
Proof.
  intros Hc Hcap.
  pose (P := fun x => in_range 65 90 x || inert x).
  assert (HP : P c = true)
    by (apply (units_between_check P 0 128); [vm_compute; reflexivity | lia]).
  unfold P in HP. rewrite Hcap in HP. exact HP.
Qed.

Lemma is_space_cases c :
  is_space c = true ->
  (9 <= c <= 13 \/ 8192 <= c <= 8202)%N
  \/ c ∈ [32; 160; 5760; 8232; 8233; 8239; 8287; 12288; 65279]%N.
Proof.
  unfold is_space, in_range. intros H.
  repeat (apply orb_true_iff in H as [H|H]);
    try (apply andb_true_iff in H as [H1 H2]; apply N.leb_le in H1, H2;
         left; lia);
    apply N.eqb_eq in H; subst; right;
    repeat first [apply list_elem_of_here | apply list_elem_of_further].
Qed.

(** A white-space unit that [normalize] can leave is inert. *)
Lemma space_inert c : is_space c = true -> clean c = true -> inert c = true.
Proof.
  intros Hs Hc.
  pose (P := fun x => negb (clean x) || inert x).
  assert (HP : P c = true).
  { destruct (is_space_cases c Hs) as [[Hr|Hr]|Hin].
    - apply (units_between_check P 9 5); [vm_compute; reflexivity | lia].
    - apply (units_from_check P 8192 11); [vm_compute; reflexivity | lia].
    - repeat (apply elem_of_cons in Hin as [->|Hin];
              [vm_compute; reflexivity|]).
      apply elem_of_nil in Hin. destruct Hin. }
  unfold P in HP. rewrite Hc in HP. exact HP.
Qed.

Lemma letters_inert w :
  all_letters w = true -> Forall (fun c => inert c = true) w.
Proof.
  intros H. apply all_letters_Forall in H.
  eapply Forall_impl; [exact H|]. intros c Hc.
  unfold is_lower_letter, in_range in Hc.
  apply andb_true_iff in Hc as [H1 H2]. apply N.leb_le in H1, H2.
  apply ascii_inert; [lia|]. unfold in_range.
  destruct (N.leb_spec c 90); [lia | apply andb_false_r].
Qed.

(** A recognised text that [normalize] returned is made of inert units. *)
Lemma recognised_inert key s :
  recognised key s -> Forall (fun x => clean x = true) s ->
  Forall (fun c => inert c = true) s.
Proof.
  intros [[_ ->] | (forms & base & suf & Hf & Hb & Hsuf & ->)] Hclean.
  - apply letters_inert. reflexivity.
  - destruct (month_forms_code _ _ _ Hf Hb) as (_ & _ & _ & Hl).
    apply Forall_app in Hclean as [_ Hclean].
    apply Forall_app. split; [apply letters_inert, Hl|].
    destruct Hsuf as [-> | (pre & ds & -> & Hpre & _ & Hds)]; [constructor|].
    apply Forall_app in Hclean as [Hclean _].
    apply Forall_app. split.
    + destruct Hpre as [-> | (c & -> & Hc)]; [constructor|].
      constructor; [|constructor]. inversion Hclean as [|? ? Hcl _]; subst.
      unfold code_sep in Hc. apply orb_true_iff in Hc as [Hc|Hc].
      * apply orb_true_iff in Hc as [Hc|Hc]; apply N.eqb_eq in Hc; subst;
          reflexivity.
      * apply space_inert; assumption.
    + eapply Forall_impl; [exact Hds|]. intros d Hd.
      unfold is_digit, in_range in Hd.
      apply andb_true_iff in Hd as [H1 H2]. apply N.leb_le in H1, H2.
      apply ascii_inert; [lia|]. unfold in_range.
      destruct (N.leb_spec 65 d); [lia | reflexivity].
Qed.

(** A normalised text that the classifier recognises is a fixed point of
    [normalize]. *)
Lemma normalize_recognised cell key :
  recognised key (normalize cell) ->
  normalize (Some (normalize cell)) = normalize cell.
Proof.
  intros Hrec. rewrite (normalize_fold (Some _)). cbn [default from_option id].
  rewrite (fold_text_inert _ (recognised_inert _ _ Hrec (normalize_clean cell))).
  rewrite normalize_fold. apply trim_idem.
Qed.

End NormalizeFacts.

(** X1: the normalised text of an absent cell is empty; a normalised text
    is empty or has no white space at either end, and it holds no capital
    A-Z, no c-cedilla and no combining mark U+0300..U+036F.  Normalising
    is not idempotent: the text U+0591 U+034F U+05B0 normalises to
    U+0591 U+05B0, and that text to U+05B0 U+0591. *)
Theorem normalize_canonical (cell : option jsstring) :
  normalize None = []
  /\ (normalize cell = []
      \/ exists x y, head (normalize cell) = Some x
                     /\ last (normalize cell) = Some y
                     /\ is_space x = false /\ is_space y = false)
  /\ Forall (fun x => in_range 65 90 x = false /\ x <> 199%N /\ x <> 231%N
                      /\ is_combining x = false)
       (normalize cell)
  /\ normalize (Some [1425; 847; 1456]%N) = [1425; 1456]%N
  /\ normalize (Some [1425; 1456]%N) = [1456; 1425]%N.
Proof.
  split_and!.
  - reflexivity.
  - rewrite normalize_fold. apply trim_ends.
  - eapply Forall_impl; [apply normalize_clean|]. intros x Hx.
    unfold clean, lowered in Hx.
    apply andb_true_iff in Hx as [Hx _]. apply andb_true_iff in Hx as [Hl Hc].
    apply andb_true_iff in Hl as [Hl H231]. apply andb_true_iff in Hl as [Hl H199].
    apply negb_true_iff in Hl, Hc, H199, H231.
    apply N.eqb_neq in H199, H231. auto.
  - vm_compute. reflexivity.
  - vm_compute. reflexivity.
Qed.

(** X2: when the month classifier answers a key for a cell, the key is
    one of the thirteen keys of its table, the normalised text of the cell
    is a fixed point of [normalize], and the classifier answers the same
    key for that normalised text. *)
Theorem monthKey_closed (cell : option jsstring) (k : jsstring) :
  monthKey cell = Some k ->
  k ∈ [u "jan"; u "fev"; u "mar"; u "abr"; u "mai"; u "jun"; u "jul";
       u "ago"; u "set"; u "out"; u "nov"; u "dez"; u "total"]
  /\ normalize (Some (normalize cell)) = normalize cell
  /\ monthKey (Some (normalize cell)) = Some k.
Proof.
  intros Hk.
  assert (Hfix : normalize (Some (normalize cell)) = normalize cell)
    by (apply (normalize_recognised cell k), monthKey_iff, Hk).
  split_and!.
  - apply first_alias_in_table in Hk. exact Hk.
  - exact Hfix.
  - unfold monthKey in *. rewrite Hfix. exact Hk.
Qed.

Lemma monthKey_closed_witness :
  u "mar" ∈ [u "jan"; u "fev"; u "mar"; u "abr"; u "mai"; u "jun"; u "jul";
             u "ago"; u "set"; u "out"; u "nov"; u "dez"; u "total"]
  /\ normalize (Some (normalize (Some (u " Mar/2025 "))))
     = normalize (Some (u " Mar/2025 "))
  /\ monthKey (Some (normalize (Some (u " Mar/2025 ")))) = Some (u "mar").
Proof.
  apply (monthKey_closed (Some (u " Mar/2025 ")) (u "mar")).
  vm_compute. reflexivity.
Defined.

(** ** Header locator and month columns, continued *)

Lemma monthHits_length row : length (monthHits row) <= length row.
Proof.
  unfold monthHits.
  etransitivity; [apply List.filter_length_le|]. rewrite length_map. lia.
Qed.

(** X3: the locator always answers title column 1, because a row with
    three month hits has a cell at index 1; the header row it answers is
    one of the first five rows of the grid, or row 1 by default. *)
Theorem locateHeader_bounds (data : grid) :
  snd (locateHeader data) = 1
  /\ fst (locateHeader data) < 5
  /\ (fst (locateHeader data) < length data \/ locateHeader data = (1, 1)).
Proof.
  unfold locateHeader.
  destruct (locate_loop_first data (Nat.min 5 (length data)) 0)
    as [(h & Hh & H3 & _ & Heq) | [_ Heq]]; rewrite Heq; cbn [fst snd].
  - pose proof (monthHits_length (default [] (data !! h))) as Hlen.
    split_and!; [| lia | left; lia].
    destruct (lookup_lt_is_Some_2 (default [] (data !! h)) 1) as [c Hc]; [lia|].
    rewrite Hc. reflexivity.
  - split_and!; [reflexivity | lia | right; reflexivity].
Qed.

Section WalkResult.

Variables header below : list jsstring.

Lemma month_col_at_key idx c :
  monthKey (Some c) = None -> month_col_at idx c = None.
Proof. unfold month_col_at. intros ->. reflexivity. Qed.

Lemma month_cols_from_skip idx :
  default [] (header !! (idx + 1)) = [] ->
  month_cols_from (S idx) (drop (S idx) header)
  = month_cols_from (S (idx + 1)) (drop (S (idx + 1)) header).
Proof.
  intros Hnext. replace (idx + 1) with (S idx) in * by lia.
  destruct (header !! S idx) as [c|] eqn:Hc.
  - rewrite (drop_S _ _ _ Hc). cbn [default from_option id] in Hnext.
    subst c. cbn [month_cols_from].
    rewrite month_col_at_key by apply monthKey_empty. reflexivity.
  - apply lookup_ge_None in Hc. rewrite !drop_ge by lia. reflexivity.
Qed.

(** From column [idx] on, the walk appends the month columns of the rest
    of the header: jumping over an auxiliary column loses nothing. *)
Lemma walk_from n : forall idx acc,
  length header - idx < n ->
  walk header below idx acc
  = acc ++ month_cols_from idx (drop idx header).
Proof.
  induction n as [|n IH]; intros idx acc Hn; [lia|].
  rewrite walk_eq. destruct (decide (idx < length header)) as [Hlt|Hge].
  - destruct (lookup_lt_is_Some_2 header idx Hlt) as [c Hc].
    pose proof (walk_step_gt header below idx acc) as Hgt.
    rewrite IH by lia. clear Hgt.
    rewrite (drop_S _ _ _ Hc). cbn [month_cols_from].
    unfold walk_step, month_col_at. rewrite Hc.
    destruct (monthKey (Some c)) as [k|] eqn:Hk; cbn [fst snd]; [|reflexivity].
    rewrite (monthKey_truthy _ _ Hk). cbn [negb orb].
    destruct (bool_decide (k = u "total")); cbn [fst snd]; [reflexivity|].
    cbn [default from_option id]. rewrite <- app_assoc. cbn [app]. do 2 f_equal.
    destruct (nextIsAux header below idx) eqn:Ha; [|reflexivity].
    symmetry. apply month_cols_from_skip.
    apply nextIsAux_iff in Ha as [Hnext _]. exact Hnext.
  - rewrite drop_ge by lia. simpl. rewrite app_nil_r. reflexivity.
Qed.

End WalkResult.

Lemma month_cols_from_none cells : forall idx,
  Forall (fun c => monthKey (Some c) = None) cells ->
  month_cols_from idx cells = [].
Proof.
  induction cells as [|c cells IH]; intros idx H; [reflexivity|].
  inversion H as [|? ? Hc Hrest]; subst. simpl.
  rewrite (month_col_at_key _ _ Hc). apply IH, Hrest.
Qed.

Lemma Boolean_monthKey c :
  Boolean (monthKey (Some c)) = false -> monthKey (Some c) = None.
Proof.
  destruct (monthKey (Some c)) as [k|] eqn:Hk; [|reflexivity].
  rewrite (monthKey_truthy _ _ Hk). discriminate.
Qed.

Lemma findIndex_cols cells : forall idx,
  match findIndex (fun c => Boolean (monthKey (Some c))) cells with
  | Some s => month_cols_from idx cells
              = month_cols_from (idx + s) (drop s cells)
  | None => Forall (fun c => monthKey (Some c) = None) cells
  end.
Proof.
  induction cells as [|c cells IH]; intros idx; simpl; [constructor|].
  destruct (Boolean (monthKey (Some c))) eqn:Hb.
  - simpl. replace (idx + 0) with idx by lia. reflexivity.
  - specialize (IH (S idx)).
    destruct (findIndex _ cells) as [s|]; simpl.
    + rewrite (month_col_at_key _ _ (Boolean_monthKey _ Hb)), IH.
      f_equal. lia.
    + constructor; [apply Boolean_monthKey, Hb | exact IH].
Qed.

(** X4: the MonthColumn list is the list of all the header cells that
    classify as a month other than "total", in column order, each with
    its column index and its raw text: neither the start column nor the
    jump over an auxiliary column changes what is recorded. *)
Theorem mapMonthCols_all_month_cells (data : grid) (headerIdx : nat) :
  mapMonthCols data headerIdx
  = month_cols_from 0 (default [] (data !! headerIdx)).
Proof.
  unfold mapMonthCols.
  set (header := default [] (data !! headerIdx)).
  rewrite (walk_from header _ (S (length header))) by lia. simpl.
  pose proof (findIndex_cols header 0) as Hf.
  destruct (findIndex _ header) as [s|]; simpl.
  - rewrite Hf. reflexivity.
  - rewrite (month_cols_from_none header 0 Hf).
    apply month_cols_from_none, Forall_drop, Hf.
Qed.

Section Jumps.

Variables header below : list jsstring.

Lemma walk_jumps_eq idx jumped :
  walk_jumps header below idx jumped
  = if decide (idx < length header)
    then walk_jumps header below (fst (walk_step header below idx []))
           (if jumps_at header below idx then jumped ++ [S idx] else jumped)
    else jumped.
Proof.
  rewrite walk_jumps_equation_1.
  destruct (lt_dec idx (length header)); cbn [walk_jumps_clause_1];
    destruct (decide _); try lia; reflexivity.
Qed.

(** The index after the iteration at [idx]. *)
Lemma walk_step_next idx acc :
  fst (walk_step header below idx acc)
  = S (if jumps_at header below idx then idx + 1 else idx).
Proof.
  unfold walk_step, jumps_at.
  destruct (monthKey _) as [k|]; [|reflexivity].
  destruct (_ || _); [reflexivity|].
  destruct (nextIsAux _ _ _); reflexivity.
Qed.

Lemma jumps_at_iff idx :
  jumps_at header below idx = true
  <-> (exists key, monthKey (header !! idx) = Some key /\ key <> u "total")
      /\ nextIsAux header below idx = true.
Proof.
  unfold jumps_at. destruct (monthKey (header !! idx)) as [k|] eqn:Hk.
  - rewrite (monthKey_truthy _ _ Hk). cbn [negb orb].
    destruct (bool_decide (k = u "total")) eqn:Ht.
    + apply bool_decide_eq_true in Ht. split; [discriminate|].
      intros [(key & [= <-] & Hne) _]. contradiction.
    + apply bool_decide_eq_false in Ht. split.
      * intros Ha. split; [exists k; auto | exact Ha].
      * intros [_ Ha]. exact Ha.
  - split; [discriminate|]. intros [(key & Hkey & _) _]. discriminate.
Qed.

(** The column after a jump has an empty header cell: no jump starts
    there. *)
Lemma jumps_at_next idx :
  jumps_at header below idx = true -> jumps_at header below (idx + 1) = false.
Proof.
  intros H. apply jumps_at_iff in H as [_ H].
  apply nextIsAux_iff in H as [H _].
  unfold jumps_at.
  assert (E : monthKey (header !! (idx + 1)) = None).
  { destruct (header !! (idx + 1)) as [x|]; cbn [default from_option id] in H.
    - rewrite H. apply monthKey_empty.
    - reflexivity. }
  rewrite E. reflexivity.
Qed.

Lemma jumps_at_inside idx :
  jumps_at header below idx = true -> idx < length header.
Proof.
  intros H. apply jumps_at_iff in H as [(key & Hk & _) _].
  destruct (header !! idx) as [x|] eqn:Hx; [|discriminate].
  apply lookup_lt_Some in Hx. exact Hx.
Qed.

(** The columns passed over from column [start] on are the columns next
    to a column at which the iteration jumps. *)
Lemma walk_jumps_spec start : forall n idx jumped,
  length header - idx < n -> start <= idx ->
  (forall c, c ∈ jumped
             <-> exists i, c = S i /\ start <= i < idx
                           /\ jumps_at header below i = true) ->
  forall c, c ∈ walk_jumps header below idx jumped
            <-> exists i, c = S i /\ start <= i
                          /\ jumps_at header below i = true.
Proof.
  induction n as [|n IH]; intros idx jumped Hn Hstart Hinv c; [lia|].
  rewrite walk_jumps_eq. destruct (decide _) as [Hlt|Hge].
  - rewrite walk_step_next.
    destruct (jumps_at header below idx) eqn:Hj.
    + apply (IH (S (idx + 1)) (jumped ++ [S idx])); [lia | lia |].
      intros c'. rewrite elem_of_app, list_elem_of_singleton, Hinv. split.
      * intros [(i & -> & Hi & Hji) | ->].
        -- exists i. split; [reflexivity|]. split; [lia | exact Hji].
        -- exists idx. split; [reflexivity|]. split; [lia | exact Hj].
      * intros (i & -> & Hi & Hji).
        destruct (decide (i < idx)) as [Hlo|Hhi].
        { left. exists i. split; [reflexivity|]. split; [lia | exact Hji]. }
        destruct (decide (i = idx)) as [->|Hne]; [right; reflexivity|].
        assert (i = idx + 1) as -> by lia.
        rewrite (jumps_at_next idx Hj) in Hji. discriminate.
    + apply (IH (S idx) jumped); [lia | lia |].
      intros c'. rewrite Hinv. split.
      * intros (i & -> & Hi & Hji).
        exists i. split; [reflexivity|]. split; [lia | exact Hji].
      * intros (i & -> & Hi & Hji).
        exists i. split; [reflexivity|]. split; [|exact Hji].
        destruct (decide (i = idx)) as [->|Hne]; [congruence | lia].
  - rewrite Hinv. split.
    + intros (i & -> & Hi & Hji).
      exists i. split; [reflexivity|]. split; [lia | exact Hji].
    + intros (i & -> & Hi & Hji).
      exists i. split; [reflexivity|]. split; [|exact Hji].
      pose proof (jumps_at_inside i Hji). lia.
Qed.

End Jumps.

Lemma findIndex_first {A : Type} (f : A -> bool) (l : list A) :
  match findIndex f l with
  | Some s => forall i x, i < s -> l !! i = Some x -> f x = false
  | None => forall i x, l !! i = Some x -> f x = false
  end.
Proof.
  induction l as [|a l IH]; cbn [findIndex]; [intros i x H; discriminate|].
  destruct (f a) eqn:Ha; [intros i x Hi; lia|].
  destruct (findIndex f l) as [s|]; cbn [fmap option_fmap option_map].
  - intros [|i] x Hi Hx; [injection Hx as <-; exact Ha|].
    apply (IH i x); [lia | exact Hx].
  - intros [|i] x Hx; [injection Hx as <-; exact Ha | apply (IH i x Hx)].
Qed.

(** A column that holds a month is not to the left of the start column. *)
Lemma start_column_le (header : list jsstring) idx key :
  monthKey (header !! idx) = Some key ->
  default 2 (findIndex (fun c => Boolean (monthKey (Some c))) header) <= idx.
Proof.
  intros Hk. destruct (header !! idx) as [x|] eqn:Hx; [|discriminate].
  pose proof (findIndex_first (fun c => Boolean (monthKey (Some c))) header)
    as Hf.
  assert (Hb : Boolean (monthKey (Some x)) = true)
    by (rewrite Hk; apply (monthKey_truthy _ _ Hk)).
  destruct (findIndex _ header) as [s|]; cbn [default from_option id].
  - destruct (decide (s <= idx)) as [Hle|Hgt]; [exact Hle|].
    rewrite (Hf idx x) in Hb; [discriminate | lia | exact Hx].
  - rewrite (Hf idx x Hx) in Hb. discriminate.
Qed.

(** C2: the code misses the claim.  The walk passes over the column next
    to a month column exactly when the next header cell is empty or absent
    and the number the parser gives for the trimmed cell one row below the
    header, in that next column, has absolute value at most 5.  The parser
    never gives NaN, so the guard [!isNaN(nextNum)] cannot fail and a cell
    that is no parseable number counts as 0: in the sheet whose header row
    (row 0, found by the locator) has an empty cell after Jan, with "abc"
    below that cell, column 2 is passed over although "abc" is not a
    parseable number.  With 10 there the column is not passed over, with 3
    it is. *)
Theorem auxCols_spec :
  (forall (data : grid) (headerIdx c : nat),
     let header := default [] (data !! headerIdx) in
     let below := default [] (data !! (headerIdx + 1)) in
     c ∈ auxCols data headerIdx
     <-> exists idx key,
           c = S idx /\ monthKey (header !! idx) = Some key
           /\ key <> u "total"
           /\ default [] (header !! c) = []
           /\ leb (JsNum.abs
                     (parsePtNumber (Some (trim (default [] (below !! c))))))
                (of_Z 5) = true)
  /\ (forall cell, parses_as_number cell = false ->
        leb (JsNum.abs (parsePtNumber (Some (trim cell)))) (of_Z 5) = true)
  /\ parses_as_number (u "abc") = false
  /\ locateHeader (aux_grid (u "abc")) = (0, 1)
  /\ auxCols (aux_grid (u "abc")) 0 = [2]
  /\ auxCols (aux_grid (u "10")) 0 = []
  /\ auxCols (aux_grid (u "3")) 0 = [2].
Proof.
  split.
  { intros data headerIdx c header below. unfold auxCols.
    fold header. fold below.
    set (start := default 2 (findIndex _ header)).
    rewrite (walk_jumps_spec header below start (S (length header)) start []);
      [| lia | lia |].
    - split.
      + intros (i & -> & _ & Hj).
        apply jumps_at_iff in Hj as [(key & Hk & Hne) Ha].
        apply nextIsAux_iff in Ha as [Hh Hs].
        exists i, key. replace (S i) with (i + 1) by lia. auto.
      + intros (i & key & -> & Hk & Hne & Hh & Hs).
        exists i. split; [reflexivity|]. split.
        * apply (start_column_le header i key Hk).
        * apply jumps_at_iff. split; [exists key; auto|].
          apply nextIsAux_iff. replace (i + 1) with (S i) by lia. auto.
    - intros c'. split; [intros H; apply elem_of_nil in H; destruct H|].
      intros (i & _ & Hi & _). lia. }
  split.
  { intros cell Hp.
    assert (E : parsePtNumber (Some (trim cell)) = zero).
    { unfold parsePtNumber. rewrite trim_idem.
      unfold parses_as_number in Hp.
      destruct (bool_decide (trim cell = []) || test_full re_dash (trim cell));
        [reflexivity|].
      cbn [negb andb] in Hp. apply negb_false_iff in Hp.
      destruct (pt_clean (trim cell)) as [neg txt]. cbn [snd] in Hp.
      rewrite Hp. reflexivity. }
    rewrite E. apply leb_abs_zero. }
  split_and!; vm_compute; reflexivity.
Qed.

Section Hits.

Lemma is_hit_classified c : is_hit c <-> Boolean (monthKey (Some c)) = true.
Proof.
  unfold is_hit. split.
  - intros (key & Hrec). apply monthKey_iff in Hrec. rewrite Hrec.
    apply (monthKey_truthy _ _ Hrec).
  - intros Hb. destruct (monthKey (Some c)) as [key|] eqn:Hk; [|discriminate].
    exists key. apply monthKey_iff, Hk.
Qed.

(** The locator's count is the number of hits. *)
Lemma monthHits_count row : hit_count row (length (monthHits row)).
Proof.
  unfold monthHits. induction row as [|c row IH]; [constructor|].
  cbn [map List.filter].
  destruct (Boolean (monthKey (Some c))) eqn:Hb.
  - cbn [length]. apply hit_count_hit; [apply is_hit_classified, Hb | exact IH].
  - apply hit_count_miss; [|exact IH].
    intros Hh. apply is_hit_classified in Hh. congruence.
Qed.

Lemma hit_count_unique row : forall n m,
  hit_count row n -> hit_count row m -> n = m.
Proof.
  induction row as [|c row IH]; intros n m Hn Hm.
  - inversion Hn; inversion Hm; reflexivity.
  - inversion Hn as [|? ? n' Hc Hn'|? ? n' Hc Hn']; subst;
      inversion Hm as [|? ? m' Hc' Hm'|? ? m' Hc' Hm']; subst;
      try contradiction; [f_equal|]; apply IH; assumption.
Qed.

End Hits.

(** C4: the locator looks at the first five rows at most and takes the
    first one with at least three month-classifier hits, a hit being a
    cell whose normalised text is a recognised month form or "total"; the
    title column is 1 when that row has a cell at index 1 and 0 otherwise;
    with no such row the result is header row 1 and title column 1.  A
    row 0 with three hits is always the header row. *)
Theorem locateHeader_spec (data : grid) (hits : nat -> nat) :
  (forall i, hit_count (default [] (data !! i)) (hits i)) ->
  let titleColAt i :=
    match default [] (data !! i) !! 1 with Some _ => 1 | None => 0 end in
  ((exists h, h < 5 /\ h < length data /\ 3 <= hits h
              /\ (forall j, j < h -> hits j < 3)
              /\ locateHeader data = (h, titleColAt h))
   \/ ((forall j, j < 5 -> j < length data -> hits j < 3)
       /\ locateHeader data = (1, 1)))
  /\ (0 < length data -> 3 <= hits 0 -> fst (locateHeader data) = 0).
Proof.
  intros Hhits titleColAt.
  assert (E : forall i, length (monthHits (default [] (data !! i))) = hits i).
  { intros i. apply (hit_count_unique (default [] (data !! i)));
      [apply monthHits_count | apply Hhits]. }
  unfold locateHeader.
  pose proof (locate_loop_first data (Nat.min 5 (length data)) 0) as H.
  cbv zeta in H. subst titleColAt.
  assert (H' :
    (exists h, 0 <= h < 0 + Nat.min 5 (length data) /\ 3 <= hits h
               /\ (forall j, 0 <= j < h -> hits j < 3)
               /\ locate_loop data (Nat.min 5 (length data)) 0
                  = (h, match default [] (data !! h) !! 1 with
                        | Some _ => 1 | None => 0 end))
    \/ ((forall j, 0 <= j < 0 + Nat.min 5 (length data) -> hits j < 3)
        /\ locate_loop data (Nat.min 5 (length data)) 0 = (1, 1))).
  { destruct H as [(h & Hh & H3 & Hlt & Heq) | [Hlt Heq]].
    - left. exists h. split; [exact Hh|].
      split; [rewrite <- E; exact H3|].
      split; [|exact Heq]. intros j Hj. rewrite <- E. apply Hlt, Hj.
    - right. split; [|exact Heq]. intros j Hj. rewrite <- E. apply Hlt, Hj. }
  clear H. split.
  - destruct H' as [(h & Hh & H3 & Hlt & Heq) | [Hlt Heq]].
    + left. exists h.
      split_and!; [lia | lia | exact H3 | | exact Heq].
      intros j Hj. apply Hlt. lia.
    + right. split; [|exact Heq]. intros j H5 Hlen. apply Hlt. lia.
  - intros Hlen H0.
    destruct H' as [(h & Hh & H3 & Hlt & Heq) | [Hlt Heq]].
    + rewrite Heq. cbn [fst]. destruct h as [|h]; [reflexivity|].
      specialize (Hlt 0). lia.
    + specialize (Hlt 0). lia.
Qed.

Lemma locateHeader_spec_witness : locateHeader titled_grid = (1, 1).
Proof.
  pose (hits := fun i : nat => match i with 1 => 3 | _ => 0 end).
  assert (Hmiss : forall c, monthKey (Some c) = None -> ~ is_hit c).
  { intros c Hc (key & Hrec). apply monthKey_iff in Hrec. congruence. }
  assert (Hhit : forall c key, monthKey (Some c) = Some key -> is_hit c).
  { intros c key Hc. exists key. apply monthKey_iff, Hc. }
  destruct (locateHeader_spec titled_grid hits) as [[Hfound | [Hnone _]] _].
  - intros [|[|[|i]]]; cbn [titled_grid lookup list_lookup default from_option id
                             hits].
    + repeat (apply hit_count_miss; [apply Hmiss; vm_compute; reflexivity|]).
      constructor.
    + apply hit_count_miss; [apply Hmiss; vm_compute; reflexivity|].
      apply (hit_count_hit _ _ 2);
        [apply (Hhit _ (u "jan")); vm_compute; reflexivity|].
      apply (hit_count_hit _ _ 1);
        [apply (Hhit _ (u "fev")); vm_compute; reflexivity|].
      apply (hit_count_hit _ _ 0);
        [apply (Hhit _ (u "mar")); vm_compute; reflexivity|].
      constructor.
    + repeat (apply hit_count_miss; [apply Hmiss; vm_compute; reflexivity|]).
      constructor.
    + constructor.
  - destruct Hfound as (h & _ & _ & H3 & _ & Heq).
    destruct h as [|[|h]]; cbn [hits] in H3; try lia. exact Heq.
  - specialize (Hnone 1). cbn [hits titled_grid length] in Hnone. lia.
Defined.

(** ** Values, rows and index, continued *)

Section ValuesFacts.

Variable row : list jsstring.

Let cell_value (mc : MonthCol) : number := parsePtNumber (row !! col mc).

Lemma buildValues_from mcs m : forall vals : gmap jsstring number,
  fold_left
    (fun vals mc =>
       let val := parsePtNumber (row !! col mc) in
       <[mes mc := if isNaN val then zero else val]> vals) mcs vals !! m
  = match last (List.filter (fun mc => bool_decide (mes mc = m)) mcs) with
    | Some mc => Some (cell_value mc)
    | None => vals !! m
    end.
Proof.
  induction mcs as [|mc mcs IH]; intros vals; [reflexivity|].
  cbn [fold_left List.filter]. rewrite IH. cbv zeta.
  rewrite parsePtNumber_not_NaN.
  destruct (bool_decide (mes mc = m)) eqn:Hm.
  - apply bool_decide_eq_true in Hm. rewrite last_cons.
    destruct (last (List.filter _ mcs)); [reflexivity|].
    rewrite Hm, lookup_insert_eq. reflexivity.
  - apply bool_decide_eq_false in Hm.
    destruct (last (List.filter _ mcs)); [reflexivity|].
    apply lookup_insert_ne, Hm.
Qed.

Lemma buildValues_lookup mcs m :
  buildValues mcs row !! m
  = cell_value <$> last (List.filter (fun mc => bool_decide (mes mc = m)) mcs).
Proof.
  unfold buildValues. rewrite buildValues_from.
  destruct (last _); reflexivity.
Qed.

Lemma buildValues_dom mcs m :
  is_Some (buildValues mcs row !! m) <-> m ∈ map mes mcs.
Proof.
  rewrite buildValues_lookup, fmap_is_Some, last_is_Some. split.
  - intros Hne.
    destruct (List.filter _ mcs) as [|mc l] eqn:Hf; [congruence|].
    assert (Hin : In mc (List.filter (fun mc => bool_decide (mes mc = m)) mcs))
      by (rewrite Hf; left; reflexivity).
    apply filter_In in Hin as [Hin Hm]. apply bool_decide_eq_true in Hm as <-.
    apply list_elem_of_fmap. exists mc. split; [reflexivity|].
    apply list_elem_of_In, Hin.
  - intros Hin. apply list_elem_of_fmap in Hin as (mc & -> & Hin).
    intros Hnil.
    assert (Hf : In mc (List.filter (fun mc' => bool_decide (mes mc' = mes mc)) mcs)).
    { apply filter_In. split; [apply list_elem_of_In, Hin|].
      apply bool_decide_eq_true. reflexivity. }
    rewrite Hnil in Hf. destruct Hf.
Qed.

Lemma buildValues_not_NaN mcs m v :
  buildValues mcs row !! m = Some v -> isNaN v = false.
Proof.
  rewrite buildValues_lookup. destruct (last _) as [mc|]; [|discriminate].
  intros [= <-]. apply parsePtNumber_not_NaN.
Qed.

End ValuesFacts.

(** X5: the [values] object of a row has an entry exactly for the month
    keys of the MonthColumn list; the entry of a key is the number parsed
    from the row's cell in the last column recorded under that key (a
    later column overwrites an earlier one), and it is never NaN. *)
Theorem buildValues_last_wins (monthCols : list MonthCol)
  (row : list jsstring) (m : jsstring) :
  buildValues monthCols row !! m
  = (fun mc => parsePtNumber (row !! col mc))
      <$> last (List.filter (fun mc => bool_decide (mes mc = m)) monthCols)
  /\ (is_Some (buildValues monthCols row !! m) <-> m ∈ map mes monthCols)
  /\ (forall v, buildValues monthCols row !! m = Some v -> isNaN v = false).
Proof.
  split_and!.
  - apply buildValues_lookup.
  - apply buildValues_dom.
  - apply buildValues_not_NaN.
Qed.

Lemma buildValues_last_wins_witness :
  let mcs := [ {| mes := u "jan"; col := 1; raw := u "Jan" |};
               {| mes := u "jan"; col := 2; raw := u "jan" |} ] in
  isNaN (parsePtNumber (Some (u "20"))) = false.
Proof.
  intros mcs.
  apply (proj2 (proj2 (buildValues_last_wins mcs [u "A"; u "10"; u "20"]
                         (u "jan")))).
  vm_compute. reflexivity.
Defined.

Section RowFacts.

Variables (data : grid) (headerIdx titleCol : nat) (monthCols : list MonthCol).

Lemma extractRows_elem r :
  r ∈ extractRows data headerIdx titleCol monthCols ->
  exists row, row ∈ drop (S headerIdx) data
              /\ emits titleCol monthCols row = true
              /\ r = accountRowOf titleCol monthCols row.
Proof.
  rewrite extractRows_filter. intros Hr.
  apply list_elem_of_fmap in Hr as (row & -> & Hrow).
  apply list_elem_of_In, filter_In in Hrow as [Hrow He].
  exists row. split_and!; [apply list_elem_of_In, Hrow | exact He | reflexivity].
Qed.

Lemma extractRows_row_facts r :
  r ∈ extractRows data headerIdx titleCol monthCols ->
  name r <> [] /\ trim (name r) = name r
  /\ key r = slice0 100 (keyOf (name r))
  /\ length (key r) <= 100
  /\ (forall m, is_Some (values r !! m) <-> m ∈ map mes monthCols)
  /\ (forall m v, values r !! m = Some v -> isNaN v = false).
Proof.
  intros Hr. apply extractRows_elem in Hr as (row & _ & He & ->).
  apply emits_iff in He as [Ht _]. unfold accountRowOf. cbn [name key values].
  split_and!.
  - exact Ht.
  - apply trim_idem.
  - reflexivity.
  - unfold slice0. rewrite length_take. lia.
  - intros m. apply buildValues_dom.
  - intros m v. apply buildValues_not_NaN.
Qed.

End RowFacts.

(** X6: every extracted row comes from a grid row below the header; its
    name is not empty and is trimmed, its key is the first 100 code units
    at most of the key text of its name, it has a value for exactly the
    recorded month keys, and no value is NaN.  There are at most as many
    rows as grid rows below the header. *)
Theorem extractRows_rows (data : grid) (headerIdx titleCol : nat)
  (monthCols : list MonthCol) :
  (forall r, r ∈ extractRows data headerIdx titleCol monthCols ->
     (exists row, row ∈ drop (S headerIdx) data
                  /\ r = accountRowOf titleCol monthCols row)
     /\ name r <> [] /\ trim (name r) = name r
     /\ key r = slice0 100 (keyOf (name r))
     /\ length (key r) <= 100
     /\ (forall m, is_Some (values r !! m) <-> m ∈ map mes monthCols)
     /\ (forall m v, values r !! m = Some v -> isNaN v = false))
  /\ length (extractRows data headerIdx titleCol monthCols)
     <= length data - S headerIdx.
Proof.
  split.
  - intros r Hr. split.
    + destruct (extractRows_elem _ _ _ _ _ Hr) as (row & Hrow & _ & ->). eauto.
    + apply (extractRows_row_facts data headerIdx titleCol monthCols r Hr).
  - rewrite extractRows_filter, length_map.
    etransitivity; [apply List.filter_length_le|]. rewrite length_drop. lia.
Qed.

Lemma extractRows_rows_witness :
  let jan := {| mes := u "jan"; col := 1; raw := u "Jan" |} in
  let data := [[u "Conta"; u "Jan"]; [u " Receita (=) "; u "10"]] in
  let r := accountRowOf 0 [jan] [u " Receita (=) "; u "10"] in
  name r <> [] /\ length (key r) <= 100.
Proof.
  intros jan data r.
  destruct (proj1 (extractRows_rows data 0 0 [jan]) r)
    as (_ & Hn & _ & _ & Hk & _).
  - vm_compute. apply list_elem_of_here.
  - split; assumption.
Defined.

Section IndexFacts.

Lemma map_get_set (m : jsmap) k v k' :
  map_get (map_set m k v) k'
  = if bool_decide (k = k') then Some v else map_get m k'.
Proof.
  induction m as [|[k0 v0] m IH]; simpl.
  - destruct (bool_decide (k = k')); reflexivity.
  - destruct (bool_decide (k0 = k)) eqn:H0; simpl.
    + apply bool_decide_eq_true in H0 as ->.
      destruct (bool_decide (k = k')); reflexivity.
    + apply bool_decide_eq_false in H0. rewrite IH.
      destruct (bool_decide (k0 = k')) eqn:H1; [|reflexivity].
      apply bool_decide_eq_true in H1 as ->.
      rewrite bool_decide_eq_false_2 by congruence. reflexivity.
Qed.

Lemma buildIndex_snoc rs r :
  buildIndex (rs ++ [r]) = map_set (buildIndex rs) (key r) r.
Proof. unfold buildIndex. rewrite fold_left_app. reflexivity. Qed.

Lemma last_with_key_snoc rs r k :
  last_with_key (rs ++ [r]) k
  = if bool_decide (key r = k) then Some r else last_with_key rs k.
Proof.
  unfold last_with_key. rewrite List.filter_app. simpl.
  destruct (bool_decide (key r = k)).
  - apply last_snoc.
  - rewrite app_nil_r. reflexivity.
Qed.

Lemma index_get rs k : map_get (buildIndex rs) k = last_with_key rs k.
Proof.
  induction rs as [|r rs IH] using rev_ind; [reflexivity|].
  rewrite buildIndex_snoc, map_get_set, last_with_key_snoc, IH. reflexivity.
Qed.

Lemma last_with_key_elem rs k r :
  last_with_key rs k = Some r -> r ∈ rs /\ key r = k.
Proof.
  unfold last_with_key. intros H. apply last_Some_elem_of in H.
  apply list_elem_of_In, filter_In in H as [Hin Hk].
  split; [apply list_elem_of_In, Hin | apply bool_decide_eq_true in Hk; exact Hk].
Qed.

Lemma last_with_key_some rs r : r ∈ rs -> is_Some (last_with_key rs (key r)).
Proof.
  intros Hin. unfold last_with_key. apply last_is_Some. intros Hnil.
  assert (Hf : In r (List.filter (fun r' => bool_decide (key r' = key r)) rs)).
  { apply filter_In. split; [apply list_elem_of_In, Hin|].
    apply bool_decide_eq_true. reflexivity. }
  rewrite Hnil in Hf. destruct Hf.
Qed.

Lemma map_set_fst (m : jsmap) k v :
  map fst (map_set m k v)
  = if bool_decide (k ∈ map fst m) then map fst m else map fst m ++ [k].
Proof.
  induction m as [|[k0 v0] m IH]; simpl; [reflexivity|].
  destruct (bool_decide (k0 = k)) eqn:H0; simpl.
  - apply bool_decide_eq_true in H0 as ->.
    rewrite bool_decide_eq_true_2 by apply list_elem_of_here. reflexivity.
  - apply bool_decide_eq_false in H0. rewrite IH.
    destruct (bool_decide (k ∈ map fst m)) eqn:Hin.
    + apply bool_decide_eq_true in Hin.
      rewrite bool_decide_eq_true_2 by (apply list_elem_of_further, Hin).
      reflexivity.
    + apply bool_decide_eq_false in Hin.
      rewrite bool_decide_eq_false_2; [reflexivity|].
      intros H. apply elem_of_cons in H as [->|H]; [congruence | auto].
Qed.

Lemma buildIndex_NoDup rs : NoDup (map fst (buildIndex rs)).
Proof.
  induction rs as [|r rs IH] using rev_ind; [constructor|].
  rewrite buildIndex_snoc, map_set_fst.
  destruct (bool_decide _) eqn:Hin; [exact IH|].
  apply bool_decide_eq_false in Hin.
  apply NoDup_app. split_and!; [exact IH | | apply NoDup_singleton].
  intros x Hx Hx'. apply list_elem_of_singleton in Hx' as ->. auto.
Qed.

Lemma find_app {A : Type} (f : A -> bool) (l1 l2 : list A) :
  List.find f (l1 ++ l2)
  = match List.find f l1 with
    | Some x => Some x
    | None => List.find f l2
    end.
Proof.
  induction l1 as [|x l1 IH]; simpl; [reflexivity|].
  destruct (f x); [reflexivity | exact IH].
Qed.

(** The keys of the index, in order, find the same first key as the rows. *)
Lemma index_keys_find rs k :
  List.find (fun x => includes x k) (map fst (buildIndex rs))
  = key <$> List.find (fun r => includes (key r) k) rs.
Proof.
  induction rs as [|r rs IH] using rev_ind; [reflexivity|].
  rewrite buildIndex_snoc, map_set_fst, find_app.
  destruct (bool_decide (key r ∈ map fst (buildIndex rs))) eqn:Hin.
  - rewrite IH. destruct (List.find _ rs) as [r0|] eqn:Hf; [reflexivity|].
    simpl. destruct (includes (key r) k) eqn:Hinc; [|reflexivity].
    apply bool_decide_eq_true in Hin. apply list_elem_of_In in Hin.
    destruct (List.find (fun x => includes x k) (map fst (buildIndex rs)))
      as [x|] eqn:Hx; [discriminate|].
    pose proof (find_none _ _ Hx _ Hin) as Hno. simpl in Hno. congruence.
  - rewrite find_app, IH.
    destruct (List.find _ rs) as [r0|]; [reflexivity|]. simpl.
    destruct (includes (key r) k); reflexivity.
Qed.

(** The scan returns the entry filed under the first key that contains
    [k]. *)
Lemma scan_entries_key (m : jsmap) k :
  scan_entries m k
  = match List.find (fun x => includes x k) (map fst m) with
    | Some k0 => map_get m k0
    | None => None
    end.
Proof.
  induction m as [|[k0 v0] m IH]; simpl; [reflexivity|].
  destruct (includes k0 k) eqn:Hinc.
  - rewrite bool_decide_eq_true_2 by reflexivity. reflexivity.
  - rewrite IH. destruct (List.find _ (map fst m)) as [k1|] eqn:Hf; [|reflexivity].
    destruct (bool_decide (k0 = k1)) eqn:Hk; [|reflexivity].
    apply bool_decide_eq_true in Hk as ->.
    apply find_some in Hf as [_ Hf]. simpl in Hf. congruence.
Qed.

Lemma findRow_loop_resolve rs opts :
  findRow_loop (buildIndex rs) opts = resolve rs opts.
Proof.
  induction opts as [|opt rest IH]; [reflexivity|].
  cbn [findRow_loop resolve]. unfold map_has, resolve_variant.
  rewrite index_get.
  destruct (last_with_key rs (keyOf opt)) as [r|]; [reflexivity|].
  rewrite scan_entries_key, index_keys_find.
  destruct (List.find _ rs) as [r0|]; simpl.
  - rewrite index_get.
    destruct (last_with_key rs (key r0)); [reflexivity | exact IH].
  - exact IH.
Qed.

Lemma startsWith_refl s : startsWith s s = true.
Proof. induction s as [|c s IH]; simpl; [reflexivity|]. rewrite N.eqb_refl. exact IH. Qed.

Lemma includes_refl s : includes s s = true.
Proof. destruct s; simpl; [reflexivity|]. rewrite N.eqb_refl, startsWith_refl. reflexivity. Qed.

Lemma resolve_variant_sound rs k r :
  resolve_variant rs k = Some r -> r ∈ rs /\ includes (key r) k = true.
Proof.
  unfold resolve_variant.
  destruct (last_with_key rs k) as [r'|] eqn:Hl.
  - intros [= ->]. apply last_with_key_elem in Hl as [Hin <-].
    split; [exact Hin | apply includes_refl].
  - destruct (List.find _ rs) as [r0|] eqn:Hf; [|discriminate].
    intros H. apply last_with_key_elem in H as [Hin Hk].
    apply find_some in Hf as [_ Hf]. simpl in Hf. rewrite Hk. auto.
Qed.

Lemma resolve_variant_none rs k :
  resolve_variant rs k = None
  <-> forall r, r ∈ rs -> includes (key r) k = false.
Proof.
  unfold resolve_variant. split.
  - destruct (last_with_key rs k) as [r'|] eqn:Hl; [discriminate|].
    destruct (List.find _ rs) as [r0|] eqn:Hf.
    + intros Hn. apply find_some in Hf as [Hin _].
      apply list_elem_of_In in Hin.
      destruct (last_with_key_some _ _ Hin) as [x Hx]. congruence.
    + intros _ r Hin. apply (find_none _ _ Hf r), list_elem_of_In, Hin.
  - intros Hall.
    destruct (last_with_key rs k) as [r'|] eqn:Hl.
    + apply last_with_key_elem in Hl as [Hin <-].
      specialize (Hall r' Hin). rewrite includes_refl in Hall. discriminate.
    + destruct (List.find _ rs) as [r0|] eqn:Hf; [|reflexivity].
      apply find_some in Hf as [Hin Hf]. simpl in Hf.
      rewrite (Hall r0) in Hf; [discriminate | apply list_elem_of_In, Hin].
Qed.

Lemma resolve_sound rs opts r :
  resolve rs opts = Some r ->
  r ∈ rs /\ exists opt, opt ∈ opts /\ includes (key r) (keyOf opt) = true.
Proof.
  induction opts as [|opt rest IH]; simpl; [discriminate|].
  destruct (resolve_variant rs (keyOf opt)) as [r'|] eqn:Hv.
  - intros [= ->]. apply resolve_variant_sound in Hv as [Hin Hinc].
    split; [exact Hin|]. exists opt. split; [apply list_elem_of_here | exact Hinc].
  - intros H. destruct (IH H) as [Hin (o & Ho & Hinc)].
    split; [exact Hin|]. exists o. split; [apply list_elem_of_further, Ho | exact Hinc].
Qed.

Lemma resolve_none rs opts :
  resolve rs opts = None
  <-> forall opt r, opt ∈ opts -> r ∈ rs -> includes (key r) (keyOf opt) = false.
Proof.
  induction opts as [|opt rest IH]; simpl.
  - split; [intros _ opt r H; inversion H | reflexivity].
  - destruct (resolve_variant rs (keyOf opt)) as [r'|] eqn:Hv.
    + split; [discriminate|]. intros Hall.
      apply resolve_variant_sound in Hv as [Hin Hinc].
      rewrite (Hall opt r') in Hinc; [discriminate | apply list_elem_of_here | exact Hin].
    + rewrite IH. pose proof (proj1 (resolve_variant_none _ _) Hv) as Hv'.
      split.
      * intros Hall o r Ho Hr. apply elem_of_cons in Ho as [->|Ho]; auto.
      * intros Hall o r Ho Hr. apply Hall; [apply list_elem_of_further, Ho | exact Hr].
Qed.

Lemma aliases_own_names a :
  a ∈ object_prototype_names -> aliases !! a = None.
Proof.
  intros H. apply list_elem_of_In in H. simpl in H.
  repeat (destruct H as [<-|H]; [vm_compute; reflexivity|]). destruct H.
Qed.

Lemma findRow_cases rs a :
  match aliases !! a with
  | Some opts => findRow rs a = Returned (resolve rs opts)
  | None =>
      findRow rs a
      = if bool_decide (a ∈ object_prototype_names) then Thrown
        else Returned None
  end.
Proof.
  unfold findRow, get_prop.
  destruct (aliases !! a) as [opts|]; [rewrite findRow_loop_resolve; reflexivity|].
  destruct (bool_decide _); reflexivity.
Qed.

End IndexFacts.

(** X7: the index answers a key with the last row that has this key, it
    has the key exactly when some row has it, and no key is filed
    twice. *)
Theorem buildIndex_lookup (rs : list AccountRow) (k : jsstring) :
  map_get (buildIndex rs) k = last_with_key rs k
  /\ (map_has (buildIndex rs) k = true <-> exists r, r ∈ rs /\ key r = k)
  /\ NoDup (map fst (buildIndex rs)).
Proof.
  split_and!; [apply index_get | | apply buildIndex_NoDup].
  unfold map_has. rewrite index_get. split.
  - destruct (last_with_key rs k) as [r|] eqn:Hl; [|discriminate].
    intros _. exists r. apply last_with_key_elem, Hl.
  - intros (r & Hin & <-).
    destruct (last_with_key_some _ _ Hin) as [x ->]. reflexivity.
Qed.

(** X8: for a semantic key of the alias table, [findRow] through the
    index is the resolution read on the row list: the variants are tried
    in order; a variant answers with the last row whose key is exactly its
    key text, or else with the last row sharing the key of the first row,
    in grid order, whose key contains that text. *)
Theorem findRow_resolves (rs : list AccountRow) (a : jsstring)
  (opts : list jsstring) :
  aliases !! a = Some opts ->
  findRow rs a = Returned (resolve rs opts).
Proof.
  intros H. pose proof (findRow_cases rs a) as Hc. rewrite H in Hc. exact Hc.
Qed.

Lemma findRow_resolves_witness :
  findRow [ebitda_row] (u "ebitda") = Returned (resolve [ebitda_row] [u "ebitda"]).
Proof.
  apply (findRow_resolves [ebitda_row] (u "ebitda") [u "ebitda"]).
  vm_compute. reflexivity.
Defined.

(** X9: [findRow] throws exactly for the names of [Object.prototype]; a
    row it returns is one of the rows and its key contains the key text
    of a variant of the semantic key; it returns no row exactly when the
    semantic key has no variants or no row key contains the key text of
    any variant. *)
Theorem findRow_outcomes (rs : list AccountRow) (a : jsstring) :
  (findRow rs a = Thrown <-> a ∈ object_prototype_names)
  /\ (forall r, findRow rs a = Returned (Some r) ->
        r ∈ rs
        /\ exists opts opt,
             aliases !! a = Some opts /\ opt ∈ opts
             /\ includes (key r) (keyOf opt) = true)
  /\ (findRow rs a = Returned None
      <-> (a ∉ object_prototype_names)
          /\ forall opts opt r,
               aliases !! a = Some opts -> opt ∈ opts -> r ∈ rs ->
               includes (key r) (keyOf opt) = false).
Proof.
  pose proof (findRow_cases rs a) as Hc.
  pose proof (aliases_own_names a) as Hown.
  destruct (aliases !! a) as [opts|] eqn:Ha.
  - assert (Hnp : a ∉ object_prototype_names).
    { intros H. specialize (Hown H). discriminate. }
    rewrite Hc. split_and!.
    + split; [discriminate | intros H; destruct (Hnp H)].
    + intros r [= Hr]. apply resolve_sound in Hr as [Hin (opt & Ho & Hinc)].
      split; [exact Hin|]. exists opts, opt. auto.
    + split.
      * intros [= Hr]. split; [exact Hnp|].
        intros opts' opt r [= <-]. apply resolve_none. exact Hr.
      * intros [_ Hall]. f_equal. apply resolve_none.
        intros opt r. apply Hall. reflexivity.
  - rewrite Hc. destruct (bool_decide (a ∈ object_prototype_names)) eqn:Hp.
    + apply bool_decide_eq_true in Hp. split_and!.
      * tauto.
      * discriminate.
      * split; [discriminate | intros [Hn _]; destruct (Hn Hp)].
    + apply bool_decide_eq_false in Hp. split_and!.
      * split; [discriminate | intros H; destruct (Hp H)].
      * discriminate.
      * split; [|reflexivity]. intros _. split; [exact Hp|]. discriminate.
Qed.

Lemma findRow_outcomes_witness :
  ebitda_row ∈ [ebitda_row]
  /\ exists opts opt,
       aliases !! u "ebitda" = Some opts /\ opt ∈ opts
       /\ includes (key ebitda_row) (keyOf opt) = true.
Proof.
  apply (proj1 (proj2 (findRow_outcomes [ebitda_row] (u "ebitda")))).
  vm_compute. reflexivity.
Defined.

(** ** Diagnostics, effect and lookups on extracted data *)

Section DebugKeys.

Variable rs : list AccountRow.

Lemma debugKeys_returns keys :
  (forall r, r ∈ rs -> name r <> []) ->
  Forall (fun k => k ∉ object_prototype_names) keys ->
  debugKeys rs keys
  = Returned
      (map (fun k => (k, match findRow rs k with
                         | Returned (Some _) => true
                         | _ => false
                         end)) keys).
Proof.
  intros Hnames. induction 1 as [|k keys Hk Hkeys IH]; [reflexivity|].
  cbn [debugKeys map]. rewrite IH.
  pose proof (findRow_cases rs k) as Hc.
  destruct (aliases !! k) as [opts|] eqn:Ha.
  - rewrite Hc. destruct (resolve rs opts) as [r|] eqn:Hr; [|reflexivity].
    apply resolve_sound in Hr as [Hin _]. specialize (Hnames r Hin).
    destruct (name r); [congruence | reflexivity].
  - rewrite Hc, (bool_decide_eq_false_2 _ Hk). reflexivity.
Qed.

Lemma debugKeys_throws keys k :
  k ∈ keys -> k ∈ object_prototype_names -> debugKeys rs keys = Thrown.
Proof.
  intros Hin Hk. induction keys as [|k0 keys IH]; [inversion Hin|].
  cbn [debugKeys]. apply elem_of_cons in Hin as [<-|Hin].
  - pose proof (findRow_cases rs k) as Hc.
    rewrite (aliases_own_names _ Hk), (bool_decide_eq_true_2 _ Hk) in Hc.
    rewrite Hc. reflexivity.
  - rewrite (IH Hin). destruct (findRow rs k0); reflexivity.
Qed.

End DebugKeys.

(** X10: when no row has an empty name (as for extracted rows) and no
    key is a name of [Object.prototype], [debugKeys] answers one pair per
    key, in the order of the keys, whose flag says whether [findRow]
    returns a row; when one of the keys is a name of [Object.prototype]
    the call throws. *)
Theorem debugKeys_report (rs : list AccountRow) (keys : list jsstring) :
  ((forall r, r ∈ rs -> name r <> []) ->
   Forall (fun k => k ∉ object_prototype_names) keys ->
   debugKeys rs keys
   = Returned
       (map (fun k => (k, match findRow rs k with
                          | Returned (Some _) => true
                          | _ => false
                          end)) keys))
  /\ (forall k, k ∈ keys -> k ∈ object_prototype_names ->
        debugKeys rs keys = Thrown).
Proof.
  split; [apply debugKeys_returns | apply debugKeys_throws].
Qed.

Lemma debugKeys_report_witness :
  debugKeys [ebitda_row] [u "ebitda"; u "lucro_bruto"]
  = Returned [(u "ebitda", true); (u "lucro_bruto", false)]
  /\ debugKeys [ebitda_row] [u "ebitda"; u "toString"] = Thrown.
Proof.
  split.
  - rewrite (proj1 (debugKeys_report [ebitda_row] [u "ebitda"; u "lucro_bruto"])).
    + vm_compute. reflexivity.
    + intros r Hr. apply list_elem_of_singleton in Hr as ->. discriminate.
    + constructor; [|constructor; [|constructor]];
        match goal with
        | |- ?k ∉ ?l => apply (bool_decide_eq_false_1 (k ∈ l))
        end; vm_compute; reflexivity.
  - apply (proj2 (debugKeys_report [ebitda_row] [u "ebitda"; u "toString"])
             (u "toString")).
    + apply list_elem_of_further, list_elem_of_here.
    + apply (bool_decide_eq_true_1 (u "toString" ∈ object_prototype_names)).
      vm_compute. reflexivity.
Defined.

(** X11: whatever the fetch and the parser do, the effect returns without
    throwing, makes three setter calls and leaves [loading] false; after
    a successful fetch and parse the rows and months left are those
    extracted from the grid, and otherwise both are empty. *)
Theorem effect_settles (papa_parse : jsstring -> Outcome grid)
  (response : Outcome jsstring) (w : World) :
  let w' := snd (effect papa_parse response w) in
  fst (effect papa_parse response w) = Returned tt
  /\ loading (current w') = false
  /\ length (published w') = length (published w) + 3
  /\ last (published w') = Some (current w')
  /\ match response with
     | Returned text =>
         match papa_parse text with
         | Returned data =>
             rows (current w') = fst (extract data)
             /\ months (current w') = snd (extract data)
         | Thrown => rows (current w') = [] /\ months (current w') = []
         end
     | Thrown => rows (current w') = [] /\ months (current w') = []
     end.
Proof.
  unfold effect, try_catch, mbind, eff_bind, lift.
  destruct response as [text|]; [destruct (papa_parse text) as [data|]|].
  - destruct (extract data) as [resultRows monthsFound].
    unfold setRows, setMonths, setLoading, publish. cbn.
    rewrite !length_app. cbn. rewrite !last_snoc.
    split_and!; try reflexivity; lia.
  - unfold setRows, setMonths, setLoading, publish. cbn.
    rewrite !length_app. cbn. rewrite !last_snoc.
    split_and!; try reflexivity; lia.
  - unfold setRows, setMonths, setLoading, publish. cbn.
    rewrite !length_app. cbn. rewrite !last_snoc.
    split_and!; try reflexivity; lia.
Qed.

Section ExtractFacts.

Lemma mapMonthCols_recorded data headerIdx :
  exists idx', recorded (default [] (data !! headerIdx)) idx'
                 (mapMonthCols data headerIdx).
Proof. unfold mapMonthCols. apply walk_recorded. Qed.

Lemma month_key_plain k :
  k ∈ map snd MONTH_ALIASES -> k <> u "total" ->
  k ∈ map fst month_forms /\ toLowerCase k = k /\ k ∉ object_prototype_names.
Proof.
  intros Hk Ht. apply list_elem_of_In in Hk. simpl in Hk.
  repeat (destruct Hk as [<-|Hk];
    [split_and!;
       [apply (bool_decide_eq_true_1 (_ ∈ _)); vm_compute; reflexivity
       | vm_compute; reflexivity
       | apply (bool_decide_eq_false_1 (_ ∈ _)); vm_compute; reflexivity]
    | ]).
  destruct Hk as [<-|[]]. exfalso. apply Ht. reflexivity.
Qed.

Lemma mapMonthCols_keys data headerIdx m :
  m ∈ map mes (mapMonthCols data headerIdx) ->
  m ∈ map fst month_forms /\ toLowerCase m = m /\ m ∉ object_prototype_names.
Proof.
  intros Hm. apply list_elem_of_fmap in Hm as (mc & -> & Hmc).
  destruct (mapMonthCols_recorded data headerIdx) as (idx' & Hall & _).
  destruct (Hall mc Hmc) as (_ & Ht & Hk).
  apply month_key_plain; [|exact Ht].
  apply first_alias_in_table in Hk. exact Hk.
Qed.

Lemma extract_parts data :
  extract data
  = (extractRows data (fst (locateHeader data)) (snd (locateHeader data))
       (mapMonthCols data (fst (locateHeader data))),
     map mes (mapMonthCols data (fst (locateHeader data)))).
Proof. unfold extract. destruct (locateHeader data). reflexivity. Qed.

End ExtractFacts.

(** X12: in the result of an extraction every month is one of the twelve
    month keys (never "total"), and every row has a value for exactly the
    months of the month list. *)
Theorem extract_months_and_rows_agree (data : grid) :
  (forall m, m ∈ snd (extract data) -> m ∈ map fst month_forms)
  /\ (forall r m, r ∈ fst (extract data) ->
        (is_Some (values r !! m) <-> m ∈ snd (extract data))).
Proof.
  rewrite extract_parts. cbn [fst snd]. split.
  - intros m Hm. apply (mapMonthCols_keys _ _ _ Hm).
  - intros r m Hr.
    apply (extractRows_row_facts _ _ _ _ r Hr).
Qed.

Lemma extract_months_and_rows_agree_witness :
  let data := [[u "Conta"; u "Jan"; u "Fev"; u "Mar"; u "Total"];
               [u "Receita"; u "10"; u "20"; u "30"; u "60"]] in
  u "fev" ∈ map fst month_forms.
Proof.
  intros data.
  apply (proj1 (extract_months_and_rows_agree data)).
  vm_compute. apply list_elem_of_further, list_elem_of_here.
Defined.

(** X13: on extracted data, when [findRow] resolves a semantic key to a
    row and the month is one of the discovered months, [valueAt] returns
    the row's own entry for that month, which is not NaN. *)
Theorem valueAt_extracted (data : grid) (a m : jsstring) (r : AccountRow) :
  findRow (fst (extract data)) a = Returned (Some r) ->
  m ∈ snd (extract data) ->
  exists v, valueAt (fst (extract data)) a (Some m) = Returned v
            /\ values r !! m = Some v /\ isNaN v = false.
Proof.
  intros Hfind Hm.
  assert (Hr : r ∈ fst (extract data)).
  { pose proof (findRow_cases (fst (extract data)) a) as Hc.
    destruct (aliases !! a) as [opts|].
    - rewrite Hc in Hfind. injection Hfind as Hres.
      apply resolve_sound in Hres as [Hin _]. exact Hin.
    - rewrite Hc in Hfind. destruct (bool_decide _); discriminate. }
  rewrite extract_parts in *. cbn [fst snd] in *.
  destruct (mapMonthCols_keys _ _ _ Hm) as (_ & Hlow & Hnp).
  destruct (extractRows_row_facts _ _ _ _ r Hr) as (_ & _ & _ & _ & Hdom & Hnan).
  destruct (proj2 (Hdom m) Hm) as [v Hv].
  exists v. split_and!; [| exact Hv | apply (Hnan m v Hv)].
  unfold valueAt. rewrite Hfind.
  change (default [] (Some m)) with m. rewrite Hlow.
  unfold get_prop. rewrite Hv. reflexivity.
Qed.

Lemma valueAt_extracted_witness :
  let data := [[u "N"; u "Conta"; u "Jan"; u "Fev"; u "Mar"];
               [u "1"; u "EBITDA"; u "10"; u "20"; u "(30)"]] in
  exists v, valueAt (fst (extract data)) (u "ebitda") (Some (u "mar"))
            = Returned v
            /\ values (accountRowOf 1 (mapMonthCols data 0)
                         [u "1"; u "EBITDA"; u "10"; u "20"; u "(30)"])
                 !! u "mar" = Some v
            /\ isNaN v = false.
Proof.
  intros data.
  apply (valueAt_extracted data (u "ebitda") (u "mar")).
  - vm_compute. reflexivity.
  - vm_compute. apply list_elem_of_further, list_elem_of_further, list_elem_of_here.
Defined.

(** ** Regular expressions: longest prefix and replacement *)

Section ReplaceFacts.

Lemma matches_take_0 r (s : jsstring) : matches r (take 0 s) = nullable r.
Proof. destruct s; reflexivity. Qed.

Lemma longest_prefix_sound s : forall r n best m,
  longest_prefix r s n best = Some m ->
  best = Some m
  \/ exists k, k <= length s /\ m = n + k /\ matches r (take k s) = true.
Proof.
  induction s as [|c s IH]; intros r n best m; cbn [longest_prefix].
  - destruct (nullable r) eqn:Hn; [|auto].
    intros [= <-]. right. exists 0. split_and!; [simpl; lia | lia | exact Hn].
  - intros H. apply IH in H as [H | (k & Hk & -> & Hm)].
    + destruct (nullable r) eqn:Hn; [|auto].
      injection H as <-. right. exists 0.
      split_and!; [simpl; lia | lia | exact Hn].
    + right. exists (S k). split_and!; [simpl; lia | lia | exact Hm].
Qed.

Lemma longest_prefix_keeps s : forall r n b,
  exists m, longest_prefix r s n (Some b) = Some m.
Proof.
  induction s as [|c s IH]; intros r n b; cbn [longest_prefix].
  - destruct (nullable r); eauto.
  - destruct (nullable r); apply IH.
Qed.

Lemma longest_prefix_max s : forall r n best k,
  k <= length s -> matches r (take k s) = true ->
  exists m, longest_prefix r s n best = Some m /\ n + k <= m.
Proof.
  induction s as [|c s IH]; intros r n best k Hk Hm; cbn [longest_prefix].
  - simpl in Hk. assert (k = 0) as -> by lia. simpl in Hm. rewrite Hm.
    exists n. split; [reflexivity | lia].
  - destruct k as [|k].
    + simpl in Hm. rewrite Hm.
      destruct (longest_prefix_keeps s (deriv c r) (S n) n) as [m Hl].
      exists m. split; [exact Hl|].
      apply longest_prefix_sound in Hl as [[= <-] | (j & _ & -> & _)]; lia.
    + simpl in Hk, Hm.
      destruct (IH (deriv c r) (S n) (if nullable r then Some n else best) k)
        as (m & Hl & Hle); [lia | exact Hm |].
      exists m. split; [exact Hl | lia].
Qed.

Lemma longest_prefix_none s r n :
  (forall k, k <= length s -> matches r (take k s) = false) ->
  longest_prefix r s n None = None.
Proof.
  intros Hno. destruct (longest_prefix r s n None) as [m|] eqn:Hl; [|reflexivity].
  apply longest_prefix_sound in Hl as [Hl | (k & Hk & _ & Hm)]; [discriminate|].
  rewrite (Hno k Hk) in Hm. discriminate.
Qed.

(** With the longest matching prefix of length [k], the answer is [k]. *)
Lemma longest_prefix_exact s r k :
  k <= length s -> matches r (take k s) = true ->
  (forall j, k < j -> j <= length s -> matches r (take j s) = false) ->
  longest_prefix r s 0 None = Some k.
Proof.
  intros Hk Hm Hmax.
  destruct (longest_prefix_max s r 0 None k Hk Hm) as (m & Hl & Hle).
  rewrite Hl. f_equal.
  apply longest_prefix_sound in Hl as [Hl | (j & Hj & -> & Hmj)]; [discriminate|].
  destruct (decide (k < j)) as [Hlt|]; [|lia].
  rewrite (Hmax j Hlt Hj) in Hmj. discriminate.
Qed.

(** Replacing by the empty string only deletes units of matched texts. *)
Lemma replace_all_from_erased (Q : N -> bool) r :
  (forall w, matches r w = true -> Forall (fun c => Q c = true) w) ->
  forall s k, k <= length s -> Forall (fun c => Q c = true) (take k s) ->
  erased Q s (replace_all_from r [] s k).
Proof.
  intros HQ. induction s as [|c s IH]; intros k Hk Hskip.
  - simpl. destruct (nullable r); constructor.
  - destruct k as [|k]; cbn [replace_all_from].
    + destruct (longest_prefix r (c :: s) 0 None) as [[|n]|] eqn:Hl.
      * simpl. constructor. apply IH; [lia | simpl; constructor].
      * apply longest_prefix_sound in Hl as [Hl | (j & Hj & E & Hm)];
          [discriminate|].
        simpl in E. subst j. apply HQ in Hm. simpl in Hm, Hj.
        inversion Hm; subst. simpl. apply erased_drop; [assumption|].
        apply IH; [lia | assumption].
      * constructor. apply IH; [lia | simpl; constructor].
    + simpl in Hskip, Hk. inversion Hskip; subst.
      apply erased_drop; [assumption|]. apply IH; [lia | assumption].
Qed.

Lemma replace_all_erased (Q : N -> bool) r s :
  (forall w, matches r w = true -> Forall (fun c => Q c = true) w) ->
  erased Q s (replace_all r [] s).
Proof.
  intros HQ. apply (replace_all_from_erased Q r HQ); [lia | constructor].
Qed.

Lemma erased_filter Q s s' :
  erased Q s s' ->
  List.filter (fun c => negb (Q c)) s' = List.filter (fun c => negb (Q c)) s.
Proof.
  induction 1 as [|c s s' _ IH|c s s' Hc _ IH]; simpl.
  - reflexivity.
  - rewrite IH. reflexivity.
  - rewrite Hc. simpl. exact IH.
Qed.

Lemma erased_Forall Q (P : N -> Prop) s s' :
  erased Q s s' -> Forall P s -> Forall P s'.
Proof.
  induction 1 as [|c s s' _ IH|c s s' Hc _ IH]; intros H.
  - constructor.
  - inversion H; subst. constructor; auto.
  - inversion H; subst. auto.
Qed.

Lemma erased_id Q s s' :
  erased Q s s' -> Forall (fun c => Q c = false) s -> s' = s.
Proof.
  induction 1 as [|c s s' _ IH|c s s' Hc _ IH]; intros H.
  - reflexivity.
  - inversion H; subst. f_equal. auto.
  - inversion H; subst. congruence.
Qed.

Lemma erased_refl Q s : erased Q s s.
Proof. induction s; constructor; assumption. Qed.

Lemma erased_trans Q s1 s2 s3 :
  erased Q s1 s2 -> erased Q s2 s3 -> erased Q s1 s3.
Proof.
  intros H. revert s3. induction H as [|c s s' _ IH|c s s' Hc _ IH]; intros s3 H3.
  - exact H3.
  - inversion H3; subst.
    + constructor. auto.
    + apply erased_drop; auto.
  - apply erased_drop; auto.
Qed.

Lemma erased_weaken (Q Q' : N -> bool) s s' :
  (forall c, Q c = true -> Q' c = true) -> erased Q s s' -> erased Q' s s'.
Proof.
  intros HQ. induction 1; constructor; auto.
Qed.

Lemma lang_star_cls p w :
  lang (Star (Cls p)) w <-> Forall (fun c => p c = true) w.
Proof.
  split.
  - intros H. remember (Star (Cls p)) as r eqn:Hr.
    induction H; try discriminate; [constructor|].
    injection Hr as ->. inversion H; subst. simpl. constructor; auto.
  - induction 1 as [|c w Hc _ IH]; [constructor|].
    change (c :: w) with ([c] ++ w). constructor; [constructor; exact Hc | exact IH].
Qed.

Lemma lang_plus_cls p w :
  lang (plus (Cls p)) w <-> w <> [] /\ Forall (fun c => p c = true) w.
Proof.
  unfold plus. rewrite lang_cat_iff. split.
  - intros (s1 & s2 & -> & H1 & H2).
    apply lang_cls_iff in H1 as (c & -> & Hc). apply lang_star_cls in H2.
    split; [discriminate | constructor; assumption].
  - intros [Hne H]. destruct H as [|c w Hc Hw]; [congruence|].
    exists [c], w. split_and!; [reflexivity | | apply lang_star_cls, Hw].
    apply lang_cls_iff. eauto.
Qed.

End ReplaceFacts.

Section SpaceRuns.

Lemma run_length_le s : run_length s <= length s.
Proof.
  induction s as [|c s IH]; simpl; [lia|]. destruct (is_space c); simpl; lia.
Qed.

Lemma take_run s : forall k,
  k <= length s ->
  (Forall (fun c => is_space c = true) (take k s) <-> k <= run_length s).
Proof.
  induction s as [|c s IH]; intros k Hk.
  - simpl in Hk. assert (k = 0) as -> by lia. simpl. split; [lia | constructor].
  - destruct k as [|k]; simpl; [split; [lia | constructor]|].
    simpl in Hk. destruct (is_space c) eqn:Hc.
    + rewrite Forall_cons, IH by lia. split; [intros [_ H]; lia | intros H; split; [exact Hc | lia]].
    + split; [|lia]. inversion 1; congruence.
Qed.

Lemma matches_spaces_take s k :
  k <= length s ->
  (matches re_spaces (take k s) = true <-> 1 <= k <= run_length s).
Proof.
  intros Hk. unfold re_spaces, space.
  rewrite matches_lang, lang_plus_cls, (take_run s k Hk). split.
  - intros [Hne Hrun]. split; [|exact Hrun].
    destruct k; [destruct s; simpl in Hne; congruence | lia].
  - intros [H1 Hrun]. split; [|exact Hrun].
    destruct k; [lia|]. destruct s; simpl in *; [lia | discriminate].
Qed.

Lemma longest_prefix_spaces s :
  longest_prefix re_spaces s 0 None
  = match run_length s with 0 => None | S n => Some (S n) end.
Proof.
  pose proof (run_length_le s) as Hle.
  destruct (run_length s) as [|n] eqn:Hrun.
  - apply longest_prefix_none. intros k Hk.
    destruct (matches re_spaces (take k s)) eqn:Hm; [|reflexivity].
    apply matches_spaces_take in Hm; lia.
  - apply longest_prefix_exact.
    + lia.
    + apply matches_spaces_take; lia.
    + intros j Hj Hlen.
      destruct (matches re_spaces (take j s)) eqn:Hm; [|reflexivity].
      apply matches_spaces_take in Hm; lia.
Qed.

(** Replacing the runs of white space: from a fresh position, and from a
    position inside a run that is being skipped. *)
Lemma replace_spaces_collapse by_ s :
  replace_all_from re_spaces by_ s 0 = collapse by_ false s
  /\ replace_all_from re_spaces by_ s (run_length s) = collapse by_ true s.
Proof.
  induction s as [|c s [IH0 IHr]]; [split; reflexivity|].
  assert (H0 : replace_all_from re_spaces by_ (c :: s) 0
               = collapse by_ false (c :: s)).
  { cbn [replace_all_from]. rewrite longest_prefix_spaces.
    cbn [run_length collapse]. destruct (is_space c).
    - rewrite IHr. reflexivity.
    - rewrite IH0. reflexivity. }
  split; [exact H0|].
  cbn [run_length]. destruct (is_space c) eqn:Hc.
  - cbn [replace_all_from collapse]. rewrite Hc, IHr. reflexivity.
  - rewrite H0. cbn [collapse]. rewrite Hc. reflexivity.
Qed.

Lemma replace_all_spaces by_ s :
  replace_all re_spaces by_ s = collapse by_ false s.
Proof. apply replace_spaces_collapse. Qed.

Lemma collapse_Forall (P : N -> Prop) by_ s : forall b,
  Forall P by_ -> Forall P (List.filter (fun c => negb (is_space c)) s) ->
  Forall P (collapse by_ b s).
Proof.
  intros b Hby. revert b. induction s as [|c s IH]; intros b H; simpl in *.
  - constructor.
  - destruct (is_space c); simpl in H.
    + apply Forall_app. split; [destruct b; [constructor | exact Hby] | auto].
    + inversion H; subst. constructor; auto.
Qed.

Lemma filter_Forall_both (P : N -> Prop) (f : N -> bool) s :
  Forall P s -> Forall (fun c => P c /\ f c = true) (List.filter f s).
Proof.
  induction 1 as [|c s Hc _ IH]; simpl; [constructor|].
  destruct (f c) eqn:Hf; [constructor; auto | exact IH].
Qed.

End SpaceRuns.

(** X14: the key text of a title holds no white space, none of the
    characters ( ) = + -, no capital A-Z and no combining mark
    U+0300..U+036F, and so does the key of a row, which is its first 100
    code units at most. *)
Theorem keyOf_clean (t : jsstring) :
  Forall (fun c => is_space c = false /\ is_punct c = false
                   /\ in_range 65 90 c = false /\ is_combining c = false)
    (keyOf t)
  /\ Forall (fun c => is_space c = false /\ is_punct c = false
                      /\ in_range 65 90 c = false /\ is_combining c = false)
       (slice0 100 (keyOf t)).
Proof.
  assert (Hclean : Forall (fun c => is_space c = false /\ is_punct c = false
                     /\ in_range 65 90 c = false /\ is_combining c = false)
                     (keyOf t)).
  { unfold keyOf, re_punct. fold is_punct.
    change (Cls (fun c => (c =? 40)%N || (c =? 41)%N || (c =? 61)%N
                           || (c =? 43)%N || (c =? 45)%N))
      with (Cls is_punct).
    rewrite replace_all_cls_remove, replace_all_spaces.
    eapply Forall_impl.
    - apply (filter_Forall_both
               (fun c => is_space c = false /\ in_range 65 90 c = false
                         /\ is_combining c = false)
               (fun c => negb (is_punct c))).
      apply collapse_Forall.
      + repeat constructor.
      + eapply Forall_impl.
        * apply (filter_Forall_both
                   (fun c => clean c = true)
                   (fun c => negb (is_space c))), normalize_clean.
        * intros c [Hc H3]. apply negb_true_iff in H3.
          unfold clean, lowered in Hc.
          apply andb_true_iff in Hc as [Hc _].
          apply andb_true_iff in Hc as [Hl Hm].
          apply andb_true_iff in Hl as [Hl _].
          apply andb_true_iff in Hl as [Hl _].
          apply negb_true_iff in Hl, Hm. auto.
    - intros c [(H1 & H2 & H3) H4]. apply negb_true_iff in H4. auto. }
  split.
  - exact Hclean.
  - apply Forall_take, Hclean.
Qed.

Section NumberFacts.

Lemma shr_1_nonneg mrs : (0 <= shr_m mrs)%Z -> (0 <= shr_m (shr_1 mrs))%Z.
Proof.
  destruct mrs as [m r s]. destruct m as [|[p|p|]|p]; simpl; lia.
Qed.

Lemma iter_pos_shr_nonneg p : forall mrs,
  (0 <= shr_m mrs)%Z -> (0 <= shr_m (SpecFloat.iter_pos shr_1 p mrs))%Z.
Proof.
  induction p as [p IH|p IH|]; intros mrs H; simpl.
  - apply IH, IH, shr_1_nonneg, H.
  - apply IH, IH, H.
  - apply shr_1_nonneg, H.
Qed.

Lemma shr_fexp_nonneg m e l :
  (0 <= m)%Z -> (0 <= shr_m (fst (shr_fexp prec emax m e l)))%Z.
Proof.
  intros H. unfold shr_fexp, shr.
  assert (H0 : (0 <= shr_m (shr_record_of_loc m l))%Z).
  { destruct l as [|[]]; exact H. }
  destruct (_ - e)%Z; cbn [fst]; auto using iter_pos_shr_nonneg.
Qed.

Lemma round_nearest_even_nonneg m l :
  (0 <= m)%Z -> (0 <= round_nearest_even m l)%Z.
Proof.
  intros H. destruct l as [|[]]; simpl; try lia. destruct (Z.even m); lia.
Qed.

(** Rounding a non-negative significand never gives [NaN]. *)
Lemma binary_round_aux_not_NaN sx mx ex lx :
  (0 <= mx)%Z -> isNaN (binary_round_aux prec emax sx mx ex lx) = false.
Proof.
  intros H. unfold binary_round_aux.
  pose proof (shr_fexp_nonneg mx ex lx H) as H1.
  destruct (shr_fexp prec emax mx ex lx) as [mrs' e']. cbn [fst] in H1.
  pose proof (shr_fexp_nonneg _ e' loc_Exact
                (round_nearest_even_nonneg _ (loc_of_shr_record mrs') H1)) as H2.
  destruct (shr_fexp prec emax (round_nearest_even _ _) e' loc_Exact)
    as [mrs'' e'']. cbn [fst] in H2.
  destruct (shr_m mrs''); [reflexivity | | lia].
  destruct (_ <=? _)%Z; reflexivity.
Qed.

(** The sign is carried through the rounding unchanged. *)
Lemma binary_round_aux_negate mx ex lx :
  binary_round_aux prec emax true mx ex lx
  = negate (binary_round_aux prec emax false mx ex lx).
Proof.
  unfold binary_round_aux.
  destruct (shr_fexp prec emax mx ex lx) as [mrs' e'].
  destruct (shr_fexp prec emax (round_nearest_even _ _) e' loc_Exact)
    as [mrs'' e''].
  destruct (shr_m mrs''); [reflexivity | | reflexivity].
  destruct (_ <=? _)%Z; reflexivity.
Qed.

Lemma round_ratio_not_NaN neg n d :
  (0 <= n)%Z -> (0 < d)%Z -> isNaN (round_ratio neg n d) = false.
Proof.
  intros Hn Hd. unfold round_ratio, SFdiv_core_binary.
  set (s := (0 - 0 - _)%Z).
  set (m' := match s with 0%Z => n | Z.pos _ => _ | Z.neg _ => _ end).
  assert (Hm : (0 <= m')%Z).
  { subst m'. destruct s; [exact Hn | apply Z.shiftl_nonneg, Hn | lia]. }
  pose proof (Z.div_pos m' d Hm Hd) as Hq. unfold Z.div in Hq.
  change IntDef.Z.div_eucl with Z.div_eucl.
  destruct (Z.div_eucl m' d) as [q r].
  apply binary_round_aux_not_NaN, Hq.
Qed.

Lemma round_ratio_negate n d :
  round_ratio true n d = negate (round_ratio false n d).
Proof.
  unfold round_ratio.
  destruct (SFdiv_core_binary prec emax n 0 d 0) as [[q e] l].
  apply binary_round_aux_negate.
Qed.

Lemma of_decimal_not_NaN neg m e :
  (0 <= m)%Z -> isNaN (of_decimal neg m e) = false.
Proof.
  intros Hm. unfold of_decimal.
  destruct (m =? 0)%Z; [reflexivity|].
  destruct (0 <=? e)%Z eqn:He.
  - apply round_ratio_not_NaN; [|lia].
    apply Z.leb_le in He. apply Z.mul_nonneg_nonneg; [exact Hm|].
    apply Z.pow_nonneg. lia.
  - apply round_ratio_not_NaN; [exact Hm|].
    apply Z.pow_pos_nonneg; [lia|]. apply Z.leb_gt in He. lia.
Qed.

Lemma of_decimal_negate m e :
  of_decimal true m e = negate (of_decimal false m e).
Proof.
  unfold of_decimal.
  destruct (m =? 0)%Z; [reflexivity|].
  destruct (0 <=? e)%Z; apply round_ratio_negate.
Qed.

Lemma digits_value_from_nonneg ds : forall acc,
  Forall (fun c => is_digit c = true) ds -> (0 <= acc)%Z ->
  (0 <= fold_left (fun acc d => (10 * acc + (Z.of_N d - 48))%Z) ds acc)%Z.
Proof.
  induction ds as [|d ds IH]; intros acc Hds Hacc; simpl; [exact Hacc|].
  inversion Hds as [|? ? Hd Hrest]; subst. apply IH; [exact Hrest|].
  unfold is_digit, in_range in Hd. apply andb_true_iff in Hd as [H1 H2].
  apply N.leb_le in H1, H2. lia.
Qed.

Lemma digits_value_nonneg ds :
  Forall (fun c => is_digit c = true) ds -> (0 <= digits_value ds)%Z.
Proof. intros H. apply digits_value_from_nonneg; [exact H | lia]. Qed.

Lemma span_digits_spec s :
  s = fst (span_digits s) ++ snd (span_digits s)
  /\ Forall (fun c => is_digit c = true) (fst (span_digits s)).
Proof.
  induction s as [|c s [IH1 IH2]]; simpl; [split; [reflexivity | constructor]|].
  destruct (is_digit c) eqn:Hc.
  - destruct (span_digits s) as [ds rest]. simpl in *. split.
    + f_equal. exact IH1.
    + constructor; assumption.
  - simpl. split; [reflexivity | constructor].
Qed.

Lemma span_digits_app ds rest :
  Forall (fun c => is_digit c = true) ds ->
  match rest with [] => True | c :: _ => is_digit c = false end ->
  span_digits (ds ++ rest) = (ds, rest).
Proof.
  intros Hds Hrest. induction Hds as [|d ds Hd _ IH]; simpl.
  - destruct rest as [|c rest]; [reflexivity|]. simpl. rewrite Hrest. reflexivity.
  - rewrite Hd, IH. reflexivity.
Qed.

End NumberFacts.

Section ParseFloatFacts.

Local Open Scope N_scope.

Lemma digit_units d :
  is_digit d = true ->
  is_space d = false /\ (d =? 45) = false /\ (d =? 43) = false
  /\ (73 =? d) = false /\ (d =? 46) = false /\ (d =? 44) = false
  /\ (d =? 40) = false /\ is_line_terminator d = false.
Proof.
  unfold is_digit, in_range. intros H.
  apply andb_true_iff in H as [H1 H2]. apply N.leb_le in H1, H2.
  unfold is_space, is_line_terminator, in_range.
  split_and!; case_units; try reflexivity; lia.
Qed.

Lemma parseFloat_digit d t :
  is_digit d = true -> parseFloat (d :: t) = parse_unsigned false (d :: t).
Proof.
  intros Hd. destruct (digit_units d Hd) as (Hs & H45 & H43 & _).
  unfold parseFloat. cbn [trimStart]. rewrite Hs, H45, H43. reflexivity.
Qed.

Lemma parseFloat_minus s : parseFloat (45 :: s) = parse_unsigned true s.
Proof. reflexivity. Qed.

Lemma parse_unsigned_negate s :
  parse_unsigned true s = negate (parse_unsigned false s).
Proof.
  unfold parse_unsigned.
  destruct (startsWith _ s); [reflexivity|].
  destruct (span_digits s) as [ip r1].
  destruct (match r1 with [] => _ | _ :: _ => _ end) as [fp r2].
  destruct (ip ++ fp); [reflexivity | apply of_decimal_negate].
Qed.

Lemma parse_unsigned_not_NaN sg d t :
  is_digit d = true -> isNaN (parse_unsigned sg (d :: t)) = false.
Proof.
  intros Hd. destruct (digit_units d Hd) as (_ & _ & _ & H73 & _).
  unfold parse_unsigned.
  change (startsWith (u "Infinity") (d :: t))
    with ((73 =? d) && startsWith (u "nfinity") t).
  rewrite H73. cbn [andb].
  pose proof (span_digits_spec (d :: t)) as [_ Hip].
  assert (Hne : fst (span_digits (d :: t)) <> []).
  { cbn [span_digits]. rewrite Hd. destruct (span_digits t). discriminate. }
  destruct (span_digits (d :: t)) as [ip r1]. cbn [fst] in Hip, Hne.
  assert (Hfp : Forall (fun c => is_digit c = true)
                  (fst (match r1 with
                        | [] => ([], r1)
                        | c :: r => if c =? 46 then span_digits r else ([], r1)
                        end))).
  { destruct r1 as [|c r]; [constructor|].
    destruct (c =? 46); [apply span_digits_spec | constructor]. }
  destruct (match r1 with [] => _ | _ :: _ => _ end) as [fp r2].
  cbn [fst] in Hfp.
  destruct (ip ++ fp) as [|x ds] eqn:Happ.
  - apply app_eq_nil in Happ as [-> _]. congruence.
  - apply of_decimal_not_NaN, digits_value_nonneg.
    rewrite <- Happ. apply Forall_app. split; assumption.
Qed.

Lemma parseFloat_digit_not_NaN d t :
  is_digit d = true -> isNaN (parseFloat (d :: t)) = false.
Proof.
  intros Hd. rewrite (parseFloat_digit d t Hd).
  apply parse_unsigned_not_NaN, Hd.
Qed.

(** Digits, a period and digits: the decimal literal is read in full. *)
Lemma parseFloat_decimal d ds fp :
  is_digit d = true ->
  Forall (fun c => is_digit c = true) ds ->
  Forall (fun c => is_digit c = true) fp ->
  parseFloat ((d :: ds) ++ 46 :: fp)
  = of_decimal false (digits_value ((d :: ds) ++ fp))
      (- Z.of_nat (length fp)).
Proof.
  intros Hd Hds Hfp. destruct (digit_units d Hd) as (_ & _ & _ & H73 & _).
  cbn [app]. rewrite (parseFloat_digit d _ Hd).
  unfold parse_unsigned.
  change (startsWith (u "Infinity") (d :: ds ++ 46 :: fp))
    with ((73 =? d) && startsWith (u "nfinity") (ds ++ 46 :: fp)).
  rewrite H73. cbn [andb].
  change (d :: ds ++ 46 :: fp) with ((d :: ds) ++ 46 :: fp).
  rewrite (span_digits_app (d :: ds) (46 :: fp));
    [|constructor; assumption | reflexivity].
  rewrite N.eqb_refl.
  rewrite <- (app_nil_r fp) at 1.
  rewrite (span_digits_app fp []); [|assumption | exact I].
  cbn [app exponent_part]. f_equal.
Qed.

(** Digits alone. *)
Lemma parseFloat_integer d ds :
  is_digit d = true ->
  Forall (fun c => is_digit c = true) ds ->
  parseFloat (d :: ds) = of_decimal false (digits_value (d :: ds)) 0.
Proof.
  intros Hd Hds. destruct (digit_units d Hd) as (_ & _ & _ & H73 & _).
  rewrite (parseFloat_digit d _ Hd).
  unfold parse_unsigned.
  change (startsWith (u "Infinity") (d :: ds))
    with ((73 =? d) && startsWith (u "nfinity") ds).
  rewrite H73. cbn [andb].
  rewrite <- (app_nil_r (d :: ds)) at 1.
  rewrite (span_digits_app (d :: ds) []); [|constructor; assumption | exact I].
  rewrite app_nil_r. reflexivity.
Qed.

(** A text of periods, commas and minus signs holds no number. *)
Lemma parse_unsigned_marks sg s :
  Forall (fun c => c = 46 \/ c = 44 \/ c = 45) s ->
  parse_unsigned sg s = NaN.
Proof.
  intros H. destruct H as [|c s Hc Hs]; [reflexivity|].
  assert (Hnext : forall x r, s = x :: r -> span_digits s = ([], s)).
  { intros x r ->. inversion Hs as [|? ? Hx _]; subst.
    destruct Hx as [->|[->| ->]]; reflexivity. }
  destruct Hc as [->|[->| ->]].
  - unfold parse_unsigned.
    change (startsWith (u "Infinity") (46 :: s)) with false.
    cbn [span_digits]. change (is_digit 46) with false. cbn iota.
    rewrite N.eqb_refl.
    destruct s as [|x r]; [reflexivity|].
    rewrite (Hnext x r eq_refl). reflexivity.
  - reflexivity.
  - reflexivity.
Qed.

Lemma parseFloat_marks s :
  Forall (fun c => c = 46 \/ c = 44 \/ c = 45) s -> parseFloat s = NaN.
Proof.
  intros H. destruct H as [|c s Hc Hs]; [reflexivity|].
  destruct Hc as [->|[->| ->]].
  - apply (parse_unsigned_marks false (46 :: s)). constructor; auto.
  - apply (parse_unsigned_marks false (44 :: s)). constructor; auto.
  - rewrite parseFloat_minus. apply parse_unsigned_marks, Hs.
Qed.

End ParseFloatFacts.

Section CleanFacts.

Local Open Scope N_scope.

Lemma erased_app Q a a' b b' :
  erased Q a a' -> erased Q b b' -> erased Q (a ++ b) (a' ++ b').
Proof.
  intros Ha Hb. induction Ha; simpl; [exact Hb | |].
  - apply erased_keep; assumption.
  - apply erased_drop; assumption.
Qed.

Lemma erased_rev Q s s' : erased Q s s' -> erased Q (rev s) (rev s').
Proof.
  induction 1 as [|c s s' _ IH|c s s' Hc _ IH]; simpl.
  - constructor.
  - apply erased_app; [exact IH | apply erased_refl].
  - rewrite <- (app_nil_r (rev s')).
    apply erased_app; [exact IH|]. apply erased_drop; [exact Hc | constructor].
Qed.

Lemma trimStart_erased s : erased is_space s (trimStart s).
Proof.
  induction s as [|c s IH]; simpl; [constructor|].
  destruct (is_space c) eqn:Hc; [apply erased_drop; assumption | apply erased_refl].
Qed.

(** [trim] only takes white space away. *)
Lemma trim_erased s : erased is_space s (trim s).
Proof.
  unfold trim, trimEnd. eapply erased_trans; [apply trimStart_erased|].
  rewrite <- (rev_involutive (trimStart s)) at 1.
  apply erased_rev, trimStart_erased.
Qed.

Lemma erased_filter_imp (f Q : N -> bool) s s' :
  erased Q s s' -> (forall c, Q c = true -> f c = false) ->
  List.filter f s' = List.filter f s.
Proof.
  intros He HQ. induction He as [|c s s' _ IH|c s s' Hc _ IH]; simpl.
  - reflexivity.
  - rewrite IH. reflexivity.
  - rewrite (HQ c Hc). exact IH.
Qed.

Lemma filter_all (f : N -> bool) s :
  Forall (fun c => f c = true) s -> List.filter f s = s.
Proof.
  induction 1 as [|c s Hc _ IH]; simpl; [reflexivity|]. rewrite Hc, IH. reflexivity.
Qed.

Lemma Forall_removelast (P : N -> Prop) s : Forall P s -> Forall P (removelast s).
Proof.
  induction 1 as [|c s Hc Hs IH]; simpl; [constructor|].
  destruct s; [constructor | constructor; assumption].
Qed.

Lemma Forall_slice_1_m1 (P : N -> Prop) s : Forall P s -> Forall P (slice_1_m1 s).
Proof.
  intros H. unfold slice_1_m1. apply Forall_removelast.
  destruct H; [constructor | assumption].
Qed.

Lemma numeric_range c : is_numeric_unit c = true -> 44 <= c <= 57.
Proof.
  unfold is_numeric_unit, is_digit, in_range.
  case_units; intros ?; try discriminate; lia.
Qed.

Lemma amount_numeric c : is_amount_unit c = true -> is_numeric_unit c = true.
Proof.
  unfold is_amount_unit, is_numeric_unit. intros ->. reflexivity.
Qed.

Lemma amount_not_minus c : is_amount_unit c = true -> c <> 45 /\ c <> 40.
Proof.
  unfold is_amount_unit, is_digit, in_range.
  case_units; intros ?; try discriminate; lia.
Qed.

Lemma currency_unit_range c : 40 <= c -> c <= 57 -> is_currency_unit c = false.
Proof.
  intros H1 H2.
  assert (Hc : canonicalize c = c).
  { unfold canonicalize.
    rewrite table_find_first; [reflexivity | change (c < 97); lia]. }
  unfold is_currency_unit. rewrite Hc. change (canonicalize 114) with 82.
  unfold is_space, in_range. case_units; try reflexivity; lia.
Qed.

Lemma space_not_numeric c : is_space c = true -> is_numeric_unit c = false.
Proof.
  intros H. destruct (is_numeric_unit c) eqn:Hn; [|reflexivity].
  apply numeric_range in Hn.
  assert (Hc : is_currency_unit c = false)
    by (apply currency_unit_range; lia).
  unfold is_currency_unit in Hc. rewrite H in Hc.
  rewrite orb_true_r in Hc. discriminate.
Qed.

Lemma currency_not_numeric c :
  is_currency_unit c = true -> is_numeric_unit c = false.
Proof.
  intros H. destruct (is_numeric_unit c) eqn:Hn; [|reflexivity].
  apply numeric_range in Hn.
  rewrite currency_unit_range in H by lia. discriminate.
Qed.

Lemma matches_currency_units w :
  matches re_currency w = true ->
  Forall (fun c => is_currency_unit c = true) w.
Proof.
  unfold re_currency, lit_i, lit, space. rewrite matches_lang, lang_cat_iff.
  intros (s1 & s2 & -> & H1 & H2).
  apply lang_cls_iff in H1 as (c & -> & Hc).
  apply lang_cat_iff in H2 as (s3 & s4 & -> & H3 & H4).
  apply lang_cls_iff in H3 as (c' & -> & Hc').
  apply lang_star_cls in H4. apply N.eqb_eq in Hc'. subst c'.
  constructor; [|constructor].
  - unfold is_currency_unit. rewrite Hc. reflexivity.
  - reflexivity.
  - eapply Forall_impl; [exact H4|]. intros x Hx.
    unfold is_currency_unit. rewrite Hx. apply orb_true_r.
Qed.

Lemma matches_spaces_units w :
  matches re_spaces w = true ->
  Forall (fun c => is_currency_unit c = true) w.
Proof.
  unfold re_spaces, space. rewrite matches_lang, lang_plus_cls.
  intros [_ H]. eapply Forall_impl; [exact H|]. intros x Hx.
  unfold is_currency_unit. rewrite Hx. apply orb_true_r.
Qed.

(** Lines 52 of the parser only take away [r], [R], [$] and white
    space. *)
Lemma strip_currency_erased s :
  erased is_currency_unit s
    (replace_all re_spaces [] (replace_all re_currency [] s)).
Proof.
  eapply erased_trans; apply replace_all_erased;
    [apply matches_currency_units | apply matches_spaces_units].
Qed.

Lemma strip_currency_id s :
  Forall (fun c => 40 <= c <= 57) s ->
  replace_all re_spaces [] (replace_all re_currency [] s) = s.
Proof.
  intros H. apply (erased_id is_currency_unit); [apply strip_currency_erased|].
  eapply Forall_impl; [exact H|]. intros c [H1 H2].
  apply currency_unit_range; assumption.
Qed.

Lemma test_parens_head s x :
  test_full re_parens s = true -> head s = Some x -> x = 40.
Proof.
  unfold test_full, re_parens, lit. rewrite matches_lang, lang_cat_iff.
  intros (s1 & s2 & -> & H1 & _) Hx.
  apply lang_cls_iff in H1 as (c & -> & Hc). apply N.eqb_eq in Hc.
  simpl in Hx. congruence.
Qed.

Lemma test_parens_wrap mid :
  Forall (fun c => is_line_terminator c = false) mid ->
  test_full re_parens (40 :: mid ++ [41]) = true.
Proof.
  intros H. unfold test_full, re_parens, lit, dot.
  apply matches_lang, lang_cat_iff. exists [40], (mid ++ [41]).
  split_and!; [reflexivity | apply lang_cls_iff; eexists; split; reflexivity|].
  apply lang_cat_iff. exists mid, [41].
  split_and!; [reflexivity | | apply lang_cls_iff; eexists; split; reflexivity].
  apply lang_star_cls. eapply Forall_impl; [exact H|].
  intros c Hc. rewrite Hc. reflexivity.
Qed.

Lemma test_minus_iff s : test_suffix re_minus s = true <-> last s = Some 45.
Proof.
  unfold test_suffix, re_minus, lit, any. rewrite matches_lang, lang_cat_iff.
  split.
  - intros (s1 & s2 & -> & _ & H2).
    apply lang_cls_iff in H2 as (c & -> & Hc). apply N.eqb_eq in Hc. subst c.
    apply last_snoc.
  - intros H. apply last_Some in H as [l ->]. exists l, [45].
    split_and!; [reflexivity | | apply lang_cls_iff; eexists; split; reflexivity].
    apply lang_star_cls, Forall_forall. reflexivity.
Qed.

Lemma test_dash_iff s :
  test_full re_dash s = true
  <-> exists c, s = [c] /\ (c = 45 \/ c = 8211 \/ c = 8212).
Proof.
  unfold test_full, re_dash. rewrite matches_lang, lang_cls_iff.
  split; intros (c & -> & Hc); exists c; (split; [reflexivity|]).
  - apply orb_true_iff in Hc as [Hc|Hc]; [apply orb_true_iff in Hc as [Hc|Hc]|];
      apply N.eqb_eq in Hc; auto.
  - destruct Hc as [->|[->| ->]]; reflexivity.
Qed.

Lemma test_dash_long s : (2 <= length s)%nat -> test_full re_dash s = false.
Proof.
  intros H. destruct (test_full re_dash s) eqn:Hd; [|reflexivity].
  apply test_dash_iff in Hd as (c & -> & _). simpl in H. lia.
Qed.

Lemma includes_unit s c : includes s [c] = existsb (N.eqb c) s.
Proof.
  induction s as [|x r IH]; [reflexivity|].
  cbn [includes startsWith existsb]. rewrite IH.
  destruct r; rewrite andb_true_r; reflexivity.
Qed.

Lemma decimal_point_eq s :
  decimal_point s
  = if existsb (N.eqb 44) s && existsb (N.eqb 46) s
    then replace_first_unit 44 [46]
           (List.filter (fun c => negb (46 =? c)) s)
    else if existsb (N.eqb 44) s then replace_first_unit 44 [46] s
    else s.
Proof.
  unfold decimal_point, re_period, lit.
  rewrite replace_all_cls_remove.
  change (u ",") with [44]. change (u ".") with [46].
  rewrite !includes_unit. reflexivity.
Qed.

Lemma decimal_point_cons c s :
  c <> 44 -> c <> 46 -> decimal_point (c :: s) = c :: decimal_point s.
Proof.
  intros H44 H46. rewrite !decimal_point_eq. cbn [existsb List.filter].
  destruct (N.eqb_spec 44 c) as [E|_]; [congruence|].
  destruct (N.eqb_spec 46 c) as [E|_]; [congruence|].
  cbn [orb negb].
  destruct (existsb (N.eqb 44) s); cbn [andb].
  - destruct (existsb (N.eqb 46) s); cbn [replace_first_unit];
      (destruct (N.eqb_spec c 44) as [E|_]; [congruence | reflexivity]).
  - reflexivity.
Qed.

Lemma decimal_point_no_comma s :
  Forall (fun c => c <> 44) s -> decimal_point s = s.
Proof.
  intros H. rewrite decimal_point_eq.
  assert (E : existsb (N.eqb 44) s = false).
  { induction H as [|c s Hc _ IH]; [reflexivity|]. cbn [existsb]. rewrite IH.
    destruct (N.eqb_spec 44 c); [congruence | reflexivity]. }
  rewrite E. reflexivity.
Qed.

Lemma replace_first_unit_app c by_ ds rest :
  Forall (fun x => x <> c) ds ->
  replace_first_unit c by_ (ds ++ c :: rest) = ds ++ by_ ++ rest.
Proof.
  induction 1 as [|x ds Hx _ IH]; simpl.
  - rewrite N.eqb_refl. reflexivity.
  - destruct (N.eqb_spec x c); [congruence|]. rewrite IH. reflexivity.
Qed.

Lemma replace_first_unit_Forall (P : N -> Prop) c by_ s :
  Forall P by_ -> Forall P s -> Forall P (replace_first_unit c by_ s).
Proof.
  intros Hby. induction 1 as [|x s Hx Hs IH]; simpl; [constructor|].
  destruct (x =? c); [apply Forall_app; split; assumption | constructor; assumption].
Qed.

Lemma decimal_point_Forall (P : N -> Prop) s :
  P 46 -> Forall P s -> Forall P (decimal_point s).
Proof.
  intros H46 H. rewrite decimal_point_eq.
  assert (Hby : Forall P [46]) by (constructor; [exact H46 | constructor]).
  destruct (_ && _); [|destruct (existsb _ s)].
  - apply replace_first_unit_Forall; [exact Hby|].
    eapply Forall_impl; [apply (filter_Forall_both P), H|].
    intros x [Hx _]. exact Hx.
  - apply replace_first_unit_Forall; assumption.
  - exact H.
Qed.

(** The grouped form: periods among the integer digits, a decimal comma. *)
Lemma decimal_point_grouped ip fp :
  Forall (fun c => is_digit c = true \/ c = 46) ip ->
  Forall (fun c => is_digit c = true) fp ->
  decimal_point (ip ++ 44 :: fp) = List.filter is_digit ip ++ 46 :: fp.
Proof.
  intros Hip Hfp. rewrite decimal_point_eq.
  assert (H44 : existsb (N.eqb 44) (ip ++ 44 :: fp) = true).
  { rewrite existsb_app. cbn [existsb]. rewrite N.eqb_refl. apply orb_true_r. }
  rewrite H44. cbn [andb].
  assert (Hdig : forall l, Forall (fun c => is_digit c = true) l ->
                           Forall (fun x => x <> 44) l).
  { intros l Hl. eapply Forall_impl; [exact Hl|]. intros c Hc ->. discriminate. }
  assert (Hflt : List.filter (fun c => negb (46 =? c)) ip
                 = List.filter is_digit ip).
  { clear -Hip. induction Hip as [|c ip Hc _ IH]; [reflexivity|].
    cbn [List.filter]. rewrite IH. destruct Hc as [Hc| ->]; [|reflexivity].
    rewrite Hc. destruct (digit_units c Hc) as (_ & _ & _ & _ & H46 & _).
    rewrite N.eqb_sym, H46. reflexivity. }
  destruct (existsb (N.eqb 46) (ip ++ 44 :: fp)) eqn:H46.
  - rewrite List.filter_app. cbn [List.filter].
    change (negb (46 =? 44)) with true. cbn iota.
    rewrite Hflt, (filter_all (fun c => negb (46 =? c)) fp).
    + apply (replace_first_unit_app 44 [46]).
      eapply Forall_impl;
        [apply (filter_Forall_both (fun _ => True) is_digit ip),
           Forall_forall; auto|].
      intros x [_ Hx] ->. discriminate.
    + eapply Forall_impl; [exact Hfp|]. intros c Hc.
      destruct (digit_units c Hc) as (_ & _ & _ & _ & Hc46 & _).
      rewrite N.eqb_sym, Hc46. reflexivity.
  - rewrite existsb_app in H46. apply orb_false_iff in H46 as [H46 _].
    assert (Hd : Forall (fun c => is_digit c = true) ip).
    { clear -Hip H46. induction Hip as [|c ip Hc _ IH]; [constructor|].
      cbn [existsb] in H46. apply orb_false_iff in H46 as [Hc46 H46].
      constructor; [|auto]. destruct Hc as [Hc| ->]; [exact Hc | discriminate]. }
    rewrite (filter_all is_digit ip Hd).
    apply (replace_first_unit_app 44 [46]), Hdig, Hd.
Qed.

(** The steps of [pt_clean], with the tests named. *)
Lemma pt_clean_eq s s1 s2 s3 :
  s1 = replace_all re_spaces [] (replace_all re_currency [] s) ->
  s2 = (if test_full re_parens s1 then slice_1_m1 s1 else s1) ->
  s3 = (if test_suffix re_minus s2 then removelast s2 else s2) ->
  pt_clean s
  = (test_full re_parens s1 || test_suffix re_minus s2,
     decimal_point (List.filter is_numeric_unit s3)).
Proof.
  intros -> -> ->. unfold pt_clean, re_non_numeric.
  assert (E : forall x,
             replace_all
               (Cls (fun c => negb (is_digit c || (c =? 46) || (c =? 44)
                                    || (c =? 45)))) [] x
             = List.filter is_numeric_unit x).
  { intros x. rewrite replace_all_cls_remove. apply List.filter_ext.
    intros c. apply negb_involutive. }
  destruct (test_full re_parens _); cbn [orb];
    destruct (test_suffix re_minus _); rewrite E; reflexivity.
Qed.

(** A text without an opening parenthesis and without a minus sign: only
    the numeric filter and the decimal point act. *)
Lemma pt_clean_plain s :
  Forall (fun c => c <> 40 /\ c <> 45) s ->
  pt_clean s = (false, decimal_point (List.filter is_numeric_unit s)).
Proof.
  intros H.
  pose proof (strip_currency_erased s) as He.
  set (s1 := replace_all re_spaces [] (replace_all re_currency [] s)) in He.
  pose proof (erased_Forall _ _ _ _ He H) as H1.
  assert (Hp : test_full re_parens s1 = false).
  { destruct (test_full re_parens s1) eqn:Hp; [|reflexivity].
    destruct s1 as [|x r]; [discriminate|].
    pose proof (test_parens_head _ x Hp eq_refl) as ->.
    inversion H1 as [|? ? [Hx _] _]. congruence. }
  assert (Hm : test_suffix re_minus s1 = false).
  { destruct (test_suffix re_minus s1) eqn:Hm; [|reflexivity].
    apply test_minus_iff, last_Some in Hm as [l Hl]. rewrite Hl in H1.
    apply Forall_app in H1 as [_ H1]. inversion H1 as [|? ? [_ Hx] _]. congruence. }
  rewrite (pt_clean_eq s s1 s1 s1); [| reflexivity | | ].
  - rewrite Hp, Hm. cbn [orb]. do 2 f_equal.
    apply (erased_filter_imp _ is_currency_unit); [exact He|].
    apply currency_not_numeric.
  - rewrite Hp. reflexivity.
  - rewrite Hm. reflexivity.
Qed.

(** The parser on a text without an opening parenthesis and without a
    minus sign. *)
Lemma parsePtNumber_plain s :
  Forall (fun c => c <> 40 /\ c <> 45) s ->
  parsePtNumber (Some s)
  = to_number (decimal_point (List.filter is_numeric_unit s)).
Proof.
  intros H.
  pose proof (trim_erased s) as He.
  assert (Hf : List.filter is_numeric_unit (trim s)
               = List.filter is_numeric_unit s).
  { apply (erased_filter_imp _ is_space); [exact He | apply space_not_numeric]. }
  pose proof (trim_Forall _ s H) as Ht.
  rewrite <- Hf. unfold parsePtNumber.
  destruct (bool_decide (trim s = [])) eqn:Hnil.
  - apply bool_decide_eq_true in Hnil. rewrite Hnil. reflexivity.
  - cbn [orb]. destruct (test_full re_dash (trim s)) eqn:Hd.
    + apply test_dash_iff in Hd as (c & Hc & Hcase). rewrite Hc in *.
      inversion Ht as [|? ? [_ Hx] _].
      destruct Hcase as [->|[->| ->]]; [congruence | reflexivity | reflexivity].
    + rewrite (pt_clean_plain _ Ht). reflexivity.
Qed.

(** An amount text is left as it is up to the decimal point. *)
Lemma amount_units s :
  Forall (fun c => is_amount_unit c = true) s ->
  Forall (fun c => 40 <= c <= 57) s
  /\ Forall (fun c => c <> 40 /\ c <> 45) s
  /\ Forall (fun c => is_line_terminator c = false) s
  /\ Forall (fun c => is_space c = false) s
  /\ List.filter is_numeric_unit s = s.
Proof.
  intros H.
  assert (Hr : Forall (fun c => 44 <= c <= 57 /\ c <> 45) s).
  { eapply Forall_impl; [exact H|]. intros c Hc. split.
    - apply numeric_range, amount_numeric, Hc.
    - apply amount_not_minus, Hc. }
  split_and!.
  - eapply Forall_impl; [exact Hr|]. intros c [[H1 H2] _]. cbv beta. lia.
  - eapply Forall_impl; [exact Hr|]. intros c [[H1 H2] H3]. cbv beta.
    split; [lia | exact H3].
  - eapply Forall_impl; [exact Hr|]. intros c [[H1 H2] _].
    unfold is_line_terminator. case_units; try reflexivity; lia.
  - eapply Forall_impl; [exact Hr|]. intros c [[H1 H2] _].
    unfold is_space, in_range. case_units; try reflexivity; lia.
  - apply filter_all. eapply Forall_impl; [exact H|]. apply amount_numeric.
Qed.

Lemma parsePtNumber_amount s :
  Forall (fun c => is_amount_unit c = true) s ->
  parsePtNumber (Some s) = to_number (decimal_point s).
Proof.
  intros H. destruct (amount_units s H) as (_ & Hpm & _ & _ & Hf).
  rewrite (parsePtNumber_plain s Hpm), Hf. reflexivity.
Qed.

End CleanFacts.

Section ParserForms.

Local Open Scope N_scope.

Lemma filter_none (f : N -> bool) s :
  Forall (fun c => f c = false) s -> List.filter f s = [].
Proof.
  induction 1 as [|c s Hc _ IH]; simpl; [reflexivity|]. rewrite Hc. exact IH.
Qed.

Lemma decoration_units s :
  Forall (fun c => is_decoration c = true) s ->
  Forall (fun c => c <> 40 /\ c <> 45) s
  /\ List.filter is_numeric_unit s = [].
Proof.
  intros H.
  assert (Hd : Forall (fun c => is_numeric_unit c = false /\ c <> 40) s).
  { eapply Forall_impl; [exact H|]. intros c Hc. unfold is_decoration in Hc.
    apply andb_true_iff in Hc as [H1 H2].
    apply negb_true_iff in H1, H2. apply N.eqb_neq in H2. auto. }
  split.
  - eapply Forall_impl; [exact Hd|]. intros c [H1 H2]. cbv beta.
    split; [exact H2|]. intros ->. discriminate.
  - apply filter_none. eapply Forall_impl; [exact Hd|]. intros c [H1 _]. exact H1.
Qed.

(** The parser on a text that starts and ends with a unit that is no
    white space and that is not a lone dash. *)
Lemma parsePtNumber_trimmed s x y :
  head s = Some x -> last s = Some y ->
  is_space x = false -> is_space y = false ->
  test_full re_dash s = false ->
  parsePtNumber (Some s)
  = (let val := parseFloat (snd (pt_clean s)) in
     if isNaN val then zero
     else if fst (pt_clean s) then negate val else val).
Proof.
  intros Hx Hy Hsx Hsy Hd. unfold parsePtNumber.
  rewrite (trim_id s x y Hx Hy Hsx Hsy), Hd.
  destruct s as [|c s]; [discriminate|].
  rewrite bool_decide_eq_false_2 by discriminate. cbn [orb].
  destruct (pt_clean (c :: s)) as [neg txt]. reflexivity.
Qed.

Lemma minus_test_amount s :
  Forall (fun c => c <> 40 /\ c <> 45) s -> test_suffix re_minus s = false.
Proof.
  intros H. destruct (test_suffix re_minus s) eqn:Hm; [|reflexivity].
  apply test_minus_iff, last_Some in Hm as [l ->].
  apply Forall_app in H as [_ H]. inversion H as [|? ? [_ Hx] _]. congruence.
Qed.

(** An amount in parentheses. *)
Lemma pt_clean_parens x :
  Forall (fun c => is_amount_unit c = true) x ->
  pt_clean (40 :: x ++ [41]) = (true, decimal_point x).
Proof.
  intros H. destruct (amount_units x H) as (Hr & Hpm & Hlt & _ & Hf).
  assert (Hwrap : test_full re_parens (40 :: x ++ [41]) = true)
    by apply test_parens_wrap, Hlt.
  assert (Hmid : slice_1_m1 (40 :: x ++ [41]) = x)
    by apply removelast_last.
  rewrite (pt_clean_eq _ (40 :: x ++ [41]) x x).
  - rewrite Hwrap, Hf. reflexivity.
  - symmetry. apply strip_currency_id. constructor; [lia|].
    apply Forall_app. split; [exact Hr|]. constructor; [lia | constructor].
  - rewrite Hwrap, Hmid. reflexivity.
  - rewrite (minus_test_amount x Hpm). reflexivity.
Qed.

(** An amount followed by a minus sign. *)
Lemma pt_clean_trailing_minus d t :
  is_digit d = true ->
  Forall (fun c => is_amount_unit c = true) t ->
  pt_clean ((d :: t) ++ [45]) = (true, decimal_point (d :: t)).
Proof.
  intros Hd Ht.
  assert (H : Forall (fun c => is_amount_unit c = true) (d :: t)).
  { constructor; [|exact Ht]. unfold is_amount_unit. rewrite Hd. reflexivity. }
  destruct (amount_units _ H) as (Hr & Hpm & _ & _ & Hf).
  destruct (digit_units d Hd) as (_ & _ & _ & _ & _ & _ & H40 & _).
  assert (Hp : test_full re_parens ((d :: t) ++ [45]) = false).
  { destruct (test_full re_parens _) eqn:Hp; [|reflexivity].
    pose proof (test_parens_head _ d Hp eq_refl) as ->. discriminate. }
  assert (Hm : test_suffix re_minus ((d :: t) ++ [45]) = true)
    by apply test_minus_iff, last_snoc.
  rewrite (pt_clean_eq _ ((d :: t) ++ [45]) ((d :: t) ++ [45]) (d :: t)).
  - rewrite Hp, Hm, Hf. reflexivity.
  - symmetry. apply strip_currency_id.
    apply Forall_app. split; [exact Hr|]. constructor; [lia | constructor].
  - rewrite Hp. reflexivity.
  - rewrite Hm. symmetry. apply removelast_last.
Qed.

(** An amount after a minus sign: the sign stays in the text. *)
Lemma pt_clean_leading_minus d t :
  is_digit d = true ->
  Forall (fun c => is_amount_unit c = true) t ->
  pt_clean (45 :: d :: t) = (false, 45 :: decimal_point (d :: t)).
Proof.
  intros Hd Ht.
  assert (H : Forall (fun c => is_amount_unit c = true) (d :: t)).
  { constructor; [|exact Ht]. unfold is_amount_unit. rewrite Hd. reflexivity. }
  destruct (amount_units _ H) as (Hr & Hpm & _ & _ & Hf).
  assert (Hp : test_full re_parens (45 :: d :: t) = false).
  { destruct (test_full re_parens _) eqn:Hp; [|reflexivity].
    pose proof (test_parens_head _ 45 Hp eq_refl). discriminate. }
  assert (Hm : test_suffix re_minus (45 :: d :: t) = false).
  { destruct (test_suffix re_minus _) eqn:Hm; [|reflexivity].
    apply test_minus_iff in Hm. change (last (45 :: d :: t)) with (last (d :: t)) in Hm.
    apply last_Some in Hm as [l Hl]. rewrite Hl in Hpm.
    apply Forall_app in Hpm as [_ Hpm]. inversion Hpm as [|? ? [_ Hx] _]. congruence. }
  rewrite (pt_clean_eq _ (45 :: d :: t) (45 :: d :: t) (45 :: d :: t)).
  - rewrite Hp, Hm. cbn [orb].
    change (List.filter is_numeric_unit (45 :: d :: t))
      with (45 :: List.filter is_numeric_unit (d :: t)).
    rewrite Hf.
    rewrite decimal_point_cons by discriminate. reflexivity.
  - symmetry. apply strip_currency_id. constructor; [lia | exact Hr].
  - rewrite Hp. reflexivity.
  - rewrite Hm. reflexivity.
Qed.

Lemma decimal_point_digit d t :
  is_digit d = true -> decimal_point (d :: t) = d :: decimal_point t.
Proof.
  intros Hd. destruct (digit_units d Hd) as (_ & _ & _ & _ & H46 & H44 & _).
  apply decimal_point_cons; intros ->; discriminate.
Qed.

Lemma amount_last_not_space d t :
  is_digit d = true ->
  Forall (fun c => is_amount_unit c = true) t ->
  exists y, last (d :: t) = Some y /\ is_space y = false.
Proof.
  intros Hd Ht.
  assert (H : Forall (fun c => is_amount_unit c = true) (d :: t)).
  { constructor; [|exact Ht]. unfold is_amount_unit. rewrite Hd. reflexivity. }
  destruct (amount_units _ H) as (_ & _ & _ & Hs & _).
  destruct (exists_last (l := d :: t)) as (l & y & Hl); [discriminate|].
  exists y. rewrite Hl in *. split; [apply last_snoc|].
  apply Forall_app in Hs as [_ Hs]. inversion Hs. assumption.
Qed.

End ParserForms.

(** X15: an amount in the Brazilian format, written as digits grouped by
    periods, a decimal comma and digits, is read as the number its digits
    spell with the comma as decimal separator: the periods are dropped and
    the digits after the comma are the fraction. *)
Theorem parsePtNumber_decimal_comma (d : N) (ip fp : jsstring) :
  is_digit d = true ->
  Forall (fun c => is_digit c = true \/ c = 46%N) ip ->
  Forall (fun c => is_digit c = true) fp ->
  parsePtNumber (Some ((d :: ip) ++ 44%N :: fp))
  = of_decimal false (digits_value ((d :: List.filter is_digit ip) ++ fp))
      (- Z.of_nat (length fp)).
Proof.
  intros Hd Hip Hfp.
  assert (Hip' : Forall (fun c => is_digit c = true \/ c = 46%N) (d :: ip))
    by (constructor; auto).
  assert (Ham : Forall (fun c => is_amount_unit c = true)
                  ((d :: ip) ++ 44%N :: fp)).
  { apply Forall_app. split; [|constructor; [reflexivity|]].
    - eapply Forall_impl; [exact Hip'|]. intros c [Hc| ->]; [|reflexivity].
      unfold is_amount_unit. rewrite Hc. reflexivity.
    - eapply Forall_impl; [exact Hfp|]. intros c Hc.
      unfold is_amount_unit. rewrite Hc. reflexivity. }
  rewrite (parsePtNumber_amount _ Ham), (decimal_point_grouped _ fp Hip' Hfp).
  cbn [List.filter]. rewrite Hd.
  assert (Hds : Forall (fun c => is_digit c = true) (List.filter is_digit ip)).
  { eapply Forall_impl;
      [apply (filter_Forall_both (fun _ => True) is_digit ip),
         Forall_forall; auto|].
    intros c [_ Hc]. exact Hc. }
  unfold to_number. rewrite (parseFloat_decimal d _ fp Hd Hds Hfp).
  rewrite of_decimal_not_NaN; [reflexivity|].
  apply digits_value_nonneg, Forall_app. split; [constructor|]; assumption.
Qed.

Lemma parsePtNumber_decimal_comma_witness :
  parsePtNumber (Some ((49%N :: u ".234.567") ++ 44%N :: u "89"))
  = of_decimal false
      (digits_value ((49%N :: List.filter is_digit (u ".234.567")) ++ u "89"))
      (- Z.of_nat (length (u "89"))).
Proof.
  apply (parsePtNumber_decimal_comma 49%N (u ".234.567") (u "89")).
  - reflexivity.
  - repeat (constructor; [first [left; reflexivity | right; reflexivity]|]).
    constructor.
  - repeat (constructor; [reflexivity|]). constructor.
Defined.

(** X16: without a comma a period is a decimal point, so digits, a period
    and digits are read as that decimal number (a period meant as a
    thousands separator divides the amount), and digits alone are read as
    the integer they spell. *)
Theorem parsePtNumber_period_alone (d : N) (ip fp : jsstring) :
  is_digit d = true ->
  Forall (fun c => is_digit c = true) ip ->
  Forall (fun c => is_digit c = true) fp ->
  parsePtNumber (Some ((d :: ip) ++ 46%N :: fp))
  = of_decimal false (digits_value ((d :: ip) ++ fp)) (- Z.of_nat (length fp))
  /\ parsePtNumber (Some (d :: ip)) = of_decimal false (digits_value (d :: ip)) 0.
Proof.
  intros Hd Hip Hfp.
  assert (Hdig : forall l, Forall (fun c => is_digit c = true) l ->
                 Forall (fun c => is_amount_unit c = true) l
                 /\ Forall (fun c => c <> 44%N) l).
  { intros l Hl. split; (eapply Forall_impl; [exact Hl|]); intros c Hc.
    - unfold is_amount_unit. rewrite Hc. reflexivity.
    - intros ->. discriminate. }
  assert (Hdip : Forall (fun c => is_digit c = true) (d :: ip))
    by (constructor; assumption).
  destruct (Hdig _ Hdip) as [Ha1 Hc1]. destruct (Hdig _ Hfp) as [Ha2 Hc2].
  split.
  - rewrite parsePtNumber_amount, decimal_point_no_comma.
    + unfold to_number. rewrite (parseFloat_decimal d ip fp Hd Hip Hfp).
      rewrite of_decimal_not_NaN; [reflexivity|].
      apply digits_value_nonneg, Forall_app. split; assumption.
    + apply Forall_app. split; [exact Hc1|].
      constructor; [discriminate | exact Hc2].
    + apply Forall_app. split; [exact Ha1|].
      constructor; [reflexivity | exact Ha2].
  - rewrite parsePtNumber_amount, decimal_point_no_comma by assumption.
    unfold to_number. rewrite (parseFloat_integer d ip Hd Hip).
    rewrite of_decimal_not_NaN; [reflexivity|].
    apply digits_value_nonneg, Hdip.
Qed.

Lemma parsePtNumber_period_alone_witness :
  parsePtNumber (Some ((49%N :: u "") ++ 46%N :: u "234"))
  = of_decimal false (digits_value ((49%N :: u "") ++ u "234"))
      (- Z.of_nat (length (u "234")))
  /\ parsePtNumber (Some (49%N :: u ""))
     = of_decimal false (digits_value (49%N :: u "")) 0.
Proof.
  apply (parsePtNumber_period_alone 49%N (u "") (u "234")).
  - reflexivity.
  - constructor.
  - repeat (constructor; [reflexivity|]). constructor.
Defined.

(** X17: an amount that starts with a digit is negated by each of the
    three ways of writing a negative: in parentheses, followed by a minus
    sign, and preceded by a minus sign. *)
Theorem parsePtNumber_negative (d : N) (t : jsstring) :
  is_digit d = true ->
  Forall (fun c => is_amount_unit c = true) t ->
  parsePtNumber (Some (40%N :: (d :: t) ++ [41%N]))
  = negate (parsePtNumber (Some (d :: t)))
  /\ parsePtNumber (Some ((d :: t) ++ [45%N]))
     = negate (parsePtNumber (Some (d :: t)))
  /\ parsePtNumber (Some (45%N :: d :: t))
     = negate (parsePtNumber (Some (d :: t))).
Proof.
  intros Hd Ht.
  assert (H : Forall (fun c => is_amount_unit c = true) (d :: t)).
  { constructor; [|exact Ht]. unfold is_amount_unit. rewrite Hd. reflexivity. }
  destruct (digit_units d Hd) as (Hsd & _).
  destruct (amount_last_not_space d t Hd Ht) as (y & Hy & Hsy).
  assert (Hnan : isNaN (parseFloat (decimal_point (d :: t))) = false).
  { rewrite (decimal_point_digit d t Hd). apply parseFloat_digit_not_NaN, Hd. }
  assert (Hv : parsePtNumber (Some (d :: t))
               = parseFloat (decimal_point (d :: t))).
  { rewrite (parsePtNumber_amount _ H). unfold to_number.
    rewrite Hnan. reflexivity. }
  rewrite Hv. split_and!.
  - rewrite (parsePtNumber_trimmed _ 40%N 41%N);
      [| reflexivity
       | apply (last_snoc 41%N (40%N :: d :: t))
       | reflexivity | reflexivity
       | apply test_dash_long; cbn [length app]; lia].
    rewrite (pt_clean_parens _ H). cbn [fst snd]. rewrite Hnan. reflexivity.
  - rewrite (parsePtNumber_trimmed _ d 45%N);
      [| reflexivity | apply last_snoc | exact Hsd | reflexivity
       | apply test_dash_long; rewrite length_app; cbn [length]; lia].
    rewrite (pt_clean_trailing_minus d t Hd Ht). cbn [fst snd].
    rewrite Hnan. reflexivity.
  - rewrite (parsePtNumber_trimmed _ 45%N y);
      [| reflexivity | exact Hy | reflexivity | exact Hsy
       | apply test_dash_long; cbn [length]; lia].
    rewrite (pt_clean_leading_minus d t Hd Ht). cbn [fst snd].
    rewrite parseFloat_minus, parse_unsigned_negate.
    rewrite (decimal_point_digit d t Hd) in *.
    rewrite <- (parseFloat_digit d _ Hd).
    rewrite (negate_not_NaN _ Hnan). reflexivity.
Qed.

Lemma parsePtNumber_negative_witness :
  parsePtNumber (Some (40%N :: (49%N :: u ".234,56") ++ [41%N]))
  = negate (parsePtNumber (Some (49%N :: u ".234,56")))
  /\ parsePtNumber (Some ((49%N :: u ".234,56") ++ [45%N]))
     = negate (parsePtNumber (Some (49%N :: u ".234,56")))
  /\ parsePtNumber (Some (45%N :: 49%N :: u ".234,56"))
     = negate (parsePtNumber (Some (49%N :: u ".234,56"))).
Proof.
  apply (parsePtNumber_negative 49%N (u ".234,56")).
  - reflexivity.
  - repeat (constructor; [reflexivity|]). constructor.
Defined.

(** X18: what surrounds an amount is ignored when it holds no digit,
    period, comma, minus sign or opening parenthesis: a currency mark
    before the amount, a percent sign or a unit after it, and white space
    anywhere around it leave the number unchanged. *)
Theorem parsePtNumber_decorations (pre t post : jsstring) :
  Forall (fun c => is_decoration c = true) pre ->
  Forall (fun c => is_decoration c = true) post ->
  Forall (fun c => is_amount_unit c = true) t ->
  parsePtNumber (Some (pre ++ t ++ post)) = parsePtNumber (Some t).
Proof.
  intros Hpre Hpost Ht.
  destruct (decoration_units pre Hpre) as [Hpm1 Hf1].
  destruct (decoration_units post Hpost) as [Hpm3 Hf3].
  destruct (amount_units t Ht) as (_ & Hpm2 & _ & _ & Hf2).
  rewrite (parsePtNumber_amount t Ht), parsePtNumber_plain.
  - rewrite !List.filter_app, Hf1, Hf2, Hf3, app_nil_r. reflexivity.
  - repeat (apply Forall_app; split); assumption.
Qed.

Lemma parsePtNumber_decorations_witness :
  parsePtNumber (Some (u "R$ " ++ u "1.234,56" ++ u " %"))
  = parsePtNumber (Some (u "1.234,56")).
Proof.
  apply (parsePtNumber_decorations (u "R$ ") (u "1.234,56") (u " %"));
    repeat (constructor; [reflexivity|]); constructor.
Defined.

(** X19: a cell without any digit is read as zero, whatever else it
    holds. *)
Theorem parsePtNumber_no_digit (raw : jsstring) :
  Forall (fun c => is_digit c = false) raw ->
  parsePtNumber (Some raw) = zero.
Proof.
  intros H. unfold parsePtNumber.
  destruct (_ || _); [reflexivity|].
  pose proof (trim_Forall _ raw H) as H0.
  pose proof (erased_Forall _ _ _ _ (strip_currency_erased (trim raw)) H0) as H1.
  set (s1 := replace_all re_spaces [] (replace_all re_currency [] (trim raw)))
    in H1.
  set (s2 := if test_full re_parens s1 then slice_1_m1 s1 else s1).
  set (s3 := if test_suffix re_minus s2 then removelast s2 else s2).
  assert (H2 : Forall (fun c => is_digit c = false) s2).
  { subst s2. destruct (test_full re_parens s1);
      [apply Forall_slice_1_m1|]; exact H1. }
  assert (H3 : Forall (fun c => is_digit c = false) s3).
  { subst s3. destruct (test_suffix re_minus s2);
      [apply Forall_removelast|]; exact H2. }
  rewrite (pt_clean_eq (trim raw) s1 s2 s3 eq_refl eq_refl eq_refl).
  rewrite parseFloat_marks; [reflexivity|].
  apply decimal_point_Forall; [left; reflexivity|].
  eapply Forall_impl;
    [apply (filter_Forall_both _ is_numeric_unit s3 H3)|].
  intros c [Hc Hn]. cbv beta in Hc. unfold is_numeric_unit in Hn.
  rewrite Hc in Hn. cbn [orb] in Hn.
  apply orb_true_iff in Hn as [Hn|Hn]; [apply orb_true_iff in Hn as [Hn|Hn]|];
    apply N.eqb_eq in Hn; auto.
Qed.

Lemma parsePtNumber_no_digit_witness :
  parsePtNumber (Some (u "(n/d)")) = zero.
Proof.
  apply (parsePtNumber_no_digit (u "(n/d)")).
  repeat (constructor; [reflexivity|]). constructor.
Defined.

Section DashboardFacts.

Import Dashboard.

Lemma find_mes_spec m :
  match find_mes m with
  | Some d => d ∈ DATA /\ mes d = m
  | None => m ∉ mes <$> DATA
  end.
Proof.
  unfold find_mes. destruct (List.find _ DATA) as [d|] eqn:Hf.
  - apply List.find_some in Hf as [Hin Hd].
    split; [apply list_elem_of_In, Hin | apply bool_decide_eq_true in Hd; exact Hd].
  - intros Hin. apply list_elem_of_fmap_1 in Hin as (d & -> & Hd).
    apply list_elem_of_In in Hd.
    pose proof (List.find_none _ _ Hf d Hd) as Hb. cbv beta in Hb.
    apply bool_decide_eq_false in Hb. congruence.
Qed.

End DashboardFacts.

(** X20: whatever text the selected month holds, the dashboard shows a
    record of DATA: the record of that month when DATA has one, and the
    last record otherwise.  The effect leaves a month of DATA selected,
    running it again changes nothing, and the record shown after the
    effect is the record shown before it.  The initial selection is a
    month of DATA. *)
Theorem dashboard_current (m : jsstring) :
  exists c m',
    Dashboard.current m = Some c
    /\ c ∈ Dashboard.DATA
    /\ (Dashboard.mes c = m
        \/ ((m ∉ Dashboard.mes <$> Dashboard.DATA)
            /\ Dashboard.last_entry = Some c))
    /\ Dashboard.effect_mes m = Some m'
    /\ m' ∈ Dashboard.mes <$> Dashboard.DATA
    /\ Dashboard.effect_mes m' = Some m'
    /\ Dashboard.current m' = Some c
    /\ exists m0, Dashboard.initial_mes = Some m0
                  /\ m0 ∈ Dashboard.mes <$> Dashboard.DATA
                  /\ Dashboard.effect_mes m0 = Some m0.
Proof.
  assert (Hlast : exists c, Dashboard.last_entry = Some c
                    /\ c ∈ Dashboard.DATA
                    /\ Dashboard.find_mes (Dashboard.mes c) = Some c).
  { eexists. split; [reflexivity|]. split; [|vm_compute; reflexivity].
    apply last_Some_elem_of. reflexivity. }
  destruct Hlast as (cl & Hl & Hlin & Hlf).
  assert (Hinit : exists m0, Dashboard.initial_mes = Some m0
                    /\ m0 ∈ Dashboard.mes <$> Dashboard.DATA
                    /\ Dashboard.effect_mes m0 = Some m0).
  { exists (Dashboard.mes cl). unfold Dashboard.initial_mes, Dashboard.effect_mes.
    rewrite Hl, Hlf. split_and!; [reflexivity | | reflexivity].
    apply list_elem_of_fmap_2, Hlin. }
  pose proof (find_mes_spec m) as Hspec.
  destruct (Dashboard.find_mes m) as [d|] eqn:Hf.
  - destruct Hspec as [Hin Hd]. exists d, m.
    unfold Dashboard.current, Dashboard.effect_mes. rewrite Hf.
    split_and!.
    + reflexivity.
    + exact Hin.
    + left. exact Hd.
    + reflexivity.
    + rewrite <- Hd. apply list_elem_of_fmap_2, Hin.
    + reflexivity.
    + reflexivity.
    + exact Hinit.
  - exists cl, (Dashboard.mes cl). split_and!.
    + unfold Dashboard.current. rewrite Hf. exact Hl.
    + exact Hlin.
    + right. split; [exact Hspec | exact Hl].
    + unfold Dashboard.effect_mes. rewrite Hf, Hl. reflexivity.
    + apply list_elem_of_fmap_2, Hlin.
    + unfold Dashboard.effect_mes. rewrite Hlf. reflexivity.
    + unfold Dashboard.current. rewrite Hlf. reflexivity.
    + exact Hinit.
Qed.
